(** * Offline sync engine of the local API: store, sync passes, remote fetcher

    A shallow embedding of
      - [v4-web/local-api/schema.sql]            (tables and their constraints),
      - [v4-web/local-api/src/sync-browser-data.js] ([syncBrowserData]),
      - [fetch-blockchain-data.js]               ([fetchAccountBalances],
                                                   [syncBlockchainData]),
      - [v4-web/local-api/src/server.js]         (the endpoints for users,
                                                   sync and wallet data, the
                                                   fetchers of orders, fills,
                                                   transfers and markets),
      - [v4-web/local-api/src/export-browser-data.js] ([exportData]),
      - [v4-web/local-api/src/init-db.js]        (the statements of the schema),
      - the offline data access layer of the web client
                                                  ([autoSyncAllData],
                                                   [needsSync],
                                                   [OfflineDataManager]),
    together with the properties of the sync passes.

    Conventions of the embedding.
      - The store is a database that holds the tables of [schema.sql] as they
        are declared there, with foreign keys enforced.
      - A table is the list of its rows in rowid order; a row is a record with
        one field per column of [schema.sql].  The surrogate [id INTEGER
        PRIMARY KEY AUTOINCREMENT] column is left out: no statement of the
        sync code reads or writes it and it never takes part in a conflict.
      - JSON fields bound to statements are [jsval]: a missing property, JSON
        null or a string.  Identifiers and amounts are strings in this
        code base; numbers only occur where the code itself makes them
        ([? 1 : 0], the total of the counters).  Column affinity is not
        modelled.
      - An export is read as the exporter writes it: [wallets] is missing
        or a list of objects.  Bodies in which [wallets] is another JSON
        value, or a list with entries that are no objects, are the subject
        of [Raw], which agrees with [Browser] on exports.
      - A rowid of the users table is a 64-bit integer in the store and a
        double where JavaScript holds it.
      - One sync pass reads the clock once: [sql_now] is what
        [datetime('now')] yields and [js_now] what
        [new Date().toISOString()] yields during the pass. *)

From Stdlib Require Import String Ascii List ZArith Bool Arith Lia.
Import ListNotations.
Open Scope string_scope.

(** ** Values *)

(** A value stored in a column. *)
Inductive sqlval : Type :=
| Null
| Text (s : string)
| Int (z : Z).

(** A JavaScript value read from a JSON field. *)
Inductive jsval : Type :=
| JUndef
| JNull
| JStr (s : string).

Definition sqlval_eqb (a b : sqlval) : bool :=
  match a, b with
  | Null, Null => true
  | Text s, Text t => String.eqb s t
  | Int x, Int y => Z.eqb x y
  | _, _ => false
  end.

Definition is_null (v : sqlval) : bool :=
  match v with Null => true | _ => false end.

(** Truthiness: [undefined], [null] and the empty string are falsy. *)
Definition truthy (v : jsval) : bool :=
  match v with
  | JUndef | JNull => false
  | JStr s => negb (String.eqb s "")
  end.

(** [a || b] *)
Definition js_or (a b : jsval) : jsval := if truthy a then a else b.

(** [a === b] *)
Definition js_strict_eq (a b : jsval) : bool :=
  match a, b with
  | JUndef, JUndef => true
  | JNull, JNull => true
  | JStr s, JStr t => String.eqb s t
  | _, _ => false
  end.

(** How better-sqlite3 binds a parameter: [undefined] and [null] both bind
    NULL. *)
Definition bind_param (v : jsval) : sqlval :=
  match v with
  | JUndef | JNull => Null
  | JStr s => Text s
  end.

(** [`${v}`] *)
Definition render (v : jsval) : string :=
  match v with
  | JUndef => "undefined"
  | JNull => "null"
  | JStr s => s
  end.

(** [c ? 1 : 0] *)
Definition flag (c : bool) : sqlval := Int (if c then 1 else 0)%Z.

(** [hay.includes(needle)] *)
Fixpoint includes (needle hay : string) : bool :=
  String.prefix needle hay ||
  match hay with
  | EmptyString => false
  | String _ rest => includes needle rest
  end.

(** ** Errors *)

(** What a statement or the JavaScript around it can throw. *)
Inductive sqlerr : Type :=
| ENotNull (tbl col : string)
| EUnique (tbl : string) (cols : list string)
| EForeignKey
| EUpsertTarget
| EJs (msg : string).

Fixpoint join_cols (tbl : string) (cols : list string) : string :=
  match cols with
  | [] => ""
  | [c] => tbl ++ "." ++ c
  | c :: rest => tbl ++ "." ++ c ++ ", " ++ join_cols tbl rest
  end.

(** [err.message] *)
Definition message (e : sqlerr) : string :=
  match e with
  | ENotNull tbl col => "NOT NULL constraint failed: " ++ tbl ++ "." ++ col
  | EUnique tbl cols => "UNIQUE constraint failed: " ++ join_cols tbl cols
  | EForeignKey => "FOREIGN KEY constraint failed"
  | EUpsertTarget =>
      "ON CONFLICT clause does not match any PRIMARY KEY or UNIQUE constraint"
  | EJs msg => msg
  end.

(** ** The statement engine

    [INSERT INTO t (...) VALUES (...) ON CONFLICT(target) DO ...] as SQLite
    executes it.
      - Preparing the statement fails when the conflict target is not the
        column set of a PRIMARY KEY or UNIQUE constraint of the table.
      - Running it checks the NOT NULL columns of the new row first, then the
        uniqueness constraints.  Two rows collide on a constraint when all its
        columns are equal and none is NULL (NULLs are distinct).  A collision
        on the conflict target triggers the DO clause on the stored row; a
        collision on another constraint raises.  Otherwise the row is
        appended, provided its foreign keys resolve.
      - A statement that raises leaves the table as it was. *)
Section Engine.
Context {R : Type}.

(** A column: its name and its value in a row. *)
Definition column : Type := (string * (R -> sqlval))%type.

Record table_def : Type := {
  td_name : string;
  td_not_null : list column;
  td_unique : list (list column)
}.

(** The DO clause: the update takes the proposed row ([excluded]) and the
    stored row. *)
Inductive on_conflict : Type :=
| DoNothing
| DoUpdate (set_cols : R -> R -> R).

Record prepared : Type := {
  p_table : table_def;
  p_key : list column;
  p_action : on_conflict
}.

Definition same_columns (a b : list string) : bool :=
  forallb (fun x => existsb (String.eqb x) b) a &&
  forallb (fun x => existsb (String.eqb x) a) b.

Definition is_target (target : list string) (u : list column) : bool :=
  same_columns target (map fst u).

(** [db.prepare(...)] *)
Definition prepare (td : table_def) (target : list string)
    (act : on_conflict) : sqlerr + prepared :=
  match find (is_target target) (td_unique td) with
  | Some u => inr {| p_table := td; p_key := u; p_action := act |}
  | None => inl EUpsertTarget
  end.

Definition first_null (td : table_def) (r : R) : option string :=
  option_map fst (find (fun c => is_null (snd c r)) (td_not_null td)).

Definition collides (u : list column) (r x : R) : bool :=
  forallb (fun c => negb (is_null (snd c r)) && sqlval_eqb (snd c r) (snd c x)) u.

Fixpoint update_first (p : R -> bool) (f : R -> R) (T : list R) : list R :=
  match T with
  | [] => []
  | x :: T' => if p x then f x :: T' else x :: update_first p f T'
  end.

(** [stmt.run(...)] on table contents [T] with proposed row [r];
    [fk_ok r] tells whether the foreign keys of [r] resolve. *)
Definition exec (p : prepared) (fk_ok : R -> bool) (T : list R) (r : R)
    : sqlerr + list R :=
  let td := p_table p in
  match first_null td r with
  | Some c => inl (ENotNull (td_name td) c)
  | None =>
      if existsb (collides (p_key p) r) T then
        match p_action p with
        | DoNothing => inr T
        | DoUpdate set_cols =>
            inr (update_first (collides (p_key p) r) (set_cols r) T)
        end
      else
        match find (fun u => negb (is_target (map fst (p_key p)) u)
                             && existsb (collides u r) T) (td_unique td) with
        | Some u => inl (EUnique (td_name td) (map fst u))
        | None => if fk_ok r then inr (T ++ [r])%list else inl EForeignKey
        end
  end.
End Engine.

Arguments table_def R : clear implicits.
Arguments on_conflict R : clear implicits.
Arguments prepared R : clear implicits.
Arguments column R : clear implicits.

(** ** The tables of [schema.sql]

    One record per table, one field per column, in the order of the
    CREATE TABLE statement; below each record the NOT NULL columns and the
    UNIQUE constraints the schema declares for the table. *)

(** [user_wallets], schema.sql l.22-32. *)
Record user_wallet : Type := {
  uw_user_id : sqlval;
  uw_wallet_type : sqlval;
  uw_address : sqlval;
  uw_chain_id : sqlval;
  uw_is_primary : sqlval;
  uw_created_at : sqlval
}.

Definition user_wallets_def : table_def user_wallet := {|
  td_name := "user_wallets";
  td_not_null := [("wallet_type", uw_wallet_type); ("address", uw_address)];
  td_unique := [[("wallet_type", uw_wallet_type); ("address", uw_address);
                 ("chain_id", uw_chain_id)]]
|}.

(** [user_preferences], schema.sql l.42-56. *)
Record user_preference : Type := {
  up_user_id : sqlval;
  up_wallet_address : sqlval;
  up_locale : sqlval;
  up_selected_network : sqlval;
  up_color_mode : sqlval;
  up_has_acknowledged_terms : sqlval;
  up_notifications_enabled : sqlval;
  up_gas_preferences : sqlval;
  up_created_at : sqlval;
  up_updated_at : sqlval
}.

Definition user_preferences_def : table_def user_preference := {|
  td_name := "user_preferences";
  td_not_null := [("wallet_address", up_wallet_address)];
  td_unique := [[("wallet_address", up_wallet_address)]]
|}.

(** [trading_preferences], schema.sql l.61-74. *)
Record trading_preference : Type := {
  tp_user_id : sqlval;
  tp_wallet_address : sqlval;
  tp_default_slippage : sqlval;
  tp_trade_layout : sqlval;
  tp_chart_preferences : sqlval;
  tp_order_side_preference : sqlval;
  tp_display_unit : sqlval;
  tp_created_at : sqlval;
  tp_updated_at : sqlval
}.

Definition trading_preferences_def : table_def trading_preference := {|
  td_name := "trading_preferences";
  td_not_null := [("wallet_address", tp_wallet_address)];
  td_unique := [[("wallet_address", tp_wallet_address)]]
|}.

(** [dismissed_items], schema.sql l.79-85. *)
Record dismissed_item : Type := {
  dm_wallet_address : sqlval;
  dm_item_key : sqlval;
  dm_dismissed_at : sqlval
}.

Definition dismissed_items_def : table_def dismissed_item := {|
  td_name := "dismissed_items";
  td_not_null := [("wallet_address", dm_wallet_address); ("item_key", dm_item_key)];
  td_unique := [[("wallet_address", dm_wallet_address); ("item_key", dm_item_key)]]
|}.

(** [affiliates], schema.sql l.90-97. *)
Record affiliate : Type := {
  af_wallet_address : sqlval;
  af_affiliate_address : sqlval;
  af_affiliate_metadata : sqlval;
  af_created_at : sqlval
}.

Definition affiliates_def : table_def affiliate := {|
  td_name := "affiliates";
  td_not_null := [("wallet_address", af_wallet_address)];
  td_unique := [[("wallet_address", af_wallet_address)]]
|}.

(** [account_balances], schema.sql l.104-115. *)
Record account_balance : Type := {
  ab_wallet_address : sqlval;
  ab_chain_id : sqlval;
  ab_token_symbol : sqlval;
  ab_token_denom : sqlval;
  ab_balance : sqlval;
  ab_available_balance : sqlval;
  ab_locked_balance : sqlval;
  ab_last_updated : sqlval
}.

Definition account_balances_def : table_def account_balance := {|
  td_name := "account_balances";
  td_not_null := [("wallet_address", ab_wallet_address); ("chain_id", ab_chain_id);
                  ("token_symbol", ab_token_symbol); ("balance", ab_balance)];
  td_unique := [[("wallet_address", ab_wallet_address); ("chain_id", ab_chain_id);
                 ("token_symbol", ab_token_symbol); ("token_denom", ab_token_denom)]]
|}.

(** [positions], schema.sql l.121-137.  The table declares no UNIQUE
    constraint. *)
Record position : Type := {
  ps_wallet_address : sqlval;
  ps_position_id : sqlval;
  ps_market : sqlval;
  ps_side : sqlval;
  ps_status : sqlval;
  ps_size : sqlval;
  ps_max_size : sqlval;
  ps_entry_price : sqlval;
  ps_exit_price : sqlval;
  ps_realized_pnl : sqlval;
  ps_unrealized_pnl : sqlval;
  ps_created_at : sqlval;
  ps_updated_at : sqlval;
  ps_closed_at : sqlval
}.

Definition positions_def : table_def position := {|
  td_name := "positions";
  td_not_null := [("wallet_address", ps_wallet_address); ("market", ps_market);
                  ("side", ps_side); ("status", ps_status); ("size", ps_size)];
  td_unique := []
|}.

(** [orders], schema.sql l.144-164. *)
Record order : Type := {
  od_wallet_address : sqlval;
  od_order_id : sqlval;
  od_client_id : sqlval;
  od_market : sqlval;
  od_side : sqlval;
  od_type : sqlval;
  od_status : sqlval;
  od_price : sqlval;
  od_trigger_price : sqlval;
  od_size : sqlval;
  od_remaining_size : sqlval;
  od_post_only : sqlval;
  od_reduce_only : sqlval;
  od_time_in_force : sqlval;
  od_good_til_block : sqlval;
  od_created_at : sqlval;
  od_updated_at : sqlval
}.

Definition orders_def : table_def order := {|
  td_name := "orders";
  td_not_null := [("wallet_address", od_wallet_address); ("order_id", od_order_id);
                  ("market", od_market); ("side", od_side); ("type", od_type);
                  ("status", od_status); ("size", od_size)];
  td_unique := [[("order_id", od_order_id)]]
|}.

(** [fills], schema.sql l.172-186; [order_id] references [orders(order_id)]. *)
Record fill : Type := {
  fl_wallet_address : sqlval;
  fl_fill_id : sqlval;
  fl_order_id : sqlval;
  fl_market : sqlval;
  fl_side : sqlval;
  fl_size : sqlval;
  fl_price : sqlval;
  fl_fee : sqlval;
  fl_liquidity : sqlval;
  fl_created_at : sqlval
}.

Definition fills_def : table_def fill := {|
  td_name := "fills";
  td_not_null := [("wallet_address", fl_wallet_address); ("fill_id", fl_fill_id);
                  ("order_id", fl_order_id); ("market", fl_market);
                  ("side", fl_side); ("size", fl_size); ("price", fl_price);
                  ("fee", fl_fee)];
  td_unique := [[("fill_id", fl_fill_id)]]
|}.

(** [transfers], schema.sql l.193-210.  [tx_hash] is indexed
    ([idx_transfers_tx_hash], l.213) but the table declares no UNIQUE
    constraint. *)
Record transfer : Type := {
  tr_wallet_address : sqlval;
  tr_transfer_id : sqlval;
  tr_tx_hash : sqlval;
  tr_type : sqlval;
  tr_status : sqlval;
  tr_from_address : sqlval;
  tr_to_address : sqlval;
  tr_from_chain : sqlval;
  tr_to_chain : sqlval;
  tr_amount : sqlval;
  tr_token_symbol : sqlval;
  tr_token_denom : sqlval;
  tr_fee : sqlval;
  tr_created_at : sqlval;
  tr_updated_at : sqlval
}.

Definition transfers_def : table_def transfer := {|
  td_name := "transfers";
  td_not_null := [("wallet_address", tr_wallet_address); ("type", tr_type);
                  ("status", tr_status); ("amount", tr_amount);
                  ("token_symbol", tr_token_symbol)];
  td_unique := []
|}.

(** [swaps], schema.sql l.217-233; no UNIQUE constraint either. *)
Record swap : Type := {
  sw_wallet_address : sqlval;
  sw_swap_id : sqlval;
  sw_tx_hash : sqlval;
  sw_from_chain : sqlval;
  sw_to_chain : sqlval;
  sw_from_token : sqlval;
  sw_to_token : sqlval;
  sw_from_amount : sqlval;
  sw_to_amount : sqlval;
  sw_estimated_to_amount : sqlval;
  sw_route_data : sqlval;
  sw_status : sqlval;
  sw_created_at : sqlval;
  sw_updated_at : sqlval
}.

Definition swaps_def : table_def swap := {|
  td_name := "swaps";
  td_not_null := [("wallet_address", sw_wallet_address); ("from_chain", sw_from_chain);
                  ("to_chain", sw_to_chain); ("from_token", sw_from_token);
                  ("to_token", sw_to_token); ("from_amount", sw_from_amount);
                  ("status", sw_status)];
  td_unique := []
|}.

(** [markets], schema.sql l.243-255. *)
Record market : Type := {
  mk_market_id : sqlval;
  mk_base_asset : sqlval;
  mk_quote_asset : sqlval;
  mk_tick_size : sqlval;
  mk_step_size : sqlval;
  mk_min_order_size : sqlval;
  mk_initial_margin_fraction : sqlval;
  mk_maintenance_margin_fraction : sqlval;
  mk_status : sqlval;
  mk_updated_at : sqlval
}.

Definition markets_def : table_def market := {|
  td_name := "markets";
  td_not_null := [("market_id", mk_market_id); ("base_asset", mk_base_asset);
                  ("quote_asset", mk_quote_asset); ("tick_size", mk_tick_size);
                  ("step_size", mk_step_size); ("min_order_size", mk_min_order_size)];
  td_unique := [[("market_id", mk_market_id)]]
|}.

(** [sync_metadata], schema.sql l.276-285. *)
Record sync_meta : Type := {
  sm_wallet_address : sqlval;
  sm_data_type : sqlval;
  sm_last_sync_at : sqlval;
  sm_sync_status : sqlval;
  sm_error_message : sqlval;
  sm_records_synced : sqlval
}.

Definition sync_metadata_def : table_def sync_meta := {|
  td_name := "sync_metadata";
  td_not_null := [("wallet_address", sm_wallet_address); ("data_type", sm_data_type)];
  td_unique := [[("wallet_address", sm_wallet_address); ("data_type", sm_data_type)]]
|}.

(** ** The store *)

Record db : Type := {
  t_user_wallets : list user_wallet;
  t_user_preferences : list user_preference;
  t_trading_preferences : list trading_preference;
  t_dismissed_items : list dismissed_item;
  t_affiliates : list affiliate;
  t_account_balances : list account_balance;
  t_positions : list position;
  t_orders : list order;
  t_fills : list fill;
  t_transfers : list transfer;
  t_swaps : list swap;
  t_markets : list market;
  t_sync_metadata : list sync_meta
}.

Definition empty_db : db :=
  {| t_user_wallets := []; t_user_preferences := []; t_trading_preferences := [];
     t_dismissed_items := []; t_affiliates := []; t_account_balances := [];
     t_positions := []; t_orders := []; t_fills := []; t_transfers := [];
     t_swaps := []; t_markets := []; t_sync_metadata := [] |}.

(** A table of the store: how to read it and how to replace it. *)
Record table (R : Type) : Type := {
  view : db -> list R;
  put : list R -> db -> db
}.
Arguments view {R} _ _.
Arguments put {R} _ _ _.

Definition user_wallets : table user_wallet := {|
  view := t_user_wallets;
  put v d := {| t_user_wallets := v; t_user_preferences := t_user_preferences d;
    t_trading_preferences := t_trading_preferences d;
    t_dismissed_items := t_dismissed_items d; t_affiliates := t_affiliates d;
    t_account_balances := t_account_balances d; t_positions := t_positions d;
    t_orders := t_orders d; t_fills := t_fills d; t_transfers := t_transfers d;
    t_swaps := t_swaps d; t_markets := t_markets d;
    t_sync_metadata := t_sync_metadata d |}
|}.

Definition user_preferences : table user_preference := {|
  view := t_user_preferences;
  put v d := {| t_user_wallets := t_user_wallets d; t_user_preferences := v;
    t_trading_preferences := t_trading_preferences d;
    t_dismissed_items := t_dismissed_items d; t_affiliates := t_affiliates d;
    t_account_balances := t_account_balances d; t_positions := t_positions d;
    t_orders := t_orders d; t_fills := t_fills d; t_transfers := t_transfers d;
    t_swaps := t_swaps d; t_markets := t_markets d;
    t_sync_metadata := t_sync_metadata d |}
|}.

Definition trading_preferences : table trading_preference := {|
  view := t_trading_preferences;
  put v d := {| t_user_wallets := t_user_wallets d;
    t_user_preferences := t_user_preferences d; t_trading_preferences := v;
    t_dismissed_items := t_dismissed_items d; t_affiliates := t_affiliates d;
    t_account_balances := t_account_balances d; t_positions := t_positions d;
    t_orders := t_orders d; t_fills := t_fills d; t_transfers := t_transfers d;
    t_swaps := t_swaps d; t_markets := t_markets d;
    t_sync_metadata := t_sync_metadata d |}
|}.

Definition dismissed_items : table dismissed_item := {|
  view := t_dismissed_items;
  put v d := {| t_user_wallets := t_user_wallets d;
    t_user_preferences := t_user_preferences d;
    t_trading_preferences := t_trading_preferences d; t_dismissed_items := v;
    t_affiliates := t_affiliates d;
    t_account_balances := t_account_balances d; t_positions := t_positions d;
    t_orders := t_orders d; t_fills := t_fills d; t_transfers := t_transfers d;
    t_swaps := t_swaps d; t_markets := t_markets d;
    t_sync_metadata := t_sync_metadata d |}
|}.

Definition affiliates : table affiliate := {|
  view := t_affiliates;
  put v d := {| t_user_wallets := t_user_wallets d;
    t_user_preferences := t_user_preferences d;
    t_trading_preferences := t_trading_preferences d;
    t_dismissed_items := t_dismissed_items d; t_affiliates := v;
    t_account_balances := t_account_balances d; t_positions := t_positions d;
    t_orders := t_orders d; t_fills := t_fills d; t_transfers := t_transfers d;
    t_swaps := t_swaps d; t_markets := t_markets d;
    t_sync_metadata := t_sync_metadata d |}
|}.

Definition account_balances : table account_balance := {|
  view := t_account_balances;
  put v d := {| t_user_wallets := t_user_wallets d;
    t_user_preferences := t_user_preferences d;
    t_trading_preferences := t_trading_preferences d;
    t_dismissed_items := t_dismissed_items d; t_affiliates := t_affiliates d;
    t_account_balances := v; t_positions := t_positions d;
    t_orders := t_orders d; t_fills := t_fills d; t_transfers := t_transfers d;
    t_swaps := t_swaps d; t_markets := t_markets d;
    t_sync_metadata := t_sync_metadata d |}
|}.

Definition positions : table position := {|
  view := t_positions;
  put v d := {| t_user_wallets := t_user_wallets d;
    t_user_preferences := t_user_preferences d;
    t_trading_preferences := t_trading_preferences d;
    t_dismissed_items := t_dismissed_items d; t_affiliates := t_affiliates d;
    t_account_balances := t_account_balances d; t_positions := v;
    t_orders := t_orders d; t_fills := t_fills d; t_transfers := t_transfers d;
    t_swaps := t_swaps d; t_markets := t_markets d;
    t_sync_metadata := t_sync_metadata d |}
|}.

Definition orders : table order := {|
  view := t_orders;
  put v d := {| t_user_wallets := t_user_wallets d;
    t_user_preferences := t_user_preferences d;
    t_trading_preferences := t_trading_preferences d;
    t_dismissed_items := t_dismissed_items d; t_affiliates := t_affiliates d;
    t_account_balances := t_account_balances d; t_positions := t_positions d;
    t_orders := v; t_fills := t_fills d; t_transfers := t_transfers d;
    t_swaps := t_swaps d; t_markets := t_markets d;
    t_sync_metadata := t_sync_metadata d |}
|}.

Definition fills : table fill := {|
  view := t_fills;
  put v d := {| t_user_wallets := t_user_wallets d;
    t_user_preferences := t_user_preferences d;
    t_trading_preferences := t_trading_preferences d;
    t_dismissed_items := t_dismissed_items d; t_affiliates := t_affiliates d;
    t_account_balances := t_account_balances d; t_positions := t_positions d;
    t_orders := t_orders d; t_fills := v; t_transfers := t_transfers d;
    t_swaps := t_swaps d; t_markets := t_markets d;
    t_sync_metadata := t_sync_metadata d |}
|}.

Definition transfers : table transfer := {|
  view := t_transfers;
  put v d := {| t_user_wallets := t_user_wallets d;
    t_user_preferences := t_user_preferences d;
    t_trading_preferences := t_trading_preferences d;
    t_dismissed_items := t_dismissed_items d; t_affiliates := t_affiliates d;
    t_account_balances := t_account_balances d; t_positions := t_positions d;
    t_orders := t_orders d; t_fills := t_fills d; t_transfers := v;
    t_swaps := t_swaps d; t_markets := t_markets d;
    t_sync_metadata := t_sync_metadata d |}
|}.

Definition swaps : table swap := {|
  view := t_swaps;
  put v d := {| t_user_wallets := t_user_wallets d;
    t_user_preferences := t_user_preferences d;
    t_trading_preferences := t_trading_preferences d;
    t_dismissed_items := t_dismissed_items d; t_affiliates := t_affiliates d;
    t_account_balances := t_account_balances d; t_positions := t_positions d;
    t_orders := t_orders d; t_fills := t_fills d; t_transfers := t_transfers d;
    t_swaps := v; t_markets := t_markets d;
    t_sync_metadata := t_sync_metadata d |}
|}.

Definition markets : table market := {|
  view := t_markets;
  put v d := {| t_user_wallets := t_user_wallets d;
    t_user_preferences := t_user_preferences d;
    t_trading_preferences := t_trading_preferences d;
    t_dismissed_items := t_dismissed_items d; t_affiliates := t_affiliates d;
    t_account_balances := t_account_balances d; t_positions := t_positions d;
    t_orders := t_orders d; t_fills := t_fills d; t_transfers := t_transfers d;
    t_swaps := t_swaps d; t_markets := v;
    t_sync_metadata := t_sync_metadata d |}
|}.

Definition sync_metadata : table sync_meta := {|
  view := t_sync_metadata;
  put v d := {| t_user_wallets := t_user_wallets d;
    t_user_preferences := t_user_preferences d;
    t_trading_preferences := t_trading_preferences d;
    t_dismissed_items := t_dismissed_items d; t_affiliates := t_affiliates d;
    t_account_balances := t_account_balances d; t_positions := t_positions d;
    t_orders := t_orders d; t_fills := t_fills d; t_transfers := t_transfers d;
    t_swaps := t_swaps d; t_markets := t_markets d;
    t_sync_metadata := v |}
|}.

(** ** The monad of a sync pass

    A pass threads the store and the [result] object it mutates
    ([result.synced], [result.errors]); a statement or the code around it may
    throw.  What was mutated before a throw stays mutated, so a computation
    yields its state also when it throws.  [C] is the type of
    [result.synced]. *)
Record state (C : Type) : Type := {
  st_db : db;
  st_synced : C;
  st_errors : list string
}.
Arguments st_db {C} _.
Arguments st_synced {C} _.
Arguments st_errors {C} _.

Definition M (C A : Type) : Type := state C -> (sqlerr + A) * state C.

Section Monad.
Context {C : Type}.

Definition ret {A} (a : A) : M C A := fun s => (inr a, s).

Definition bind {A B} (m : M C A) (f : A -> M C B) : M C B :=
  fun s => match m s with
           | (inr a, s') => f a s'
           | (inl e, s') => (inl e, s')
           end.

(** [throw e] *)
Definition throw {A} (e : sqlerr) : M C A := fun s => (inl e, s).

(** [try { m } catch (err) { h err }] *)
Definition try_catch {A} (m : M C A) (h : sqlerr -> M C A) : M C A :=
  fun s => match m s with
           | (inr a, s') => (inr a, s')
           | (inl e, s') => h e s'
           end.

(** A result of [db.prepare] or a run lifted into the pass. *)
Definition lift {A} (r : sqlerr + A) : M C A :=
  match r with inl e => throw e | inr a => ret a end.

(** [stmt.run(...)] against table [t] of the store. *)
Definition run {R} (t : table R) (p : prepared R) (fk_ok : db -> R -> bool)
    (r : R) : M C unit :=
  fun s => match exec p (fk_ok (st_db s)) (view t (st_db s)) r with
           | inr T' => (inr tt, {| st_db := put t T' (st_db s);
                                   st_synced := st_synced s;
                                   st_errors := st_errors s |})
           | inl e => (inl e, s)
           end.

(** [result.synced.<category>++] *)
Definition count (bump : C -> C) : M C unit :=
  fun s => (inr tt, {| st_db := st_db s; st_synced := bump (st_synced s);
                       st_errors := st_errors s |}).

(** [result.errors.push(msg)] *)
Definition push_error (msg : string) : M C unit :=
  fun s => (inr tt, {| st_db := st_db s; st_synced := st_synced s;
                       st_errors := (st_errors s ++ [msg])%list |}).

(** Reading [result.synced]. *)
Definition get_synced : M C C := fun s => (inr (st_synced s), s).

(** [for (const x of xs) { body x }] *)
Fixpoint for_each {X} (body : X -> M C unit) (xs : list X) : M C unit :=
  match xs with
  | [] => ret tt
  | x :: rest => bind (body x) (fun _ => for_each body rest)
  end.

(** [db.transaction(fn)()]: when [fn] throws, the store is rolled back to
    what it was and the error is rethrown; [result] is an ordinary
    JavaScript object and keeps its mutations. *)
Definition transaction (fn : M C unit) : M C unit :=
  fun s => match fn s with
           | (inr tt, s') => (inr tt, s')
           | (inl e, s') => (inl e, {| st_db := st_db s;
                                       st_synced := st_synced s';
                                       st_errors := st_errors s' |})
           end.
End Monad.

Notation "x <- m ;; k" := (bind m (fun x => k))
  (at level 61, m at next level, right associativity).
Notation "m ;;; k" := (bind m (fun _ => k))
  (at level 61, right associativity).

(** No foreign key to resolve. *)
Definition no_fk {R} : db -> R -> bool := fun _ _ => true.

(** ** The clock and the result of a pass *)

Record clock : Type := {
  sql_now : string;   (* datetime('now') *)
  js_now : string     (* new Date().toISOString() *)
}.

(** The [result] object a sync function returns. *)
Record sync_result (C : Type) : Type := {
  success : bool;
  timestamp : string;
  synced : C;
  errors : list string
}.
Arguments success {C} _.
Arguments timestamp {C} _.
Arguments synced {C} _.
Arguments errors {C} _.

(** The loop every category of records goes through:
<<
    for (const x of xs) {
      try { stmt.run(...row x...); result.synced.<category>++; }
      catch (err) { ... result.errors.push(...) ... }
    }
>>
    [report x err] is the message the catch clause pushes, if it pushes one. *)
Definition sync_each {C R X} (t : table R) (p : prepared R)
    (fk_ok : db -> R -> bool) (row : X -> R) (bump : C -> C)
    (report : X -> sqlerr -> option string) : list X -> M C unit :=
  for_each (fun x =>
    try_catch (run t p fk_ok (row x) ;;; count bump)
              (fun err => match report x err with
                          | Some msg => push_error msg
                          | None => ret tt
                          end)).

(** The catch clause of the loops that skip duplicates:
<<
    if (!err.message.includes('UNIQUE constraint')) { result.errors.push(msg) }
>> *)
Definition unless_unique (msg : string) (err : sqlerr) : option string :=
  if negb (includes "UNIQUE constraint" (message err)) then Some msg else None.

(** ** Browser data: the input of [syncBrowserData] *)

(** An entry of [data.wallets]: an object with a type, an address and a
    chain id, any of which may be missing. *)
Record wallet : Type := {
  w_type : jsval;
  w_address : jsval;
  w_chainId : jsval
}.

(** [data.preferences]; the two flags are only tested for truthiness. *)
Record preferences : Type := {
  pf_locale : jsval;
  pf_network : jsval;
  pf_colorMode : jsval;
  pf_hasAcknowledgedTerms : bool;
  pf_notificationsEnabled : bool
}.

(** [data.tradingPreferences]; a layout object is carried as its JSON text,
    [None] when the property is missing or falsy. *)
Record tradingPreferences : Type := {
  tf_defaultSlippage : jsval;
  tf_tradeLayout : option string;
  tf_chartPreferences : option string;
  tf_displayUnit : jsval
}.

Record dismissedItem : Type := {
  di_key : jsval;
  di_dismissedAt : jsval
}.

(** [data.affiliates]: the number of its own keys, its [address] property and
    its JSON text. *)
Record affiliatesInfo : Type := {
  ai_keys : nat;
  ai_address : jsval;
  ai_json : string
}.

Record transferItem : Type := {
  ti_id : jsval;
  ti_txHash : jsval;
  ti_type : jsval;
  ti_status : jsval;
  ti_fromAddress : jsval;
  ti_toAddress : jsval;
  ti_fromChainId : jsval;
  ti_toChainId : jsval;
  ti_amount : jsval;
  ti_token : jsval;
  ti_symbol : jsval;
  ti_denom : jsval;
  ti_fee : jsval;
  ti_createdAt : jsval;
  ti_updatedAt : jsval
}.

Record swapItem : Type := {
  si_id : jsval;
  si_txHash : jsval;
  si_fromChainId : jsval;
  si_toChainId : jsval;
  si_fromToken : jsval;
  si_toToken : jsval;
  si_fromAmount : jsval;
  si_toAmount : jsval;
  si_estimatedToAmount : jsval;
  si_route : option string;
  si_status : jsval;
  si_createdAt : jsval;
  si_updatedAt : jsval
}.

(** The export.  [bd_wallets] is [None] when the property is missing or
    null, and otherwise a list of objects.  Every other property is [None]
    when it is missing or falsy and, for the lists, when it is no array:
    the code tests those with [Array.isArray] before it reads them. *)
Record browser_data : Type := {
  bd_wallets : option (list wallet);
  bd_preferences : option preferences;
  bd_tradingPreferences : option tradingPreferences;
  bd_dismissedItems : option (list dismissedItem);
  bd_affiliates : option affiliatesInfo;
  bd_transfers : option (list transferItem);
  bd_swaps : option (list swapItem)
}.

(** [result.synced] of [syncBrowserData]. *)
Record browser_synced : Type := {
  bs_wallets : nat;
  bs_preferences : nat;
  bs_tradingPreferences : nat;
  bs_dismissedItems : nat;
  bs_affiliates : nat;
  bs_transfers : nat;
  bs_swaps : nat
}.

Definition browser_zero : browser_synced :=
  {| bs_wallets := 0; bs_preferences := 0; bs_tradingPreferences := 0;
     bs_dismissedItems := 0; bs_affiliates := 0; bs_transfers := 0;
     bs_swaps := 0 |}.

Definition inc_wallets (c : browser_synced) : browser_synced :=
  {| bs_wallets := S (bs_wallets c); bs_preferences := bs_preferences c;
     bs_tradingPreferences := bs_tradingPreferences c;
     bs_dismissedItems := bs_dismissedItems c; bs_affiliates := bs_affiliates c;
     bs_transfers := bs_transfers c; bs_swaps := bs_swaps c |}.

Definition inc_preferences (c : browser_synced) : browser_synced :=
  {| bs_wallets := bs_wallets c; bs_preferences := S (bs_preferences c);
     bs_tradingPreferences := bs_tradingPreferences c;
     bs_dismissedItems := bs_dismissedItems c; bs_affiliates := bs_affiliates c;
     bs_transfers := bs_transfers c; bs_swaps := bs_swaps c |}.

Definition inc_tradingPreferences (c : browser_synced) : browser_synced :=
  {| bs_wallets := bs_wallets c; bs_preferences := bs_preferences c;
     bs_tradingPreferences := S (bs_tradingPreferences c);
     bs_dismissedItems := bs_dismissedItems c; bs_affiliates := bs_affiliates c;
     bs_transfers := bs_transfers c; bs_swaps := bs_swaps c |}.

Definition inc_dismissedItems (c : browser_synced) : browser_synced :=
  {| bs_wallets := bs_wallets c; bs_preferences := bs_preferences c;
     bs_tradingPreferences := bs_tradingPreferences c;
     bs_dismissedItems := S (bs_dismissedItems c); bs_affiliates := bs_affiliates c;
     bs_transfers := bs_transfers c; bs_swaps := bs_swaps c |}.

Definition inc_affiliates (c : browser_synced) : browser_synced :=
  {| bs_wallets := bs_wallets c; bs_preferences := bs_preferences c;
     bs_tradingPreferences := bs_tradingPreferences c;
     bs_dismissedItems := bs_dismissedItems c; bs_affiliates := S (bs_affiliates c);
     bs_transfers := bs_transfers c; bs_swaps := bs_swaps c |}.

Definition inc_transfers (c : browser_synced) : browser_synced :=
  {| bs_wallets := bs_wallets c; bs_preferences := bs_preferences c;
     bs_tradingPreferences := bs_tradingPreferences c;
     bs_dismissedItems := bs_dismissedItems c; bs_affiliates := bs_affiliates c;
     bs_transfers := S (bs_transfers c); bs_swaps := bs_swaps c |}.

Definition inc_swaps (c : browser_synced) : browser_synced :=
  {| bs_wallets := bs_wallets c; bs_preferences := bs_preferences c;
     bs_tradingPreferences := bs_tradingPreferences c;
     bs_dismissedItems := bs_dismissedItems c; bs_affiliates := bs_affiliates c;
     bs_transfers := bs_transfers c; bs_swaps := S (bs_swaps c) |}.

(** [Object.values(result.synced).reduce((a, b) => a + b, 0)] *)
Definition browser_total (c : browser_synced) : nat :=
  0 + bs_wallets c + bs_preferences c + bs_tradingPreferences c
    + bs_dismissedItems c + bs_affiliates c + bs_transfers c + bs_swaps c.

(** [JSON.stringify(x || {})] for an object carried as its JSON text. *)
Definition stringify_or_empty (x : option string) : string :=
  match x with Some s => s | None => "{}" end.

(** ** [syncBrowserData] (sync-browser-data.js) *)

Module Browser.

(** l.31-33: the dYdX wallet, else the EVM wallet, else the first one. *)
Definition primaryWallet (data : browser_data) : option wallet :=
  match bd_wallets data with
  | None => None
  | Some ws =>
      match find (fun w => js_strict_eq (w_type w) (JStr "dydx")) ws with
      | Some w => Some w
      | None =>
          match find (fun w => js_strict_eq (w_type w) (JStr "evm")) ws with
          | Some w => Some w
          | None => hd_error ws
          end
      end
  end.

(** l.46-51 *)
Definition on_wallet_conflict : on_conflict user_wallet :=
  DoUpdate (fun excluded old =>
     {| uw_user_id := uw_user_id old; uw_wallet_type := uw_wallet_type old;
        uw_address := uw_address old; uw_chain_id := uw_chain_id old;
        uw_is_primary := uw_is_primary excluded;
        uw_created_at := uw_created_at old |}).

Definition walletStmt : sqlerr + prepared user_wallet :=
  prepare user_wallets_def ["wallet_type"; "address"; "chain_id"]
    on_wallet_conflict.

(** l.56-61 *)
Definition wallet_row (clk : clock) (walletAddress : jsval) (w : wallet)
    : user_wallet :=
  {| uw_user_id := Null;
     uw_wallet_type := bind_param (w_type w);
     uw_address := bind_param (w_address w);
     uw_chain_id := bind_param (js_or (w_chainId w) JNull);
     uw_is_primary := flag (js_strict_eq (w_address w) walletAddress);
     uw_created_at := Text (sql_now clk) |}.

(** l.75-88 *)
Definition on_pref_conflict : on_conflict user_preference :=
  DoUpdate (fun excluded old =>
     {| up_user_id := up_user_id old;
        up_wallet_address := up_wallet_address old;
        up_locale := up_locale excluded;
        up_selected_network := up_selected_network excluded;
        up_color_mode := up_color_mode excluded;
        up_has_acknowledged_terms := up_has_acknowledged_terms excluded;
        up_notifications_enabled := up_notifications_enabled excluded;
        up_gas_preferences := up_gas_preferences old;
        up_created_at := up_created_at old;
        up_updated_at := up_updated_at excluded |}).

Definition prefStmt : sqlerr + prepared user_preference :=
  prepare user_preferences_def ["wallet_address"]
    on_pref_conflict.

(** l.90-97 *)
Definition pref_row (clk : clock) (walletAddress : jsval) (p : preferences)
    : user_preference :=
  {| up_user_id := Null;
     up_wallet_address := bind_param walletAddress;
     up_locale := bind_param (js_or (pf_locale p) JNull);
     up_selected_network := bind_param (js_or (pf_network p) JNull);
     up_color_mode := bind_param (js_or (pf_colorMode p) JNull);
     up_has_acknowledged_terms := flag (pf_hasAcknowledgedTerms p);
     up_notifications_enabled := flag (pf_notificationsEnabled p);
     up_gas_preferences := Null;
     up_created_at := Text (sql_now clk);
     up_updated_at := Text (sql_now clk) |}.

(** l.110-122 *)
Definition on_tradePref_conflict : on_conflict trading_preference :=
  DoUpdate (fun excluded old =>
     {| tp_user_id := tp_user_id old;
        tp_wallet_address := tp_wallet_address old;
        tp_default_slippage := tp_default_slippage excluded;
        tp_trade_layout := tp_trade_layout excluded;
        tp_chart_preferences := tp_chart_preferences excluded;
        tp_order_side_preference := tp_order_side_preference old;
        tp_display_unit := tp_display_unit excluded;
        tp_created_at := tp_created_at old;
        tp_updated_at := tp_updated_at excluded |}).

Definition tradePrefStmt : sqlerr + prepared trading_preference :=
  prepare trading_preferences_def ["wallet_address"]
    on_tradePref_conflict.

(** l.124-130 *)
Definition tradePref_row (clk : clock) (walletAddress : jsval)
    (p : tradingPreferences) : trading_preference :=
  {| tp_user_id := Null;
     tp_wallet_address := bind_param walletAddress;
     tp_default_slippage := bind_param (js_or (tf_defaultSlippage p) JNull);
     tp_trade_layout := Text (stringify_or_empty (tf_tradeLayout p));
     tp_chart_preferences := Text (stringify_or_empty (tf_chartPreferences p));
     tp_order_side_preference := Null;
     tp_display_unit := bind_param (js_or (tf_displayUnit p) (JStr "ASSET"));
     tp_created_at := Text (sql_now clk);
     tp_updated_at := Text (sql_now clk) |}.

(** l.142-146 *)
Definition on_dismissed_conflict : on_conflict dismissed_item := DoNothing.

Definition dismissedStmt : sqlerr + prepared dismissed_item :=
  prepare dismissed_items_def ["wallet_address"; "item_key"]
    on_dismissed_conflict.

(** l.150-154 *)
Definition dismissed_row (clk : clock) (walletAddress : jsval)
    (item : dismissedItem) : dismissed_item :=
  {| dm_wallet_address := bind_param walletAddress;
     dm_item_key := bind_param (di_key item);
     dm_dismissed_at :=
       bind_param (js_or (di_dismissedAt item) (JStr (js_now clk))) |}.

(** l.168-174 *)
Definition on_affiliate_conflict : on_conflict affiliate :=
  DoUpdate (fun excluded old =>
     {| af_wallet_address := af_wallet_address old;
        af_affiliate_address := af_affiliate_address excluded;
        af_affiliate_metadata := af_affiliate_metadata excluded;
        af_created_at := af_created_at old |}).

Definition affiliateStmt : sqlerr + prepared affiliate :=
  prepare affiliates_def ["wallet_address"]
    on_affiliate_conflict.

(** l.176-180 *)
Definition affiliate_row (clk : clock) (walletAddress : jsval)
    (a : affiliatesInfo) : affiliate :=
  {| af_wallet_address := bind_param walletAddress;
     af_affiliate_address := bind_param (js_or (ai_address a) JNull);
     af_affiliate_metadata := Text (ai_json a);
     af_created_at := Text (sql_now clk) |}.

(** l.192-200 *)
Definition on_transfer_conflict : on_conflict transfer := DoNothing.

Definition transferStmt : sqlerr + prepared transfer :=
  prepare transfers_def ["tx_hash"] on_transfer_conflict.

(** l.204-220 *)
Definition transfer_row (clk : clock) (walletAddress : jsval)
    (t : transferItem) : transfer :=
  {| tr_wallet_address := bind_param walletAddress;
     tr_transfer_id := bind_param (js_or (ti_id t) JNull);
     tr_tx_hash := bind_param (js_or (ti_txHash t) JNull);
     tr_type := bind_param (js_or (ti_type t) (JStr "TRANSFER"));
     tr_status := bind_param (js_or (ti_status t) (JStr "PENDING"));
     tr_from_address := bind_param (js_or (ti_fromAddress t) JNull);
     tr_to_address := bind_param (js_or (ti_toAddress t) JNull);
     tr_from_chain := bind_param (js_or (ti_fromChainId t) JNull);
     tr_to_chain := bind_param (js_or (ti_toChainId t) JNull);
     tr_amount := bind_param (js_or (ti_amount t) (JStr "0"));
     tr_token_symbol :=
       bind_param (js_or (js_or (ti_token t) (ti_symbol t)) JNull);
     tr_token_denom := bind_param (js_or (ti_denom t) JNull);
     tr_fee := bind_param (js_or (ti_fee t) JNull);
     tr_created_at := bind_param (js_or (ti_createdAt t) (JStr (js_now clk)));
     tr_updated_at := bind_param (js_or (ti_updatedAt t) (JStr (js_now clk))) |}.

(** l.236-244 *)
Definition on_swap_conflict : on_conflict swap := DoNothing.

Definition swapStmt : sqlerr + prepared swap :=
  prepare swaps_def ["tx_hash"] on_swap_conflict.

(** l.248-263 *)
Definition swap_row (clk : clock) (walletAddress : jsval) (s : swapItem)
    : swap :=
  {| sw_wallet_address := bind_param walletAddress;
     sw_swap_id := bind_param (js_or (si_id s) JNull);
     sw_tx_hash := bind_param (js_or (si_txHash s) JNull);
     sw_from_chain := bind_param (js_or (si_fromChainId s) JNull);
     sw_to_chain := bind_param (js_or (si_toChainId s) JNull);
     sw_from_token := bind_param (js_or (si_fromToken s) JNull);
     sw_to_token := bind_param (js_or (si_toToken s) JNull);
     sw_from_amount := bind_param (js_or (si_fromAmount s) (JStr "0"));
     sw_to_amount := bind_param (js_or (si_toAmount s) JNull);
     sw_estimated_to_amount := bind_param (js_or (si_estimatedToAmount s) JNull);
     sw_route_data := Text (stringify_or_empty (si_route s));
     sw_status := bind_param (js_or (si_status s) (JStr "PENDING"));
     sw_created_at := bind_param (js_or (si_createdAt s) (JStr (js_now clk)));
     sw_updated_at := bind_param (js_or (si_updatedAt s) (JStr (js_now clk))) |}.

(** l.278-287 *)
Definition on_syncMeta_conflict (clk : clock) : on_conflict sync_meta :=
  DoUpdate (fun excluded old =>
     {| sm_wallet_address := sm_wallet_address old;
        sm_data_type := sm_data_type old;
        sm_last_sync_at := Text (sql_now clk);
        sm_sync_status := Text "success";
        sm_error_message := sm_error_message old;
        sm_records_synced := sm_records_synced excluded |}).

Definition syncMetaStmt (clk : clock) : sqlerr + prepared sync_meta :=
  prepare sync_metadata_def ["wallet_address"; "data_type"]
    (on_syncMeta_conflict clk).

(** l.282, l.290 *)
Definition syncMeta_row (clk : clock) (walletAddress : jsval)
    (totalRecords : nat) : sync_meta :=
  {| sm_wallet_address := bind_param walletAddress;
     sm_data_type := Text "browser_storage";
     sm_last_sync_at := Text (sql_now clk);
     sm_sync_status := Text "success";
     sm_error_message := Null;
     sm_records_synced := Int (Z.of_nat totalRecords) |}.

(** 1. Insert/update wallet addresses, l.46-67. *)
Definition syncWallets (clk : clock) (walletAddress : jsval)
    (data : browser_data) : M browser_synced unit :=
  stmt <- lift walletStmt ;;
  match bd_wallets data with
  | Some ws =>
      sync_each user_wallets stmt no_fk (wallet_row clk walletAddress)
        inc_wallets
        (fun w err =>
           Some ("Wallet " ++ render (w_address w) ++ ": " ++ message err)) ws
  | None => ret tt
  end.

(** 2. Insert/update user preferences, l.73-102. *)
Definition syncPreferences (clk : clock) (walletAddress : jsval)
    (data : browser_data) : M browser_synced unit :=
  match bd_preferences data with
  | Some p =>
      try_catch
        (stmt <- lift prefStmt ;;
         run user_preferences stmt no_fk (pref_row clk walletAddress p) ;;;
         count inc_preferences)
        (fun err => push_error ("Preferences: " ++ message err))
  | None => ret tt
  end.

(** 3. Insert/update trading preferences, l.108-135. *)
Definition syncTradingPreferences (clk : clock) (walletAddress : jsval)
    (data : browser_data) : M browser_synced unit :=
  match bd_tradingPreferences data with
  | Some p =>
      try_catch
        (stmt <- lift tradePrefStmt ;;
         run trading_preferences stmt no_fk (tradePref_row clk walletAddress p) ;;;
         count inc_tradingPreferences)
        (fun err => push_error ("Trading preferences: " ++ message err))
  | None => ret tt
  end.

(** 4. Insert dismissed items, l.141-160. *)
Definition syncDismissedItems (clk : clock) (walletAddress : jsval)
    (data : browser_data) : M browser_synced unit :=
  match bd_dismissedItems data with
  | Some items =>
      stmt <- lift dismissedStmt ;;
      sync_each dismissed_items stmt no_fk (dismissed_row clk walletAddress)
        inc_dismissedItems
        (fun item err =>
           Some ("Dismissed item " ++ render (di_key item) ++ ": " ++ message err))
        items
  | None => ret tt
  end.

(** 5. Insert/update affiliate data, l.166-185. *)
Definition syncAffiliates (clk : clock) (walletAddress : jsval)
    (data : browser_data) : M browser_synced unit :=
  match bd_affiliates data with
  | Some a =>
      if Nat.ltb 0 (ai_keys a) then
        try_catch
          (stmt <- lift affiliateStmt ;;
           run affiliates stmt no_fk (affiliate_row clk walletAddress a) ;;;
           count inc_affiliates)
          (fun err => push_error ("Affiliates: " ++ message err))
      else ret tt
  | None => ret tt
  end.

(** 6. Insert transfers, l.191-229. *)
Definition syncTransfers (clk : clock) (walletAddress : jsval)
    (data : browser_data) : M browser_synced unit :=
  match bd_transfers data with
  | Some ts =>
      stmt <- lift transferStmt ;;
      sync_each transfers stmt no_fk (transfer_row clk walletAddress)
        inc_transfers
        (fun t err =>
           unless_unique ("Transfer " ++ render (ti_id t) ++ ": " ++ message err) err)
        ts
  | None => ret tt
  end.

(** 7. Insert swaps, l.235-272. *)
Definition syncSwaps (clk : clock) (walletAddress : jsval)
    (data : browser_data) : M browser_synced unit :=
  match bd_swaps data with
  | Some ss =>
      stmt <- lift swapStmt ;;
      sync_each swaps stmt no_fk (swap_row clk walletAddress)
        inc_swaps
        (fun s err =>
           unless_unique ("Swap " ++ render (si_id s) ++ ": " ++ message err) err)
        ss
  | None => ret tt
  end.

(** 8. Update sync metadata, l.278-290. *)
Definition updateSyncMetadata (clk : clock) (walletAddress : jsval)
    : M browser_synced unit :=
  stmt <- lift (syncMetaStmt clk) ;;
  c <- get_synced ;;
  let totalRecords := browser_total c in
  run sync_metadata stmt no_fk (syncMeta_row clk walletAddress totalRecords).

(** The function handed to [db.transaction], l.29-292. *)
Definition body (clk : clock) (data : browser_data) : M browser_synced unit :=
  match primaryWallet data with
  | None => throw (EJs "No wallet address found in export data")
  | Some primary =>
      let walletAddress := w_address primary in
      syncWallets clk walletAddress data ;;;
      syncPreferences clk walletAddress data ;;;
      syncTradingPreferences clk walletAddress data ;;;
      syncDismissedItems clk walletAddress data ;;;
      syncAffiliates clk walletAddress data ;;;
      syncTransfers clk walletAddress data ;;;
      syncSwaps clk walletAddress data ;;;
      updateSyncMetadata clk walletAddress
  end.

(** [syncBrowserData(db, data)], l.11-304: the result object and the store
    after the call. *)
Definition syncBrowserData (clk : clock) (d : db) (data : browser_data)
    : sync_result browser_synced * db :=
  let s0 := {| st_db := d; st_synced := browser_zero; st_errors := [] |} in
  match transaction (body clk data) s0 with
  | (inr _, s) =>
      ({| success := true; timestamp := js_now clk;
          synced := st_synced s; errors := st_errors s |}, st_db s)
  | (inl err, s) =>
      ({| success := false; timestamp := js_now clk;
          synced := st_synced s;
          errors := app (st_errors s) ["Transaction failed: " ++ message err] |},
       st_db s)
  end.

End Browser.

(** ** POST /sync/browser-data (server.js l.79-96) *)

Inductive response_body : Type :=
| ErrorBody (error : string)
| ResultBody (result : sync_result browser_synced).

Record response : Type := {
  status : nat;
  payload : response_body
}.

(** The endpoint on the bodies [browser_data] describes; [req.body] is
    [None] when the request carries no JSON object. *)
Definition post_sync_browser_data (clk : clock) (d : db)
    (req_body : option browser_data) : response * db :=
  match req_body with
  | None =>
      ({| status := 400;
          payload := ErrorBody "Invalid data: wallets array required" |}, d)
  | Some data =>
      match bd_wallets data with
      | None | Some [] =>
          ({| status := 400;
              payload := ErrorBody "Invalid data: wallets array required" |}, d)
      | Some (_ :: _) =>
          let (result, d') := Browser.syncBrowserData clk d data in
          if success result
          then ({| status := 200; payload := ResultBody result |}, d')
          else ({| status := 500; payload := ResultBody result |}, d')
      end
  end.

(** ** Blockchain data (fetch-blockchain-data.js, listed in server.js from
    l.177 on; line numbers below are those of that listing)

    The records the fetchers hand to [syncBlockchainData]. *)

Record balanceRec : Type := {
  b_walletAddress : jsval;
  b_chainId : jsval;
  b_tokenSymbol : jsval;
  b_tokenDenom : jsval;
  b_balance : jsval;
  b_availableBalance : jsval;
  b_lockedBalance : jsval
}.

Record positionRec : Type := {
  p_walletAddress : jsval;
  p_positionId : jsval;
  p_market : jsval;
  p_side : jsval;
  p_status : jsval;
  p_size : jsval;
  p_maxSize : jsval;
  p_entryPrice : jsval;
  p_exitPrice : jsval;
  p_realizedPnl : jsval;
  p_unrealizedPnl : jsval;
  p_createdAt : jsval;
  p_updatedAt : jsval;
  p_closedAt : jsval
}.

(** [postOnly] and [reduceOnly] are already 1 or 0 in the record. *)
Record orderRec : Type := {
  o_walletAddress : jsval;
  o_orderId : jsval;
  o_clientId : jsval;
  o_market : jsval;
  o_side : jsval;
  o_type : jsval;
  o_status : jsval;
  o_price : jsval;
  o_triggerPrice : jsval;
  o_size : jsval;
  o_remainingSize : jsval;
  o_postOnly : bool;
  o_reduceOnly : bool;
  o_timeInForce : jsval;
  o_goodTilBlock : jsval;
  o_createdAt : jsval;
  o_updatedAt : jsval
}.

Record fillRec : Type := {
  f_walletAddress : jsval;
  f_fillId : jsval;
  f_orderId : jsval;
  f_market : jsval;
  f_side : jsval;
  f_size : jsval;
  f_price : jsval;
  f_fee : jsval;
  f_liquidity : jsval;
  f_createdAt : jsval
}.

Record transferRec : Type := {
  t_walletAddress : jsval;
  t_transferId : jsval;
  t_txHash : jsval;
  t_type : jsval;
  t_status : jsval;
  t_fromAddress : jsval;
  t_toAddress : jsval;
  t_fromChain : jsval;
  t_toChain : jsval;
  t_amount : jsval;
  t_tokenSymbol : jsval;
  t_tokenDenom : jsval;
  t_fee : jsval;
  t_createdAt : jsval;
  t_updatedAt : jsval
}.

Record marketRec : Type := {
  m_marketId : jsval;
  m_baseAsset : jsval;
  m_quoteAsset : jsval;
  m_tickSize : jsval;
  m_stepSize : jsval;
  m_minOrderSize : jsval;
  m_initialMarginFraction : jsval;
  m_maintenanceMarginFraction : jsval;
  m_status : jsval
}.

(** What [Promise.all] resolves to in [syncBlockchainData] (server.js
    l.483-490): the six fetchers catch their own failures and resolve to a
    list. *)
Record fetched : Type := {
  balances : list balanceRec;
  positionRecs : list positionRec;
  orderRecs : list orderRec;
  fillRecs : list fillRec;
  transferRecs : list transferRec;
  marketRecs : list marketRec
}.

(** [result.synced] of [syncBlockchainData]. *)
Record chain_synced : Type := {
  cs_balances : nat;
  cs_positions : nat;
  cs_orders : nat;
  cs_fills : nat;
  cs_transfers : nat;
  cs_markets : nat
}.

Definition chain_zero : chain_synced :=
  {| cs_balances := 0; cs_positions := 0; cs_orders := 0; cs_fills := 0;
     cs_transfers := 0; cs_markets := 0 |}.

Definition inc_balances (c : chain_synced) : chain_synced :=
  {| cs_balances := S (cs_balances c); cs_positions := cs_positions c;
     cs_orders := cs_orders c; cs_fills := cs_fills c;
     cs_transfers := cs_transfers c; cs_markets := cs_markets c |}.

Definition inc_positions (c : chain_synced) : chain_synced :=
  {| cs_balances := cs_balances c; cs_positions := S (cs_positions c);
     cs_orders := cs_orders c; cs_fills := cs_fills c;
     cs_transfers := cs_transfers c; cs_markets := cs_markets c |}.

Definition inc_orders (c : chain_synced) : chain_synced :=
  {| cs_balances := cs_balances c; cs_positions := cs_positions c;
     cs_orders := S (cs_orders c); cs_fills := cs_fills c;
     cs_transfers := cs_transfers c; cs_markets := cs_markets c |}.

Definition inc_fills (c : chain_synced) : chain_synced :=
  {| cs_balances := cs_balances c; cs_positions := cs_positions c;
     cs_orders := cs_orders c; cs_fills := S (cs_fills c);
     cs_transfers := cs_transfers c; cs_markets := cs_markets c |}.

Definition inc_chain_transfers (c : chain_synced) : chain_synced :=
  {| cs_balances := cs_balances c; cs_positions := cs_positions c;
     cs_orders := cs_orders c; cs_fills := cs_fills c;
     cs_transfers := S (cs_transfers c); cs_markets := cs_markets c |}.

Definition inc_markets (c : chain_synced) : chain_synced :=
  {| cs_balances := cs_balances c; cs_positions := cs_positions c;
     cs_orders := cs_orders c; cs_fills := cs_fills c;
     cs_transfers := cs_transfers c; cs_markets := S (cs_markets c) |}.

(** [Object.values(result.synced).reduce((a, b) => a + b, 0)] *)
Definition chain_total (c : chain_synced) : nat :=
  0 + cs_balances c + cs_positions c + cs_orders c + cs_fills c
    + cs_transfers c + cs_markets c.

(** *** The remote fetcher for balances *)

(** A sub-account of the indexer's reply to [/v4/addresses/<address>]. *)
Record subaccount : Type := {
  sa_equity : jsval;
  sa_freeCollateral : jsval
}.

(** The reply: the request failed, or it parsed to JSON: [null]
    ([Fetched None]) or an object whose [subaccounts] may be missing. *)
Inductive indexer_reply : Type :=
| FetchFailed (msg : string)
| Fetched (data : option (option (list subaccount))).

Definition USDC_DENOM : string :=
  "ibc/8E27BA2D5493AF5636760E354E46004562C46AB7EC0CC4C1CA14E9E20E2545B5".

(** [fetchAccountBalances], server.js l.214-243. *)
Definition fetchAccountBalances (blackbottleAddress : string)
    (reply : indexer_reply) : list balanceRec :=
  match reply with
  | FetchFailed _ => []
  | Fetched None => []
  | Fetched (Some None) => []
  | Fetched (Some (Some subaccounts)) =>
      flat_map (fun sa =>
        if truthy (sa_equity sa) then
          [{| b_walletAddress := JStr blackbottleAddress;
              b_chainId := JStr "blackbottle-mainnet-1";
              b_tokenSymbol := JStr "USDC";
              b_tokenDenom := JStr USDC_DENOM;
              b_balance := sa_equity sa;
              b_availableBalance := js_or (sa_freeCollateral sa) (sa_equity sa);
              b_lockedBalance := JStr "0" |}]
        else []) subaccounts
  end.

(** ** [syncBlockchainData] (server.js l.463-752) *)

Module Chain.

(** l.504-515 *)
Definition on_balance_conflict : on_conflict account_balance :=
  DoUpdate (fun excluded old =>
     {| ab_wallet_address := ab_wallet_address old;
        ab_chain_id := ab_chain_id old;
        ab_token_symbol := ab_token_symbol old;
        ab_token_denom := ab_token_denom old;
        ab_balance := ab_balance excluded;
        ab_available_balance := ab_available_balance excluded;
        ab_locked_balance := ab_locked_balance excluded;
        ab_last_updated := ab_last_updated excluded |}).

Definition balanceStmt : sqlerr + prepared account_balance :=
  prepare account_balances_def ["wallet_address"; "chain_id"; "token_symbol"; "token_denom"]
    on_balance_conflict.

(** l.519-527 *)
Definition balance_row (clk : clock) (b : balanceRec) : account_balance :=
  {| ab_wallet_address := bind_param (b_walletAddress b);
     ab_chain_id := bind_param (b_chainId b);
     ab_token_symbol := bind_param (b_tokenSymbol b);
     ab_token_denom := bind_param (b_tokenDenom b);
     ab_balance := bind_param (b_balance b);
     ab_available_balance := bind_param (b_availableBalance b);
     ab_locked_balance := bind_param (b_lockedBalance b);
     ab_last_updated := Text (sql_now clk) |}.

(** l.535-546 *)
Definition on_position_conflict : on_conflict position :=
  DoUpdate (fun excluded old =>
     {| ps_wallet_address := ps_wallet_address old;
        ps_position_id := ps_position_id old;
        ps_market := ps_market old;
        ps_side := ps_side old;
        ps_status := ps_status old;
        ps_size := ps_size excluded;
        ps_max_size := ps_max_size old;
        ps_entry_price := ps_entry_price old;
        ps_exit_price := ps_exit_price old;
        ps_realized_pnl := ps_realized_pnl old;
        ps_unrealized_pnl := ps_unrealized_pnl excluded;
        ps_created_at := ps_created_at old;
        ps_updated_at := ps_updated_at excluded;
        ps_closed_at := ps_closed_at old |}).

Definition positionStmt : sqlerr + prepared position :=
  prepare positions_def ["wallet_address"; "position_id"]
    on_position_conflict.

(** l.550-565 *)
Definition position_row (p : positionRec) : position :=
  {| ps_wallet_address := bind_param (p_walletAddress p);
     ps_position_id := bind_param (p_positionId p);
     ps_market := bind_param (p_market p);
     ps_side := bind_param (p_side p);
     ps_status := bind_param (p_status p);
     ps_size := bind_param (p_size p);
     ps_max_size := bind_param (p_maxSize p);
     ps_entry_price := bind_param (p_entryPrice p);
     ps_exit_price := bind_param (p_exitPrice p);
     ps_realized_pnl := bind_param (p_realizedPnl p);
     ps_unrealized_pnl := bind_param (p_unrealizedPnl p);
     ps_created_at := bind_param (p_createdAt p);
     ps_updated_at := bind_param (p_updatedAt p);
     ps_closed_at := bind_param (p_closedAt p) |}.

(** l.573-584 *)
Definition on_order_conflict : on_conflict order :=
  DoUpdate (fun excluded old =>
     {| od_wallet_address := od_wallet_address old;
        od_order_id := od_order_id old;
        od_client_id := od_client_id old;
        od_market := od_market old;
        od_side := od_side old;
        od_type := od_type old;
        od_status := od_status excluded;
        od_price := od_price old;
        od_trigger_price := od_trigger_price old;
        od_size := od_size old;
        od_remaining_size := od_remaining_size excluded;
        od_post_only := od_post_only old;
        od_reduce_only := od_reduce_only old;
        od_time_in_force := od_time_in_force old;
        od_good_til_block := od_good_til_block old;
        od_created_at := od_created_at old;
        od_updated_at := od_updated_at excluded |}).

Definition orderStmt : sqlerr + prepared order :=
  prepare orders_def ["order_id"]
    on_order_conflict.

(** l.588-606 *)
Definition order_row (o : orderRec) : order :=
  {| od_wallet_address := bind_param (o_walletAddress o);
     od_order_id := bind_param (o_orderId o);
     od_client_id := bind_param (o_clientId o);
     od_market := bind_param (o_market o);
     od_side := bind_param (o_side o);
     od_type := bind_param (o_type o);
     od_status := bind_param (o_status o);
     od_price := bind_param (o_price o);
     od_trigger_price := bind_param (o_triggerPrice o);
     od_size := bind_param (o_size o);
     od_remaining_size := bind_param (o_remainingSize o);
     od_post_only := flag (o_postOnly o);
     od_reduce_only := flag (o_reduceOnly o);
     od_time_in_force := bind_param (o_timeInForce o);
     od_good_til_block := bind_param (o_goodTilBlock o);
     od_created_at := bind_param (o_createdAt o);
     od_updated_at := bind_param (o_updatedAt o) |}.

(** l.616-623 *)
Definition on_fill_conflict : on_conflict fill := DoNothing.

Definition fillStmt : sqlerr + prepared fill :=
  prepare fills_def ["fill_id"] on_fill_conflict.

(** l.627-638 *)
Definition fill_row (f : fillRec) : fill :=
  {| fl_wallet_address := bind_param (f_walletAddress f);
     fl_fill_id := bind_param (f_fillId f);
     fl_order_id := bind_param (f_orderId f);
     fl_market := bind_param (f_market f);
     fl_side := bind_param (f_side f);
     fl_size := bind_param (f_size f);
     fl_price := bind_param (f_price f);
     fl_fee := bind_param (f_fee f);
     fl_liquidity := bind_param (f_liquidity f);
     fl_created_at := bind_param (f_createdAt f) |}.

(** schema.sql l.185: [FOREIGN KEY (order_id) REFERENCES orders(order_id)],
    enforced because init-db.js l.18 turns foreign keys on. *)
Definition fill_fk (d : db) (r : fill) : bool :=
  existsb (fun o => sqlval_eqb (od_order_id o) (fl_order_id r)) (t_orders d).

(** l.648-658 *)
Definition on_transfer_conflict : on_conflict transfer :=
  DoUpdate (fun excluded old =>
     {| tr_wallet_address := tr_wallet_address old;
        tr_transfer_id := tr_transfer_id old;
        tr_tx_hash := tr_tx_hash old;
        tr_type := tr_type old;
        tr_status := tr_status excluded;
        tr_from_address := tr_from_address old;
        tr_to_address := tr_to_address old;
        tr_from_chain := tr_from_chain old;
        tr_to_chain := tr_to_chain old;
        tr_amount := tr_amount old;
        tr_token_symbol := tr_token_symbol old;
        tr_token_denom := tr_token_denom old;
        tr_fee := tr_fee old;
        tr_created_at := tr_created_at old;
        tr_updated_at := tr_updated_at excluded |}).

Definition transferStmt : sqlerr + prepared transfer :=
  prepare transfers_def ["tx_hash"]
    on_transfer_conflict.

(** l.662-677 *)
Definition transfer_row (t : transferRec) : transfer :=
  {| tr_wallet_address := bind_param (t_walletAddress t);
     tr_transfer_id := bind_param (t_transferId t);
     tr_tx_hash := bind_param (t_txHash t);
     tr_type := bind_param (t_type t);
     tr_status := bind_param (t_status t);
     tr_from_address := bind_param (t_fromAddress t);
     tr_to_address := bind_param (t_toAddress t);
     tr_from_chain := bind_param (t_fromChain t);
     tr_to_chain := bind_param (t_toChain t);
     tr_amount := bind_param (t_amount t);
     tr_token_symbol := bind_param (t_tokenSymbol t);
     tr_token_denom := bind_param (t_tokenDenom t);
     tr_fee := bind_param (t_fee t);
     tr_created_at := bind_param (t_createdAt t);
     tr_updated_at := bind_param (t_updatedAt t) |}.

(** l.688-703 *)
Definition on_market_conflict : on_conflict market :=
  DoUpdate (fun excluded old =>
     {| mk_market_id := mk_market_id old;
        mk_base_asset := mk_base_asset old;
        mk_quote_asset := mk_quote_asset old;
        mk_tick_size := mk_tick_size excluded;
        mk_step_size := mk_step_size excluded;
        mk_min_order_size := mk_min_order_size excluded;
        mk_initial_margin_fraction := mk_initial_margin_fraction excluded;
        mk_maintenance_margin_fraction := mk_maintenance_margin_fraction excluded;
        mk_status := mk_status excluded;
        mk_updated_at := mk_updated_at excluded |}).

Definition marketStmt : sqlerr + prepared market :=
  prepare markets_def ["market_id"]
    on_market_conflict.

(** l.707-716 *)
Definition market_row (clk : clock) (m : marketRec) : market :=
  {| mk_market_id := bind_param (m_marketId m);
     mk_base_asset := bind_param (m_baseAsset m);
     mk_quote_asset := bind_param (m_quoteAsset m);
     mk_tick_size := bind_param (m_tickSize m);
     mk_step_size := bind_param (m_stepSize m);
     mk_min_order_size := bind_param (m_minOrderSize m);
     mk_initial_margin_fraction := bind_param (m_initialMarginFraction m);
     mk_maintenance_margin_fraction := bind_param (m_maintenanceMarginFraction m);
     mk_status := bind_param (m_status m);
     mk_updated_at := Text (sql_now clk) |}.

(** l.725-734 *)
Definition on_syncMeta_conflict (clk : clock) : on_conflict sync_meta :=
  DoUpdate (fun excluded old =>
     {| sm_wallet_address := sm_wallet_address old;
        sm_data_type := sm_data_type old;
        sm_last_sync_at := Text (sql_now clk);
        sm_sync_status := Text "success";
        sm_error_message := sm_error_message old;
        sm_records_synced := sm_records_synced excluded |}).

Definition syncMetaStmt (clk : clock) : sqlerr + prepared sync_meta :=
  prepare sync_metadata_def ["wallet_address"; "data_type"]
    (on_syncMeta_conflict clk).

(** l.729, l.737 *)
Definition syncMeta_row (clk : clock) (blackbottleAddress : string)
    (totalRecords : nat) : sync_meta :=
  {| sm_wallet_address := Text blackbottleAddress;
     sm_data_type := Text "blockchain";
     sm_last_sync_at := Text (sql_now clk);
     sm_sync_status := Text "success";
     sm_error_message := Null;
     sm_records_synced := Int (Z.of_nat totalRecords) |}.

(** Insert balances, l.504-532. *)
Definition syncBalances (clk : clock) (bs : list balanceRec)
    : M chain_synced unit :=
  stmt <- lift balanceStmt ;;
  sync_each account_balances stmt no_fk (balance_row clk) inc_balances
    (fun _ err => Some ("Balance: " ++ message err)) bs.

(** Insert positions, l.535-570. *)
Definition syncPositions (ps : list positionRec) : M chain_synced unit :=
  stmt <- lift positionStmt ;;
  sync_each positions stmt no_fk position_row inc_positions
    (fun p err =>
       Some ("Position " ++ render (p_positionId p) ++ ": " ++ message err)) ps.

(** Insert orders, l.573-613. *)
Definition syncOrders (os : list orderRec) : M chain_synced unit :=
  stmt <- lift orderStmt ;;
  sync_each orders stmt no_fk order_row inc_orders
    (fun o err =>
       unless_unique ("Order " ++ render (o_orderId o) ++ ": " ++ message err) err)
    os.

(** Insert fills, l.616-645. *)
Definition syncFills (fs : list fillRec) : M chain_synced unit :=
  stmt <- lift fillStmt ;;
  sync_each fills stmt fill_fk fill_row inc_fills
    (fun f err =>
       unless_unique ("Fill " ++ render (f_fillId f) ++ ": " ++ message err) err)
    fs.

(** Insert transfers, l.648-685. *)
Definition syncTransfers (ts : list transferRec) : M chain_synced unit :=
  stmt <- lift transferStmt ;;
  sync_each transfers stmt no_fk transfer_row inc_chain_transfers
    (fun t err =>
       unless_unique
         ("Transfer " ++ render (t_transferId t) ++ ": " ++ message err) err)
    ts.

(** Insert markets, l.688-722. *)
Definition syncMarkets (clk : clock) (ms : list marketRec)
    : M chain_synced unit :=
  stmt <- lift marketStmt ;;
  sync_each markets stmt no_fk (market_row clk) inc_markets
    (fun m err =>
       Some ("Market " ++ render (m_marketId m) ++ ": " ++ message err)) ms.

(** Update sync metadata, l.725-737. *)
Definition updateSyncMetadata (clk : clock) (blackbottleAddress : string)
    : M chain_synced unit :=
  stmt <- lift (syncMetaStmt clk) ;;
  c <- get_synced ;;
  let totalRecords := chain_total c in
  run sync_metadata stmt no_fk (syncMeta_row clk blackbottleAddress totalRecords).

(** The function handed to [db.transaction], l.502-738. *)
Definition body (clk : clock) (blackbottleAddress : string) (data : fetched)
    : M chain_synced unit :=
  syncBalances clk (balances data) ;;;
  syncPositions (positionRecs data) ;;;
  syncOrders (orderRecs data) ;;;
  syncFills (fillRecs data) ;;;
  syncTransfers (transferRecs data) ;;;
  syncMarkets clk (marketRecs data) ;;;
  updateSyncMetadata clk blackbottleAddress.

(** [syncBlockchainData(db, blackbottleAddress, indexerUrl)], l.463-752,
    given what the fetchers resolved to. *)
Definition syncBlockchainData (clk : clock) (d : db)
    (blackbottleAddress : string) (data : fetched)
    : sync_result chain_synced * db :=
  let s0 := {| st_db := d; st_synced := chain_zero; st_errors := [] |} in
  match transaction (body clk blackbottleAddress data) s0 with
  | (inr _, s) =>
      ({| success := true; timestamp := js_now clk;
          synced := st_synced s; errors := st_errors s |}, st_db s)
  | (inl err, s) =>
      ({| success := false; timestamp := js_now clk;
          synced := st_synced s;
          errors := app (st_errors s) ["Sync failed: " ++ message err] |},
       st_db s)
  end.

End Chain.

(** ** Vocabulary of the properties *)

(** The state a guarded run leaves behind:
<<
    try { stmt.run(...r...); result.synced.<category>++; }
    catch (err) { ... }
>>
    Either the statement ran, the table changed and the counter went up, or
    it raised and the catch clause pushed [report err], if anything. *)
Definition attempt {C R} (t : table R) (p : prepared R)
    (fk_ok : db -> R -> bool) (bump : C -> C) (r : R)
    (report : sqlerr -> option string) (s : state C) : state C :=
  match exec p (fk_ok (st_db s)) (view t (st_db s)) r with
  | inr T' => {| st_db := put t T' (st_db s);
                 st_synced := bump (st_synced s);
                 st_errors := st_errors s |}
  | inl e =>
      match report e with
      | Some msg => {| st_db := st_db s; st_synced := st_synced s;
                       st_errors := app (st_errors s) [msg] |}
      | None => s
      end
  end.

(** The table a guarded run leaves behind. *)
Definition try_exec {R} (p : prepared R) (fk : R -> bool) (T : list R) (r : R)
    : list R :=
  match exec p fk T r with inr T' => T' | inl _ => T end.

(** Number of messages in [errs] that start with [pre]. *)
Definition reported (pre : string) (errs : list string) : nat :=
  length (filter (String.prefix pre) errs).

(** Number of records a pass was given for a list-valued category. *)
Definition supplied {X} (xs : option (list X)) : nat :=
  match xs with Some l => length l | None => 0 end.

(** The same for a single optional record. *)
Definition supplied1 {X} (x : option X) : nat :=
  match x with Some _ => 1 | None => 0 end.

(** The affiliate record counts when it has at least one key (l.166). *)
Definition supplied_affiliates (a : option affiliatesInfo) : nat :=
  match a with
  | Some i => if Nat.ltb 0 (ai_keys i) then 1 else 0
  | None => 0
  end.

(** The statement a successful [prepare] against the (single) UNIQUE
    constraint of a table yields. *)
Definition stmt {R} (td : table_def R) (act : on_conflict R) : prepared R :=
  {| p_table := td; p_key := hd [] (td_unique td); p_action := act |}.

(** [d] and [d'] agree on every table but [t]. *)
Definition same_but {R} (t : table R) (d d' : db) : Prop :=
  put t [] d' = put t [] d.

(** Summary of a step of a pass that cannot throw: it ends in [s'], touches
    at most table [t], bumps its counter [n] times and appends the messages
    [E]. *)
Definition effect {C R} (t : table R) (bump : C -> C) (m : M C unit)
    (s s' : state C) (n : nat) (E : list string) : Prop :=
  m s = (inr tt, s')
  /\ same_but t (st_db s) (st_db s')
  /\ st_synced s' = Nat.iter n bump (st_synced s)
  /\ st_errors s' = app (st_errors s) E.

(** Every message a step pushed starts with the label of the step. *)
Definition labelled (label : string) (E : list string) : Prop :=
  forall m, In m E -> exists rest, m = label ++ rest.

(** What the five record steps of [syncBrowserData] have done between
    state [s0] and state [s5]: the counters, the messages under their
    labels, and the tables. *)
Definition records_done (clk : clock) (data : browser_data) (primary : wallet)
    (s0 s5 : state browser_synced) : Prop :=
  exists n1 n2 n3 n4 n5 E1 E2 E3 E4 E5,
    st_synced s5
       = {| bs_wallets := n1 + bs_wallets (st_synced s0);
            bs_preferences := n2 + bs_preferences (st_synced s0);
            bs_tradingPreferences := n3 + bs_tradingPreferences (st_synced s0);
            bs_dismissedItems := n4 + bs_dismissedItems (st_synced s0);
            bs_affiliates := n5 + bs_affiliates (st_synced s0);
            bs_transfers := bs_transfers (st_synced s0);
            bs_swaps := bs_swaps (st_synced s0) |}
    /\ st_errors s5 = (st_errors s0 ++ E1 ++ E2 ++ E3 ++ E4 ++ E5)%list
    /\ (n1 + length E1 = supplied (bd_wallets data)
        /\ n2 + length E2 = supplied1 (bd_preferences data)
        /\ n3 + length E3 = supplied1 (bd_tradingPreferences data)
        /\ n4 + length E4 = supplied (bd_dismissedItems data)
        /\ n5 + length E5 = supplied_affiliates (bd_affiliates data))
    /\ (labelled "Wallet " E1 /\ labelled "Preferences: " E2
        /\ labelled "Trading preferences: " E3 /\ labelled "Dismissed item " E4
        /\ labelled "Affiliates: " E5)
    /\ (t_user_preferences (st_db s5)
        = match bd_preferences data with
          | Some p => try_exec (stmt user_preferences_def Browser.on_pref_conflict)
                        (fun _ => true) (t_user_preferences (st_db s0))
                        (Browser.pref_row clk (w_address primary) p)
          | None => t_user_preferences (st_db s0)
          end
        /\ t_trading_preferences (st_db s5)
           = match bd_tradingPreferences data with
             | Some p =>
                 try_exec (stmt trading_preferences_def Browser.on_tradePref_conflict)
                   (fun _ => true) (t_trading_preferences (st_db s0))
                   (Browser.tradePref_row clk (w_address primary) p)
             | None => t_trading_preferences (st_db s0)
             end
        /\ t_dismissed_items (st_db s5)
           = match bd_dismissedItems data with
             | Some items =>
                 fold_left (fun T x => try_exec (stmt dismissed_items_def DoNothing)
                                         (fun _ => true) T
                                         (Browser.dismissed_row clk (w_address primary) x))
                           items (t_dismissed_items (st_db s0))
             | None => t_dismissed_items (st_db s0)
             end
        /\ t_affiliates (st_db s5)
           = match bd_affiliates data with
             | Some i =>
                 if Nat.ltb 0 (ai_keys i) then
                   try_exec (stmt affiliates_def Browser.on_affiliate_conflict)
                     (fun _ => true) (t_affiliates (st_db s0))
                     (Browser.affiliate_row clk (w_address primary) i)
                 else t_affiliates (st_db s0)
             | None => t_affiliates (st_db s0)
             end)
    /\ (t_account_balances (st_db s5) = t_account_balances (st_db s0)
        /\ t_transfers (st_db s5) = t_transfers (st_db s0)
        /\ t_swaps (st_db s5) = t_swaps (st_db s0)
        /\ t_sync_metadata (st_db s5) = t_sync_metadata (st_db s0)).

(** A row is owned by address [a], unless it was in the table before. *)
Definition owned_or_old {R} (addr : R -> sqlval) (a : sqlval) (old : list R)
    (r : R) : Prop :=
  In r old \/ addr r = a.

(** The precedence of the primary wallet, in the words of the specification:
    the ledger-chain (dYdX) wallet if one is present, otherwise the EVM
    wallet if one is present, otherwise the first wallet of the list. *)
Definition spec_precedence (ws : list wallet) (primary : wallet) : Prop :=
  In primary ws
  /\ ((exists x, In x ws /\ w_type x = JStr "dydx") ->
      w_type primary = JStr "dydx")
  /\ ((forall x, In x ws -> w_type x <> JStr "dydx") ->
      (exists x, In x ws /\ w_type x = JStr "evm") ->
      w_type primary = JStr "evm")
  /\ ((forall x, In x ws -> w_type x <> JStr "dydx") ->
      (forall x, In x ws -> w_type x <> JStr "evm") ->
      hd_error ws = Some primary).

(** Every row of the per-wallet tables that a pass from store [d] to store
    [d'] wrote is owned by address [a]. *)
Definition batch_owned (a : sqlval) (d d' : db) : Prop :=
  Forall (owned_or_old up_wallet_address a (t_user_preferences d))
         (t_user_preferences d')
  /\ Forall (owned_or_old tp_wallet_address a (t_trading_preferences d))
            (t_trading_preferences d')
  /\ Forall (owned_or_old dm_wallet_address a (t_dismissed_items d))
            (t_dismissed_items d')
  /\ Forall (owned_or_old af_wallet_address a (t_affiliates d))
            (t_affiliates d')
  /\ Forall (owned_or_old tr_wallet_address a (t_transfers d))
            (t_transfers d')
  /\ Forall (owned_or_old sw_wallet_address a (t_swaps d))
            (t_swaps d')
  /\ Forall (owned_or_old sm_wallet_address a (t_sync_metadata d))
            (t_sync_metadata d').

(** The rows the statements of a batch propose all carry address [a]. *)
Definition rows_owned (clk : clock) (a : jsval) : Prop :=
  (forall p, up_wallet_address (Browser.pref_row clk a p) = bind_param a)
  /\ (forall p, tp_wallet_address (Browser.tradePref_row clk a p) = bind_param a)
  /\ (forall i, dm_wallet_address (Browser.dismissed_row clk a i) = bind_param a)
  /\ (forall i, af_wallet_address (Browser.affiliate_row clk a i) = bind_param a)
  /\ (forall t, tr_wallet_address (Browser.transfer_row clk a t) = bind_param a)
  /\ (forall s, sw_wallet_address (Browser.swap_row clk a s) = bind_param a)
  /\ (forall n, sm_wallet_address (Browser.syncMeta_row clk a n) = bind_param a).

(** ** Sample inputs *)

Definition clk0 : clock :=
  {| sql_now := "2024-05-01 10:00:00"; js_now := "2024-05-01T10:00:00.000Z" |}.

Definition clk1 : clock :=
  {| sql_now := "2024-05-01 10:05:00"; js_now := "2024-05-01T10:05:00.000Z" |}.

Definition dydx_wallet : wallet :=
  {| w_type := JStr "dydx"; w_address := JStr "dydx1alice";
     w_chainId := JStr "dydx-mainnet-1" |}.

Definition evm_wallet : wallet :=
  {| w_type := JStr "evm"; w_address := JStr "0xA11CE"; w_chainId := JStr "1" |}.

(** An export without any of its optional parts. *)
Definition bare_export (ws : option (list wallet)) : browser_data :=
  {| bd_wallets := ws; bd_preferences := None; bd_tradingPreferences := None;
     bd_dismissedItems := None; bd_affiliates := None; bd_transfers := None;
     bd_swaps := None |}.

(** The status the specification asks the ledger row of a committed pass to
    carry: [success] if the error list is empty, [partial] if some records
    failed but at least one was written. *)
Definition spec_pass_status (errs : list string) (written : nat) : string :=
  match errs with
  | [] => "success"
  | _ :: _ => if Nat.ltb 0 written then "partial" else "failed"
  end.

(** A wallet record without a type: its insert violates NOT NULL. *)
Definition malformed_wallet : wallet :=
  {| w_type := JNull; w_address := JStr "0xBAD"; w_chainId := JStr "1" |}.

(** One malformed record among valid ones. *)
Definition mixed_export : browser_data :=
  {| bd_wallets := Some [dydx_wallet; evm_wallet; malformed_wallet];
     bd_preferences :=
       Some {| pf_locale := JStr "en"; pf_network := JStr "mainnet";
               pf_colorMode := JStr "dark"; pf_hasAcknowledgedTerms := true;
               pf_notificationsEnabled := true |};
     bd_tradingPreferences := None;
     bd_dismissedItems := None;
     bd_affiliates := None;
     bd_transfers := None;
     bd_swaps := None |}.

(** A state of the blockchain pass in which errors were recorded. *)
Definition chain_state_with_errors : state chain_synced :=
  {| st_db := empty_db;
     st_synced := inc_balances chain_zero;
     st_errors := ["Market BTC-USD: NOT NULL constraint failed: markets.tick_size"] |}.

(** A stored position and a later reading of it from the indexer. *)
Definition stored_position : position :=
  {| ps_wallet_address := Text "dydx1alice";
     ps_position_id := Text "dydx1alice-BTC-USD";
     ps_market := Text "BTC-USD"; ps_side := Text "LONG";
     ps_status := Text "OPEN"; ps_size := Text "1"; ps_max_size := Text "1";
     ps_entry_price := Text "60000"; ps_exit_price := Null;
     ps_realized_pnl := Text "0"; ps_unrealized_pnl := Text "0";
     ps_created_at := Text "2024-04-30T09:00:00.000Z";
     ps_updated_at := Text "2024-04-30T09:00:00.000Z";
     ps_closed_at := Null |}.

Definition fetched_position : positionRec :=
  {| p_walletAddress := JStr "dydx1alice";
     p_positionId := JStr "dydx1alice-BTC-USD";
     p_market := JStr "BTC-USD"; p_side := JStr "LONG";
     p_status := JStr "OPEN"; p_size := JStr "2"; p_maxSize := JStr "2";
     p_entryPrice := JStr "60000"; p_exitPrice := JNull;
     p_realizedPnl := JStr "0"; p_unrealizedPnl := JStr "150";
     p_createdAt := JStr "2024-04-30T09:00:00.000Z";
     p_updatedAt := JStr "2024-05-01T10:00:00.000Z";
     p_closedAt := JNull |}.

Definition nothing_fetched : fetched :=
  {| balances := []; positionRecs := []; orderRecs := []; fillRecs := [];
     transferRecs := []; marketRecs := [] |}.

Definition position_batch : fetched :=
  {| balances := []; positionRecs := [fetched_position]; orderRecs := [];
     fillRecs := []; transferRecs := []; marketRecs := [] |}.

(** A stored pending transfer and the same transfer, confirmed, in an
    export. *)
Definition stored_transfer : transfer :=
  {| tr_wallet_address := Text "dydx1alice"; tr_transfer_id := Text "t-1";
     tr_tx_hash := Text "0xFEED"; tr_type := Text "DEPOSIT";
     tr_status := Text "PENDING"; tr_from_address := Null;
     tr_to_address := Null; tr_from_chain := Null; tr_to_chain := Null;
     tr_amount := Text "25"; tr_token_symbol := Text "USDC";
     tr_token_denom := Null; tr_fee := Null;
     tr_created_at := Text "2024-04-30T09:00:00.000Z";
     tr_updated_at := Text "2024-04-30T09:00:00.000Z" |}.

Definition confirmed_transfer : transferItem :=
  {| ti_id := JStr "t-1"; ti_txHash := JStr "0xFEED"; ti_type := JStr "DEPOSIT";
     ti_status := JStr "CONFIRMED"; ti_fromAddress := JUndef;
     ti_toAddress := JUndef; ti_fromChainId := JUndef; ti_toChainId := JUndef;
     ti_amount := JStr "25"; ti_token := JStr "USDC"; ti_symbol := JUndef;
     ti_denom := JUndef; ti_fee := JUndef;
     ti_createdAt := JStr "2024-04-30T09:00:00.000Z";
     ti_updatedAt := JStr "2024-05-01T10:00:00.000Z" |}.

Definition transfer_export : browser_data :=
  {| bd_wallets := Some [dydx_wallet]; bd_preferences := None;
     bd_tradingPreferences := None; bd_dismissedItems := None;
     bd_affiliates := None; bd_transfers := Some [confirmed_transfer];
     bd_swaps := None |}.

(** The same dismissed item twice. *)
Definition welcome_item : dismissedItem :=
  {| di_key := JStr "welcome_dialog"; di_dismissedAt := JUndef |}.

Definition repeated_item_export : browser_data :=
  {| bd_wallets := Some [dydx_wallet]; bd_preferences := None;
     bd_tradingPreferences := None;
     bd_dismissedItems := Some [welcome_item; welcome_item];
     bd_affiliates := None; bd_transfers := None; bd_swaps := None |}.

(** The sub-accounts a reply lists: none when the request failed or the
    reply carries no list. *)
Definition listed_subaccounts (reply : indexer_reply) : list subaccount :=
  match reply with
  | Fetched (Some (Some subaccounts)) => subaccounts
  | _ => []
  end.

(** A sub-account for which the indexer reports the equity only. *)
Definition equity_only : subaccount :=
  {| sa_equity := JStr "100"; sa_freeCollateral := JUndef |}.

(** The balance row the fetcher makes of it. *)
Definition equity_only_balance : balanceRec :=
  {| b_walletAddress := JStr "dydx1alice";
     b_chainId := JStr "blackbottle-mainnet-1";
     b_tokenSymbol := JStr "USDC";
     b_tokenDenom := JStr USDC_DENOM;
     b_balance := JStr "100";
     b_availableBalance := JStr "100";
     b_lockedBalance := JStr "0" |}.

(** A primary wallet without an address, next to a valid wallet. *)
Definition addressless_wallet : wallet :=
  {| w_type := JStr "dydx"; w_address := JNull; w_chainId := JNull |}.

Definition addressless_export : browser_data :=
  bare_export (Some [addressless_wallet; evm_wallet]).

Definition balance_batch : fetched :=
  {| balances := fetchAccountBalances "dydx1alice"
                   (Fetched (Some (Some [equity_only])));
     positionRecs := []; orderRecs := []; fillRecs := []; transferRecs := [];
     marketRecs := [] |}.

(** An order and a fill stored for one wallet, and records with the same
    identifiers fetched for another wallet. *)
Definition alice_order : order :=
  {| od_wallet_address := Text "dydx1alice"; od_order_id := Text "order-7";
     od_client_id := Null; od_market := Text "BTC-USD"; od_side := Text "BUY";
     od_type := Text "LIMIT"; od_status := Text "OPEN";
     od_price := Text "60000"; od_trigger_price := Null; od_size := Text "1";
     od_remaining_size := Text "1"; od_post_only := Int 0;
     od_reduce_only := Int 0; od_time_in_force := Text "GTT";
     od_good_til_block := Null;
     od_created_at := Text "2024-04-30T09:00:00.000Z";
     od_updated_at := Text "2024-04-30T09:00:00.000Z" |}.


Definition alice_fill : fill :=
  {| fl_wallet_address := Text "dydx1alice"; fl_fill_id := Text "fill-3";
     fl_order_id := Text "order-7"; fl_market := Text "BTC-USD";
     fl_side := Text "BUY"; fl_size := Text "1"; fl_price := Text "60000";
     fl_fee := Text "0.5"; fl_liquidity := Text "TAKER";
     fl_created_at := Text "2024-04-30T09:00:01.000Z" |}.

Definition bob_fill : fillRec :=
  {| f_walletAddress := JStr "dydx1bob"; f_fillId := JStr "fill-3";
     f_orderId := JStr "order-7"; f_market := JStr "ETH-USD";
     f_side := JStr "SELL"; f_size := JStr "5"; f_price := JStr "3000";
     f_fee := JStr "0.1"; f_liquidity := JStr "MAKER";
     f_createdAt := JStr "2024-05-01T10:00:00.000Z" |}.

Definition alice_store : db :=
  put fills [alice_fill] (put orders [alice_order] empty_db).

Definition alice_state : state chain_synced :=
  {| st_db := alice_store; st_synced := chain_zero; st_errors := [] |}.


(** Whether a browser pass commits: it needs a primary wallet with an
    address, and an export without transfers and swaps lists. *)
Definition browser_commits (data : browser_data) : bool :=
  match Browser.primaryWallet data, bd_transfers data, bd_swaps data with
  | Some w, None, None => negb (is_null (bind_param (w_address w)))
  | _, _, _ => false
  end.

(** Rows with their sync timestamp blanked: the columns a re-run is allowed
    to change. *)
Definition blank_pref_time (r : user_preference) : user_preference :=
  {| up_user_id := up_user_id r; up_wallet_address := up_wallet_address r;
     up_locale := up_locale r; up_selected_network := up_selected_network r;
     up_color_mode := up_color_mode r;
     up_has_acknowledged_terms := up_has_acknowledged_terms r;
     up_notifications_enabled := up_notifications_enabled r;
     up_gas_preferences := up_gas_preferences r;
     up_created_at := up_created_at r; up_updated_at := Null |}.

Definition blank_tradePref_time (r : trading_preference) : trading_preference :=
  {| tp_user_id := tp_user_id r; tp_wallet_address := tp_wallet_address r;
     tp_default_slippage := tp_default_slippage r;
     tp_trade_layout := tp_trade_layout r;
     tp_chart_preferences := tp_chart_preferences r;
     tp_order_side_preference := tp_order_side_preference r;
     tp_display_unit := tp_display_unit r;
     tp_created_at := tp_created_at r; tp_updated_at := Null |}.

Definition blank_balance_time (r : account_balance) : account_balance :=
  {| ab_wallet_address := ab_wallet_address r; ab_chain_id := ab_chain_id r;
     ab_token_symbol := ab_token_symbol r; ab_token_denom := ab_token_denom r;
     ab_balance := ab_balance r; ab_available_balance := ab_available_balance r;
     ab_locked_balance := ab_locked_balance r; ab_last_updated := Null |}.

(** Rows that carry the key [q] recognises, and that replace a stored row of
    that key wholesale when statement [p] with DO UPDATE [f] runs. *)
Definition on_key {R} (p : prepared R) (f : R -> R -> R) (q : R -> bool)
    (r : R) : Prop :=
  first_null (p_table p) r = None
  /\ (forall x, collides (p_key p) r x = q x)
  /\ q r = true
  /\ (forall x, q x = true -> f r x = r).

(** Replace the first row of the key, or append. *)
Definition replace_or_append {R} (q : R -> bool) (T : list R) (r : R)
    : list R :=
  if existsb q T then update_first q (fun _ => r) T else (T ++ [r])%list.

(** The update of a DO UPDATE clause. *)
Definition do_update_of {R} (a : on_conflict R) : R -> R -> R :=
  match a with
  | DoUpdate f => f
  | DoNothing => fun _ old => old
  end.

(** The key under which the fetcher files every balance of an account. *)
Definition usdc_row (addr : string) : account_balance :=
  {| ab_wallet_address := Text addr;
     ab_chain_id := Text "blackbottle-mainnet-1";
     ab_token_symbol := Text "USDC";
     ab_token_denom := Text USDC_DENOM;
     ab_balance := Null; ab_available_balance := Null;
     ab_locked_balance := Null; ab_last_updated := Null |}.

Definition usdc_key (addr : string) : account_balance -> bool :=
  collides (p_key (stmt account_balances_def Chain.on_balance_conflict))
           (usdc_row addr).

(** The stored pending transfer as the indexer reports it once confirmed. *)
Definition confirmed_transfer_rec : transferRec :=
  {| t_walletAddress := JStr "dydx1alice"; t_transferId := JStr "t-1";
     t_txHash := JStr "0xFEED"; t_type := JStr "DEPOSIT";
     t_status := JStr "CONFIRMED"; t_fromAddress := JNull;
     t_toAddress := JNull; t_fromChain := JStr "blackbottle-mainnet-1";
     t_toChain := JStr "blackbottle-mainnet-1"; t_amount := JStr "25";
     t_tokenSymbol := JStr "USDC"; t_tokenDenom := JNull; t_fee := JNull;
     t_createdAt := JStr "2024-04-30T09:00:00.000Z";
     t_updatedAt := JStr "2024-05-01T10:00:00.000Z" |}.

Definition transfer_batch : fetched :=
  {| balances := []; positionRecs := []; orderRecs := []; fillRecs := [];
     transferRecs := [confirmed_transfer_rec]; marketRecs := [] |}.


(** ** The other endpoints of [server.js] *)

(** *** POST /sync/blockchain-data (server.js l.114-136)

    The request carries a JSON object; [fetch_all url address] is what the
    six fetchers resolve to for an indexer and an address. *)

Record chain_request : Type := {
  cr_blackbottleAddress : jsval;
  cr_indexerUrl : jsval
}.

Inductive chain_response_body : Type :=
| ChainErrorBody (error : string)
| ChainResultBody (result : sync_result chain_synced).

Record chain_response : Type := {
  c_status : nat;
  c_payload : chain_response_body
}.

Definition DEFAULT_INDEXER_API : string :=
  "https://indexer.v4testnet.blackbottle.trade".

Definition post_sync_blockchain_data (clk : clock) (d : db)
    (fetch_all : string -> string -> fetched) (req : chain_request)
    : chain_response * db :=
  if negb (truthy (cr_blackbottleAddress req)) then
    ({| c_status := 400;
        c_payload := ChainErrorBody "blackbottleAddress required" |}, d)
  else
    let blackbottleAddress := render (cr_blackbottleAddress req) in
    let indexerUrl :=
      render (js_or (cr_indexerUrl req) (JStr DEFAULT_INDEXER_API)) in
    let (result, d') :=
      Chain.syncBlockchainData clk d blackbottleAddress
        (fetch_all indexerUrl blackbottleAddress) in
    if success result
    then ({| c_status := 200; c_payload := ChainResultBody result |}, d')
    else ({| c_status := 500; c_payload := ChainResultBody result |}, d').

(** *** GET /wallet/:walletAddress (server.js l.139-159)

    [col = ?] with a string bound to the parameter. *)
Definition col_is (v : sqlval) (s : string) : bool :=
  match v with
  | Text t => String.eqb t s
  | _ => false
  end.

(** The object the endpoint answers with.  [.all()] yields the matching rows
    in rowid order, [.get()] the first of them or [undefined].  The two lists
    [recentTransfers] and [recentSwaps] (ORDER BY created_at DESC LIMIT 50)
    are not part of this record. *)
Record wallet_data : Type := {
  wd_walletAddress : string;
  wd_wallets : list user_wallet;
  wd_preferences : option user_preference;
  wd_tradingPreferences : option trading_preference;
  wd_dismissedItems : list dismissed_item;
  wd_affiliates : option affiliate;
  wd_balances : list account_balance;
  wd_positions : list position;
  wd_orders : list order
}.

Definition get_wallet (d : db) (walletAddress : string) : wallet_data :=
  {| wd_walletAddress := walletAddress;
     wd_wallets :=
       filter (fun r => col_is (uw_address r) walletAddress) (t_user_wallets d);
     wd_preferences :=
       find (fun r => col_is (up_wallet_address r) walletAddress)
            (t_user_preferences d);
     wd_tradingPreferences :=
       find (fun r => col_is (tp_wallet_address r) walletAddress)
            (t_trading_preferences d);
     wd_dismissedItems :=
       filter (fun r => col_is (dm_wallet_address r) walletAddress)
              (t_dismissed_items d);
     wd_affiliates :=
       find (fun r => col_is (af_wallet_address r) walletAddress)
            (t_affiliates d);
     wd_balances :=
       filter (fun r => col_is (ab_wallet_address r) walletAddress)
              (t_account_balances d);
     wd_positions :=
       filter (fun r => col_is (ps_wallet_address r) walletAddress
                        && col_is (ps_status r) "OPEN") (t_positions d);
     wd_orders :=
       filter (fun r => col_is (od_wallet_address r) walletAddress
                        && (col_is (od_status r) "PENDING"
                            || col_is (od_status r) "OPEN"
                            || col_is (od_status r) "UNTRIGGERED"))
              (t_orders d) |}.

(** *** GET /sync/status/:walletAddress (server.js l.99-111)

    The rows of the ledger for one wallet. *)
Definition sync_status (d : db) (walletAddress : string) : list sync_meta :=
  filter (fun r => col_is (sm_wallet_address r) walletAddress)
         (t_sync_metadata d).

(** The endpoint answers with these rows ORDER BY last_sync_at DESC; rows
    with equal timestamps come in no particular order, so a reply is any
    arrangement of the rows that is sorted on [before]. *)
Inductive arranged {A} (before : A -> A -> Prop) : list A -> list A -> Prop :=
| arranged_nil : arranged before [] []
| arranged_pick l1 x l2 rest :
    (forall y, In y (l1 ++ l2)%list -> before x y) ->
    arranged before (l1 ++ l2)%list rest ->
    arranged before (l1 ++ x :: l2)%list (x :: rest).

(** *** The users endpoints (server.js l.32-72)

    [users] is declared with [id INTEGER PRIMARY KEY AUTOINCREMENT] and
    [email TEXT UNIQUE] (schema.sql l.13-19); [user_wallets],
    [user_preferences] and [trading_preferences] reference it with
    ON DELETE CASCADE (l.30, l.54, l.72).

    A rowid is a 64-bit integer in the store, and a JavaScript number, that
    is an IEEE 754 double, wherever the server holds it: [lastInsertRowid],
    the [id] of a row read back, [Number(req.params.id)]. *)
Module Users.

Record user : Type := {
  u_id : Z;
  u_email : sqlval;
  u_name : sqlval;
  u_created_at : sqlval;
  u_updated_at : sqlval
}.

(** The store with its users table; [us_sequence] is the largest id the
    table ever held, which AUTOINCREMENT keeps in [sqlite_sequence]. *)
Record store : Type := {
  us_users : list user;
  us_sequence : Z;
  us_data : db
}.

Inductive body : Type :=
| Error (error : string)
| Created (id : Z) (email name : jsval)
| Row (row : user)
| Rows (rows : list user)
| Deleted (deleted : bool).

Record reply : Type := {
  code : nat;
  json : body
}.

(** The largest rowid of SQLite. *)
Definition max_rowid : Z := 9223372036854775807.

(** The double nearest to a whole number, ties to even: what a 64-bit
    integer becomes as a JavaScript number, and what [Number] makes of the
    decimal text of a whole number.  Whole numbers up to 2^53 in magnitude
    are doubles; above, a double keeps 53 significant bits.  (Beyond the
    range of doubles [Number] yields an infinity: like the value computed
    here, it is above every rowid.) *)
Definition to_double (z : Z) : Z :=
  let a := Z.abs z in
  if (a <=? 2 ^ 53)%Z then z
  else
    let k := (Z.log2 a - 52)%Z in
    let q := (a / 2 ^ k)%Z in
    let r := (a mod 2 ^ k)%Z in
    let half := (2 ^ (k - 1))%Z in
    let q' := if (half <? r)%Z || ((r =? half)%Z && Z.odd q)
              then (q + 1)%Z else q in
    (Z.sgn z * (q' * 2 ^ k))%Z.

(** A row as [res.json] sends it: its id is a JavaScript number. *)
Definition json_row (u : user) : user :=
  {| u_id := to_double (u_id u); u_email := u_email u; u_name := u_name u;
     u_created_at := u_created_at u; u_updated_at := u_updated_at u |}.

(** What the text of [req.params.id] denotes for [Number]: no number at
    all (NaN), the whole number [z] written out, which [Number] rounds to
    the double [to_double z], or a number that equals no rowid (a fraction,
    an infinity). *)
Inductive route_number : Type :=
| NaN
| Whole (z : Z)
| Other.

Definition largest_id (us : list user) : Z :=
  fold_right (fun u m => Z.max (u_id u) m) 0%Z us.

(** [name ?? null] *)
Definition nullish_to_null (v : jsval) : jsval :=
  match v with
  | JUndef | JNull => JNull
  | JStr s => JStr s
  end.

(** POST /users, l.37-50.  AUTOINCREMENT picks the rowid above the largest
    one the table holds or ever held, and fails with SQLITE_FULL when that
    is the largest rowid there is; the constraints of the row are checked
    once it has its rowid.  The reply carries [lastInsertRowid] as a
    JavaScript number. *)
Definition post_users (clk : clock) (s : store) (email name : jsval)
    : reply * store :=
  if negb (truthy email) then
    ({| code := 400; json := Error "email required" |}, s)
  else
    let last := Z.max (us_sequence s) (largest_id (us_users s)) in
    if (max_rowid <=? last)%Z then
      ({| code := 400; json := Error "database or disk is full" |}, s)
    else if existsb (fun u => sqlval_eqb (u_email u) (bind_param email))
                    (us_users s) then
      ({| code := 400;
          json := Error (message (EUnique "users" ["email"])) |}, s)
    else
      let id := (last + 1)%Z in
      ({| code := 200; json := Created (to_double id) email name |},
       {| us_users :=
            (us_users s ++
             [{| u_id := id;
                 u_email := bind_param email;
                 u_name := bind_param (nullish_to_null name);
                 u_created_at := Text (sql_now clk);
                 u_updated_at := Text (sql_now clk) |}])%list;
          us_sequence := id;
          us_data := us_data s |}).

(** GET /users/:id, l.52-62. *)
Definition get_user (s : store) (id : route_number) : reply :=
  match id with
  | NaN => {| code := 400; json := Error "invalid id" |}
  | Whole z =>
      match find (fun u => Z.eqb (u_id u) (to_double z)) (us_users s) with
      | Some row => {| code := 200; json := Row (json_row row) |}
      | None => {| code := 404; json := Error "not found" |}
      end
  | Other => {| code := 404; json := Error "not found" |}
  end.

(** ON DELETE CASCADE: the rows that reference user [z] go with it. *)
Definition references (z : Z) (user_id : sqlval) : bool :=
  sqlval_eqb user_id (Int z).

Definition cascade (z : Z) (d : db) : db :=
  put user_wallets
    (filter (fun r => negb (references z (uw_user_id r))) (t_user_wallets d))
  (put user_preferences
    (filter (fun r => negb (references z (up_user_id r)))
            (t_user_preferences d))
  (put trading_preferences
    (filter (fun r => negb (references z (tp_user_id r)))
            (t_trading_preferences d))
   d)).

(** DELETE /users/:id, l.64-72. *)
Definition delete_user (s : store) (id : route_number) : reply * store :=
  match id with
  | NaN => ({| code := 400; json := Error "invalid id" |}, s)
  | Whole z =>
      let n := to_double z in
      if existsb (fun u => Z.eqb (u_id u) n) (us_users s) then
        ({| code := 200; json := Deleted true |},
         {| us_users := filter (fun u => negb (Z.eqb (u_id u) n)) (us_users s);
            us_sequence := us_sequence s;
            us_data := cascade n (us_data s) |})
      else ({| code := 200; json := Deleted false |}, s)
  | Other => ({| code := 200; json := Deleted false |}, s)
  end.

(** [order by id desc] *)
Fixpoint insert_desc (u : user) (l : list user) : list user :=
  match l with
  | [] => [u]
  | v :: rest =>
      if Z.leb (u_id v) (u_id u) then u :: v :: rest
      else v :: insert_desc u rest
  end.

(** GET /users, l.32-35. *)
Definition get_users (s : store) : reply :=
  {| code := 200;
     json := Rows (map json_row (fold_right insert_desc [] (us_users s))) |}.

End Users.

(** ** The other fetchers (fetch-blockchain-data.js; server.js l.298-454)

    What [fetchFromIndexer] comes back with: the request is rejected
    (network, HTTP status, JSON), or it resolves to a value. *)
Inductive fetch_result (A : Type) : Type :=
| Rejected (msg : string)
| Resolved (data : A).
Arguments Rejected {A} _.
Arguments Resolved {A} _.

(** A JSON reply read as [data.<field>]: [data] is falsy ([None]); the field
    is missing or falsy ([Some None]); the field holds an array of
    objects. *)
Definition listing (A : Type) : Type := option (option (list A)).

(** [o?.f] *)
Definition opt_field {A} (o : option A) (f : A -> jsval) : jsval :=
  match o with
  | Some x => f x
  | None => JUndef
  end.

(** [s.split(sep)] for a one-character separator. *)
Fixpoint split_on (sep : Ascii.ascii) (s : string) : list string :=
  match s with
  | EmptyString => [EmptyString]
  | String c rest =>
      if Ascii.eqb c sep then EmptyString :: split_on sep rest
      else match split_on sep rest with
           | piece :: pieces => String c piece :: pieces
           | [] => [String c EmptyString]
           end
  end.

(** [s] holds no [sep]. *)
Fixpoint free_of (sep : Ascii.ascii) (s : string) : bool :=
  match s with
  | EmptyString => true
  | String c rest => negb (Ascii.eqb c sep) && free_of sep rest
  end.

(** [pieces[i]] *)
Definition item (pieces : list string) (i : nat) : jsval :=
  match nth_error pieces i with
  | Some s => JStr s
  | None => JUndef
  end.

(** An order as the indexer lists it; the two flags are only tested for
    truthiness. *)
Record indexer_order : Type := {
  io_id : jsval;
  io_clientId : jsval;
  io_ticker : jsval;
  io_market : jsval;
  io_side : jsval;
  io_type : jsval;
  io_status : jsval;
  io_price : jsval;
  io_triggerPrice : jsval;
  io_size : jsval;
  io_remainingSize : jsval;
  io_postOnly : bool;
  io_reduceOnly : bool;
  io_timeInForce : jsval;
  io_goodTilBlock : jsval;
  io_createdAt : jsval;
  io_updatedAt : jsval
}.

(** l.315-333 *)
Definition order_of (clk : clock) (blackbottleAddress : string)
    (order : indexer_order) : orderRec :=
  {| o_walletAddress := JStr blackbottleAddress;
     o_orderId := io_id order;
     o_clientId := js_or (io_clientId order) JNull;
     o_market := js_or (io_ticker order) (io_market order);
     o_side := io_side order;
     o_type := io_type order;
     o_status := io_status order;
     o_price := js_or (io_price order) JNull;
     o_triggerPrice := js_or (io_triggerPrice order) JNull;
     o_size := io_size order;
     o_remainingSize := js_or (io_remainingSize order) (io_size order);
     o_postOnly := io_postOnly order;
     o_reduceOnly := io_reduceOnly order;
     o_timeInForce := js_or (io_timeInForce order) JNull;
     o_goodTilBlock := js_or (io_goodTilBlock order) JNull;
     o_createdAt := js_or (io_createdAt order) (JStr (js_now clk));
     o_updatedAt := js_or (io_updatedAt order) (JStr (js_now clk)) |}.

(** [fetchOrders], l.298-347.  [account] is the reply to
    [/v4/addresses/<address>], read as the addresses of its sub-accounts;
    [orders_at a] is the reply to [/v4/orders?address=<a>], [None] when it is
    not an array. *)
Definition fetchOrders (clk : clock) (blackbottleAddress : string)
    (account : fetch_result (listing jsval))
    (orders_at : jsval -> fetch_result (option (list indexer_order)))
    : list orderRec :=
  match account with
  | Rejected _ => []
  | Resolved None => []
  | Resolved (Some None) => []
  | Resolved (Some (Some subaccounts)) =>
      flat_map (fun subaccount =>
        match orders_at subaccount with
        | Resolved (Some ordersData) =>
            map (order_of clk blackbottleAddress) ordersData
        | Resolved None => []
        | Rejected _ => []
        end) subaccounts
  end.

Record indexer_fill : Type := {
  if_id : jsval;
  if_orderId : jsval;
  if_market : jsval;
  if_ticker : jsval;
  if_side : jsval;
  if_size : jsval;
  if_price : jsval;
  if_fee : jsval;
  if_liquidity : jsval;
  if_type : jsval;
  if_createdAt : jsval
}.

(** [fetchFills], l.356-383. *)
Definition fetchFills (clk : clock) (blackbottleAddress : string)
    (reply : fetch_result (listing indexer_fill)) : list fillRec :=
  match reply with
  | Rejected _ => []
  | Resolved None => []
  | Resolved (Some None) => []
  | Resolved (Some (Some fills)) =>
      map (fun fill =>
        {| f_walletAddress := JStr blackbottleAddress;
           f_fillId := if_id fill;
           f_orderId := if_orderId fill;
           f_market := js_or (if_market fill) (if_ticker fill);
           f_side := if_side fill;
           f_size := if_size fill;
           f_price := if_price fill;
           f_fee := js_or (if_fee fill) (JStr "0");
           f_liquidity := js_or (if_liquidity fill) (if_type fill);
           f_createdAt := js_or (if_createdAt fill) (JStr (js_now clk)) |})
        fills
  end.




Record indexer_market : Type := {
  im_baseAsset : jsval;
  im_quoteAsset : jsval;
  im_tickSize : jsval;
  im_priceChange24H : jsval;
  im_stepSize : jsval;
  im_quantum : jsval;
  im_minOrderSize : jsval;
  im_initialMarginFraction : jsval;
  im_maintenanceMarginFraction : jsval;
  im_status : jsval
}.

(** l.439-449 *)
Definition market_of (entry : string * indexer_market) : marketRec :=
  let (marketId, market) := entry in
  {| m_marketId := JStr marketId;
     m_baseAsset :=
       js_or (im_baseAsset market) (item (split_on "-"%char marketId) 0);
     m_quoteAsset :=
       js_or (js_or (im_quoteAsset market) (item (split_on "-"%char marketId) 1))
             (JStr "USD");
     m_tickSize := js_or (im_tickSize market) (im_priceChange24H market);
     m_stepSize := js_or (im_stepSize market) (im_quantum market);
     m_minOrderSize := js_or (im_minOrderSize market) (im_stepSize market);
     m_initialMarginFraction := js_or (im_initialMarginFraction market) JNull;
     m_maintenanceMarginFraction :=
       js_or (im_maintenanceMarginFraction market) JNull;
     m_status := js_or (im_status market) (JStr "ACTIVE") |}.

(** [fetchMarkets], l.431-454; the reply is read as
    [Object.entries(data.markets)]. *)
Definition fetchMarkets
    (reply : fetch_result (listing (string * indexer_market)))
    : list marketRec :=
  match reply with
  | Rejected _ => []
  | Resolved None => []
  | Resolved (Some None) => []
  | Resolved (Some (Some entries)) => map market_of entries
  end.

(** ** The exporter (export-browser-data.js)

    The script reads the browser's localStorage and the persisted Redux
    state, builds [exportData] and posts it to /sync/browser-data. *)

(** The entries of [localStorageData] the export reads (l.72-74, l.93-96,
    l.132). *)
Record local_storage : Type := {
  ls_EvmAddress : jsval;
  ls_DydxAddress : jsval;
  ls_SolAddress : jsval;
  ls_EvmChainId : jsval;
  ls_SelectedLocale : jsval;
  ls_SelectedNetwork : jsval;
  ls_OnboardingHasAcknowledgedTerms : bool
}.

(** [reduxState.wallet] *)
Record wallet_slice : Type := {
  ws_evmAddress : jsval;
  ws_blackbottleAddress : jsval;
  ws_solAddress : jsval;
  ws_nobleAddress : jsval
}.

(** [reduxState.appUiConfigs] *)
Record ui_configs : Type := {
  ui_theme : jsval;
  ui_defaultSlippage : jsval;
  ui_tradeLayout : option string;
  ui_displayUnit : jsval
}.

(** A slice the export passes on as it is: missing or falsy, a value that
    is no array (an object), or an array. *)
Inductive slice (A : Type) : Type :=
| Absent
| AnObject
| AnArray (items : list A).
Arguments Absent {A}.
Arguments AnObject {A}.
Arguments AnArray {A} _.

(** The persisted Redux state; [rx_dismissable] lists the keys of the
    object with whether their value is [true]. *)
Record redux_state : Type := {
  rx_wallet : option wallet_slice;
  rx_appUiConfigs : option ui_configs;
  rx_tradingView : option string;
  rx_dismissable : option (list (string * bool));
  rx_affiliates : option affiliatesInfo;
  rx_transfers : slice transferItem;
  rx_swaps : slice swapItem
}.

(** [reduxState?.<slice>?.<field>] *)
Definition redux_field {S} (redux : option redux_state)
    (sl : redux_state -> option S) (f : S -> jsval) : jsval :=
  match redux with
  | Some st => opt_field (sl st) f
  | None => JUndef
  end.

(** l.71-76 *)
Record wallet_addresses : Type := {
  wa_evmAddress : jsval;
  wa_blackbottleAddress : jsval;
  wa_solanaAddress : jsval;
  wa_nobleAddress : jsval
}.

Definition walletData (ls : local_storage) (redux : option redux_state)
    : wallet_addresses :=
  {| wa_evmAddress :=
       js_or (ls_EvmAddress ls) (redux_field redux rx_wallet ws_evmAddress);
     wa_blackbottleAddress :=
       js_or (ls_DydxAddress ls)
             (redux_field redux rx_wallet ws_blackbottleAddress);
     wa_solanaAddress :=
       js_or (ls_SolAddress ls) (redux_field redux rx_wallet ws_solAddress);
     wa_nobleAddress := redux_field redux rx_wallet ws_nobleAddress |}.

(** l.127-158: a wallet is pushed for every address that is set. *)
Definition exported_wallets (ls : local_storage) (w : wallet_addresses)
    : list wallet :=
  ((if truthy (wa_evmAddress w)
    then [{| w_type := JStr "evm"; w_address := wa_evmAddress w;
             w_chainId := js_or (ls_EvmChainId ls) (JStr "1") |}]
    else []) ++
   (if truthy (wa_blackbottleAddress w)
    then [{| w_type := JStr "blackbottle"; w_address := wa_blackbottleAddress w;
             w_chainId := JStr "blackbottle-mainnet-1" |}]
    else []) ++
   (if truthy (wa_solanaAddress w)
    then [{| w_type := JStr "solana"; w_address := wa_solanaAddress w;
             w_chainId := JStr "mainnet-beta" |}]
    else []) ++
   (if truthy (wa_nobleAddress w)
    then [{| w_type := JStr "cosmos"; w_address := wa_nobleAddress w;
             w_chainId := JStr "noble-1" |}]
    else []))%list.

(** l.161-171 *)
Definition exported_dismissals (now : string) (redux : option redux_state)
    : list dismissedItem :=
  match redux with
  | Some st =>
      match rx_dismissable st with
      | Some dismissed =>
          flat_map (fun kv : string * bool =>
            if snd kv
            then [{| di_key := JStr (fst kv); di_dismissedAt := JStr now |}]
            else []) dismissed
      | None => []
      end
  | None => []
  end.

(** [reduxState?.<slice> || []] as the server reads it back: [Some] when it
    is an array. *)
Definition or_empty_array {A} (redux : option redux_state)
    (sl : redux_state -> slice A) : option (list A) :=
  match redux with
  | Some st =>
      match sl st with
      | Absent => Some []
      | AnObject => None
      | AnArray items => Some items
      end
  | None => Some []
  end.

(** [exportData], l.84-171, as the server receives it; [now] is the
    browser's [new Date().toISOString()]. *)
Definition exportData (now : string) (ls : local_storage)
    (redux : option redux_state) : browser_data :=
  {| bd_wallets := Some (exported_wallets ls (walletData ls redux));
     bd_preferences :=
       Some {| pf_locale := ls_SelectedLocale ls;
               pf_network := ls_SelectedNetwork ls;
               pf_colorMode := redux_field redux rx_appUiConfigs ui_theme;
               pf_hasAcknowledgedTerms := ls_OnboardingHasAcknowledgedTerms ls;
               pf_notificationsEnabled := true |};
     bd_tradingPreferences :=
       Some {| tf_defaultSlippage :=
                 redux_field redux rx_appUiConfigs ui_defaultSlippage;
               tf_tradeLayout :=
                 match redux with
                 | Some st =>
                     match rx_appUiConfigs st with
                     | Some ui => ui_tradeLayout ui
                     | None => None
                     end
                 | None => None
                 end;
               tf_chartPreferences :=
                 match redux with
                 | Some st => rx_tradingView st
                 | None => None
                 end;
               tf_displayUnit :=
                 redux_field redux rx_appUiConfigs ui_displayUnit |};
     bd_dismissedItems := Some (exported_dismissals now redux);
     bd_affiliates :=
       Some match redux with
            | Some st =>
                match rx_affiliates st with
                | Some a => a
                | None => {| ai_keys := 0; ai_address := JUndef;
                             ai_json := "{}" |}
                end
            | None => {| ai_keys := 0; ai_address := JUndef; ai_json := "{}" |}
            end;
     bd_transfers := or_empty_array redux rx_transfers;
     bd_swaps := or_empty_array redux rx_swaps |}.

(** ** The offline data access layer (the client of the local API)

    What [fetch] against the local API comes back with: no answer, or an
    answer with its status code and its JSON body. *)
Inductive http (A : Type) : Type :=
| Unreachable (msg : string)
| Answered (code : nat) (body : A).
Arguments Unreachable {A} _.
Arguments Answered {A} _ _.

(** [response.ok] *)
Definition ok (code : nat) : bool := Nat.leb 200 code && Nat.leb code 299.

(** A [SyncResult] in the hands of the client: the body the server sent, or
    the object the client makes up when the call threw
    ([success: false], [synced: {}], one error). *)
Inductive client_result (B : Type) : Type :=
| Received (body : B)
| Failed (timestamp : string) (errors : list string).
Arguments Received {B} _.
Arguments Failed {B} _ _.

(** A timestamp as it comes out of a JSON row. *)
Inductive stamp : Type :=
| Str (s : string)
| Num (z : Z).

(** An entry of the cache of [OfflineDataManager]. *)
Record cached (T : Type) : Type := {
  c_data : T;
  c_timestamp : Z
}.
Arguments c_data {T} _.
Arguments c_timestamp {T} _.

Record OfflineDataManager (T : Type) : Type := {
  walletAddress : string;
  cacheTimeout : Z;
  cache : list (string * cached T)
}.
Arguments walletAddress {T} _.
Arguments cacheTimeout {T} _.
Arguments cache {T} _.

(** What the getters of the manager keep in its cache. *)
Inductive any : Type :=
| AWallet (data : wallet_data)
| ABalances (rows : list account_balance)
| APositions (rows : list position)
| AOrders (rows : list order).

Module Client.

Section Platform.
(** [response.statusText] for a status code and [new Date(s).getTime()] for
    a string ([None] for NaN) are the platform's. *)
Variable statusText : nat -> string.
Variable date_time : string -> option Z.

(** [syncBrowserData], l.58-70. *)
Definition syncBrowserData {B} (answer : http B) : fetch_result B :=
  match answer with
  | Unreachable msg => Rejected msg
  | Answered code body =>
      if negb (ok code)
      then Rejected ("Failed to sync browser data: " ++ statusText code)
      else Resolved body
  end.

(** [syncBlockchainData], l.75-90. *)
Definition syncBlockchainData {B} (answer : http B) : fetch_result B :=
  match answer with
  | Unreachable msg => Rejected msg
  | Answered code body =>
      if negb (ok code)
      then Rejected ("Failed to sync blockchain data: " ++ statusText code)
      else Resolved body
  end.

(** [getSyncStatus], l.95-103. *)
Definition getSyncStatus {B} (answer : http B) : fetch_result B :=
  match answer with
  | Unreachable msg => Rejected msg
  | Answered code body =>
      if negb (ok code)
      then Rejected ("Failed to get sync status: " ++ statusText code)
      else Resolved body
  end.

(** [getWalletData], l.108-116. *)
Definition getWalletData {B} (answer : http B) : fetch_result B :=
  match answer with
  | Unreachable msg => Rejected msg
  | Answered code body =>
      if negb (ok code)
      then Rejected ("Failed to get wallet data: " ++ statusText code)
      else Resolved body
  end.

(** [await p] followed by a projection of its value. *)
Definition and_then {A B} (p : fetch_result A) (f : A -> B) : fetch_result B :=
  match p with
  | Rejected msg => Rejected msg
  | Resolved a => Resolved (f a)
  end.

(** [getLocalBalances], [getLocalPositions], [getLocalOrders], l.121-140. *)
Definition getLocalBalances (answer : http wallet_data)
    : fetch_result (list account_balance) :=
  and_then (getWalletData answer) wd_balances.

Definition getLocalPositions (answer : http wallet_data)
    : fetch_result (list position) :=
  and_then (getWalletData answer) wd_positions.

Definition getLocalOrders (answer : http wallet_data)
    : fetch_result (list order) :=
  and_then (getWalletData answer) wd_orders.

(** [try { r = await call } catch (err) { r = {success: false, ...} }],
    l.204-215 and l.218-229. *)
Definition caught {B} (now : string) (call : fetch_result B) : client_result B :=
  match call with
  | Resolved body => Received body
  | Rejected msg => Failed now [msg]
  end.

(** [autoSyncAllData], l.191-232, given the answers to its two requests;
    [now] is the client's [new Date().toISOString()]. *)
Definition autoSyncAllData {B1 B2} (now : string)
    (browser_answer : http B1) (blockchain_answer : http B2)
    : client_result B1 * client_result B2 :=
  (caught now (syncBrowserData browser_answer),
   caught now (syncBlockchainData blockchain_answer)).

(** [status?.last_sync_at || null] *)
Definition or_null (v : sqlval) : option stamp :=
  match v with
  | Null => None
  | Text s => if String.eqb s "" then None else Some (Str s)
  | Int z => if Z.eqb z 0 then None else Some (Num z)
  end.

(** [getLastSyncTimestamp], l.237-248, given the answer to its request. *)
Definition getLastSyncTimestamp (answer : http (list sync_meta))
    (dataType : string) : option stamp :=
  match getSyncStatus answer with
  | Resolved statuses =>
      match find (fun s => col_is (sm_data_type s) dataType) statuses with
      | Some status => or_null (sm_last_sync_at status)
      | None => None
      end
  | Rejected _ => None
  end.

(** [new Date(lastSync).getTime()] *)
Definition getTime (lastSync : stamp) : option Z :=
  match lastSync with
  | Str s => date_time s
  | Num z => if Z.leb (Z.abs z) 8640000000000000 then Some z else None
  end.

(** [needsSync], l.254-269; [now] is [Date.now()]. *)
Definition needsSync (answer : http (list sync_meta)) (dataType : string)
    (intervalMs : Z) (now : Z) : bool :=
  match getLastSyncTimestamp answer dataType with
  | None => true
  | Some lastSync =>
      match getTime lastSync with
      | Some lastSyncTime => Z.ltb intervalMs (now - lastSyncTime)
      | None => false
      end
  end.

(** The default of [intervalMs], l.257. *)
Definition five_minutes : Z := 5 * 60 * 1000.

End Platform.

(** *** [OfflineDataManager], l.274-365 *)

(** [new OfflineDataManager(walletAddress, cacheTimeout = 60000)] *)
Definition create {T} (address : string) (timeout : option Z)
    : OfflineDataManager T :=
  {| walletAddress := address;
     cacheTimeout := match timeout with Some t => t | None => 60000%Z end;
     cache := [] |}.

(** [this.cache.get(key)] *)
Definition cache_get {T} (key : string) (c : list (string * cached T))
    : option (cached T) :=
  option_map snd (find (fun kv => String.eqb (fst kv) key) c).

(** [this.cache.set(key, value)]: a key that is present keeps its place. *)
Fixpoint cache_set {T} (key : string) (value : cached T)
    (c : list (string * cached T)) : list (string * cached T) :=
  match c with
  | [] => [(key, value)]
  | kv :: rest =>
      if String.eqb (fst kv) key then (key, value) :: rest
      else kv :: cache_set key value rest
  end.

(** [getCached], l.288-299.  [now] is [Date.now()] when the entry is looked
    up; [fetcher] is what the fetcher comes back with if it is called, and
    [later] is [Date.now()] once it has. *)
Definition getCached {T} (m : OfflineDataManager T) (key : string) (now : Z)
    (fetcher : fetch_result T) (later : Z)
    : fetch_result T * OfflineDataManager T :=
  let refill :=
    match fetcher with
    | Rejected msg => (Rejected msg, m)
    | Resolved data =>
        (Resolved data,
         {| walletAddress := walletAddress m;
            cacheTimeout := cacheTimeout m;
            cache := cache_set key {| c_data := data; c_timestamp := later |}
                       (cache m) |})
    end in
  match cache_get key (cache m) with
  | Some entry =>
      if Z.ltb (now - c_timestamp entry) (cacheTimeout m)
      then (Resolved (c_data entry), m)
      else refill
  | None => refill
  end.

(** [clearCache], l.304-306. *)
Definition clearCache {T} (m : OfflineDataManager T) : OfflineDataManager T :=
  {| walletAddress := walletAddress m;
     cacheTimeout := cacheTimeout m;
     cache := [] |}.

Section Getters.
Variable statusText : nat -> string.

(** [getWalletData], [getBalances], [getPositions], [getOrders], l.311-334,
    given the answer of GET /wallet/<walletAddress> if it is asked. *)
Definition getWalletData_cached (m : OfflineDataManager any) (now : Z)
    (answer : http wallet_data) (later : Z) :=
  getCached m "walletData" now
    (and_then (getWalletData statusText answer) AWallet) later.

Definition getBalances (m : OfflineDataManager any) (now : Z)
    (answer : http wallet_data) (later : Z) :=
  getCached m "balances" now
    (and_then (getLocalBalances statusText answer) ABalances) later.

Definition getPositions (m : OfflineDataManager any) (now : Z)
    (answer : http wallet_data) (later : Z) :=
  getCached m "positions" now
    (and_then (getLocalPositions statusText answer) APositions) later.

Definition getOrders (m : OfflineDataManager any) (now : Z)
    (answer : http wallet_data) (later : Z) :=
  getCached m "orders" now
    (and_then (getLocalOrders statusText answer) AOrders) later.

(** [syncAll], l.353-357. *)
Definition syncAll {T B1 B2} (m : OfflineDataManager T) (now : string)
    (browser_answer : http B1) (blockchain_answer : http B2)
    : (client_result B1 * client_result B2) * OfflineDataManager T :=
  let result :=
    autoSyncAllData statusText now browser_answer blockchain_answer in
  (result, clearCache m).
End Getters.

End Client.

(** *** The client wired to the server

    The requests of the client answered by the endpoints of [server.js]
    on store [d]. *)

(** POST /sync/browser-data, then POST /sync/blockchain-data with
    [{ blackbottleAddress: walletAddress, indexerUrl }]. *)
Definition auto_sync (statusText : nat -> string) (clk : clock) (now : string)
    (fetch_all : string -> string -> fetched) (d : db)
    (address : string) (browserData : option browser_data)
    (indexerUrl : jsval)
    : (client_result response_body * client_result chain_response_body) * db :=
  let (r1, d1) := post_sync_browser_data clk d browserData in
  let (r2, d2) :=
    post_sync_blockchain_data clk d1 fetch_all
      {| cr_blackbottleAddress := JStr address; cr_indexerUrl := indexerUrl |} in
  (Client.autoSyncAllData statusText now
     (Answered (status r1) (payload r1))
     (Answered (c_status r2) (c_payload r2)), d2).

(** GET /wallet/<address> *)
Definition wallet_answer (d : db) (address : string) : http wallet_data :=
  Answered 200 (get_wallet d address).

(** The order of SQLite on stored values: NULL, then numbers, then text. *)
Definition sql_leb (a b : sqlval) : bool :=
  match a, b with
  | Null, _ => true
  | _, Null => false
  | Int x, Int y => Z.leb x y
  | Int _, Text _ => true
  | Text _, Int _ => false
  | Text s, Text t => String.leb s t
  end.

(** A possible answer of GET /sync/status/<address>: the ledger rows of
    the wallet, latest first. *)
Definition status_answer (d : db) (address : string)
    (rows : list sync_meta) : Prop :=
  arranged (fun x y => sql_leb (sm_last_sync_at y) (sm_last_sync_at x) = true)
           (sync_status d address) rows.

(** [manager.syncAll(browserData, indexerUrl)] against the server. *)
Definition sync_all {T} (statusText : nat -> string) (clk : clock)
    (now : string) (fetch_all : string -> string -> fetched) (d : db)
    (m : OfflineDataManager T) (browserData : option browser_data)
    (indexerUrl : jsval)
    : ((client_result response_body * client_result chain_response_body)
       * OfflineDataManager T) * db :=
  let (r1, d1) := post_sync_browser_data clk d browserData in
  let (r2, d2) :=
    post_sync_blockchain_data clk d1 fetch_all
      {| cr_blackbottleAddress := JStr (walletAddress m);
         cr_indexerUrl := indexerUrl |} in
  (Client.syncAll statusText m now
     (Answered (status r1) (payload r1))
     (Answered (c_status r2) (c_payload r2)), d2).

(** ** Initialising the store (init-db.js)

    A text is the list of the bytes of its UTF-8 encoding.  The separator
    and the comment mark are ASCII, which no byte of a longer character is,
    so cutting at a byte and testing a prefix of bytes is cutting at a
    character and testing a prefix of characters. *)

(** The white space of one byte: tab, line feed, vertical tab, form feed,
    carriage return and space. *)
Definition is_space (c : Ascii.ascii) : bool :=
  let n := Ascii.nat_of_ascii c in
  (Nat.leb 9 n && Nat.leb n 13) || Nat.eqb n 32.

(** The white space of two bytes: U+00A0. *)
Definition is_space2 (a b : Ascii.ascii) : bool :=
  Nat.eqb (Ascii.nat_of_ascii a) 194 && Nat.eqb (Ascii.nat_of_ascii b) 160.

(** The white space of three bytes: U+1680, U+2000 to U+200A, U+2028,
    U+2029, U+202F, U+205F, U+3000 and U+FEFF. *)
Definition is_space3 (a b c : Ascii.ascii) : bool :=
  let x := Ascii.nat_of_ascii a in
  let y := Ascii.nat_of_ascii b in
  let z := Ascii.nat_of_ascii c in
  (Nat.eqb x 225 && Nat.eqb y 154 && Nat.eqb z 128)
  || (Nat.eqb x 226 && Nat.eqb y 128
      && ((Nat.leb 128 z && Nat.leb z 138) || Nat.eqb z 168 || Nat.eqb z 169
          || Nat.eqb z 175))
  || (Nat.eqb x 226 && Nat.eqb y 129 && Nat.eqb z 159)
  || (Nat.eqb x 227 && Nat.eqb y 128 && Nat.eqb z 128)
  || (Nat.eqb x 239 && Nat.eqb y 187 && Nat.eqb z 191).

Fixpoint trim_start (s : string) : string :=
  match s with
  | EmptyString => EmptyString
  | String a r1 =>
      if is_space a then trim_start r1
      else
        match r1 with
        | EmptyString => s
        | String b r2 =>
            if is_space2 a b then trim_start r2
            else
              match r2 with
              | EmptyString => s
              | String c r3 => if is_space3 a b c then trim_start r3 else s
              end
        end
  end.

(** The text is white space throughout. *)
Fixpoint all_space (s : string) : bool :=
  match s with
  | EmptyString => true
  | String a r1 =>
      if is_space a then all_space r1
      else
        match r1 with
        | EmptyString => false
        | String b r2 =>
            if is_space2 a b then all_space r2
            else
              match r2 with
              | EmptyString => false
              | String c r3 => is_space3 a b c && all_space r3
              end
        end
  end.

Fixpoint trim_end (s : string) : string :=
  match s with
  | EmptyString => EmptyString
  | String a rest => if all_space s then EmptyString else String a (trim_end rest)
  end.

(** [s.trim()] *)
Definition trim (s : string) : string := trim_end (trim_start s).

(** The statements [initializeDatabase] executes, l.25-28:
<<
    schema.split(';').map(stmt => stmt.trim())
          .filter(stmt => stmt.length > 0 && !stmt.startsWith('--'))
>> *)
Definition statements (schema : string) : list string :=
  filter (fun stmt => Nat.ltb 0 (String.length stmt)
                      && negb (String.prefix "--" stmt))
         (map trim (split_on ";"%char schema)).

(** ** Vocabulary of the further properties *)

(** Table [T'] is table [T] grown: it starts with the rows of [T], in their
    order and equal to them under [blank], and goes on with rows added
    since. *)
Definition grown_from {R B} (blank : R -> B) (T T' : list R) : Prop :=
  exists kept added,
    T' = (kept ++ added)%list /\ map blank kept = map blank T.

(** An order without the three columns its upsert refreshes. *)
Definition order_as_created (o : order) : order :=
  {| od_wallet_address := od_wallet_address o;
     od_order_id := od_order_id o;
     od_client_id := od_client_id o;
     od_market := od_market o;
     od_side := od_side o;
     od_type := od_type o;
     od_status := Null;
     od_price := od_price o;
     od_trigger_price := od_trigger_price o;
     od_size := od_size o;
     od_remaining_size := Null;
     od_post_only := od_post_only o;
     od_reduce_only := od_reduce_only o;
     od_time_in_force := od_time_in_force o;
     od_good_til_block := od_good_til_block o;
     od_created_at := od_created_at o;
     od_updated_at := Null |}.

(** What identifies a market: its id and its two assets. *)
Definition market_listing (m : market) : sqlval * sqlval * sqlval :=
  (mk_market_id m, mk_base_asset m, mk_quote_asset m).

(** A fetched record whose row satisfies the NOT NULL columns of its
    table. *)
Definition well_formed_order (o : orderRec) : Prop :=
  first_null orders_def (Chain.order_row o) = None.

Definition well_formed_fill (f : fillRec) : Prop :=
  first_null fills_def (Chain.fill_row f) = None.

(** A reply with two sub-accounts and the balances the fetcher makes of
    it. *)
Definition second_subaccount : subaccount :=
  {| sa_equity := JStr "250"; sa_freeCollateral := JStr "200" |}.

Definition second_balance : balanceRec :=
  {| b_walletAddress := JStr "dydx1alice";
     b_chainId := JStr "blackbottle-mainnet-1";
     b_tokenSymbol := JStr "USDC";
     b_tokenDenom := JStr USDC_DENOM;
     b_balance := JStr "250";
     b_availableBalance := JStr "200";
     b_lockedBalance := JStr "0" |}.

Definition two_subaccounts : indexer_reply :=
  Fetched (Some (Some [equity_only; second_subaccount])).

Definition fresh_chain_state : state chain_synced :=
  {| st_db := empty_db; st_synced := chain_zero; st_errors := [] |}.

(** An export with preferences and two dismissed items, one of them twice. *)
Definition alice_preferences : preferences :=
  {| pf_locale := JStr "fr"; pf_network := JUndef; pf_colorMode := JStr "dark";
     pf_hasAcknowledgedTerms := true; pf_notificationsEnabled := false |}.

Definition tour_item : dismissedItem :=
  {| di_key := JStr "tour"; di_dismissedAt := JStr "2024-04-01T08:00:00.000Z" |}.

Definition alice_export : browser_data :=
  {| bd_wallets := Some [dydx_wallet; evm_wallet];
     bd_preferences := Some alice_preferences;
     bd_tradingPreferences := None;
     bd_dismissedItems := Some [welcome_item; tour_item; welcome_item];
     bd_affiliates := None; bd_transfers := None; bd_swaps := None |}.

(** The states the five record steps of [syncBrowserData] lead to, one
    after the other, for primary address [a]. *)
Definition after_wallets (clk : clock) (a : jsval) (data : browser_data)
    (s : state browser_synced) : state browser_synced :=
  match bd_wallets data with
  | Some ws =>
      fold_left
        (fun s w =>
           attempt user_wallets
             (stmt user_wallets_def Browser.on_wallet_conflict) no_fk
             inc_wallets (Browser.wallet_row clk a w)
             (fun err =>
                Some ("Wallet " ++ render (w_address w) ++ ": " ++ message err))
             s) ws s
  | None => s
  end.

Definition after_preferences (clk : clock) (a : jsval) (data : browser_data)
    (s : state browser_synced) : state browser_synced :=
  match bd_preferences data with
  | Some p =>
      attempt user_preferences
        (stmt user_preferences_def Browser.on_pref_conflict) no_fk
        inc_preferences (Browser.pref_row clk a p)
        (fun err => Some ("Preferences: " ++ message err)) s
  | None => s
  end.

Definition after_tradingPreferences (clk : clock) (a : jsval)
    (data : browser_data) (s : state browser_synced) : state browser_synced :=
  match bd_tradingPreferences data with
  | Some p =>
      attempt trading_preferences
        (stmt trading_preferences_def Browser.on_tradePref_conflict) no_fk
        inc_tradingPreferences (Browser.tradePref_row clk a p)
        (fun err => Some ("Trading preferences: " ++ message err)) s
  | None => s
  end.

Definition after_dismissedItems (clk : clock) (a : jsval)
    (data : browser_data) (s : state browser_synced) : state browser_synced :=
  match bd_dismissedItems data with
  | Some items =>
      fold_left
        (fun s item =>
           attempt dismissed_items (stmt dismissed_items_def DoNothing) no_fk
             inc_dismissedItems (Browser.dismissed_row clk a item)
             (fun err =>
                Some ("Dismissed item " ++ render (di_key item) ++ ": "
                        ++ message err)) s) items s
  | None => s
  end.

Definition after_affiliates (clk : clock) (a : jsval) (data : browser_data)
    (s : state browser_synced) : state browser_synced :=
  match bd_affiliates data with
  | Some i =>
      if Nat.ltb 0 (ai_keys i) then
        attempt affiliates (stmt affiliates_def Browser.on_affiliate_conflict)
          no_fk inc_affiliates (Browser.affiliate_row clk a i)
          (fun err => Some ("Affiliates: " ++ message err)) s
      else s
  | None => s
  end.

Definition after_records (clk : clock) (a : jsval) (data : browser_data)
    (s : state browser_synced) : state browser_synced :=
  after_affiliates clk a data
    (after_dismissedItems clk a data
       (after_tradingPreferences clk a data
          (after_preferences clk a data (after_wallets clk a data s)))).

(** A wallet record that is stored afresh by every pass: it has a type and
    an address but no chain id, and a NULL chain_id never collides. *)
Definition chainless (w : wallet) : bool :=
  negb (is_null (bind_param (w_type w)))
  && negb (is_null (bind_param (w_address w)))
  && negb (truthy (w_chainId w)).

(** An export every record of which satisfies the NOT NULL columns of its
    table: the wallets have a type and an address, the dismissed items a
    key. *)
Definition well_formed_export (data : browser_data) : Prop :=
  (forall ws w, bd_wallets data = Some ws -> In w ws ->
     is_null (bind_param (w_type w)) = false
     /\ is_null (bind_param (w_address w)) = false)
  /\ (forall items i, bd_dismissedItems data = Some items -> In i items ->
        is_null (bind_param (di_key i)) = false).

(** No row of the three tables that reference [users] is linked to a
    user. *)
Definition unlinked (d : db) : Prop :=
  Forall (fun r => uw_user_id r = Null) (t_user_wallets d)
  /\ Forall (fun r => up_user_id r = Null) (t_user_preferences d)
  /\ Forall (fun r => tp_user_id r = Null) (t_trading_preferences d).

(** A wallet exported without a chain id. *)
Definition solana_wallet : wallet :=
  {| w_type := JStr "solana"; w_address := JStr "So1anaA1ice";
     w_chainId := JUndef |}.

Definition chainless_export : browser_data :=
  bare_export (Some [dydx_wallet; solana_wallet]).

(** The constraints of the users table: ids are positive, distinct and not
    above the recorded sequence; emails that are not NULL are distinct. *)
Definition users_ok (s : Users.store) : Prop :=
  (forall u, In u (Users.us_users s) ->
     (0 < Users.u_id u <= Users.us_sequence s)%Z)
  /\ NoDup (map Users.u_id (Users.us_users s))
  /\ NoDup (filter (fun e => negb (is_null e))
                   (map Users.u_email (Users.us_users s))).

(** A store with one registered user. *)
Definition carol : Users.user :=
  {| Users.u_id := 4; Users.u_email := Text "carol@example.org";
     Users.u_name := Text "Carol";
     Users.u_created_at := Text "2024-04-01 08:00:00";
     Users.u_updated_at := Text "2024-04-01 08:00:00" |}.

Definition carol_store : Users.store :=
  {| Users.us_users := [carol]; Users.us_sequence := 6;
     Users.us_data := empty_db |}.

(** A JSON field that binds to a value, not to NULL. *)
Definition has (v : jsval) : bool := negb (is_null (bind_param v)).

(** An order and a fill of the indexer with the fields their tables
    require. *)
Definition complete_order (x : indexer_order) : bool :=
  has (io_id x) && has (js_or (io_ticker x) (io_market x)) && has (io_side x)
  && has (io_type x) && has (io_status x) && has (io_size x).

Definition complete_fill (x : indexer_fill) : bool :=
  has (if_id x) && has (if_orderId x)
  && has (js_or (if_market x) (if_ticker x)) && has (if_side x)
  && has (if_size x) && has (if_price x).

(** The indexer's orders over all the sub-accounts that answered with a
    list. *)
Definition listed_orders (subaccounts : list jsval)
    (orders_at : jsval -> fetch_result (option (list indexer_order)))
    (x : indexer_order) : Prop :=
  exists subaccount ordersData,
    In subaccount subaccounts
    /\ orders_at subaccount = Resolved (Some ordersData)
    /\ In x ordersData.

(** An order and a fill as the indexer lists them, and an indexer of which
    one sub-account answers and the other does not. *)
Definition listed_order : indexer_order :=
  {| io_id := JStr "order-9"; io_clientId := JUndef;
     io_ticker := JStr "BTC-USD"; io_market := JUndef; io_side := JStr "BUY";
     io_type := JStr "LIMIT"; io_status := JStr "OPEN";
     io_price := JStr "61000"; io_triggerPrice := JUndef;
     io_size := JStr "2"; io_remainingSize := JUndef;
     io_postOnly := false; io_reduceOnly := false;
     io_timeInForce := JStr "GTT"; io_goodTilBlock := JUndef;
     io_createdAt := JUndef; io_updatedAt := JUndef |}.

Definition listed_fill : indexer_fill :=
  {| if_id := JStr "fill-9"; if_orderId := JStr "order-9";
     if_market := JStr "BTC-USD"; if_ticker := JUndef; if_side := JStr "BUY";
     if_size := JStr "1"; if_price := JStr "61000"; if_fee := JUndef;
     if_liquidity := JStr "TAKER"; if_type := JUndef;
     if_createdAt := JUndef |}.

Definition sample_orders_at (subaccount : jsval)
    : fetch_result (option (list indexer_order)) :=
  if js_strict_eq subaccount (JStr "sub-0")
  then Resolved (Some [listed_order])
  else Rejected "HTTP 500: Internal Server Error".

(** The persisted state holds a transfers slice and a swaps slice, neither
    of them an array. *)
Definition slices_are_objects (redux : option redux_state) : bool :=
  match redux with
  | Some st =>
      match rx_transfers st, rx_swaps st with
      | AnObject, AnObject => true
      | _, _ => false
      end
  | None => false
  end.

(** The browser knows at least one address. *)
Definition knows_an_address (w : wallet_addresses) : bool :=
  truthy (wa_evmAddress w) || truthy (wa_blackbottleAddress w)
  || truthy (wa_solanaAddress w) || truthy (wa_nobleAddress w).

(** A browser with two addresses in localStorage and a persisted state. *)
Definition alice_storage : local_storage :=
  {| ls_EvmAddress := JStr "0xA11CE"; ls_DydxAddress := JStr "dydx1alice";
     ls_SolAddress := JUndef; ls_EvmChainId := JUndef;
     ls_SelectedLocale := JStr "fr"; ls_SelectedNetwork := JStr "mainnet";
     ls_OnboardingHasAcknowledgedTerms := true |}.

Definition alice_redux : redux_state :=
  {| rx_wallet := None;
     rx_appUiConfigs :=
       Some {| ui_theme := JStr "dark"; ui_defaultSlippage := JUndef;
               ui_tradeLayout := None; ui_displayUnit := JStr "USD" |};
     rx_tradingView := None;
     rx_dismissable := Some [("welcome_dialog", true); ("tour", false)];
     rx_affiliates := None;
     rx_transfers := AnObject;
     rx_swaps := AnObject |}.

(** The key of a ledger row: UNIQUE(wallet_address, data_type). *)
Definition ledger_key (r : sync_meta) : sqlval * sqlval :=
  (sm_wallet_address r, sm_data_type r).

(** A client whose platform parses every timestamp to one instant. *)
Definition plain_status_text (code : nat) : string :=
  match code with
  | 400 => "Bad Request"
  | 500 => "Internal Server Error"
  | _ => "OK"
  end.

Definition parsed_at (t : Z) (s : string) : option Z := Some t.

(** The cache of manager [m] has no entry for [key] that is still fresh at
    time [now]. *)
Definition missing_or_stale {T} (m : OfflineDataManager T) (key : string)
    (now : Z) : bool :=
  match Client.cache_get key (cache m) with
  | Some entry => negb (Z.ltb (now - c_timestamp entry) (cacheTimeout m))
  | None => true
  end.

(** What [getCached] does when it has to ask the fetcher. *)
Definition refilled {T} (m : OfflineDataManager T) (key : string)
    (fetcher : fetch_result T) (later : Z)
    : fetch_result T * OfflineDataManager T :=
  match fetcher with
  | Rejected msg => (Rejected msg, m)
  | Resolved data =>
      (Resolved data,
       {| walletAddress := walletAddress m;
          cacheTimeout := cacheTimeout m;
          cache := Client.cache_set key
                     {| c_data := data; c_timestamp := later |} (cache m) |})
  end.

(** A manager that has cached a wallet's data. *)
Definition warm_manager : OfflineDataManager any :=
  {| walletAddress := "dydx1alice"; cacheTimeout := 60000;
     cache := [("balances", {| c_data := ABalances []; c_timestamp := 1000 |})] |}.

(** Two chunks of [schema.sql] as [split(';')] cuts them: l.20-32, the
    table of the wallets under its comment line, and l.33-35, its two
    indexes. *)
Definition user_wallets_chunk : string := "

-- User wallet addresses
CREATE TABLE IF NOT EXISTS user_wallets (
  id INTEGER PRIMARY KEY AUTOINCREMENT,
  user_id INTEGER,
  wallet_type TEXT NOT NULL, -- 'evm', 'solana', 'dydx', 'cosmos'
  address TEXT NOT NULL,
  chain_id TEXT, -- e.g., '1' for Ethereum mainnet, 'dydx-mainnet-1'
  is_primary BOOLEAN DEFAULT 0,
  created_at TEXT DEFAULT (datetime('now')),
  FOREIGN KEY (user_id) REFERENCES users(id) ON DELETE CASCADE,
  UNIQUE(wallet_type, address, chain_id)
)".

Definition user_wallets_indexes : string := "

CREATE INDEX IF NOT EXISTS idx_user_wallets_user_id ON user_wallets(user_id);
CREATE INDEX IF NOT EXISTS idx_user_wallets_address ON user_wallets(address);".

(** A users table about to run out of rowids, and one whose next rowid is no
    double. *)
Definition last_user : Users.user :=
  {| Users.u_id := Users.max_rowid; Users.u_email := Text "zed@example.org";
     Users.u_name := Null;
     Users.u_created_at := Text "2024-04-01 08:00:00";
     Users.u_updated_at := Text "2024-04-01 08:00:00" |}.

Definition full_store : Users.store :=
  {| Users.us_users := [last_user]; Users.us_sequence := Users.max_rowid;
     Users.us_data := empty_db |}.

Definition big_store : Users.store :=
  {| Users.us_users := []; Users.us_sequence := 2 ^ 53;
     Users.us_data := empty_db |}.

(** ** Request bodies that are no exports

    [browser_data] describes the bodies the exporter sends, in which
    [wallets] is missing or a list of objects.  JSON lets [wallets] be any
    value and the entries of a list be any values, and [syncBrowserData] and
    its endpoint are run on those too: [Raw] reads [wallets] as JSON gives
    it and takes the other properties from a [browser_data]. *)

(** An entry of the list: null; a falsy value of another kind (false, 0, the
    empty string); or an object, or another truthy value, with the
    properties [type], [address] and [chainId] read from it. *)
Inductive wallet_entry : Type :=
| ENull
| EFalsy
| EObject (w : wallet).

(** [data.wallets]: missing or null; false, 0 or the empty string; another
    value that is no array, with whether its [length] is 0; or an array. *)
Inductive wallets_value : Type :=
| WMissing
| WFalsy
| WOther (length_is_zero : bool)
| WArray (entries : list wallet_entry).

(** The messages of the TypeErrors of the platform: calling
    [data.wallets.find] when it is no function, and reading a property of
    null. *)
Record type_errors : Type := {
  not_a_function : string;
  reading_of_null : string -> string
}.

(** The wallets of an export as JSON carries them. *)
Definition shaped (ws : option (list wallet)) : wallets_value :=
  match ws with
  | None => WMissing
  | Some l => WArray (map EObject l)
  end.

Module Raw.

(** The properties of an entry, if it can have any. *)
Definition properties (e : wallet_entry) : option wallet :=
  match e with
  | ENull => None
  | EFalsy => Some {| w_type := JUndef; w_address := JUndef;
                      w_chainId := JUndef |}
  | EObject w => Some w
  end.

(** [entries.find(w => w.type === t)] *)
Fixpoint find_type (te : type_errors) (t : string) (es : list wallet_entry)
    : sqlerr + option wallet :=
  match es with
  | [] => inr None
  | e :: rest =>
      match properties e with
      | None => inl (EJs (reading_of_null te "type"))
      | Some w =>
          if js_strict_eq (w_type w) (JStr t) then inr (Some w)
          else find_type te t rest
      end
  end.

(** l.31-33; [inr None] is a [primaryWallet] that is falsy. *)
Definition primaryWallet (te : type_errors) (wallets : wallets_value)
    : sqlerr + option wallet :=
  match wallets with
  | WMissing => inr None
  | WFalsy | WOther _ => inl (EJs (not_a_function te))
  | WArray es =>
      match find_type te "dydx" es with
      | inl err => inl err
      | inr (Some w) => inr (Some w)
      | inr None =>
          match find_type te "evm" es with
          | inl err => inl err
          | inr (Some w) => inr (Some w)
          | inr None =>
              match es with
              | EObject w :: _ => inr (Some w)
              | _ => inr None
              end
          end
      end
  end.

(** 1. Insert/update wallet addresses, l.46-67.  For an entry that is null
    the statement is not run, and the catch clause throws in its turn when
    it reads [wallet.address]. *)
Definition syncWallets (te : type_errors) (clk : clock) (walletAddress : jsval)
    (wallets : wallets_value) : M browser_synced unit :=
  stmt <- lift Browser.walletStmt ;;
  match wallets with
  | WArray es =>
      for_each (fun e =>
        match properties e with
        | None => throw (EJs (reading_of_null te "address"))
        | Some w =>
            try_catch
              (run user_wallets stmt no_fk
                 (Browser.wallet_row clk walletAddress w) ;;;
               count inc_wallets)
              (fun err =>
                 push_error ("Wallet " ++ render (w_address w) ++ ": "
                               ++ message err))
        end) es
  | _ => ret tt
  end.

(** The function handed to [db.transaction], l.29-292. *)
Definition body (te : type_errors) (clk : clock) (wallets : wallets_value)
    (data : browser_data) : M browser_synced unit :=
  match primaryWallet te wallets with
  | inl err => throw err
  | inr None => throw (EJs "No wallet address found in export data")
  | inr (Some primary) =>
      let walletAddress := w_address primary in
      syncWallets te clk walletAddress wallets ;;;
      Browser.syncPreferences clk walletAddress data ;;;
      Browser.syncTradingPreferences clk walletAddress data ;;;
      Browser.syncDismissedItems clk walletAddress data ;;;
      Browser.syncAffiliates clk walletAddress data ;;;
      Browser.syncTransfers clk walletAddress data ;;;
      Browser.syncSwaps clk walletAddress data ;;;
      Browser.updateSyncMetadata clk walletAddress
  end.

(** [syncBrowserData(db, data)], l.11-304. *)
Definition syncBrowserData (te : type_errors) (clk : clock) (d : db)
    (wallets : wallets_value) (data : browser_data)
    : sync_result browser_synced * db :=
  let s0 := {| st_db := d; st_synced := browser_zero; st_errors := [] |} in
  match transaction (body te clk wallets data) s0 with
  | (inr _, s) =>
      ({| success := true; timestamp := js_now clk;
          synced := st_synced s; errors := st_errors s |}, st_db s)
  | (inl err, s) =>
      ({| success := false; timestamp := js_now clk;
          synced := st_synced s;
          errors := app (st_errors s) ["Transaction failed: " ++ message err] |},
       st_db s)
  end.

(** [!data.wallets || data.wallets.length === 0], server.js l.82. *)
Definition turned_down (wallets : wallets_value) : bool :=
  match wallets with
  | WMissing | WFalsy => true
  | WOther length_is_zero => length_is_zero
  | WArray [] => true
  | WArray (_ :: _) => false
  end.

(** POST /sync/browser-data, server.js l.79-96. *)
Definition post_sync_browser_data (te : type_errors) (clk : clock) (d : db)
    (req_body : option (wallets_value * browser_data)) : response * db :=
  match req_body with
  | None =>
      ({| status := 400;
          payload := ErrorBody "Invalid data: wallets array required" |}, d)
  | Some (wallets, data) =>
      if turned_down wallets then
        ({| status := 400;
            payload := ErrorBody "Invalid data: wallets array required" |}, d)
      else
        let (result, d') := syncBrowserData te clk d wallets data in
        if success result
        then ({| status := 200; payload := ResultBody result |}, d')
        else ({| status := 500; payload := ResultBody result |}, d')
  end.

End Raw.

(** No wallet address can be extracted: [primaryWallet] is not found, or
    the wallet found carries no address. *)
Definition ownerless (te : type_errors) (wallets : wallets_value) : bool :=
  match Raw.primaryWallet te wallets with
  | inr (Some w) => is_null (bind_param (w_address w))
  | _ => true
  end.

(** The status the specification asks a rejection to carry. *)
Definition is_4xx (code : nat) : bool := Nat.leb 400 code && Nat.ltb code 500.

(** The messages of a current V8. *)
Definition v8 : type_errors :=
  {| not_a_function := "data.wallets?.find is not a function";
     reading_of_null := fun property =>
       "Cannot read properties of null (reading '" ++ property ++ "')" |}.

(** A primary wallet whose address is the empty string. *)
Definition blank_address_export : browser_data :=
  bare_export (Some [{| w_type := JStr "evm"; w_address := JStr "";
                        w_chainId := JStr "1" |}]).

(** A computation that throws from every state. *)
Definition always_throws {C} (k : M C unit) : Prop :=
  forall s, exists e s', k s = (inl e, s').

(** * Properties *)

Ltac conjs := repeat match goal with |- _ /\ _ => split end.

(** ** Values *)

Lemma sqlval_eqb_eq (a b : sqlval) : sqlval_eqb a b = true -> a = b.
Proof.
  destruct a, b; simpl; try discriminate; intro H.
  - reflexivity.
  - apply String.eqb_eq in H. now subst.
  - apply Z.eqb_eq in H. now subst.
Qed.

Lemma sqlval_eqb_refl (a : sqlval) : sqlval_eqb a a = true.
Proof.
  destruct a; simpl.
  - reflexivity.
  - apply String.eqb_refl.
  - apply Z.eqb_refl.
Qed.

Lemma prefix_app (p s : string) : String.prefix p (p ++ s) = true.
Proof.
  induction p as [|c p IH]; simpl.
  - now destruct s.
  - destruct (Ascii.ascii_dec c c) as [_|N]; [exact IH | now elim N].
Qed.

Lemma reported_app (pre : string) (a b : list string) :
  reported pre (a ++ b)%list = reported pre a + reported pre b.
Proof.
  unfold reported. now rewrite filter_app, length_app.
Qed.

(** ** The engine *)

Section EngineFacts.
Context {R : Type}.
Implicit Types (p : prepared R) (T : list R) (r x : R).

Lemma update_first_length (q : R -> bool) (f : R -> R) T :
  length (update_first q f T) = length T.
Proof.
  induction T as [|x T IH]; simpl; [reflexivity|].
  destruct (q x); simpl; congruence.
Qed.

Lemma update_first_In (q : R -> bool) (f : R -> R) T y :
  In y (update_first q f T) ->
  In y T \/ exists x, In x T /\ q x = true /\ y = f x.
Proof.
  induction T as [|x T IH]; simpl; [tauto|].
  destruct (q x) eqn:Q; simpl; intros [E|H].
  - right. exists x. auto.
  - auto.
  - auto.
  - destruct (IH H) as [H'|(z & Hz & Qz & Ez)]; [auto|].
    right. exists z. auto.
Qed.

(** A row the engine wrote is the proposed row, or the DO UPDATE of a
    stored row that collides with it on the conflict target. *)
Lemma exec_In p fk T r T' y :
  exec p fk T r = inr T' -> In y T' ->
  In y T \/ y = r \/
  exists set_cols x, p_action p = DoUpdate set_cols /\ In x T /\
                     collides (p_key p) r x = true /\ y = set_cols r x.
Proof.
  unfold exec. destruct (first_null (p_table p) r); [discriminate|].
  destruct (existsb (collides (p_key p) r) T).
  - destruct (p_action p) as [|set_cols] eqn:A; intros E Hy; inversion E; subst.
    + auto.
    + destruct (update_first_In _ _ _ _ Hy) as [H|(x & Hx & Q & Ey)]; [auto|].
      right. right. exists set_cols, x. auto.
  - destruct (find _ (td_unique (p_table p))); [discriminate|].
    destruct (fk r); [|discriminate].
    intros E Hy. inversion E; subst.
    apply in_app_or in Hy. destruct Hy as [H|[H|[]]]; auto.
Qed.

Lemma try_exec_In p fk T r y :
  In y (try_exec p fk T r) ->
  In y T \/ y = r \/
  exists set_cols x, p_action p = DoUpdate set_cols /\ In x T /\
                     collides (p_key p) r x = true /\ y = set_cols r x.
Proof.
  unfold try_exec. destruct (exec p fk T r) eqn:E; [auto|].
  apply exec_In with (1 := E).
Qed.
End EngineFacts.

(** ** The monad and the record loop *)

Section LoopFacts.
Context {C R : Type}.
Variables (t : table R) (p : prepared R) (fk_ok : db -> R -> bool)
          (bump : C -> C).
Hypothesis view_put : forall v d, view t (put t v d) = v.

Lemma try_run_eq (r : R) (report : sqlerr -> option string) (s : state C) :
  try_catch (run t p fk_ok r ;;; count bump)
            (fun err => match report err with
                        | Some msg => push_error msg
                        | None => ret tt
                        end) s
  = (inr tt, attempt t p fk_ok bump r report s).
Proof.
  unfold try_catch, bind, run, count, attempt.
  destruct (exec p (fk_ok (st_db s)) (view t (st_db s)) r) as [e|T']; simpl.
  - destruct (report e); reflexivity.
  - reflexivity.
Qed.

Lemma try_run_push_eq (r : R) (msg : sqlerr -> string) (s : state C) :
  try_catch (run t p fk_ok r ;;; count bump)
            (fun err => push_error (msg err)) s
  = (inr tt, attempt t p fk_ok bump r (fun err => Some (msg err)) s).
Proof. exact (try_run_eq r (fun err => Some (msg err)) s). Qed.

Lemma sync_each_eq {X} (row : X -> R) (report : X -> sqlerr -> option string)
    (xs : list X) (s : state C) :
  sync_each t p fk_ok row bump report xs s
  = (inr tt,
     fold_left (fun s x => attempt t p fk_ok bump (row x) (report x) s) xs s).
Proof.
  unfold sync_each. revert s.
  induction xs as [|x xs IH]; intro s; simpl; [reflexivity|].
  unfold bind at 1. rewrite try_run_eq. apply IH.
Qed.

(** What a guarded run does to its own table, to the others, to the
    counters and to the error list. *)
Lemma attempt_view r report s :
  view t (st_db (attempt t p fk_ok bump r report s))
  = try_exec p (fk_ok (st_db s)) (view t (st_db s)) r.
Proof.
  unfold attempt, try_exec.
  destruct (exec p (fk_ok (st_db s)) (view t (st_db s)) r) as [e|T']; simpl.
  - now destruct (report e).
  - apply view_put.
Qed.

(** Counted or reported or skipped in silence: the three ways a record
    leaves the loop. *)
Lemma attempt_tally r report s :
  exists (n : nat) (E : list string),
    st_synced (attempt t p fk_ok bump r report s) = Nat.iter n bump (st_synced s)
    /\ st_errors (attempt t p fk_ok bump r report s) = (st_errors s ++ E)%list
    /\ n + length E <= 1
    /\ (forall m, In m E -> exists e, report e = Some m)
    /\ ((forall e, report e <> None) -> n + length E = 1).
Proof.
  unfold attempt.
  destruct (exec p (fk_ok (st_db s)) (view t (st_db s)) r) as [e|T']; simpl.
  - destruct (report e) as [msg|] eqn:Rp; simpl.
    + exists 0, [msg]. simpl. repeat split; auto.
      intros m [<-|[]]. now exists e.
    + exists 0, []. simpl. rewrite app_nil_r. repeat split; auto.
      * intros m [].
      * intro H. now elim (H e).
  - exists 1, []. simpl. rewrite app_nil_r. repeat split; auto.
    intros m [].
Qed.

Section Loop.
Context {X : Type}.
Variables (row : X -> R) (report : X -> sqlerr -> option string).

Lemma loop_tally xs s :
  exists (n : nat) (E : list string),
    st_synced
      (fold_left (fun s x => attempt t p fk_ok bump (row x) (report x) s) xs s)
    = Nat.iter n bump (st_synced s)
    /\ st_errors
         (fold_left (fun s x => attempt t p fk_ok bump (row x) (report x) s) xs s)
       = (st_errors s ++ E)%list
    /\ n + length E <= length xs
    /\ (forall m, In m E -> exists x e, In x xs /\ report x e = Some m)
    /\ ((forall x e, report x e <> None) -> n + length E = length xs).
Proof.
  revert s. induction xs as [|x xs IH]; intro s; simpl.
  - exists 0, []. simpl. rewrite app_nil_r. repeat split; auto.
    intros m [].
  - destruct (IH (attempt t p fk_ok bump (row x) (report x) s))
      as (n2 & E2 & Hc2 & He2 & Hle2 & Hm2 & Hall2).
    destruct (attempt_tally (row x) (report x) s)
      as (n1 & E1 & Hc1 & He1 & Hle1 & Hm1 & Hall1).
    exists (n2 + n1), (E1 ++ E2)%list. repeat split.
    + rewrite Hc2, Hc1. now rewrite Nat.iter_add.
    + rewrite He2, He1. now rewrite app_assoc.
    + rewrite length_app. lia.
    + intros m Hin. apply in_app_or in Hin. destruct Hin as [Hin|Hin].
      * destruct (Hm1 m Hin) as (e & He). exists x, e. auto.
      * destruct (Hm2 m Hin) as (x' & e & Hx & He). exists x', e. auto.
    + intro H. rewrite length_app.
      specialize (Hall1 (H x)). specialize (Hall2 H). lia.
Qed.
End Loop.
End LoopFacts.

Section MoreLoopFacts.
Context {C R : Type}.
Variables (t : table R) (p : prepared R) (bump : C -> C).
Hypothesis view_put : forall v d, view t (put t v d) = v.
Hypothesis put_put : forall u v d, put t v (put t u d) = put t v d.

Lemma attempt_same_but fk_ok r report (s : state C) :
  same_but t (st_db s) (st_db (attempt t p fk_ok bump r report s)).
Proof.
  unfold same_but, attempt.
  destruct (exec p (fk_ok (st_db s)) (view t (st_db s)) r) as [e|T']; simpl.
  - now destruct (report e).
  - apply put_put.
Qed.

Lemma loop_same_but {X} fk_ok (row : X -> R) report xs (s : state C) :
  same_but t (st_db s)
    (st_db (fold_left
              (fun s x => attempt t p fk_ok bump (row x) (report x) s) xs s)).
Proof.
  revert s. induction xs as [|x xs IH]; intro s; simpl; [reflexivity|].
  unfold same_but in *. rewrite IH. apply attempt_same_but.
Qed.

(** Without foreign keys the loop acts on its table alone. *)
Lemma loop_view {X} (row : X -> R) report xs (s : state C) :
  view t (st_db (fold_left
              (fun s x => attempt t p no_fk bump (row x) (report x) s) xs s))
  = fold_left (fun T x => try_exec p (fun _ => true) T (row x)) xs
              (view t (st_db s)).
Proof.
  revert s. induction xs as [|x xs IH]; intro s; simpl; [reflexivity|].
  rewrite IH. f_equal. now rewrite attempt_view.
Qed.

(** The loop as a step of a pass. *)
Lemma sync_each_effect {X} fk_ok (row : X -> R)
    (report : X -> sqlerr -> option string) xs (s : state C) :
  exists s' n E,
    effect t bump (sync_each t p fk_ok row bump report xs) s s' n E
    /\ s' = fold_left
              (fun s x => attempt t p fk_ok bump (row x) (report x) s) xs s
    /\ n + length E <= length xs
    /\ (forall m, In m E -> exists x e, In x xs /\ report x e = Some m)
    /\ ((forall x e, report x e <> None) -> n + length E = length xs).
Proof.
  destruct (loop_tally t p fk_ok bump row report xs s)
    as (n & E & Hc & He & Hle & Hm & Hall).
  eexists. exists n, E. unfold effect.
  rewrite sync_each_eq. repeat split; auto.
  apply loop_same_but.
Qed.

(** A single guarded run as a step of a pass. *)
Lemma attempt_effect fk_ok r (msg : sqlerr -> string) (s : state C) :
  exists s' n E,
    effect t bump
      (try_catch (run t p fk_ok r ;;; count bump)
                 (fun err => push_error (msg err))) s s' n E
    /\ s' = attempt t p fk_ok bump r (fun err => Some (msg err)) s
    /\ n + length E = 1
    /\ (forall m, In m E -> exists e, m = msg e).
Proof.
  destruct (attempt_tally t p fk_ok bump r (fun err => Some (msg err)) s)
    as (n & E & Hc & He & Hle & Hm & Hall).
  eexists. exists n, E. unfold effect.
  rewrite try_run_push_eq. repeat split; auto.
  - apply attempt_same_but.
  - apply Hall. intros e H. discriminate.
  - intros m Hin. destruct (Hm m Hin) as (e & He'). exists e. congruence.
Qed.
End MoreLoopFacts.

(** A step that does nothing. *)
Lemma skip_effect {C R} (t : table R) (bump : C -> C) (s : state C) :
  effect t bump (ret tt) s s 0 [].
Proof.
  unfold effect, same_but. simpl. rewrite app_nil_r. auto.
Qed.

(** ** The prepared statements

    Which conflict targets the schema supports, and which it does not. *)

Lemma walletStmt_eq :
  Browser.walletStmt = inr (stmt user_wallets_def Browser.on_wallet_conflict).
Proof. reflexivity. Qed.

Lemma prefStmt_eq :
  Browser.prefStmt = inr (stmt user_preferences_def Browser.on_pref_conflict).
Proof. reflexivity. Qed.

Lemma tradePrefStmt_eq :
  Browser.tradePrefStmt
  = inr (stmt trading_preferences_def Browser.on_tradePref_conflict).
Proof. reflexivity. Qed.

Lemma dismissedStmt_eq :
  Browser.dismissedStmt = inr (stmt dismissed_items_def DoNothing).
Proof. reflexivity. Qed.

Lemma affiliateStmt_eq :
  Browser.affiliateStmt = inr (stmt affiliates_def Browser.on_affiliate_conflict).
Proof. reflexivity. Qed.

Lemma browser_syncMetaStmt_eq clk :
  Browser.syncMetaStmt clk
  = inr (stmt sync_metadata_def (Browser.on_syncMeta_conflict clk)).
Proof. reflexivity. Qed.

Lemma browser_transferStmt_eq : Browser.transferStmt = inl EUpsertTarget.
Proof. reflexivity. Qed.

Lemma swapStmt_eq : Browser.swapStmt = inl EUpsertTarget.
Proof. reflexivity. Qed.

Lemma balanceStmt_eq :
  Chain.balanceStmt = inr (stmt account_balances_def Chain.on_balance_conflict).
Proof. reflexivity. Qed.

Lemma positionStmt_eq : Chain.positionStmt = inl EUpsertTarget.
Proof. reflexivity. Qed.

Lemma orderStmt_eq :
  Chain.orderStmt = inr (stmt orders_def Chain.on_order_conflict).
Proof. reflexivity. Qed.

Lemma fillStmt_eq : Chain.fillStmt = inr (stmt fills_def DoNothing).
Proof. reflexivity. Qed.

Lemma chain_transferStmt_eq : Chain.transferStmt = inl EUpsertTarget.
Proof. reflexivity. Qed.

Lemma marketStmt_eq :
  Chain.marketStmt = inr (stmt markets_def Chain.on_market_conflict).
Proof. reflexivity. Qed.

Lemma chain_syncMetaStmt_eq clk :
  Chain.syncMetaStmt clk
  = inr (stmt sync_metadata_def (Chain.on_syncMeta_conflict clk)).
Proof. reflexivity. Qed.

(** ** Upserts *)

Section UpsertFacts.
Context {R : Type}.

Lemma update_first_hits (q : R -> bool) (f : R -> R) (T : list R) :
  existsb q T = true ->
  exists x, In x T /\ q x = true /\ In (f x) (update_first q f T).
Proof.
  induction T as [|x T IH]; simpl; [discriminate|].
  destruct (q x) eqn:Q; simpl.
  - intros _. exists x. auto.
  - intro H. destruct (IH H) as (y & Hy & Qy & Hin). exists y. auto.
Qed.

(** After an upsert that ran, the table holds the proposed row or the
    DO UPDATE of a stored row that collides with it. *)
Lemma exec_upsert_row (p : prepared R) fk T r T' f :
  exec p fk T r = inr T' -> p_action p = DoUpdate f ->
  In r T' \/
  exists x, In x T /\ collides (p_key p) r x = true /\ In (f r x) T'.
Proof.
  unfold exec. destruct (first_null (p_table p) r); [discriminate|].
  destruct (existsb (collides (p_key p) r) T) eqn:Ex.
  - intros E A. rewrite A in E. inversion E; subst. right.
    now apply update_first_hits.
  - destruct (find _ (td_unique (p_table p))); [discriminate|].
    destruct (fk r); [|discriminate].
    intros E _. inversion E; subst. left. apply in_or_app. right. now left.
Qed.
End UpsertFacts.

Section MoreEngineFacts.
Context {R : Type}.

Lemma first_null_none (td : table_def R) (r : R) (c : column R) :
  first_null td r = None -> In c (td_not_null td) -> is_null (snd c r) = false.
Proof.
  unfold first_null. intros H Hin.
  destruct (find (fun c => is_null (snd c r)) (td_not_null td)) eqn:F;
    [discriminate|].
  exact (find_none _ _ F c Hin).
Qed.

Lemma update_first_map {B} (g : R -> B) (q : R -> bool) (f : R -> R) T :
  (forall x, g (f x) = g x) -> map g (update_first q f T) = map g T.
Proof.
  intro H. induction T as [|x T IH]; simpl; [reflexivity|].
  destruct (q x); simpl; [now rewrite H | now rewrite IH].
Qed.

(** What [exec] does when the proposed row is well formed and collides
    with a stored row on the conflict target. *)
Lemma exec_on_collision (p : prepared R) fk T r x :
  first_null (p_table p) r = None ->
  In x T -> collides (p_key p) r x = true ->
  exec p fk T r
  = inr match p_action p with
        | DoNothing => T
        | DoUpdate f => update_first (collides (p_key p) r) (f r) T
        end.
Proof.
  intros Hn Hin Hc. unfold exec. rewrite Hn.
  assert (E : existsb (collides (p_key p) r) T = true).
  { apply existsb_exists. now exists x. }
  rewrite E. now destruct (p_action p).
Qed.
End MoreEngineFacts.

(** ** Running an upsert twice *)

Section UpsertTwice.
Context {R : Type}.
Implicit Types (q : R -> bool) (T : list R).

Lemma existsb_update_first q (h : R -> R) T :
  (forall x, q (h x) = q x) ->
  existsb q (update_first q h T) = existsb q T.
Proof.
  intro H. induction T as [|x T IH]; simpl; [reflexivity|].
  destruct (q x) eqn:Q; simpl.
  - now rewrite H, Q.
  - now rewrite Q, IH.
Qed.

Lemma update_first_twice q (g h : R -> R) T :
  (forall x, q (h x) = q x) ->
  update_first q g (update_first q h T) = update_first q (fun x => g (h x)) T.
Proof.
  intro H. induction T as [|x T IH]; simpl; [reflexivity|].
  destruct (q x) eqn:Q; simpl.
  - now rewrite H, Q.
  - now rewrite Q, IH.
Qed.

Lemma update_first_ext q q' (g : R -> R) T :
  (forall x, q' x = q x) -> update_first q' g T = update_first q g T.
Proof.
  intro H. induction T as [|x T IH]; simpl; [reflexivity|].
  now rewrite H, IH.
Qed.

Lemma existsb_ext q q' T :
  (forall x, q' x = q x) -> existsb q' T = existsb q T.
Proof.
  intro H. induction T as [|x T IH]; simpl; [reflexivity|].
  now rewrite H, IH.
Qed.

Lemma update_first_miss q (g : R -> R) T T' :
  existsb q T = false ->
  update_first q g (T ++ T')%list = (T ++ update_first q g T')%list.
Proof.
  induction T as [|x T IH]; simpl; [reflexivity|].
  destruct (q x); simpl; [discriminate|]. intro H. now rewrite IH.
Qed.

Lemma update_first_blank (blank : R -> R) q (g h : R -> R) T :
  (forall x, blank (g x) = blank (h x)) ->
  map blank (update_first q g T) = map blank (update_first q h T).
Proof.
  intro H. induction T as [|x T IH]; simpl; [reflexivity|].
  destruct (q x); simpl; [now rewrite H | now rewrite IH].
Qed.

Lemma same_columns_refl (l : list string) : same_columns l l = true.
Proof.
  unfold same_columns.
  assert (H : forallb (fun x => existsb (String.eqb x) l) l = true).
  { apply forallb_forall. intros x Hx. apply existsb_exists.
    exists x. split; [exact Hx | apply String.eqb_refl]. }
  now rewrite H.
Qed.

Variables (p : prepared R) (f : R -> R -> R).
Hypothesis Hact : p_action p = DoUpdate f.
Hypothesis Hone : td_unique (p_table p) = [p_key p].

(** An upsert on a table with one UNIQUE constraint and no foreign key:
    update the first stored row that collides, or append. *)
Lemma exec_single T r :
  first_null (p_table p) r = None ->
  exec p (fun _ => true) T r
  = inr (if existsb (collides (p_key p) r) T
         then update_first (collides (p_key p) r) (f r) T
         else (T ++ [r])%list).
Proof.
  intro Hn. unfold exec. rewrite Hn, Hact, Hone. simpl.
  unfold is_target. rewrite same_columns_refl. simpl.
  now destruct (existsb (collides (p_key p) r) T).
Qed.

(** Proposing [r2] after [r1], two rows with the same key that differ in
    columns that [blank] masks, leaves the table as [r1] left it, up to
    [blank]. *)
Lemma upsert_twice (blank : R -> R) T r1 r2 :
  first_null (p_table p) r1 = None ->
  first_null (p_table p) r2 = None ->
  (forall x, collides (p_key p) r2 x = collides (p_key p) r1 x) ->
  collides (p_key p) r1 r1 = true ->
  (forall e x, collides (p_key p) r1 (f e x) = collides (p_key p) r1 x) ->
  (forall x, blank (f r2 (f r1 x)) = blank (f r1 x)) ->
  blank (f r2 r1) = blank r1 ->
  map blank (try_exec p (fun _ => true) (try_exec p (fun _ => true) T r1) r2)
  = map blank (try_exec p (fun _ => true) T r1).
Proof.
  intros N1 N2 Hkey Hself Hpres Hb1 Hb2.
  unfold try_exec. rewrite (exec_single T r1 N1), exec_single by exact N2.
  set (q := collides (p_key p) r1).
  rewrite (existsb_ext q (collides (p_key p) r2)) by exact Hkey.
  rewrite (update_first_ext q (collides (p_key p) r2)) by exact Hkey.
  destruct (existsb q T) eqn:Ex.
  - rewrite existsb_update_first, Ex by (intro x; apply Hpres).
    rewrite update_first_twice by (intro x; apply Hpres).
    now apply update_first_blank.
  - rewrite existsb_app, Ex. simpl. fold q in Hself. rewrite Hself. simpl.
    rewrite update_first_miss by exact Ex. simpl. rewrite Hself.
    rewrite !map_app. simpl. now rewrite Hb2.
Qed.
End UpsertTwice.

(** ** A batch of upserts on one key *)

Section SameKeyBatch.
Context {R : Type}.
Variables (p : prepared R) (f : R -> R -> R) (q : R -> bool).
Hypothesis Hact : p_action p = DoUpdate f.
Hypothesis Hone : td_unique (p_table p) = [p_key p].

Lemma update_first_on (g h : R -> R) T :
  (forall x, q x = true -> g x = h x) ->
  update_first q g T = update_first q h T.
Proof.
  intro H. induction T as [|x T IH]; simpl; [reflexivity|].
  destruct (q x) eqn:Q; [now rewrite H | now rewrite IH].
Qed.

Lemma try_exec_on_key T r :
  on_key p f q r -> try_exec p (fun _ => true) T r = replace_or_append q T r.
Proof.
  intros (Hn & Hk & _ & Hf). unfold try_exec, replace_or_append.
  rewrite (exec_single p f Hact Hone T r Hn).
  rewrite (existsb_ext q (collides (p_key p) r)) by exact Hk.
  rewrite (update_first_ext q (collides (p_key p) r)) by exact Hk.
  destruct (existsb q T); [|reflexivity].
  now apply update_first_on.
Qed.

Lemma replace_twice T r1 r2 :
  q r1 = true ->
  replace_or_append q (replace_or_append q T r1) r2 = replace_or_append q T r2.
Proof.
  intro H1. unfold replace_or_append.
  destruct (existsb q T) eqn:Ex.
  - assert (E : existsb q (update_first q (fun _ => r1) T) = true).
    { clear - Ex H1. induction T as [|x T IH]; simpl in *; [discriminate|].
      destruct (q x) eqn:Q; simpl; [now rewrite H1|].
      rewrite Q. simpl. now apply IH. }
    rewrite E. clear E.
    induction T as [|x T IH]; simpl in *; [discriminate|].
    destruct (q x) eqn:Q; simpl; [now rewrite H1|].
    rewrite Q. f_equal. now apply IH.
  - rewrite existsb_app, Ex. simpl. rewrite H1. simpl.
    rewrite update_first_miss by exact Ex. simpl. now rewrite H1.
Qed.

Lemma last_cons (a d : R) l : last (a :: l) d = last l a.
Proof.
  revert a d. induction l as [|b l IH]; intros a d; [reflexivity|].
  change (last (a :: b :: l) d) with (last (b :: l) d).
  now rewrite !IH.
Qed.

(** Of a batch on one key only the last row shows. *)
Lemma fold_on_key rs r T :
  on_key p f q r -> Forall (on_key p f q) rs ->
  fold_left (fun T r => try_exec p (fun _ => true) T r) rs
            (replace_or_append q T r)
  = replace_or_append q T (last rs r).
Proof.
  revert r. induction rs as [|r' rs IH]; intros r Hr Hrs; [reflexivity|].
  inversion Hrs as [|? ? Hr' Hrs']; subst. simpl fold_left.
  rewrite (try_exec_on_key _ r' Hr').
  rewrite replace_twice by apply Hr.
  rewrite (IH r' Hr' Hrs'). now rewrite last_cons.
Qed.

Lemma replace_blank (blank : R -> R) T r r' :
  blank r' = blank r ->
  map blank (replace_or_append q T r') = map blank (replace_or_append q T r).
Proof.
  intro H. unfold replace_or_append. destruct (existsb q T).
  - apply update_first_blank. now intros _.
  - rewrite !map_app. simpl. now rewrite H.
Qed.

(** Two runs of a batch on one key, the second with rows that differ from
    the first only under [blank]. *)
Lemma batch_twice {X} (blank : R -> R) (row1 row2 : X -> R) (xs : list X) T :
  (forall x, In x xs -> on_key p f q (row1 x)) ->
  (forall x, In x xs -> on_key p f q (row2 x)) ->
  (forall x, blank (row2 x) = blank (row1 x)) ->
  map blank
    (fold_left (fun T x => try_exec p (fun _ => true) T (row2 x)) xs
       (fold_left (fun T x => try_exec p (fun _ => true) T (row1 x)) xs T))
  = map blank
      (fold_left (fun T x => try_exec p (fun _ => true) T (row1 x)) xs T).
Proof.
  intros H1 H2 Hb.
  assert (Fm : forall (row : X -> R) l T0,
             fold_left (fun T x => try_exec p (fun _ => true) T (row x)) l T0
             = fold_left (fun T r => try_exec p (fun _ => true) T r)
                         (map row l) T0).
  { intros row l. induction l as [|x l IH]; intro T0; [reflexivity|].
    simpl. apply IH. }
  rewrite !Fm. destruct xs as [|x xs]; [reflexivity|]. simpl map.
  assert (G1 : Forall (on_key p f q) (map row1 xs)).
  { apply Forall_forall. intros r Hr. apply in_map_iff in Hr.
    destruct Hr as (y & <- & Hy). apply H1. now right. }
  assert (G2 : Forall (on_key p f q) (map row2 xs)).
  { apply Forall_forall. intros r Hr. apply in_map_iff in Hr.
    destruct Hr as (y & <- & Hy). apply H2. now right. }
  assert (K1 : on_key p f q (row1 x)) by (apply H1; now left).
  assert (K2 : on_key p f q (row2 x)) by (apply H2; now left).
  simpl fold_left.
  rewrite (try_exec_on_key T _ K1), (fold_on_key _ _ _ K1 G1).
  rewrite (try_exec_on_key _ _ K2).
  rewrite replace_twice.
  - rewrite (fold_on_key _ _ _ K2 G2). apply replace_blank.
    clear - Hb. revert x. induction xs as [|y xs IH]; intro x; [apply Hb|].
    simpl map. rewrite !last_cons. apply IH.
  - assert (L : Forall (on_key p f q) (row1 x :: map row1 xs)) by now constructor.
    clear - L. revert L. generalize (row1 x). generalize (map row1 xs).
    intro l. induction l as [|b l IH]; intros a L.
    + inversion L as [|? ? Ha _]. apply Ha.
    + rewrite last_cons. apply IH. now inversion L.
Qed.
End SameKeyBatch.

(** ** The steps of [syncBrowserData] *)

Lemma bind_lift_inr {C A B} (a : A) (f : A -> M C B) (s : state C) :
  (x <- lift (inr a) ;; f x) s = f a s.
Proof. reflexivity. Qed.

Lemma effect_ext {C R} (t : table R) (bump : C -> C) (m m' : M C unit) s s' n E :
  m s = m' s -> effect t bump m' s s' n E -> effect t bump m s s' n E.
Proof. unfold effect. intros ->. auto. Qed.

Lemma labelled_nil label : labelled label [].
Proof. intros m []. Qed.

Section BrowserSteps.
Variables (clk : clock) (a : jsval) (data : browser_data).
Implicit Type s : state browser_synced.

Lemma syncWallets_effect s :
  exists s' n E,
    effect user_wallets inc_wallets (Browser.syncWallets clk a data) s s' n E
    /\ n + length E = supplied (bd_wallets data)
    /\ labelled "Wallet " E.
Proof.
  unfold Browser.syncWallets. rewrite walletStmt_eq.
  destruct (bd_wallets data) as [ws|]; simpl supplied.
  - destruct (sync_each_effect user_wallets
                (stmt user_wallets_def Browser.on_wallet_conflict) inc_wallets
                (fun _ _ _ => eq_refl) no_fk (Browser.wallet_row clk a)
                (fun w err => Some ("Wallet " ++ render (w_address w) ++ ": "
                                     ++ message err)) ws s)
      as (s' & n & E & Heff & _ & _ & Hm & Hall).
    exists s', n, E. conjs.
    + eapply effect_ext; [apply bind_lift_inr | exact Heff].
    + apply Hall. intros x e H. discriminate.
    + intros m Hin. destruct (Hm m Hin) as (x & e & _ & He).
      inversion He. eexists. reflexivity.
  - exists s, 0, []. conjs; try reflexivity; try apply labelled_nil.
    eapply effect_ext; [apply bind_lift_inr | apply skip_effect].
Qed.

Lemma syncPreferences_effect s :
  exists s' n E,
    effect user_preferences inc_preferences
      (Browser.syncPreferences clk a data) s s' n E
    /\ n + length E = supplied1 (bd_preferences data)
    /\ labelled "Preferences: " E
    /\ t_user_preferences (st_db s')
       = match bd_preferences data with
         | Some p => try_exec (stmt user_preferences_def Browser.on_pref_conflict)
                       (fun _ => true) (t_user_preferences (st_db s))
                       (Browser.pref_row clk a p)
         | None => t_user_preferences (st_db s)
         end.
Proof.
  unfold Browser.syncPreferences. rewrite prefStmt_eq.
  destruct (bd_preferences data) as [p|]; simpl supplied1.
  - destruct (attempt_effect user_preferences
                (stmt user_preferences_def Browser.on_pref_conflict)
                inc_preferences (fun _ _ _ => eq_refl)
                no_fk (Browser.pref_row clk a p)
                (fun err => "Preferences: " ++ message err) s)
      as (s' & n & E & Heff & Hs' & Hn & Hm).
    exists s', n, E. conjs; auto.
    + intros m Hin. destruct (Hm m Hin) as (e & ->). eexists. reflexivity.
    + rewrite Hs'.
      exact (attempt_view user_preferences _ no_fk inc_preferences
               (fun _ _ => eq_refl) _ _ s).
  - exists s, 0, []. conjs; try reflexivity; try apply labelled_nil.
    apply skip_effect.
Qed.

Lemma syncTradingPreferences_effect s :
  exists s' n E,
    effect trading_preferences inc_tradingPreferences
      (Browser.syncTradingPreferences clk a data) s s' n E
    /\ n + length E = supplied1 (bd_tradingPreferences data)
    /\ labelled "Trading preferences: " E
    /\ t_trading_preferences (st_db s')
       = match bd_tradingPreferences data with
         | Some p =>
             try_exec (stmt trading_preferences_def Browser.on_tradePref_conflict)
               (fun _ => true) (t_trading_preferences (st_db s))
               (Browser.tradePref_row clk a p)
         | None => t_trading_preferences (st_db s)
         end.
Proof.
  unfold Browser.syncTradingPreferences. rewrite tradePrefStmt_eq.
  destruct (bd_tradingPreferences data) as [p|]; simpl supplied1.
  - destruct (attempt_effect trading_preferences
                (stmt trading_preferences_def Browser.on_tradePref_conflict)
                inc_tradingPreferences (fun _ _ _ => eq_refl)
                no_fk (Browser.tradePref_row clk a p)
                (fun err => "Trading preferences: " ++ message err) s)
      as (s' & n & E & Heff & Hs' & Hn & Hm).
    exists s', n, E. conjs; auto.
    + intros m Hin. destruct (Hm m Hin) as (e & ->). eexists. reflexivity.
    + rewrite Hs'.
      exact (attempt_view trading_preferences _ no_fk inc_tradingPreferences
               (fun _ _ => eq_refl) _ _ s).
  - exists s, 0, []. conjs; try reflexivity; try apply labelled_nil.
    apply skip_effect.
Qed.

Lemma syncDismissedItems_effect s :
  exists s' n E,
    effect dismissed_items inc_dismissedItems
      (Browser.syncDismissedItems clk a data) s s' n E
    /\ n + length E = supplied (bd_dismissedItems data)
    /\ labelled "Dismissed item " E
    /\ t_dismissed_items (st_db s')
       = match bd_dismissedItems data with
         | Some items =>
             fold_left (fun T x => try_exec (stmt dismissed_items_def DoNothing)
                                     (fun _ => true) T
                                     (Browser.dismissed_row clk a x))
                       items (t_dismissed_items (st_db s))
         | None => t_dismissed_items (st_db s)
         end.
Proof.
  unfold Browser.syncDismissedItems. rewrite dismissedStmt_eq.
  destruct (bd_dismissedItems data) as [items|]; simpl supplied.
  - destruct (sync_each_effect dismissed_items
                (stmt dismissed_items_def DoNothing) inc_dismissedItems
                (fun _ _ _ => eq_refl) no_fk (Browser.dismissed_row clk a)
                (fun item err =>
                   Some ("Dismissed item " ++ render (di_key item) ++ ": "
                         ++ message err)) items s)
      as (s' & n & E & Heff & Hs' & _ & Hm & Hall).
    exists s', n, E. conjs.
    + eapply effect_ext; [apply bind_lift_inr | exact Heff].
    + apply Hall. intros x e H. discriminate.
    + intros m Hin. destruct (Hm m Hin) as (x & e & _ & He).
      inversion He. eexists. reflexivity.
    + rewrite Hs'.
      exact (loop_view dismissed_items _ inc_dismissedItems
               (fun _ _ => eq_refl) _ _ items s).
  - exists s, 0, []. conjs; try reflexivity; try apply labelled_nil.
    apply skip_effect.
Qed.

Lemma syncAffiliates_effect s :
  exists s' n E,
    effect affiliates inc_affiliates (Browser.syncAffiliates clk a data) s s' n E
    /\ n + length E = supplied_affiliates (bd_affiliates data)
    /\ labelled "Affiliates: " E
    /\ t_affiliates (st_db s')
       = match bd_affiliates data with
         | Some i =>
             if Nat.ltb 0 (ai_keys i) then
               try_exec (stmt affiliates_def Browser.on_affiliate_conflict)
                 (fun _ => true) (t_affiliates (st_db s))
                 (Browser.affiliate_row clk a i)
             else t_affiliates (st_db s)
         | None => t_affiliates (st_db s)
         end.
Proof.
  unfold Browser.syncAffiliates. rewrite affiliateStmt_eq.
  destruct (bd_affiliates data) as [i|]; simpl supplied_affiliates;
    [destruct (Nat.ltb 0 (ai_keys i))|].
  - destruct (attempt_effect affiliates
                (stmt affiliates_def Browser.on_affiliate_conflict)
                inc_affiliates (fun _ _ _ => eq_refl)
                no_fk (Browser.affiliate_row clk a i)
                (fun err => "Affiliates: " ++ message err) s)
      as (s' & n & E & Heff & Hs' & Hn & Hm).
    exists s', n, E. conjs; auto.
    + intros m Hin. destruct (Hm m Hin) as (e & ->). eexists. reflexivity.
    + rewrite Hs'.
      exact (attempt_view affiliates _ no_fk inc_affiliates
               (fun _ _ => eq_refl) _ _ s).
  - exists s, 0, []. conjs; try reflexivity; try apply labelled_nil.
    apply skip_effect.
  - exists s, 0, []. conjs; try reflexivity; try apply labelled_nil.
    apply skip_effect.
Qed.

(** The transfer and swap statements cannot be prepared: the step throws
    as soon as the export carries the list, even an empty one. *)
Lemma syncTransfers_eq s :
  Browser.syncTransfers clk a data s
  = match bd_transfers data with
    | Some _ => (inl EUpsertTarget, s)
    | None => (inr tt, s)
    end.
Proof.
  unfold Browser.syncTransfers. rewrite browser_transferStmt_eq.
  now destruct (bd_transfers data).
Qed.

Lemma syncSwaps_eq s :
  Browser.syncSwaps clk a data s
  = match bd_swaps data with
    | Some _ => (inl EUpsertTarget, s)
    | None => (inr tt, s)
    end.
Proof.
  unfold Browser.syncSwaps. rewrite swapStmt_eq.
  now destruct (bd_swaps data).
Qed.

Lemma updateSyncMetadata_eq s :
  Browser.updateSyncMetadata clk a s
  = match exec (stmt sync_metadata_def (Browser.on_syncMeta_conflict clk))
            (fun _ => true) (t_sync_metadata (st_db s))
            (Browser.syncMeta_row clk a (browser_total (st_synced s))) with
    | inr T' => (inr tt, {| st_db := put sync_metadata T' (st_db s);
                            st_synced := st_synced s;
                            st_errors := st_errors s |})
    | inl e => (inl e, s)
    end.
Proof.
  unfold Browser.updateSyncMetadata. rewrite browser_syncMetaStmt_eq.
  reflexivity.
Qed.
End BrowserSteps.

(** ** The counters *)

Lemma iter_inc_wallets n c :
  Nat.iter n inc_wallets c
  = {| bs_wallets := n + bs_wallets c; bs_preferences := bs_preferences c;
       bs_tradingPreferences := bs_tradingPreferences c;
       bs_dismissedItems := bs_dismissedItems c; bs_affiliates := bs_affiliates c;
       bs_transfers := bs_transfers c; bs_swaps := bs_swaps c |}.
Proof.
  induction n as [|n IH]; simpl; [now destruct c|]. rewrite IH. reflexivity.
Qed.

Lemma iter_inc_preferences n c :
  Nat.iter n inc_preferences c
  = {| bs_wallets := bs_wallets c; bs_preferences := n + bs_preferences c;
       bs_tradingPreferences := bs_tradingPreferences c;
       bs_dismissedItems := bs_dismissedItems c; bs_affiliates := bs_affiliates c;
       bs_transfers := bs_transfers c; bs_swaps := bs_swaps c |}.
Proof.
  induction n as [|n IH]; simpl; [now destruct c|]. rewrite IH. reflexivity.
Qed.

Lemma iter_inc_tradingPreferences n c :
  Nat.iter n inc_tradingPreferences c
  = {| bs_wallets := bs_wallets c; bs_preferences := bs_preferences c;
       bs_tradingPreferences := n + bs_tradingPreferences c;
       bs_dismissedItems := bs_dismissedItems c; bs_affiliates := bs_affiliates c;
       bs_transfers := bs_transfers c; bs_swaps := bs_swaps c |}.
Proof.
  induction n as [|n IH]; simpl; [now destruct c|]. rewrite IH. reflexivity.
Qed.

Lemma iter_inc_dismissedItems n c :
  Nat.iter n inc_dismissedItems c
  = {| bs_wallets := bs_wallets c; bs_preferences := bs_preferences c;
       bs_tradingPreferences := bs_tradingPreferences c;
       bs_dismissedItems := n + bs_dismissedItems c;
       bs_affiliates := bs_affiliates c;
       bs_transfers := bs_transfers c; bs_swaps := bs_swaps c |}.
Proof.
  induction n as [|n IH]; simpl; [now destruct c|]. rewrite IH. reflexivity.
Qed.

Lemma iter_inc_affiliates n c :
  Nat.iter n inc_affiliates c
  = {| bs_wallets := bs_wallets c; bs_preferences := bs_preferences c;
       bs_tradingPreferences := bs_tradingPreferences c;
       bs_dismissedItems := bs_dismissedItems c;
       bs_affiliates := n + bs_affiliates c;
       bs_transfers := bs_transfers c; bs_swaps := bs_swaps c |}.
Proof.
  induction n as [|n IH]; simpl; [now destruct c|]. rewrite IH. reflexivity.
Qed.

Lemma iter_inc_balances n c :
  Nat.iter n inc_balances c
  = {| cs_balances := n + cs_balances c; cs_positions := cs_positions c;
       cs_orders := cs_orders c; cs_fills := cs_fills c;
       cs_transfers := cs_transfers c; cs_markets := cs_markets c |}.
Proof.
  induction n as [|n IH]; simpl; [now destruct c|]. rewrite IH. reflexivity.
Qed.

(** ** The pass up to the ledger write

    With a primary wallet the five record steps run to their end whatever
    the records are; each touches its own table, its own counter, and pushes
    messages under its own label.  Then the transfer and swap steps throw if
    the export carries their lists, and otherwise the ledger row is
    written. *)
Lemma browser_steps clk data primary s0 :
  Browser.primaryWallet data = Some primary ->
  exists s5,
    Browser.body clk data s0
    = match bd_transfers data, bd_swaps data with
      | None, None => Browser.updateSyncMetadata clk (w_address primary) s5
      | _, _ => (inl EUpsertTarget, s5)
      end
    /\ records_done clk data primary s0 s5.
Proof.
  intro Hp. set (a := w_address primary).
  destruct (syncWallets_effect clk a data s0)
    as (s1 & n1 & E1 & (Hr1 & Hb1 & Hc1 & He1) & Ht1 & Hl1).
  destruct (syncPreferences_effect clk a data s1)
    as (s2 & n2 & E2 & (Hr2 & Hb2 & Hc2 & He2) & Ht2 & Hl2 & Hv2).
  destruct (syncTradingPreferences_effect clk a data s2)
    as (s3 & n3 & E3 & (Hr3 & Hb3 & Hc3 & He3) & Ht3 & Hl3 & Hv3).
  destruct (syncDismissedItems_effect clk a data s3)
    as (s4 & n4 & E4 & (Hr4 & Hb4 & Hc4 & He4) & Ht4 & Hl4 & Hv4).
  destruct (syncAffiliates_effect clk a data s4)
    as (s5 & n5 & E5 & (Hr5 & Hb5 & Hc5 & He5) & Ht5 & Hl5 & Hv5).
  exists s5. split; [|exists n1, n2, n3, n4, n5, E1, E2, E3, E4, E5];
    unfold same_but in Hb1, Hb2, Hb3, Hb4, Hb5.
  2: conjs; auto.
  - unfold Browser.body. rewrite Hp. fold a.
    unfold bind at 1. rewrite Hr1. unfold bind at 1. rewrite Hr2.
    unfold bind at 1. rewrite Hr3. unfold bind at 1. rewrite Hr4.
    unfold bind at 1. rewrite Hr5. unfold bind at 1. rewrite syncTransfers_eq.
    destruct (bd_transfers data); [reflexivity|].
    unfold bind at 1. rewrite syncSwaps_eq.
    destruct (bd_swaps data); reflexivity.
  - rewrite Hc5, Hc4, Hc3, Hc2, Hc1.
    rewrite iter_inc_affiliates, iter_inc_dismissedItems,
      iter_inc_tradingPreferences, iter_inc_preferences, iter_inc_wallets.
    reflexivity.
  - rewrite He5, He4, He3, He2, He1. now rewrite <- !app_assoc.
  - apply (f_equal t_user_preferences) in Hb1, Hb3, Hb4, Hb5. simpl in *.
    rewrite Hb5, Hb4, Hb3, Hv2, Hb1. reflexivity.
  - apply (f_equal t_trading_preferences) in Hb1, Hb2, Hb4, Hb5. simpl in *.
    rewrite Hb5, Hb4, Hv3, Hb2, Hb1. reflexivity.
  - apply (f_equal t_dismissed_items) in Hb1, Hb2, Hb3, Hb5. simpl in *.
    rewrite Hb5, Hv4, Hb3, Hb2, Hb1. reflexivity.
  - apply (f_equal t_affiliates) in Hb1, Hb2, Hb3, Hb4. simpl in *.
    rewrite Hv5, Hb4, Hb3, Hb2, Hb1. reflexivity.
  - apply (f_equal t_account_balances) in Hb1, Hb2, Hb3, Hb4, Hb5. simpl in *.
    congruence.
  - apply (f_equal t_transfers) in Hb1, Hb2, Hb3, Hb4, Hb5. simpl in *.
    congruence.
  - apply (f_equal t_swaps) in Hb1, Hb2, Hb3, Hb4, Hb5. simpl in *.
    congruence.
  - apply (f_equal t_sync_metadata) in Hb1, Hb2, Hb3, Hb4, Hb5. simpl in *.
    congruence.
Qed.

(** ** The two outcomes of [syncBrowserData]

    Either the transaction threw, the store is what it was and [success] is
    false; or there is a primary wallet, the export carries neither
    transfers nor swaps, the record steps ran and the ledger row was
    written on top of them. *)
Lemma browser_outcome clk d data :
  let s0 := {| st_db := d; st_synced := browser_zero; st_errors := [] |} in
  let R := Browser.syncBrowserData clk d data in
  (success (fst R) = false /\ snd R = d)
  \/ (exists primary s5 T',
        Browser.primaryWallet data = Some primary
        /\ bd_transfers data = None /\ bd_swaps data = None
        /\ records_done clk data primary s0 s5
        /\ exec (stmt sync_metadata_def (Browser.on_syncMeta_conflict clk))
             (fun _ => true) (t_sync_metadata d)
             (Browser.syncMeta_row clk (w_address primary)
                (browser_total (st_synced s5))) = inr T'
        /\ R = ({| success := true; timestamp := js_now clk;
                   synced := st_synced s5; errors := st_errors s5 |},
                put sync_metadata T' (st_db s5))).
Proof.
  intros s0 R. subst R. unfold Browser.syncBrowserData, transaction. fold s0.
  destruct (Browser.primaryWallet data) as [primary|] eqn:Hp.
  - destruct (browser_steps clk data primary s0 Hp) as (s5 & Hbody & Hdone).
    rewrite Hbody.
    destruct (bd_transfers data); [left; split; reflexivity|].
    destruct (bd_swaps data); [left; split; reflexivity|].
    rewrite updateSyncMetadata_eq.
    assert (Hm : t_sync_metadata (st_db s5) = t_sync_metadata d).
    { destruct Hdone as (n1 & n2 & n3 & n4 & n5 & E1 & E2 & E3 & E4 & E5 & H).
      apply H. }
    rewrite Hm.
    destruct (exec _ _ (t_sync_metadata d) _) as [e|T'] eqn:Hx.
    + left. split; reflexivity.
    + right. exists primary, s5, T'. conjs; auto.
  - left. unfold Browser.body. rewrite Hp. split; reflexivity.
Qed.

(** A pass that reports failure left the store as it was. *)
Lemma browser_failure_rolls_back clk d data :
  success (fst (Browser.syncBrowserData clk d data)) = false ->
  snd (Browser.syncBrowserData clk d data) = d.
Proof.
  intro H. destruct (browser_outcome clk d data) as [[_ Hd]|Hok]; [exact Hd|].
  destruct Hok as (primary & s5 & T' & _ & _ & _ & _ & _ & HR).
  rewrite HR in H. discriminate.
Qed.

Lemma primaryWallet_None data :
  Browser.primaryWallet data = None <->
  bd_wallets data = None \/ bd_wallets data = Some [].
Proof.
  unfold Browser.primaryWallet. destruct (bd_wallets data) as [ws|].
  - split.
    + destruct (find _ ws); [discriminate|].
      destruct (find _ ws); [discriminate|].
      destruct ws; [auto|discriminate].
    + intros [H|H]; [discriminate|]. inversion H. reflexivity.
  - tauto.
Qed.

(** A pass that fails after a primary wallet was found returns the counters
    as the record steps left them. *)
Lemma browser_failure_counts clk d data primary :
  let s0 := {| st_db := d; st_synced := browser_zero; st_errors := [] |} in
  let R := Browser.syncBrowserData clk d data in
  Browser.primaryWallet data = Some primary ->
  success (fst R) = false ->
  exists s5, records_done clk data primary s0 s5
             /\ synced (fst R) = st_synced s5 /\ snd R = d.
Proof.
  intros s0 R Hp. subst R. unfold Browser.syncBrowserData, transaction. fold s0.
  destruct (browser_steps clk data primary s0 Hp) as (s5 & Hbody & Hdone).
  rewrite Hbody. exists s5.
  destruct (bd_transfers data); [auto|].
  destruct (bd_swaps data); [auto|].
  rewrite updateSyncMetadata_eq in *.
  destruct (exec _ _ _ _); simpl in *; [auto|discriminate].
Qed.

(** ** Counting the messages of a step *)

Lemma labelled_cons label m E :
  labelled label (m :: E) -> (exists rest, m = label ++ rest) /\ labelled label E.
Proof.
  intro H. split.
  - apply H. now left.
  - intros x Hx. apply H. now right.
Qed.

Lemma reported_own label E : labelled label E -> reported label E = length E.
Proof.
  induction E as [|m E IH]; intro H; [reflexivity|].
  apply labelled_cons in H. destruct H as [(rest & ->) H].
  unfold reported in *. simpl. rewrite prefix_app. simpl. now rewrite IH.
Qed.

Lemma reported_other pre label E :
  (forall rest, String.prefix pre (label ++ rest) = false) ->
  labelled label E -> reported pre E = 0.
Proof.
  intro Hd. induction E as [|m E IH]; intro H; [reflexivity|].
  apply labelled_cons in H. destruct H as [(rest & ->) H].
  unfold reported in *. simpl. rewrite Hd. now apply IH.
Qed.

(** ** When a browser pass commits, and what it leaves in the tables *)

Lemma browser_ledger_exec clk a n T :
  exec (stmt sync_metadata_def (Browser.on_syncMeta_conflict clk))
    (fun _ => true) T (Browser.syncMeta_row clk a n)
  = if is_null (bind_param a)
    then inl (ENotNull "sync_metadata" "wallet_address")
    else inr (try_exec (stmt sync_metadata_def (Browser.on_syncMeta_conflict clk))
                (fun _ => true) T (Browser.syncMeta_row clk a n)).
Proof.
  unfold try_exec, exec, first_null. simpl.
  destruct (bind_param a); simpl; try reflexivity;
    destruct (existsb _ T); reflexivity.
Qed.

(** Whether the pass commits depends on the export alone, not on the store
    nor on the clock. *)
Lemma browser_success_eq clk d data :
  success (fst (Browser.syncBrowserData clk d data)) = browser_commits data.
Proof.
  unfold Browser.syncBrowserData, transaction, browser_commits.
  set (s0 := {| st_db := d; st_synced := browser_zero; st_errors := [] |}).
  destruct (Browser.primaryWallet data) as [primary|] eqn:Hp.
  - destruct (browser_steps clk data primary s0 Hp) as (s5 & Hbody & _).
    rewrite Hbody.
    destruct (bd_transfers data); [reflexivity|].
    destruct (bd_swaps data); [reflexivity|].
    rewrite updateSyncMetadata_eq, browser_ledger_exec.
    now destruct (is_null (bind_param (w_address primary))).
  - unfold Browser.body. now rewrite Hp.
Qed.

Lemma browser_tables_after clk d data :
  let d' := snd (Browser.syncBrowserData clk d data) in
  forall primary,
    Browser.primaryWallet data = Some primary ->
    browser_commits data = true ->
    t_user_preferences d'
    = match bd_preferences data with
      | Some p => try_exec (stmt user_preferences_def Browser.on_pref_conflict)
                    (fun _ => true) (t_user_preferences d)
                    (Browser.pref_row clk (w_address primary) p)
      | None => t_user_preferences d
      end
    /\ t_trading_preferences d'
       = match bd_tradingPreferences data with
         | Some p =>
             try_exec (stmt trading_preferences_def Browser.on_tradePref_conflict)
               (fun _ => true) (t_trading_preferences d)
               (Browser.tradePref_row clk (w_address primary) p)
         | None => t_trading_preferences d
         end
    /\ t_affiliates d'
       = match bd_affiliates data with
         | Some i =>
             if Nat.ltb 0 (ai_keys i) then
               try_exec (stmt affiliates_def Browser.on_affiliate_conflict)
                 (fun _ => true) (t_affiliates d)
                 (Browser.affiliate_row clk (w_address primary) i)
             else t_affiliates d
         | None => t_affiliates d
         end.
Proof.
  intros d' primary Hp Hc. subst d'.
  rewrite <- (browser_success_eq clk d data) in Hc.
  destruct (browser_outcome clk d data) as [[Hf _]|Hok]; [congruence|].
  destruct Hok as (primary' & s5 & T' & Hp' & _ & _ & Hdone & _ & ->).
  rewrite Hp in Hp'. inversion Hp'; subst primary'.
  destruct Hdone as (n1 & n2 & n3 & n4 & n5 & E1 & E2 & E3 & E4 & E5 & _ & _ & _
                     & _ & (V1 & V2 & _ & V4) & _).
  simpl. auto.
Qed.

(** ** [syncBlockchainData]: the pass stops at the position statement *)

Lemma syncBalances_effect clk bs (s : state chain_synced) :
  exists s' n E,
    effect account_balances inc_balances (Chain.syncBalances clk bs) s s' n E
    /\ n + length E = length bs
    /\ labelled "Balance: " E.
Proof.
  unfold Chain.syncBalances. rewrite balanceStmt_eq.
  destruct (sync_each_effect account_balances
              (stmt account_balances_def Chain.on_balance_conflict) inc_balances
              (fun _ _ _ => eq_refl) no_fk (Chain.balance_row clk)
              (fun _ err => Some ("Balance: " ++ message err)) bs s)
    as (s' & n & E & Heff & _ & _ & Hm & Hall).
  exists s', n, E. conjs.
  - eapply effect_ext; [apply bind_lift_inr | exact Heff].
  - apply Hall. intros x e H. discriminate.
  - intros m Hin. destruct (Hm m Hin) as (x & e & _ & He).
    inversion He. eexists. reflexivity.
Qed.

Lemma syncPositions_throws ps (s : state chain_synced) :
  Chain.syncPositions ps s = (inl EUpsertTarget, s).
Proof. unfold Chain.syncPositions. now rewrite positionStmt_eq. Qed.

(** Whatever was fetched, the transaction throws when it prepares the
    position statement; by then the balances have been counted. *)
Lemma chain_body_throws clk addr data (s0 : state chain_synced) :
  exists s1 n E,
    Chain.body clk addr data s0 = (inl EUpsertTarget, s1)
    /\ n + length E = length (balances data)
    /\ st_synced s1 = Nat.iter n inc_balances (st_synced s0)
    /\ st_errors s1 = app (st_errors s0) E.
Proof.
  destruct (syncBalances_effect clk (balances data) s0)
    as (s1 & n & E & (Hr & _ & Hc & He) & Ht & _).
  exists s1, n, E. conjs; auto.
  unfold Chain.body. unfold bind at 1. rewrite Hr.
  unfold bind at 1. now rewrite syncPositions_throws.
Qed.

Lemma chain_outcome clk d addr data :
  let R := Chain.syncBlockchainData clk d addr data in
  success (fst R) = false
  /\ snd R = d
  /\ exists n E,
       n + length E = length (balances data)
       /\ synced (fst R)
          = {| cs_balances := n; cs_positions := 0; cs_orders := 0;
               cs_fills := 0; cs_transfers := 0; cs_markets := 0 |}
       /\ errors (fst R)
          = app E ["Sync failed: " ++ message EUpsertTarget].
Proof.
  intro R. subst R. unfold Chain.syncBlockchainData, transaction.
  set (s0 := {| st_db := d; st_synced := chain_zero; st_errors := [] |}).
  destruct (chain_body_throws clk addr data s0) as (s1 & n & E & Hb & Ht & Hc & He).
  rewrite Hb. simpl. conjs; auto. exists n, E. conjs; auto.
  - rewrite Hc, iter_inc_balances. simpl. now rewrite Nat.add_0_r.
  - now rewrite He.
Qed.

Lemma chain_updateSyncMetadata_eq clk addr (s : state chain_synced) :
  Chain.updateSyncMetadata clk addr s
  = match exec (stmt sync_metadata_def (Chain.on_syncMeta_conflict clk))
            (fun _ => true) (t_sync_metadata (st_db s))
            (Chain.syncMeta_row clk addr (chain_total (st_synced s))) with
    | inr T' => (inr tt, {| st_db := put sync_metadata T' (st_db s);
                            st_synced := st_synced s;
                            st_errors := st_errors s |})
    | inl e => (inl e, s)
    end.
Proof.
  unfold Chain.updateSyncMetadata. rewrite chain_syncMetaStmt_eq. reflexivity.
Qed.

(** The ledger statement of the blockchain pass always runs: its wallet and
    data type are never NULL. *)
Lemma chain_ledger_runs clk addr n T :
  exists T',
    exec (stmt sync_metadata_def (Chain.on_syncMeta_conflict clk))
      (fun _ => true) T (Chain.syncMeta_row clk addr n) = inr T'.
Proof.
  unfold exec. simpl.
  destruct (existsb _ T); eexists; reflexivity.
Qed.

(** * The claims *)

(** ** Ownerless rejection *)

(** On the bodies the exporter sends, [Raw] is [Browser]. *)
Lemma find_type_shaped te t ws :
  Raw.find_type te t (map EObject ws)
  = inr (find (fun w => js_strict_eq (w_type w) (JStr t)) ws).
Proof.
  induction ws as [|w ws IH]; simpl; [reflexivity|].
  now destruct (js_strict_eq (w_type w) (JStr t)).
Qed.

Lemma primaryWallet_shaped te data :
  Raw.primaryWallet te (shaped (bd_wallets data))
  = inr (Browser.primaryWallet data).
Proof.
  unfold Browser.primaryWallet. destruct (bd_wallets data) as [ws|];
    [|reflexivity].
  unfold shaped, Raw.primaryWallet. rewrite !find_type_shaped.
  destruct (find _ ws); [reflexivity|].
  destruct (find _ ws); [reflexivity|].
  now destruct ws.
Qed.

Lemma for_each_map {C X Y} (g : X -> Y) (body : Y -> M C unit) (xs : list X) :
  for_each body (map g xs) = for_each (fun x => body (g x)) xs.
Proof. induction xs as [|x xs IH]; simpl; [reflexivity|]. now rewrite IH. Qed.

Lemma syncWallets_shaped te clk a data (s : state browser_synced) :
  Raw.syncWallets te clk a (shaped (bd_wallets data)) s
  = Browser.syncWallets clk a data s.
Proof.
  unfold Raw.syncWallets, Browser.syncWallets, shaped.
  destruct (bd_wallets data) as [ws|]; [|reflexivity].
  rewrite walletStmt_eq, !bind_lift_inr.
  unfold sync_each. now rewrite for_each_map.
Qed.

Lemma bind_ext_l {C A B} (m m' : M C A) (k : A -> M C B) :
  (forall s, m s = m' s) -> forall s, bind m k s = bind m' k s.
Proof. intros H s. unfold bind. now rewrite H. Qed.

Lemma raw_pass_shaped te clk d data :
  Raw.syncBrowserData te clk d (shaped (bd_wallets data)) data
  = Browser.syncBrowserData clk d data.
Proof.
  unfold Raw.syncBrowserData, Browser.syncBrowserData, transaction.
  set (s0 := {| st_db := d; st_synced := browser_zero; st_errors := [] |}).
  assert (E : Raw.body te clk (shaped (bd_wallets data)) data s0
              = Browser.body clk data s0).
  { unfold Raw.body, Browser.body. rewrite primaryWallet_shaped.
    destruct (Browser.primaryWallet data); [|reflexivity].
    apply bind_ext_l. intro s. apply syncWallets_shaped. }
  now rewrite E.
Qed.

Lemma raw_endpoint_shaped te clk d data :
  Raw.post_sync_browser_data te clk d (Some (shaped (bd_wallets data), data))
  = post_sync_browser_data clk d (Some data).
Proof.
  unfold Raw.post_sync_browser_data, post_sync_browser_data.
  destruct (bd_wallets data) as [[|w ws]|] eqn:E; try reflexivity.
  cbn [shaped map Raw.turned_down].
  rewrite <- (raw_pass_shaped te clk d data), E. reflexivity.
Qed.

Section AlwaysThrows.
Context {C : Type}.

Lemma then_always_throws (m k : M C unit) :
  always_throws k -> always_throws (m ;;; k).
Proof.
  intros Hk s. unfold bind. destruct (m s) as [[e|[]] s']; [eauto|apply Hk].
Qed.
End AlwaysThrows.

Lemma ledger_needs_an_address clk a :
  is_null (bind_param a) = true ->
  always_throws (Browser.updateSyncMetadata clk a).
Proof.
  intros Hnull s. rewrite updateSyncMetadata_eq, browser_ledger_exec, Hnull.
  eauto.
Qed.

Lemma ownerless_body_throws te clk wallets data :
  ownerless te wallets = true -> always_throws (Raw.body te clk wallets data).
Proof.
  unfold ownerless, Raw.body. intro H.
  destruct (Raw.primaryWallet te wallets) as [err|[w|]].
  - intro s. unfold throw. eauto.
  - repeat apply then_always_throws. now apply ledger_needs_an_address.
  - intro s. unfold throw. eauto.
Qed.

Lemma raw_pass_rolls_back te clk d wallets data :
  always_throws (Raw.body te clk wallets data) ->
  success (fst (Raw.syncBrowserData te clk d wallets data)) = false
  /\ snd (Raw.syncBrowserData te clk d wallets data) = d.
Proof.
  intro H. unfold Raw.syncBrowserData, transaction.
  destruct (H {| st_db := d; st_synced := browser_zero; st_errors := [] |})
    as (e & s' & ->).
  split; reflexivity.
Qed.

(** C4 (as amended).  A session-state snapshot from which no wallet address
    can be extracted (the wallets value is missing, falsy, no array or an
    empty list; the list yields no candidate; or the wallet chosen as
    primary carries no address) is never synced: [syncBrowserData] reports
    [success = false] and the store after the call is the store before it.
    The endpoint answers 400, without calling [syncBrowserData], when the
    body or its wallets value is missing or falsy or has length 0; in every
    other such case [syncBrowserData] throws inside its transaction and the
    endpoint answers 500.  Either way the store is left as it was. *)
Theorem ownerless_snapshot_rejected (te : type_errors) (clk : clock) (d : db)
    (wallets : wallets_value) (data : browser_data) :
  ownerless te wallets = true ->
  success (fst (Raw.syncBrowserData te clk d wallets data)) = false
  /\ snd (Raw.syncBrowserData te clk d wallets data) = d
  /\ status (fst (Raw.post_sync_browser_data te clk d (Some (wallets, data))))
     = (if Raw.turned_down wallets then 400 else 500)
  /\ snd (Raw.post_sync_browser_data te clk d (Some (wallets, data))) = d
  /\ Raw.post_sync_browser_data te clk d None
     = ({| status := 400;
           payload := ErrorBody "Invalid data: wallets array required" |}, d).
Proof.
  intro H.
  destruct (raw_pass_rolls_back te clk d wallets data
              (ownerless_body_throws te clk wallets data H)) as [Hs Hd].
  conjs; auto.
  - unfold Raw.post_sync_browser_data.
    destruct (Raw.turned_down wallets); [reflexivity|].
    destruct (Raw.syncBrowserData te clk d wallets data) as [r d'].
    simpl in Hs. now rewrite Hs.
  - unfold Raw.post_sync_browser_data.
    destruct (Raw.turned_down wallets); [reflexivity|].
    destruct (Raw.syncBrowserData te clk d wallets data) as [r d'].
    simpl in Hs, Hd. now rewrite Hs.
Qed.

Lemma ownerless_snapshot_rejected_witness :
  ownerless v8 (WArray [EFalsy; ENull]) = true
  /\ success (fst (Raw.syncBrowserData v8 clk0 empty_db (WArray [EFalsy; ENull])
                     (bare_export None))) = false
  /\ snd (Raw.syncBrowserData v8 clk0 empty_db (WArray [EFalsy; ENull])
            (bare_export None)) = empty_db
  /\ status (fst (Raw.post_sync_browser_data v8 clk0 empty_db
                    (Some (WArray [EFalsy; ENull], bare_export None))))
     = (if Raw.turned_down (WArray [EFalsy; ENull]) then 400 else 500)
  /\ snd (Raw.post_sync_browser_data v8 clk0 empty_db
            (Some (WArray [EFalsy; ENull], bare_export None))) = empty_db
  /\ Raw.post_sync_browser_data v8 clk0 empty_db None
     = ({| status := 400;
           payload := ErrorBody "Invalid data: wallets array required" |},
        empty_db).
Proof.
  split; [reflexivity|].
  apply (ownerless_snapshot_rejected v8 clk0 empty_db (WArray [EFalsy; ENull])
           (bare_export None)).
  reflexivity.
Defined.

(** C4 (as stated) fails.  An export whose primary wallet carries no
    address, and a body whose wallets value is an object, are snapshots
    without an extractable address: the endpoint answers each with 500, not
    with a status of the 4xx class, although nothing is written. *)
Lemma ownerless_snapshot_is_answered_500 :
  (let R := post_sync_browser_data clk0 empty_db (Some addressless_export) in
   ownerless v8 (shaped (bd_wallets addressless_export)) = true
   /\ status (fst R) = 500
   /\ is_4xx (status (fst R)) = false
   /\ snd R = empty_db)
  /\ (let R := Raw.post_sync_browser_data v8 clk0 empty_db
                 (Some (WOther false, bare_export None)) in
      ownerless v8 (WOther false) = true
      /\ status (fst R) = 500
      /\ is_4xx (status (fst R)) = false
      /\ snd R = empty_db).
Proof. vm_compute. conjs; reflexivity. Qed.

(** An address that is the empty string is an address: the export is synced
    under it. *)
Lemma blank_address_is_an_owner :
  let R := post_sync_browser_data clk0 empty_db (Some blank_address_export) in
  ownerless v8 (shaped (bd_wallets blank_address_export)) = false
  /\ status (fst R) = 200
  /\ map uw_address (t_user_wallets (snd R)) = [Text ""]
  /\ map sm_wallet_address (t_sync_metadata (snd R)) = [Text ""].
Proof. vm_compute. conjs; reflexivity. Qed.

(** ** Primary wallet *)

Lemma js_strict_eq_JStr v s : js_strict_eq v (JStr s) = true <-> v = JStr s.
Proof.
  destruct v; simpl; split; try discriminate.
  - intro H. apply String.eqb_eq in H. now subst.
  - intro H. inversion H. apply String.eqb_refl.
Qed.

Lemma primaryWallet_precedence data ws primary :
  bd_wallets data = Some ws ->
  Browser.primaryWallet data = Some primary ->
  spec_precedence ws primary.
Proof.
  unfold Browser.primaryWallet, spec_precedence. intros -> H.
  destruct (find (fun w => js_strict_eq (w_type w) (JStr "dydx")) ws)
    as [w|] eqn:F1.
  - inversion H; subst. apply find_some in F1. destruct F1 as [Hin Ht].
    apply js_strict_eq_JStr in Ht. conjs; auto.
    + intros Hno. now elim (Hno primary Hin).
    + intros Hno. now elim (Hno primary Hin).
  - assert (N1 : forall x, In x ws -> w_type x <> JStr "dydx").
    { intros x Hx Ht. apply (find_none _ _ F1) in Hx.
      apply js_strict_eq_JStr in Ht. congruence. }
    destruct (find (fun w => js_strict_eq (w_type w) (JStr "evm")) ws)
      as [w|] eqn:F2.
    + inversion H; subst. apply find_some in F2. destruct F2 as [Hin Ht].
      apply js_strict_eq_JStr in Ht. conjs; auto.
      * intros (x & Hx & Tx). now elim (N1 x Hx).
      * intros _ Hno. now elim (Hno primary Hin).
    + assert (N2 : forall x, In x ws -> w_type x <> JStr "evm").
      { intros x Hx Ht. apply (find_none _ _ F2) in Hx.
        apply js_strict_eq_JStr in Ht. congruence. }
      conjs; auto.
      * destruct ws; [discriminate|]. inversion H. now left.
      * intros (x & Hx & Tx). now elim (N1 x Hx).
      * intros _ (x & Hx & Tx). now elim (N2 x Hx).
Qed.

Section Ownership.
Context {R : Type}.
Variables (addr : R -> sqlval) (name : string) (a : sqlval) (old : list R).

Lemma owned_old : Forall (owned_or_old addr a old) old.
Proof. apply Forall_forall. intros r H. now left. Qed.

(** A guarded run keeps the table owned when the address is a column of
    the conflict target and the DO UPDATE leaves it alone. *)
Lemma try_exec_owned (p : prepared R) fk T r :
  In (name, addr) (p_key p) ->
  (forall f e o, p_action p = DoUpdate f -> addr (f e o) = addr o) ->
  addr r = a ->
  Forall (owned_or_old addr a old) T ->
  Forall (owned_or_old addr a old) (try_exec p fk T r).
Proof.
  intros Hkey Hact Hr HT. apply Forall_forall. intros y Hy.
  destruct (try_exec_In _ _ _ _ _ Hy) as [H|[H|(f & x & Hf & Hx & Hc & Ey)]].
  - exact (proj1 (Forall_forall _ _) HT y H).
  - right. now subst.
  - right. subst y. rewrite (Hact f r x Hf).
    unfold collides in Hc.
    apply (proj1 (forallb_forall _ _) Hc) in Hkey. simpl in Hkey.
    apply andb_prop in Hkey. destruct Hkey as [_ He].
    apply sqlval_eqb_eq in He. congruence.
Qed.

Lemma fold_try_exec_owned {X} (p : prepared R) fk (row : X -> R) xs T :
  In (name, addr) (p_key p) ->
  (forall f e o, p_action p = DoUpdate f -> addr (f e o) = addr o) ->
  (forall x, addr (row x) = a) ->
  Forall (owned_or_old addr a old) T ->
  Forall (owned_or_old addr a old)
         (fold_left (fun T x => try_exec p fk T (row x)) xs T).
Proof.
  intros Hkey Hact Hr. revert T.
  induction xs as [|x xs IH]; intros T HT; simpl; [exact HT|].
  apply IH. now apply try_exec_owned.
Qed.
End Ownership.

Lemma batch_owned_refl a d : batch_owned a d d.
Proof. unfold batch_owned. conjs; apply owned_old. Qed.

Lemma browser_batch_owned clk d data primary :
  Browser.primaryWallet data = Some primary ->
  batch_owned (bind_param (w_address primary)) d
    (snd (Browser.syncBrowserData clk d data)).
Proof.
  intro Hp.
  destruct (browser_outcome clk d data) as [[_ ->]|Hok]; [apply batch_owned_refl|].
  destruct Hok as (primary' & s5 & T' & Hp' & _ & _ & Hdone & Hx & ->).
  rewrite Hp in Hp'. inversion Hp'; subst primary'. clear Hp'.
  destruct Hdone as (n1 & n2 & n3 & n4 & n5 & E1 & E2 & E3 & E4 & E5 & _ & _ & _
                     & _ & (V1 & V2 & V3 & V4) & (_ & V5 & V6 & _)).
  unfold batch_owned. simpl. rewrite V1, V2, V3, V4, V5, V6. simpl. conjs.
  - destruct (bd_preferences data); [|apply owned_old].
    apply try_exec_owned with (name := "wallet_address");
      [now left | | reflexivity | apply owned_old].
    intros f e o H. inversion H. reflexivity.
  - destruct (bd_tradingPreferences data); [|apply owned_old].
    apply try_exec_owned with (name := "wallet_address");
      [now left | | reflexivity | apply owned_old].
    intros f e o H. inversion H. reflexivity.
  - destruct (bd_dismissedItems data); [|apply owned_old].
    apply fold_try_exec_owned with (name := "wallet_address");
      [now left | | reflexivity | apply owned_old].
    intros f e o H. discriminate.
  - destruct (bd_affiliates data) as [i|]; [|apply owned_old].
    destruct (Nat.ltb 0 (ai_keys i)); [|apply owned_old].
    apply try_exec_owned with (name := "wallet_address");
      [now left | | reflexivity | apply owned_old].
    intros f e o H. inversion H. reflexivity.
  - apply owned_old.
  - apply owned_old.
  - assert (HT : T' = try_exec (stmt sync_metadata_def
                                  (Browser.on_syncMeta_conflict clk))
                        (fun _ => true) (t_sync_metadata d)
                        (Browser.syncMeta_row clk (w_address primary)
                           (browser_total (st_synced s5)))).
    { unfold try_exec. now rewrite Hx. }
    rewrite HT.
    apply try_exec_owned with (name := "wallet_address");
      [now left | | reflexivity | apply owned_old].
    intros f e o H. inversion H. reflexivity.
Qed.

(** C9.  Whenever the export lists at least one wallet, a primary wallet is
    chosen by the fixed precedence (the dYdX wallet if one is present,
    otherwise the EVM wallet if one is present, otherwise the first of the
    list), and its address is the [wallet_address] of every other record of
    the batch: of every row the statements propose (preferences, trading
    preferences, dismissed items, affiliates, transfers, swaps, ledger) and
    of every row of those tables that the pass wrote. *)
Theorem primary_wallet_keys_the_batch (clk : clock) (d : db)
    (data : browser_data) (ws : list wallet) :
  bd_wallets data = Some ws -> ws <> [] ->
  exists primary,
    Browser.primaryWallet data = Some primary
    /\ spec_precedence ws primary
    /\ rows_owned clk (w_address primary)
    /\ batch_owned (bind_param (w_address primary)) d
         (snd (Browser.syncBrowserData clk d data)).
Proof.
  intros Hws Hne.
  destruct (Browser.primaryWallet data) as [primary|] eqn:Hp.
  - exists primary. conjs.
    + reflexivity.
    + now apply primaryWallet_precedence with (data := data).
    + unfold rows_owned. conjs; reflexivity.
    + now apply browser_batch_owned.
  - apply primaryWallet_None in Hp. destruct Hp as [H|H]; congruence.
Qed.

Lemma primary_wallet_keys_the_batch_witness :
  bd_wallets (bare_export (Some [evm_wallet; dydx_wallet]))
  = Some [evm_wallet; dydx_wallet]
  /\ [evm_wallet; dydx_wallet] <> []
  /\ exists primary,
       Browser.primaryWallet (bare_export (Some [evm_wallet; dydx_wallet]))
       = Some primary
       /\ spec_precedence [evm_wallet; dydx_wallet] primary
       /\ rows_owned clk0 (w_address primary)
       /\ batch_owned (bind_param (w_address primary)) empty_db
            (snd (Browser.syncBrowserData clk0 empty_db
                    (bare_export (Some [evm_wallet; dydx_wallet])))).
Proof.
  split; [reflexivity|]. split; [discriminate|].
  apply (primary_wallet_keys_the_batch clk0 empty_db
           (bare_export (Some [evm_wallet; dydx_wallet]))
           [evm_wallet; dydx_wallet]).
  - reflexivity.
  - discriminate.
Defined.

(** ** The ledger row *)

(** The ledger statement of either pass: once it ran, the ledger holds a row
    for the wallet and the data type of the proposed row whose status is
    the literal 'success' and whose count is the proposed one. *)
Lemma ledger_row_written clk (act : on_conflict sync_meta) fk T r T' :
  act = Browser.on_syncMeta_conflict clk \/ act = Chain.on_syncMeta_conflict clk ->
  sm_sync_status r = Text "success" ->
  exec (stmt sync_metadata_def act) fk T r = inr T' ->
  exists row,
    In row T'
    /\ sm_wallet_address row = sm_wallet_address r
    /\ sm_data_type row = sm_data_type r
    /\ sm_sync_status row = Text "success"
    /\ sm_records_synced row = sm_records_synced r.
Proof.
  intros Hact Hst Hx.
  assert (A : p_action (stmt sync_metadata_def act)
              = DoUpdate (fun excluded old =>
                  {| sm_wallet_address := sm_wallet_address old;
                     sm_data_type := sm_data_type old;
                     sm_last_sync_at := Text (sql_now clk);
                     sm_sync_status := Text "success";
                     sm_error_message := sm_error_message old;
                     sm_records_synced := sm_records_synced excluded |})).
  { destruct Hact as [-> | ->]; reflexivity. }
  destruct (exec_upsert_row _ _ _ _ _ _ Hx A) as [Hin|(x & Hin & Hc & Hrow)].
  - exists r. auto.
  - eexists. split; [exact Hrow|]. simpl.
    unfold collides in Hc. simpl in Hc.
    apply andb_prop in Hc. destruct Hc as [H1 H2].
    apply andb_prop in H1. destruct H1 as [_ H1].
    apply andb_prop in H2. destruct H2 as [H2 _].
    apply andb_prop in H2. destruct H2 as [_ H2].
    apply sqlval_eqb_eq in H1, H2. auto.
Qed.

(** C1 (as amended).  The ledger row written at the end of a committed pass
    carries the literal status 'success', whatever the error list holds:
    after a browser pass that reports success the ledger has a row for the
    primary wallet and 'browser_storage' with status 'success' and the sum
    of the counters; the ledger statement of the blockchain pass writes
    'success' in the same way, errors or not.  When the transaction throws,
    no ledger row is written at all: the store is what it was. *)
Theorem ledger_status_is_success (clk : clock) (d : db) (data : browser_data) :
  let R := Browser.syncBrowserData clk d data in
  (success (fst R) = true ->
   exists primary row,
     Browser.primaryWallet data = Some primary
     /\ In row (t_sync_metadata (snd R))
     /\ sm_wallet_address row = bind_param (w_address primary)
     /\ sm_data_type row = Text "browser_storage"
     /\ sm_sync_status row = Text "success"
     /\ sm_records_synced row = Int (Z.of_nat (browser_total (synced (fst R)))))
  /\ (success (fst R) = false -> snd R = d)
  /\ (forall addr (s : state chain_synced),
        exists s' row,
          Chain.updateSyncMetadata clk addr s = (inr tt, s')
          /\ st_errors s' = st_errors s
          /\ In row (t_sync_metadata (st_db s'))
          /\ sm_wallet_address row = Text addr
          /\ sm_data_type row = Text "blockchain"
          /\ sm_sync_status row = Text "success"
          /\ sm_records_synced row = Int (Z.of_nat (chain_total (st_synced s)))).
Proof.
  intro R. conjs.
  - intro Hs. subst R.
    destruct (browser_outcome clk d data) as [[Hf _]|Hok]; [congruence|].
    destruct Hok as (primary & s5 & T' & Hp & _ & _ & _ & Hx & HR).
    rewrite HR. simpl.
    destruct (fun A B => ledger_row_written clk _ _ _ _ _ A B Hx)
      as (row & Hin & H1 & H2 & H3 & H4); [now left | reflexivity |].
    exists primary, row. conjs; auto.
  - apply browser_failure_rolls_back.
  - intros addr s. rewrite chain_updateSyncMetadata_eq.
    destruct (chain_ledger_runs clk addr (chain_total (st_synced s))
                (t_sync_metadata (st_db s))) as (T' & Hx).
    rewrite Hx.
    destruct (fun A B => ledger_row_written clk _ _ _ _ _ A B Hx)
      as (row & Hin & H1 & H2 & H3 & H4); [now right | reflexivity |].
    eexists. exists row. conjs; try reflexivity; auto.
Qed.

Lemma ledger_status_is_success_witness :
  success (fst (Browser.syncBrowserData clk0 empty_db mixed_export)) = true
  /\ exists primary row,
       Browser.primaryWallet mixed_export = Some primary
       /\ In row (t_sync_metadata
                    (snd (Browser.syncBrowserData clk0 empty_db mixed_export)))
       /\ sm_wallet_address row = bind_param (w_address primary)
       /\ sm_data_type row = Text "browser_storage"
       /\ sm_sync_status row = Text "success"
       /\ sm_records_synced row
          = Int (Z.of_nat (browser_total
                   (synced (fst (Browser.syncBrowserData clk0 empty_db
                                   mixed_export))))).
Proof.
  split; [reflexivity|].
  apply (proj1 (ledger_status_is_success clk0 empty_db mixed_export)).
  reflexivity.
Defined.

(** C1 (as stated) fails.  One malformed wallet among valid records: the pass
    commits with one error and three records written, and the ledger row
    says 'success' where the claim asks for 'partial'.  The ledger statement
    of the blockchain pass does the same when it runs in a state that holds
    an error and one written record. *)
Lemma ledger_status_not_partial :
  (let R := Browser.syncBrowserData clk0 empty_db mixed_export in
   success (fst R) = true
   /\ errors (fst R)
      = ["Wallet 0xBAD: NOT NULL constraint failed: user_wallets.wallet_type"]
   /\ browser_total (synced (fst R)) = 3
   /\ spec_pass_status (errors (fst R)) (browser_total (synced (fst R)))
      = "partial"
   /\ map sm_sync_status (t_sync_metadata (snd R)) = [Text "success"]
   /\ map sm_sync_status (t_sync_metadata (snd R))
      <> [Text (spec_pass_status (errors (fst R))
                  (browser_total (synced (fst R))))])
  /\ (let r := Chain.updateSyncMetadata clk0 "dydx1alice"
                 chain_state_with_errors in
      fst r = inr tt
      /\ spec_pass_status (st_errors (snd r)) (chain_total (st_synced (snd r)))
         = "partial"
      /\ map sm_sync_status (t_sync_metadata (st_db (snd r)))
         = [Text "success"]).
Proof. vm_compute. conjs; try reflexivity. discriminate. Qed.

(** ** Position and transfer upserts *)

(** C2.  The position statement names the conflict target
    (wallet_address, position_id), but the [positions] table declares no
    UNIQUE constraint on it: the statement cannot be prepared, so the
    blockchain pass throws before any position is written and rolls back.
    Here a stored position is fetched again with a new size: the pass fails
    and the stored row keeps its size. *)
Theorem position_upsert_is_never_prepared :
  Chain.positionStmt = inl EUpsertTarget
  /\ let d := put positions [stored_position] empty_db in
     let R := Chain.syncBlockchainData clk0 d "dydx1alice" position_batch in
     success (fst R) = false
     /\ errors (fst R)
        = ["Sync failed: ON CONFLICT clause does not match any PRIMARY KEY or UNIQUE constraint"]
     /\ cs_positions (synced (fst R)) = 0
     /\ snd R = d
     /\ map ps_size (t_positions (snd R)) = [Text "1"].
Proof. vm_compute. conjs; reflexivity. Qed.

(** No blockchain pass commits, whatever was fetched. *)
Lemma chain_pass_never_commits clk d addr data :
  success (fst (Chain.syncBlockchainData clk d addr data)) = false
  /\ snd (Chain.syncBlockchainData clk d addr data) = d.
Proof.
  destruct (chain_outcome clk d addr data) as (H1 & H2 & _). auto.
Qed.

(** C3.  Both transfer statements name tx_hash as their conflict target,
    ON CONFLICT(tx_hash) DO UPDATE SET status, updated_at in the blockchain
    pass and ON CONFLICT(tx_hash) DO NOTHING in the browser pass, but the
    [transfers] table indexes tx_hash without declaring it UNIQUE: neither
    statement can be prepared.  Here a pending transfer is stored and comes
    again, confirmed, in an export and from the indexer: either pass fails
    and rolls back, no transfer is counted, and the stored row is still
    pending, its status and update time not updated. *)
Theorem transfer_upsert_is_never_prepared :
  Browser.transferStmt = inl EUpsertTarget
  /\ Chain.transferStmt = inl EUpsertTarget
  /\ (let d := put transfers [stored_transfer] empty_db in
      let R := Browser.syncBrowserData clk0 d transfer_export in
      success (fst R) = false
      /\ errors (fst R)
         = ["Transaction failed: ON CONFLICT clause does not match any PRIMARY KEY or UNIQUE constraint"]
      /\ bs_transfers (synced (fst R)) = 0
      /\ snd R = d
      /\ map tr_status (t_transfers (snd R)) = [Text "PENDING"]
      /\ map tr_updated_at (t_transfers (snd R))
         = [Text "2024-04-30T09:00:00.000Z"])
  /\ (let d := put transfers [stored_transfer] empty_db in
      let R := Chain.syncBlockchainData clk0 d "dydx1alice" transfer_batch in
      success (fst R) = false
      /\ errors (fst R)
         = ["Sync failed: ON CONFLICT clause does not match any PRIMARY KEY or UNIQUE constraint"]
      /\ cs_transfers (synced (fst R)) = 0
      /\ snd R = d
      /\ map tr_status (t_transfers (snd R)) = [Text "PENDING"]
      /\ map tr_updated_at (t_transfers (snd R))
         = [Text "2024-04-30T09:00:00.000Z"]).
Proof. vm_compute. conjs; reflexivity. Qed.

(** An export that carries a transfers list never commits. *)
Lemma browser_pass_with_transfers_fails clk d data ts :
  bd_transfers data = Some ts ->
  success (fst (Browser.syncBrowserData clk d data)) = false
  /\ snd (Browser.syncBrowserData clk d data) = d.
Proof.
  intro Ht. destruct (browser_outcome clk d data) as [H|Hok]; [exact H|].
  destruct Hok as (primary & s5 & T' & _ & Hn & _). congruence.
Qed.

(** ** Balances from the indexer *)

(** C8 (as amended).  The balance rows the fetcher produces are, in order,
    one for each sub-account of the reply that reports an equity.  The
    balance of the row is that equity and its locked balance is the
    constant "0", whatever the indexer reports; its available balance is the
    free collateral of the sub-account when the indexer reports one and
    defaults to the full balance when the figure is omitted. *)
Theorem balance_defaults (addr : string) (reply : indexer_reply) :
  Forall2 (fun sa b =>
             b_balance b = sa_equity sa
             /\ b_lockedBalance b = JStr "0"
             /\ (truthy (sa_freeCollateral sa) = false ->
                 b_availableBalance b = b_balance b)
             /\ (truthy (sa_freeCollateral sa) = true ->
                 b_availableBalance b = sa_freeCollateral sa))
          (filter (fun sa => truthy (sa_equity sa)) (listed_subaccounts reply))
          (fetchAccountBalances addr reply).
Proof.
  unfold fetchAccountBalances, listed_subaccounts.
  destruct reply as [msg|[[subs|]|]]; try constructor.
  induction subs as [|sa subs IH]; simpl; [constructor|].
  destruct (truthy (sa_equity sa)) eqn:Heq; [|exact IH].
  simpl. constructor; [|exact IH].
  unfold js_or. simpl. conjs; auto.
  - now intros ->.
  - now intros ->.
Qed.

(** C8 (as stated) fails.  With the breakdown omitted the available balance
    is the full balance, but the locked balance is "0", not the full
    balance. *)
Lemma locked_balance_is_not_the_balance :
  let bs := fetchAccountBalances "dydx1alice"
              (Fetched (Some (Some [equity_only]))) in
  map b_balance bs = [JStr "100"]
  /\ map b_availableBalance bs = [JStr "100"]
  /\ map b_lockedBalance bs = [JStr "0"]
  /\ map b_lockedBalance bs <> map b_balance bs.
Proof. vm_compute. conjs; try reflexivity. discriminate. Qed.

(** ** Counters *)

(** C5 (as amended).  In a committed browser pass each counter equals the
    number of records supplied for its category less the number of records
    whose statement raised, each of which left a message under the label of
    the category.  Whether the store changed a row does not enter: a record
    skipped by ON CONFLICT DO NOTHING is counted. *)
Theorem counters_count_statements_run (clk : clock) (d : db)
    (data : browser_data) :
  let R := Browser.syncBrowserData clk d data in
  let c := synced (fst R) in
  let errs := errors (fst R) in
  success (fst R) = true ->
  bs_wallets c + reported "Wallet " errs = supplied (bd_wallets data)
  /\ bs_preferences c + reported "Preferences: " errs
     = supplied1 (bd_preferences data)
  /\ bs_tradingPreferences c + reported "Trading preferences: " errs
     = supplied1 (bd_tradingPreferences data)
  /\ bs_dismissedItems c + reported "Dismissed item " errs
     = supplied (bd_dismissedItems data)
  /\ bs_affiliates c + reported "Affiliates: " errs
     = supplied_affiliates (bd_affiliates data)
  /\ bs_transfers c = supplied (bd_transfers data)
  /\ bs_swaps c = supplied (bd_swaps data).
Proof.
  intros R c errs Hs. subst c errs R.
  destruct (browser_outcome clk d data) as [[Hf _]|Hok]; [congruence|].
  destruct Hok as (primary & s5 & T' & _ & Ht & Hsw & Hdone & _ & ->).
  destruct Hdone as (n1 & n2 & n3 & n4 & n5 & E1 & E2 & E3 & E4 & E5 & Hc & He
                     & (T1 & T2 & T3 & T4 & T5) & (L1 & L2 & L3 & L4 & L5) & _).
  simpl fst. simpl synced. simpl errors. rewrite Hc, He, Ht, Hsw. simpl.
  rewrite !reported_app.
  rewrite (reported_own "Wallet " E1 L1),
    (reported_other "Wallet " "Preferences: " E2 (fun _ => eq_refl) L2),
    (reported_other "Wallet " "Trading preferences: " E3 (fun _ => eq_refl) L3),
    (reported_other "Wallet " "Dismissed item " E4 (fun _ => eq_refl) L4),
    (reported_other "Wallet " "Affiliates: " E5 (fun _ => eq_refl) L5).
  rewrite (reported_other "Preferences: " "Wallet " E1 (fun _ => eq_refl) L1),
    (reported_own "Preferences: " E2 L2),
    (reported_other "Preferences: " "Trading preferences: " E3 (fun _ => eq_refl) L3),
    (reported_other "Preferences: " "Dismissed item " E4 (fun _ => eq_refl) L4),
    (reported_other "Preferences: " "Affiliates: " E5 (fun _ => eq_refl) L5).
  rewrite (reported_other "Trading preferences: " "Wallet " E1 (fun _ => eq_refl) L1),
    (reported_other "Trading preferences: " "Preferences: " E2 (fun _ => eq_refl) L2),
    (reported_own "Trading preferences: " E3 L3),
    (reported_other "Trading preferences: " "Dismissed item " E4 (fun _ => eq_refl) L4),
    (reported_other "Trading preferences: " "Affiliates: " E5 (fun _ => eq_refl) L5).
  rewrite (reported_other "Dismissed item " "Wallet " E1 (fun _ => eq_refl) L1),
    (reported_other "Dismissed item " "Preferences: " E2 (fun _ => eq_refl) L2),
    (reported_other "Dismissed item " "Trading preferences: " E3 (fun _ => eq_refl) L3),
    (reported_own "Dismissed item " E4 L4),
    (reported_other "Dismissed item " "Affiliates: " E5 (fun _ => eq_refl) L5).
  rewrite (reported_other "Affiliates: " "Wallet " E1 (fun _ => eq_refl) L1),
    (reported_other "Affiliates: " "Preferences: " E2 (fun _ => eq_refl) L2),
    (reported_other "Affiliates: " "Trading preferences: " E3 (fun _ => eq_refl) L3),
    (reported_other "Affiliates: " "Dismissed item " E4 (fun _ => eq_refl) L4),
    (reported_own "Affiliates: " E5 L5).
  conjs; lia.
Qed.

Lemma counters_count_statements_run_witness :
  let R := Browser.syncBrowserData clk0 empty_db mixed_export in
  let c := synced (fst R) in
  let errs := errors (fst R) in
  success (fst R) = true
  /\ bs_wallets c + reported "Wallet " errs = supplied (bd_wallets mixed_export)
  /\ bs_preferences c + reported "Preferences: " errs
     = supplied1 (bd_preferences mixed_export)
  /\ bs_tradingPreferences c + reported "Trading preferences: " errs
     = supplied1 (bd_tradingPreferences mixed_export)
  /\ bs_dismissedItems c + reported "Dismissed item " errs
     = supplied (bd_dismissedItems mixed_export)
  /\ bs_affiliates c + reported "Affiliates: " errs
     = supplied_affiliates (bd_affiliates mixed_export)
  /\ bs_transfers c = supplied (bd_transfers mixed_export)
  /\ bs_swaps c = supplied (bd_swaps mixed_export).
Proof.
  split; [reflexivity|].
  apply (counters_count_statements_run clk0 empty_db mixed_export).
  reflexivity.
Defined.

(** C5 (as stated) fails.  The same dismissed item twice in one export: one
    row is written, the second record is skipped by ON CONFLICT DO NOTHING,
    and the counter says 2.  Likewise the fill loop counts a fill whose
    fill_id is already stored, while the table stays as it was. *)
Lemma skipped_records_are_counted :
  (let R := Browser.syncBrowserData clk0 empty_db repeated_item_export in
   success (fst R) = true
   /\ errors (fst R) = []
   /\ length (t_dismissed_items (snd R)) - length (t_dismissed_items empty_db) = 1
   /\ bs_dismissedItems (synced (fst R)) = 2
   /\ bs_dismissedItems (synced (fst R))
      <> length (t_dismissed_items (snd R)) - length (t_dismissed_items empty_db))
  /\ (let r := Chain.syncFills [bob_fill] alice_state in
      fst r = inr tt
      /\ st_errors (snd r) = []
      /\ t_fills (st_db (snd r)) = t_fills alice_store
      /\ cs_fills (st_synced (snd r)) = 1).
Proof. vm_compute. conjs; try reflexivity. discriminate. Qed.

(** ** Failed passes *)

(** C10.  A failed pass leaves the store as it was, and returns the counters
    as they stood when the transaction threw: in the browser pass those the
    record steps accumulated, in the blockchain pass the balances counted
    before the position statement.  For some inputs the returned counts are
    therefore not zero although nothing of the pass is in the store: an
    export whose primary wallet has no address (the ledger row violates
    NOT NULL after one wallet was counted), and any fetched balance. *)
Theorem failed_pass_keeps_counts :
  (forall clk d data primary,
     Browser.primaryWallet data = Some primary ->
     success (fst (Browser.syncBrowserData clk d data)) = false ->
     snd (Browser.syncBrowserData clk d data) = d
     /\ exists s5,
          records_done clk data primary
            {| st_db := d; st_synced := browser_zero; st_errors := [] |} s5
          /\ synced (fst (Browser.syncBrowserData clk d data)) = st_synced s5)
  /\ (forall clk d addr data,
        success (fst (Chain.syncBlockchainData clk d addr data)) = false
        /\ snd (Chain.syncBlockchainData clk d addr data) = d
        /\ exists (n : nat) (E : list string),
             n + length E = length (balances data)
             /\ cs_balances (synced (fst (Chain.syncBlockchainData clk d addr data)))
                = n)
  /\ (let R := Browser.syncBrowserData clk0 empty_db addressless_export in
      success (fst R) = false
      /\ bs_wallets (synced (fst R)) = 1
      /\ t_user_wallets (snd R) = []
      /\ snd R = empty_db)
  /\ (let R := Chain.syncBlockchainData clk0 empty_db "dydx1alice" balance_batch in
      success (fst R) = false
      /\ cs_balances (synced (fst R)) = 1
      /\ t_account_balances (snd R) = []
      /\ snd R = empty_db).
Proof.
  conjs.
  - intros clk d data primary Hp Hs.
    destruct (browser_failure_counts clk d data primary Hp Hs)
      as (s5 & Hdone & Hc & Hd).
    split; [exact Hd|]. exists s5. auto.
  - intros clk d addr data.
    destruct (chain_outcome clk d addr data) as (H1 & H2 & n & E & Hn & Hc & _).
    conjs; auto. exists n, E. split; [exact Hn|]. now rewrite Hc.
  - vm_compute. conjs; reflexivity.
  - vm_compute. conjs; reflexivity.
Qed.

Lemma failed_pass_keeps_counts_witness :
  Browser.primaryWallet addressless_export = Some addressless_wallet
  /\ success (fst (Browser.syncBrowserData clk0 empty_db addressless_export))
     = false
  /\ snd (Browser.syncBrowserData clk0 empty_db addressless_export) = empty_db
  /\ exists s5,
       records_done clk0 addressless_export addressless_wallet
         {| st_db := empty_db; st_synced := browser_zero; st_errors := [] |} s5
       /\ synced (fst (Browser.syncBrowserData clk0 empty_db addressless_export))
          = st_synced s5.
Proof.
  split; [reflexivity|]. split; [reflexivity|].
  apply (proj1 failed_pass_keeps_counts clk0 empty_db addressless_export
           addressless_wallet); reflexivity.
Defined.

(** ** Orders and fills of different wallets *)

(** The order and the fill statement taken alone, in a state in which they
    are prepared.  When a well-formed order arrives whose order_id is
    already stored, under whatever wallet, the order loop runs it without a
    message and counts it; no row is added and no row changes owner or
    identifier, and the stored row takes the status, remaining size and
    update time of the arriving order.  When a well-formed fill arrives
    whose fill_id is already stored, the fill loop counts it without a
    message and leaves the table as it was. *)
Lemma colliding_ids_are_merged_silently :
  (forall (o : orderRec) (s : state chain_synced) (x : order),
     first_null orders_def (Chain.order_row o) = None ->
     In x (t_orders (st_db s)) ->
     od_order_id x = bind_param (o_orderId o) ->
     exists s',
       Chain.syncOrders [o] s = (inr tt, s')
       /\ st_errors s' = st_errors s
       /\ cs_orders (st_synced s') = S (cs_orders (st_synced s))
       /\ map od_wallet_address (t_orders (st_db s'))
          = map od_wallet_address (t_orders (st_db s))
       /\ map od_order_id (t_orders (st_db s'))
          = map od_order_id (t_orders (st_db s))
       /\ exists y,
            In y (t_orders (st_db s'))
            /\ od_order_id y = bind_param (o_orderId o)
            /\ od_status y = bind_param (o_status o)
            /\ od_remaining_size y = bind_param (o_remainingSize o)
            /\ od_updated_at y = bind_param (o_updatedAt o))
  /\ (forall (f : fillRec) (s : state chain_synced) (y : fill),
        first_null fills_def (Chain.fill_row f) = None ->
        In y (t_fills (st_db s)) ->
        fl_fill_id y = bind_param (f_fillId f) ->
        exists s',
          Chain.syncFills [f] s = (inr tt, s')
          /\ st_errors s' = st_errors s
          /\ cs_fills (st_synced s') = S (cs_fills (st_synced s))
          /\ t_fills (st_db s') = t_fills (st_db s)).
Proof.
  split.
  - intros o s x Hn Hin Hid.
    set (p := stmt orders_def Chain.on_order_conflict).
    set (r := Chain.order_row o).
    assert (Hnn : is_null (bind_param (o_orderId o)) = false).
    { apply (first_null_none orders_def r ("order_id", od_order_id) Hn).
      simpl. auto. }
    assert (Hc : collides (p_key p) r x = true).
    { unfold collides. simpl. now rewrite Hnn, Hid, sqlval_eqb_refl. }
    assert (Hx := exec_on_collision p (no_fk (st_db s)) _ r x Hn Hin Hc).
    unfold Chain.syncOrders. rewrite orderStmt_eq, bind_lift_inr.
    rewrite (sync_each_eq orders p no_fk inc_orders). simpl fold_left.
    unfold attempt. fold r. change (view orders (st_db s)) with (t_orders (st_db s)).
    rewrite Hx. simpl p_action.
    eexists. split; [reflexivity|]. simpl. conjs; auto.
    + now apply update_first_map.
    + now apply update_first_map.
    + destruct (update_first_hits (collides (p_key p) r)
                  (fun old => {|
                     od_wallet_address := od_wallet_address old;
                     od_order_id := od_order_id old;
                     od_client_id := od_client_id old;
                     od_market := od_market old;
                     od_side := od_side old;
                     od_type := od_type old;
                     od_status := od_status r;
                     od_price := od_price old;
                     od_trigger_price := od_trigger_price old;
                     od_size := od_size old;
                     od_remaining_size := od_remaining_size r;
                     od_post_only := od_post_only old;
                     od_reduce_only := od_reduce_only old;
                     od_time_in_force := od_time_in_force old;
                     od_good_til_block := od_good_til_block old;
                     od_created_at := od_created_at old;
                     od_updated_at := od_updated_at r |}) (t_orders (st_db s)))
        as (x' & Hx' & Hq & Hin').
      { apply existsb_exists. now exists x. }
      eexists. split; [exact Hin'|]. simpl. conjs; auto.
      unfold collides in Hq. simpl in Hq. rewrite Hnn in Hq. simpl in Hq.
      rewrite andb_true_r in Hq. apply sqlval_eqb_eq in Hq. now rewrite <- Hq.
  - intros f s y Hn Hin Hid.
    set (p := stmt fills_def DoNothing).
    set (r := Chain.fill_row f).
    assert (Hnn : is_null (bind_param (f_fillId f)) = false).
    { apply (first_null_none fills_def r ("fill_id", fl_fill_id) Hn).
      simpl. auto. }
    assert (Hc : collides (p_key p) r y = true).
    { unfold collides. simpl. now rewrite Hnn, Hid, sqlval_eqb_refl. }
    assert (Hx := exec_on_collision p (Chain.fill_fk (st_db s)) _ r y Hn Hin Hc).
    unfold Chain.syncFills. rewrite fillStmt_eq, bind_lift_inr.
    rewrite (sync_each_eq fills p Chain.fill_fk inc_fills). simpl fold_left.
    unfold attempt. fold r. change (view fills (st_db s)) with (t_fills (st_db s)).
    rewrite Hx. simpl p_action.
    eexists. split; [reflexivity|]. simpl. conjs; auto.
Qed.





(** ** Running a sync twice *)

Lemma pref_upsert_twice clk1 clk2 a p T :
  is_null (bind_param a) = false ->
  let S := stmt user_preferences_def Browser.on_pref_conflict in
  map blank_pref_time
    (try_exec S (fun _ => true)
       (try_exec S (fun _ => true) T (Browser.pref_row clk1 a p))
       (Browser.pref_row clk2 a p))
  = map blank_pref_time
      (try_exec S (fun _ => true) T (Browser.pref_row clk1 a p)).
Proof.
  intros Hn S.
  assert (N : forall clk, first_null user_preferences_def
                            (Browser.pref_row clk a p) = None).
  { intro clk. unfold first_null. simpl. now rewrite Hn. }
  eapply upsert_twice; try reflexivity; try apply N.
  unfold collides. simpl. now rewrite Hn, sqlval_eqb_refl.
Qed.

Lemma tradePref_upsert_twice clk1 clk2 a p T :
  is_null (bind_param a) = false ->
  let S := stmt trading_preferences_def Browser.on_tradePref_conflict in
  map blank_tradePref_time
    (try_exec S (fun _ => true)
       (try_exec S (fun _ => true) T (Browser.tradePref_row clk1 a p))
       (Browser.tradePref_row clk2 a p))
  = map blank_tradePref_time
      (try_exec S (fun _ => true) T (Browser.tradePref_row clk1 a p)).
Proof.
  intros Hn S.
  assert (N : forall clk, first_null trading_preferences_def
                            (Browser.tradePref_row clk a p) = None).
  { intro clk. unfold first_null. simpl. now rewrite Hn. }
  eapply upsert_twice; try reflexivity; try apply N.
  unfold collides. simpl. now rewrite Hn, sqlval_eqb_refl.
Qed.

Lemma affiliate_upsert_twice clk1 clk2 a i T :
  is_null (bind_param a) = false ->
  let S := stmt affiliates_def Browser.on_affiliate_conflict in
  try_exec S (fun _ => true)
    (try_exec S (fun _ => true) T (Browser.affiliate_row clk1 a i))
    (Browser.affiliate_row clk2 a i)
  = try_exec S (fun _ => true) T (Browser.affiliate_row clk1 a i).
Proof.
  intros Hn S.
  assert (N : forall clk, first_null affiliates_def
                            (Browser.affiliate_row clk a i) = None).
  { intro clk. unfold first_null. simpl. now rewrite Hn. }
  rewrite <- (map_id (try_exec S _ (try_exec S _ T _) _)).
  rewrite <- (map_id (try_exec S _ T _)) at 2.
  eapply upsert_twice; try reflexivity; try apply N.
  unfold collides. simpl. now rewrite Hn, sqlval_eqb_refl.
Qed.

Lemma truthy_not_null v : truthy v = true -> is_null (bind_param v) = false.
Proof. destruct v; simpl; [discriminate | discriminate | reflexivity]. Qed.

(** Every balance the fetcher makes is filed under the one key of the
    account, and its upsert replaces the stored row of that key wholesale. *)
Lemma fetched_balance_on_key clk addr reply b :
  In b (fetchAccountBalances addr reply) ->
  on_key (stmt account_balances_def Chain.on_balance_conflict)
         (do_update_of Chain.on_balance_conflict) (usdc_key addr)
         (Chain.balance_row clk b).
Proof.
  unfold fetchAccountBalances.
  destruct reply as [msg|[[subs|]|]]; simpl; try tauto.
  intro H. apply in_flat_map in H. destruct H as (sa & _ & Hb).
  destruct (truthy (sa_equity sa)) eqn:Heq; [|destruct Hb].
  destruct Hb as [<-|[]]. apply truthy_not_null in Heq.
  unfold on_key. conjs.
  - unfold first_null. simpl. now rewrite Heq.
  - intro x. reflexivity.
  - unfold usdc_key, collides. simpl. now rewrite String.eqb_refl.
  - intros x Hq. unfold usdc_key, collides in Hq. simpl in Hq.
    rewrite andb_true_r in Hq.
    apply andb_prop in Hq. destruct Hq as [H1 Hq].
    apply andb_prop in Hq. destruct Hq as [H2 Hq].
    apply andb_prop in Hq. destruct Hq as [H3 H4].
    apply (sqlval_eqb_eq (Text addr)) in H1.
    apply (sqlval_eqb_eq (Text "blackbottle-mainnet-1")) in H2.
    apply (sqlval_eqb_eq (Text "USDC")) in H3.
    apply (sqlval_eqb_eq (Text USDC_DENOM)) in H4.
    unfold Chain.balance_row. simpl. now rewrite <- H1, <- H2, <- H3, <- H4.
Qed.

Lemma syncBalances_view clk bs (s : state chain_synced) :
  t_account_balances (st_db (snd (Chain.syncBalances clk bs s)))
  = fold_left (fun T b =>
                 try_exec (stmt account_balances_def Chain.on_balance_conflict)
                   (fun _ => true) T (Chain.balance_row clk b))
              bs (t_account_balances (st_db s)).
Proof.
  unfold Chain.syncBalances. rewrite balanceStmt_eq, bind_lift_inr.
  rewrite (sync_each_eq account_balances _ no_fk inc_balances). simpl snd.
  exact (loop_view account_balances _ inc_balances (fun _ _ => eq_refl)
           (Chain.balance_row clk) _ bs s).
Qed.

(** The balance loop run twice on what the fetcher made of one reply. *)
Lemma balances_step_twice clk1 clk2 addr reply (s : state chain_synced) :
  let bs := fetchAccountBalances addr reply in
  let s1 := snd (Chain.syncBalances clk1 bs s) in
  let s2 := snd (Chain.syncBalances clk2 bs s1) in
  map blank_balance_time (t_account_balances (st_db s2))
  = map blank_balance_time (t_account_balances (st_db s1)).
Proof.
  intros bs s1 s2. subst s1 s2. rewrite !syncBalances_view.
  apply (batch_twice (stmt account_balances_def Chain.on_balance_conflict)
           (do_update_of Chain.on_balance_conflict) (usdc_key addr)
           eq_refl eq_refl blank_balance_time).
  - intros x Hx. now apply fetched_balance_on_key with (reply := reply).
  - intros x Hx. now apply fetched_balance_on_key with (reply := reply).
  - reflexivity.
Qed.

(** C7.  Running a sync twice in a row with the same batch leaves the
    user-preference and trading-preference rows as the first run left them
    up to [updated_at], the affiliate rows exactly as the first run left
    them, and the balance rows as the first run left them up to
    [last_updated]; the two runs may read different clocks.  For the
    balances this holds of the whole pass and also of the balance loop by
    itself, run twice on what the fetcher made of one reply. *)
Theorem sync_twice_is_idempotent (clk1 clk2 : clock) (d : db)
    (data : browser_data) (addr : string) (batch : fetched)
    (reply : indexer_reply) (s : state chain_synced) :
  let d1 := snd (Browser.syncBrowserData clk1 d data) in
  let d2 := snd (Browser.syncBrowserData clk2 d1 data) in
  let c1 := snd (Chain.syncBlockchainData clk1 d addr batch) in
  let c2 := snd (Chain.syncBlockchainData clk2 c1 addr batch) in
  map blank_pref_time (t_user_preferences d2)
  = map blank_pref_time (t_user_preferences d1)
  /\ map blank_tradePref_time (t_trading_preferences d2)
     = map blank_tradePref_time (t_trading_preferences d1)
  /\ t_affiliates d2 = t_affiliates d1
  /\ map blank_balance_time (t_account_balances c2)
     = map blank_balance_time (t_account_balances c1)
  /\ (let bs := fetchAccountBalances addr reply in
      let s1 := snd (Chain.syncBalances clk1 bs s) in
      let s2 := snd (Chain.syncBalances clk2 bs s1) in
      map blank_balance_time (t_account_balances (st_db s2))
      = map blank_balance_time (t_account_balances (st_db s1))).
Proof.
  intros d1 d2 c1 c2.
  assert (Hchain : c2 = c1).
  { subst c2. apply chain_pass_never_commits. }
  rewrite Hchain.
  assert (Hloop := balances_step_twice clk1 clk2 addr reply s).
  destruct (browser_commits data) eqn:C.
  - assert (Hp : exists primary,
               Browser.primaryWallet data = Some primary
               /\ is_null (bind_param (w_address primary)) = false).
    { unfold browser_commits in C.
      destruct (Browser.primaryWallet data) as [w|]; [|discriminate].
      destruct (bd_transfers data); [discriminate|].
      destruct (bd_swaps data); [discriminate|].
      exists w. split; [reflexivity|]. now apply negb_true_iff in C. }
    destruct Hp as (primary & Hp & Hn).
    destruct (browser_tables_after clk1 d data primary Hp C) as (A1 & A2 & A3).
    destruct (browser_tables_after clk2 d1 data primary Hp C) as (B1 & B2 & B3).
    fold d1 in A1, A2, A3. fold d2 in B1, B2, B3.
    rewrite B1, B2, B3. conjs; auto.
    + destruct (bd_preferences data) as [p|]; [|reflexivity].
      rewrite A1. now apply pref_upsert_twice.
    + destruct (bd_tradingPreferences data) as [p|]; [|reflexivity].
      rewrite A2. now apply tradePref_upsert_twice.
    + destruct (bd_affiliates data) as [i|]; [|reflexivity].
      destruct (Nat.ltb 0 (ai_keys i)); [|reflexivity].
      rewrite A3. now apply affiliate_upsert_twice.
  - assert (Hd : d2 = d1).
    { subst d2. apply browser_failure_rolls_back.
      now rewrite browser_success_eq. }
    rewrite Hd. auto.
Qed.

(** * Further properties

    ** The record loops of [syncBlockchainData] *)

Section Growth.
Context {R B : Type}.
Variable blank : R -> B.

Lemma grown_refl (T : list R) : grown_from blank T T.
Proof. exists T, []. now rewrite app_nil_r. Qed.

Lemma grown_trans (T1 T2 T3 : list R) :
  grown_from blank T1 T2 -> grown_from blank T2 T3 -> grown_from blank T1 T3.
Proof.
  intros (k1 & a1 & -> & H1) (k2 & a2 & -> & H2).
  rewrite map_app in H2.
  exists (firstn (length k1) k2), (skipn (length k1) k2 ++ a2)%list. split.
  - now rewrite app_assoc, firstn_skipn.
  - rewrite <- H1. rewrite <- firstn_map, H2.
    rewrite <- (length_map blank k1).
    now rewrite firstn_app, firstn_all, Nat.sub_diag, firstn_0, app_nil_r.
Qed.

Variable p : prepared R.
Hypothesis Hkeep :
  forall f e x, p_action p = DoUpdate f -> blank (f e x) = blank x.

(** A guarded run grows the table. *)
Lemma try_exec_grown fk (T : list R) (r : R) :
  grown_from blank T (try_exec p fk T r).
Proof.
  unfold try_exec, exec.
  destruct (first_null (p_table p) r); [apply grown_refl|].
  destruct (existsb (collides (p_key p) r) T).
  - destruct (p_action p) as [|f] eqn:A; [apply grown_refl|].
    exists (update_first (collides (p_key p) r) (f r) T), [].
    rewrite app_nil_r. split; [reflexivity|].
    apply update_first_map. intro x. now apply Hkeep.
  - destruct (find _ (td_unique (p_table p))); [apply grown_refl|].
    destruct (fk r); [|apply grown_refl].
    now exists T, [r].
Qed.

Lemma loop_grown {C X} (t : table R) (fk_ok : db -> R -> bool)
    (bump : C -> C) (row : X -> R) report xs (s : state C) :
  (forall v d, view t (put t v d) = v) ->
  grown_from blank (view t (st_db s))
    (view t (st_db (fold_left
       (fun s x => attempt t p fk_ok bump (row x) (report x) s) xs s))).
Proof.
  intro view_put. revert s.
  induction xs as [|x xs IH]; intro s; simpl; [apply grown_refl|].
  eapply grown_trans; [|apply IH].
  rewrite (attempt_view t p fk_ok bump view_put). apply try_exec_grown.
Qed.
End Growth.

(** X1.  The order loop never removes or reorders a stored order and never
    changes any column of it but status, remaining_size and updated_at: the
    orders table after the loop starts with the stored rows, equal to what
    they were on every other column, followed by the rows added; no other
    table changes and the loop does not throw. *)
Theorem order_loop_keeps_creation_columns (os : list orderRec)
    (s : state chain_synced) :
  exists s',
    Chain.syncOrders os s = (inr tt, s')
    /\ same_but orders (st_db s) (st_db s')
    /\ grown_from order_as_created (t_orders (st_db s)) (t_orders (st_db s')).
Proof.
  unfold Chain.syncOrders. rewrite orderStmt_eq, bind_lift_inr, sync_each_eq.
  eexists. conjs.
  - reflexivity.
  - apply (loop_same_but orders _ inc_orders (fun _ _ _ => eq_refl)).
  - apply (loop_grown order_as_created _) with (t := orders);
      [|reflexivity].
    intros f e x A. inversion A. reflexivity.
Qed.

(** X2.  The market loop never removes or reorders a stored market and never
    changes its id, base asset or quote asset: a market whose assets were
    stored once keeps them whatever later batches say. *)
Theorem market_loop_keeps_listing (clk : clock) (ms : list marketRec)
    (s : state chain_synced) :
  exists s',
    Chain.syncMarkets clk ms s = (inr tt, s')
    /\ same_but markets (st_db s) (st_db s')
    /\ grown_from market_listing (t_markets (st_db s)) (t_markets (st_db s')).
Proof.
  unfold Chain.syncMarkets. rewrite marketStmt_eq, bind_lift_inr, sync_each_eq.
  eexists. conjs.
  - reflexivity.
  - apply (loop_same_but markets _ inc_markets (fun _ _ _ => eq_refl)).
  - apply (loop_grown market_listing _) with (t := markets);
      [|reflexivity].
    intros f e x A. inversion A. reflexivity.
Qed.

Section AppendOnly.
Context {R : Type}.
Variable p : prepared R.
Hypothesis Hnothing : p_action p = DoNothing.

Lemma try_exec_nothing fk (T : list R) (r : R) :
  try_exec p fk T r = T \/ try_exec p fk T r = (T ++ [r])%list.
Proof.
  unfold try_exec, exec. rewrite Hnothing.
  destruct (first_null (p_table p) r); [now left|].
  destruct (existsb (collides (p_key p) r) T); [now left|].
  destruct (find _ (td_unique (p_table p))); [now left|].
  destruct (fk r); [now right | now left].
Qed.

Lemma loop_appends {C X} (t : table R) (fk_ok : db -> R -> bool)
    (bump : C -> C) (row : X -> R) report xs (s : state C) :
  (forall v d, view t (put t v d) = v) ->
  exists added,
    view t (st_db (fold_left
       (fun s x => attempt t p fk_ok bump (row x) (report x) s) xs s))
    = (view t (st_db s) ++ added)%list
    /\ Forall (fun r => exists x, In x xs /\ r = row x) added.
Proof.
  intro view_put. revert s.
  induction xs as [|x xs IH]; intro s; simpl.
  - exists []. now rewrite app_nil_r.
  - destruct (IH (attempt t p fk_ok bump (row x) (report x) s))
      as (added & -> & Hall).
    assert (Hall' : Forall (fun r => exists y, (x = y \/ In y xs) /\ r = row y)
                      added).
    { eapply Forall_impl; [|exact Hall].
      intros r (y & Hy & ->). exists y. auto. }
    rewrite (attempt_view t p fk_ok bump view_put).
    destruct (try_exec_nothing (fk_ok (st_db s)) (view t (st_db s)) (row x))
      as [-> | ->].
    + now exists added.
    + exists (row x :: added). rewrite <- app_assoc. split; [reflexivity|].
      constructor; [|exact Hall']. exists x. auto.
Qed.
End AppendOnly.

(** X3.  The fill loop is append-only: it never throws, touches no other
    table, leaves every stored fill as it is and in its place, and each row
    it adds is the row of one of the fetched fills. *)
Theorem fill_loop_is_append_only (fs : list fillRec) (s : state chain_synced) :
  exists s' added,
    Chain.syncFills fs s = (inr tt, s')
    /\ same_but fills (st_db s) (st_db s')
    /\ t_fills (st_db s') = (t_fills (st_db s) ++ added)%list
    /\ Forall (fun r => exists f, In f fs /\ r = Chain.fill_row f) added.
Proof.
  unfold Chain.syncFills. rewrite fillStmt_eq, bind_lift_inr, sync_each_eq.
  destruct (loop_appends (stmt fills_def DoNothing) eq_refl fills Chain.fill_fk
              inc_fills Chain.fill_row
              (fun f err =>
                 unless_unique
                   ("Fill " ++ render (f_fillId f) ++ ": " ++ message err) err)
              fs s (fun _ _ => eq_refl)) as (added & Hv & Hall).
  eexists. exists added. conjs.
  - reflexivity.
  - apply (loop_same_but fills _ inc_fills (fun _ _ _ => eq_refl)).
  - exact Hv.
  - exact Hall.
Qed.

(** ** What a statement can raise *)

Section Raises.
Context {R : Type}.

Lemma first_null_In (td : table_def R) (r : R) (c : string) :
  first_null td r = Some c -> In c (map fst (td_not_null td)).
Proof.
  unfold first_null.
  destruct (find (fun c => is_null (snd c r)) (td_not_null td)) as [col|] eqn:F;
    [|discriminate].
  intro H. inversion H; subst. apply in_map.
  now apply find_some in F.
Qed.

(** On a table with one UNIQUE constraint, the upsert on that constraint
    raises for a NULL in a NOT NULL column or for a dangling foreign key,
    never for a duplicate. *)
Lemma exec_raises (p : prepared R) fk (T : list R) (r : R) (e : sqlerr) :
  td_unique (p_table p) = [p_key p] ->
  exec p fk T r = inl e ->
  (exists c, In c (map fst (td_not_null (p_table p)))
             /\ e = ENotNull (td_name (p_table p)) c)
  \/ (first_null (p_table p) r = None /\ e = EForeignKey /\ fk r = false).
Proof.
  intros Hone. unfold exec.
  destruct (first_null (p_table p) r) as [c|] eqn:N.
  - intro H. inversion H; subst. left. exists c.
    split; [now apply first_null_In with (r := r) | reflexivity].
  - destruct (existsb (collides (p_key p) r) T).
    + destruct (p_action p); discriminate.
    + rewrite Hone. simpl. unfold is_target. rewrite same_columns_refl. simpl.
      destruct (fk r) eqn:F; [discriminate|].
      intro H. inversion H. right. auto.
Qed.
End Raises.

Section LoopRaises.
Context {C R X : Type}.
Variables (t : table R) (p : prepared R) (fk_ok : db -> R -> bool)
          (bump : C -> C) (row : X -> R)
          (report : X -> sqlerr -> option string).
Hypothesis Hreport :
  forall x fk T e, exec p fk T (row x) = inl e -> report x e <> None.

(** When the catch clause has a message for everything the statement can
    raise, every record is counted or reported. *)
Lemma loop_tally_raised xs (s : state C) :
  exists (n : nat) (E : list string),
    st_synced
      (fold_left (fun s x => attempt t p fk_ok bump (row x) (report x) s) xs s)
    = Nat.iter n bump (st_synced s)
    /\ st_errors
         (fold_left (fun s x => attempt t p fk_ok bump (row x) (report x) s) xs s)
       = (st_errors s ++ E)%list
    /\ n + length E = length xs
    /\ (forall m, In m E -> exists x e, In x xs /\ report x e = Some m).
Proof.
  revert s. induction xs as [|x xs IH]; intro s; simpl.
  - exists 0, []. simpl. rewrite app_nil_r. conjs; auto. intros m [].
  - destruct (IH (attempt t p fk_ok bump (row x) (report x) s))
      as (n2 & E2 & Hc2 & He2 & Hl2 & Hm2).
    rewrite Hc2, He2. clear Hc2 He2. unfold attempt.
    destruct (exec p (fk_ok (st_db s)) (view t (st_db s)) (row x))
      as [e|T'] eqn:Hx; simpl.
    + destruct (report x e) as [msg|] eqn:Rp;
        [|now elim (Hreport x _ _ e Hx)].
      simpl. exists n2, (msg :: E2). conjs.
      * reflexivity.
      * now rewrite <- app_assoc.
      * simpl. lia.
      * intros m [<-|Hin]; [exists x, e; auto|].
        destruct (Hm2 m Hin) as (y & e' & Hy & He'). exists y, e'. auto.
    + exists (S n2), E2. conjs.
      * now rewrite Nat.iter_succ_r.
      * reflexivity.
      * simpl. lia.
      * intros m Hin. destruct (Hm2 m Hin) as (y & e' & Hy & He').
        exists y, e'. auto.
Qed.
End LoopRaises.

Lemma order_error_is_reported (o : orderRec) fk T (e : sqlerr) (msg : string) :
  exec (stmt orders_def Chain.on_order_conflict) fk T (Chain.order_row o) = inl e ->
  unless_unique msg e = Some msg.
Proof.
  intro H. apply exec_raises in H; [|reflexivity].
  destruct H as [(c & Hc & ->)|(_ & -> & _)]; [|reflexivity].
  simpl in Hc.
  repeat (destruct Hc as [<-|Hc]; [reflexivity|]). destruct Hc.
Qed.

Lemma fill_error_is_reported (f : fillRec) fk T (e : sqlerr) (msg : string) :
  exec (stmt fills_def DoNothing) fk T (Chain.fill_row f) = inl e ->
  unless_unique msg e = Some msg.
Proof.
  intro H. apply exec_raises in H; [|reflexivity].
  destruct H as [(c & Hc & ->)|(_ & -> & _)]; [|reflexivity].
  simpl in Hc.
  repeat (destruct Hc as [<-|Hc]; [reflexivity|]). destruct Hc.
Qed.

Lemma order_report_total (o : orderRec) fk T (e : sqlerr) :
  exec (stmt orders_def Chain.on_order_conflict) fk T (Chain.order_row o) = inl e ->
  unless_unique ("Order " ++ render (o_orderId o) ++ ": " ++ message e) e
  <> None.
Proof.
  intros H A. rewrite (order_error_is_reported o fk T e _ H) in A.
  discriminate.
Qed.

Lemma fill_report_total (f : fillRec) fk T (e : sqlerr) :
  exec (stmt fills_def DoNothing) fk T (Chain.fill_row f) = inl e ->
  unless_unique ("Fill " ++ render (f_fillId f) ++ ": " ++ message e) e
  <> None.
Proof.
  intros H A. rewrite (fill_error_is_reported f fk T e _ H) in A.
  discriminate.
Qed.

Lemma syncOrders_effect os (s : state chain_synced) :
  exists s' n E,
    effect orders inc_orders (Chain.syncOrders os) s s' n E
    /\ n + length E = length os
    /\ labelled "Order " E
    /\ s' = fold_left
              (fun s o =>
                 attempt orders (stmt orders_def Chain.on_order_conflict) no_fk
                   inc_orders (Chain.order_row o)
                   (fun err =>
                      unless_unique
                        ("Order " ++ render (o_orderId o) ++ ": " ++ message err)
                        err) s) os s.
Proof.
  destruct (loop_tally_raised orders (stmt orders_def Chain.on_order_conflict)
              no_fk inc_orders Chain.order_row
              (fun o err =>
                 unless_unique
                   ("Order " ++ render (o_orderId o) ++ ": " ++ message err) err)
              order_report_total os s)
    as (n & E & Hc & He & Hl & Hm).
  eexists. exists n, E. unfold effect, Chain.syncOrders.
  rewrite orderStmt_eq, bind_lift_inr, sync_each_eq. conjs; auto.
  - apply (loop_same_but orders _ inc_orders (fun _ _ _ => eq_refl)).
  - intros m Hin. destruct (Hm m Hin) as (o & e & _ & Hr).
    unfold unless_unique in Hr.
    destruct (negb _); inversion Hr. eexists. reflexivity.
Qed.

Lemma syncFills_effect fs (s : state chain_synced) :
  exists s' n E,
    effect fills inc_fills (Chain.syncFills fs) s s' n E
    /\ n + length E = length fs
    /\ labelled "Fill " E
    /\ s' = fold_left
              (fun s f =>
                 attempt fills (stmt fills_def DoNothing) Chain.fill_fk
                   inc_fills (Chain.fill_row f)
                   (fun err =>
                      unless_unique
                        ("Fill " ++ render (f_fillId f) ++ ": " ++ message err)
                        err) s) fs s.
Proof.
  destruct (loop_tally_raised fills (stmt fills_def DoNothing)
              Chain.fill_fk inc_fills Chain.fill_row
              (fun f err =>
                 unless_unique
                   ("Fill " ++ render (f_fillId f) ++ ": " ++ message err) err)
              fill_report_total fs s)
    as (n & E & Hc & He & Hl & Hm).
  eexists. exists n, E. unfold effect, Chain.syncFills.
  rewrite fillStmt_eq, bind_lift_inr, sync_each_eq. conjs; auto.
  - apply (loop_same_but fills _ inc_fills (fun _ _ _ => eq_refl)).
  - intros m Hin. destruct (Hm m Hin) as (f & e & _ & Hr).
    unfold unless_unique in Hr.
    destruct (negb _); inversion Hr. eexists. reflexivity.
Qed.

(** X4.  In the order loop and in the fill loop every fetched record is
    either counted or leaves a message under the label of its loop: the
    catch branch that drops 'UNIQUE constraint' errors never fires, since
    the ON CONFLICT clause on the table's only UNIQUE key takes every
    duplicate. *)
Theorem order_and_fill_records_are_never_dropped (os : list orderRec)
    (fs : list fillRec) (s : state chain_synced) :
  exists s1 n1 E1 s2 n2 E2,
    effect orders inc_orders (Chain.syncOrders os) s s1 n1 E1
    /\ n1 + length E1 = length os
    /\ labelled "Order " E1
    /\ effect fills inc_fills (Chain.syncFills fs) s1 s2 n2 E2
    /\ n2 + length E2 = length fs
    /\ labelled "Fill " E2.
Proof.
  destruct (syncOrders_effect os s) as (s1 & n1 & E1 & H1 & L1 & M1 & _).
  destruct (syncFills_effect fs s1) as (s2 & n2 & E2 & H2 & L2 & M2 & _).
  exists s1, n1, E1, s2, n2, E2. conjs; assumption.
Qed.

(** ** Fills and the orders they reference *)

Lemma existsb_false_forall {A} (q : A -> bool) (l : list A) :
  (forall x, In x l -> q x = false) -> existsb q l = false.
Proof.
  intro H. induction l as [|x l IH]; simpl; [reflexivity|].
  rewrite (H x (or_introl eq_refl)). apply IH.
  intros y Hy. apply H. now right.
Qed.

Lemma existsb_false_forall_iff {A} (q : A -> bool) (l : list A) :
  existsb q l = false <-> forall x, In x l -> q x = false.
Proof.
  split; [|apply existsb_false_forall].
  induction l as [|y l IH]; simpl; [intros _ x []|].
  intros H x [<-|Hx].
  - now destruct (q y).
  - apply IH; [|exact Hx]. now destruct (q y).
Qed.

(** X5.  A well-formed fill whose fill id is not stored and whose order id
    is the id of no stored order is turned down by the foreign key of
    [fills]: the loop goes on, the store and the counters stay as they
    were, and the message "Fill <id>: FOREIGN KEY constraint failed" is
    recorded. *)
Theorem fill_of_unknown_order_is_reported (f : fillRec)
    (s : state chain_synced) :
  well_formed_fill f ->
  (forall r, In r (t_fills (st_db s)) ->
             fl_fill_id r <> bind_param (f_fillId f)) ->
  (forall o, In o (t_orders (st_db s)) ->
             od_order_id o <> bind_param (f_orderId f)) ->
  Chain.syncFills [f] s
  = (inr tt,
     {| st_db := st_db s; st_synced := st_synced s;
        st_errors :=
          app (st_errors s)
              ["Fill " ++ render (f_fillId f)
                 ++ ": FOREIGN KEY constraint failed"] |}).
Proof.
  intros Hwf Hfill Horder.
  unfold Chain.syncFills. rewrite fillStmt_eq, bind_lift_inr, sync_each_eq.
  simpl fold_left. unfold attempt, exec. simpl p_table.
  unfold well_formed_fill in Hwf. rewrite Hwf.
  assert (E1 : existsb (collides (p_key (stmt fills_def DoNothing))
                          (Chain.fill_row f)) (view fills (st_db s)) = false).
  { apply existsb_false_forall. intros r Hr. unfold collides. simpl.
    rewrite andb_true_r.
    destruct (sqlval_eqb (bind_param (f_fillId f)) (fl_fill_id r)) eqn:Q;
      [|apply andb_false_r].
    apply sqlval_eqb_eq in Q. now elim (Hfill r Hr). }
  rewrite E1. simpl.
  assert (E2 : Chain.fill_fk (st_db s) (Chain.fill_row f) = false).
  { unfold Chain.fill_fk. apply existsb_false_forall. intros o Ho. simpl.
    destruct (sqlval_eqb (od_order_id o) (bind_param (f_orderId f))) eqn:Q;
      [|reflexivity].
    apply sqlval_eqb_eq in Q. now elim (Horder o Ho). }
  rewrite E2. reflexivity.
Qed.

Lemma fill_of_unknown_order_is_reported_witness :
  well_formed_fill bob_fill
  /\ Chain.syncFills [bob_fill]
       {| st_db := empty_db; st_synced := chain_zero; st_errors := [] |}
     = (inr tt,
        {| st_db := empty_db; st_synced := chain_zero;
           st_errors := ["Fill fill-3: FOREIGN KEY constraint failed"] |}).
Proof.
  split; [reflexivity|].
  apply (fill_of_unknown_order_is_reported bob_fill
           {| st_db := empty_db; st_synced := chain_zero; st_errors := [] |}).
  - reflexivity.
  - intros r [].
  - intros o [].
Defined.

(** After a guarded run of the order statement for a well-formed order, the
    id of the order is stored. *)
Lemma order_id_stored_by_run (o : orderRec) fk (T : list order) :
  well_formed_order o ->
  fk (Chain.order_row o) = true ->
  In (bind_param (o_orderId o))
     (map od_order_id
        (try_exec (stmt orders_def Chain.on_order_conflict) fk T
           (Chain.order_row o))).
Proof.
  intros Hwf Hfk. unfold try_exec, exec. simpl p_table.
  unfold well_formed_order in Hwf. rewrite Hwf.
  destruct (existsb _ T) eqn:Ex.
  - simpl p_action. cbv iota.
    apply existsb_exists in Ex. destruct Ex as (x & Hx & Hc).
    unfold collides in Hc. simpl in Hc. rewrite andb_true_r in Hc.
    apply andb_prop in Hc. destruct Hc as [_ Hc].
    apply sqlval_eqb_eq in Hc. simpl in Hc. rewrite Hc.
    unfold Chain.on_order_conflict.
    rewrite update_first_map by reflexivity. now apply in_map.
  - simpl. unfold is_target. simpl. rewrite Hfk.
    rewrite map_app. apply in_or_app. right. now left.
Qed.

Lemma grown_keeps {R B} (blank : R -> B) (T T' : list R) (b : B) :
  grown_from blank T T' -> In b (map blank T) -> In b (map blank T').
Proof.
  intros (kept & added & -> & H) Hin. rewrite map_app, H.
  apply in_or_app. now left.
Qed.

Lemma order_ids_stored_by_loop (os : list orderRec) (s : state chain_synced)
    (o : orderRec) :
  In o os -> well_formed_order o ->
  In (bind_param (o_orderId o))
     (map od_order_id
        (t_orders (st_db (fold_left
           (fun s o =>
              attempt orders (stmt orders_def Chain.on_order_conflict) no_fk
                inc_orders (Chain.order_row o)
                (fun err =>
                   unless_unique
                     ("Order " ++ render (o_orderId o) ++ ": " ++ message err)
                     err) s) os s)))).
Proof.
  revert s. induction os as [|o' os IH]; intros s Hin Hwf; [destruct Hin|].
  simpl fold_left. destruct Hin as [->|Hin]; [|now apply IH].
  eapply grown_keeps.
  - apply (loop_grown od_order_id (stmt orders_def Chain.on_order_conflict))
      with (t := orders) (fk_ok := @no_fk order) (bump := inc_orders)
           (row := Chain.order_row)
           (report := fun o err =>
              unless_unique
                ("Order " ++ render (o_orderId o) ++ ": " ++ message err) err);
      [|reflexivity].
    intros f e x A. inversion A. reflexivity.
  - rewrite (attempt_view orders _ no_fk inc_orders (fun _ _ => eq_refl)).
    now apply order_id_stored_by_run.
Qed.

(** A fill whose order is stored runs. *)
Lemma fill_with_stored_order_runs (f : fillRec) (d : db) (T : list fill) :
  well_formed_fill f ->
  In (bind_param (f_orderId f)) (map od_order_id (t_orders d)) ->
  exists T', exec (stmt fills_def DoNothing) (Chain.fill_fk d) T
               (Chain.fill_row f) = inr T'.
Proof.
  intros Hwf Hin. unfold exec. simpl p_table.
  unfold well_formed_fill in Hwf. rewrite Hwf.
  destruct (existsb _ T); [now exists T|].
  simpl. unfold is_target. simpl.
  assert (F : Chain.fill_fk d (Chain.fill_row f) = true).
  { unfold Chain.fill_fk. apply existsb_exists.
    apply in_map_iff in Hin. destruct Hin as (o & Ho & Hin).
    exists o. split; [exact Hin|]. simpl. rewrite Ho. apply sqlval_eqb_refl. }
  rewrite F. eexists. reflexivity.
Qed.

Lemma fills_run_when_orders_stored (fs : list fillRec)
    (s s' : state chain_synced) :
  Forall (fun f => well_formed_fill f
                   /\ In (bind_param (f_orderId f))
                         (map od_order_id (t_orders (st_db s)))) fs ->
  s' = fold_left
         (fun s f =>
            attempt fills (stmt fills_def DoNothing) Chain.fill_fk
              inc_fills (Chain.fill_row f)
              (fun err =>
                 unless_unique
                   ("Fill " ++ render (f_fillId f) ++ ": " ++ message err)
                   err) s) fs s ->
  st_errors s' = st_errors s
  /\ st_synced s' = Nat.iter (length fs) inc_fills (st_synced s).
Proof.
  revert s s'. induction fs as [|f fs IH]; intros s s' Hall ->; [now split|].
  inversion Hall as [|? ? [Hwf Hin] Hrest]; subst. cbn [fold_left length].
  destruct (fill_with_stored_order_runs f (st_db s) (view fills (st_db s))
              Hwf Hin) as (T' & Hx).
  match goal with |- context [fold_left _ fs ?a] => set (s1 := a) end.
  assert (E : st_errors s1 = st_errors s
              /\ st_synced s1 = inc_fills (st_synced s)
              /\ t_orders (st_db s1) = t_orders (st_db s)).
  { subst s1. unfold attempt. rewrite Hx. simpl. auto. }
  destruct E as (E1 & E2 & E3).
  assert (Hrest' : Forall (fun f => well_formed_fill f
                     /\ In (bind_param (f_orderId f))
                           (map od_order_id (t_orders (st_db s1)))) fs).
  { rewrite E3. exact Hrest. }
  destruct (IH s1 _ Hrest' eq_refl) as [I1 I2].
  rewrite I1, I2, E1, E2, Nat.iter_succ_r. split; reflexivity.
Qed.

Lemma batch_fills_run (os : list orderRec)
    (fs : list fillRec) (s : state chain_synced) :
  Forall (fun f => well_formed_fill f
                   /\ exists o, In o os /\ well_formed_order o
                                /\ o_orderId o = f_orderId f) fs ->
  exists s1 s2,
    Chain.syncOrders os s = (inr tt, s1)
    /\ Chain.syncFills fs s1 = (inr tt, s2)
    /\ st_errors s2 = st_errors s1
    /\ st_synced s2 = Nat.iter (length fs) inc_fills (st_synced s1).
Proof.
  intro Hall.
  destruct (syncOrders_effect os s) as (s1 & n1 & E1 & (H1 & _) & _ & _ & Hs1).
  destruct (syncFills_effect fs s1) as (s2 & n2 & E2 & (H2 & _) & _ & _ & Hs2).
  exists s1, s2. split; [exact H1|]. split; [exact H2|].
  apply (fills_run_when_orders_stored fs s1 s2); [|exact Hs2].
  eapply Forall_impl; [|exact Hall].
  intros f (Hwf & o & Ho & Hwo & Hid). split; [exact Hwf|].
  rewrite <- Hid, Hs1. now apply order_ids_stored_by_loop.
Qed.






(** ** The balances of one account *)

Section AllRun.
Context {C R X : Type}.
Variables (t : table R) (p : prepared R) (fk_ok : db -> R -> bool)
          (bump : C -> C) (row : X -> R)
          (report : X -> sqlerr -> option string).

(** A loop whose statements all run counts every record and records no
    error. *)
Lemma loop_all_run xs (s : state C) :
  (forall x d T, In x xs -> exists T', exec p (fk_ok d) T (row x) = inr T') ->
  let s' := fold_left
              (fun s x => attempt t p fk_ok bump (row x) (report x) s) xs s in
  st_errors s' = st_errors s
  /\ st_synced s' = Nat.iter (length xs) bump (st_synced s).
Proof.
  revert s. induction xs as [|x xs IH]; intros s Hrun; [now split|].
  cbn [fold_left length].
  destruct (Hrun x (st_db s) (view t (st_db s)) (or_introl eq_refl))
    as (T' & Hx).
  match goal with |- context [fold_left _ xs ?a] => set (s1 := a) end.
  assert (E : st_errors s1 = st_errors s /\ st_synced s1 = bump (st_synced s)).
  { subst s1. unfold attempt. rewrite Hx. simpl. auto. }
  destruct E as (E1 & E2).
  destruct (IH s1 (fun y d T Hy => Hrun y d T (or_intror Hy))) as [I1 I2].
  cbv zeta. rewrite I1, I2, E1, E2, Nat.iter_succ_r. split; reflexivity.
Qed.
End AllRun.

Lemma on_key_runs {R} (p : prepared R) (f : R -> R -> R) (q : R -> bool)
    (r : R) fk (T : list R) :
  p_action p = DoUpdate f -> td_unique (p_table p) = [p_key p] ->
  fk r = true -> on_key p f q r ->
  exists T', exec p fk T r = inr T'.
Proof.
  intros Hact Hone Hfk (Hn & _). unfold exec. rewrite Hn, Hact, Hone.
  destruct (existsb (collides (p_key p) r) T); [eexists; reflexivity|].
  simpl. unfold is_target. rewrite same_columns_refl. simpl. rewrite Hfk.
  eexists. reflexivity.
Qed.

Lemma fold_map_rows {R X} (g : list R -> R -> list R) (row : X -> R)
    (xs : list X) (T : list R) :
  fold_left (fun T x => g T (row x)) xs T = fold_left g (map row xs) T.
Proof.
  revert T. induction xs as [|x xs IH]; intro T; [reflexivity|]. simpl. apply IH.
Qed.

Lemma last_app_one {A} (l : list A) (a d : A) : last (l ++ [a]) d = a.
Proof.
  induction l as [|b l IH]; [reflexivity|].
  simpl app. destruct (l ++ [a])%list eqn:E; [now destruct l|].
  simpl. simpl in IH. exact IH.
Qed.

(** X7.  All the balances the fetcher makes of one account reply share one
    key, so the balance loop counts each of them while the store ends with
    a single row for that key, holding the figures of the last sub-account:
    it replaces the stored row of the key, or is appended when there was
    none.  No error is recorded. *)
Theorem last_subaccount_balance_wins (clk : clock) (addr : string)
    (reply : indexer_reply) (front : list balanceRec) (b : balanceRec)
    (s : state chain_synced) :
  fetchAccountBalances addr reply = (front ++ [b])%list ->
  exists s',
    Chain.syncBalances clk (fetchAccountBalances addr reply) s = (inr tt, s')
    /\ t_account_balances (st_db s')
       = replace_or_append (usdc_key addr) (t_account_balances (st_db s))
           (Chain.balance_row clk b)
    /\ cs_balances (st_synced s')
       = length front + 1 + cs_balances (st_synced s)
    /\ st_errors s' = st_errors s.
Proof.
  intro Hbs.
  assert (Hkey : forall x, In x (fetchAccountBalances addr reply) ->
            on_key (stmt account_balances_def Chain.on_balance_conflict)
                   (do_update_of Chain.on_balance_conflict) (usdc_key addr)
                   (Chain.balance_row clk x)).
  { intros x Hx. now apply fetched_balance_on_key with (reply := reply). }
  assert (Hview := syncBalances_view clk (fetchAccountBalances addr reply) s).
  unfold Chain.syncBalances in Hview |- *.
  rewrite balanceStmt_eq, bind_lift_inr, sync_each_eq in Hview.
  cbn [snd] in Hview.
  rewrite balanceStmt_eq, bind_lift_inr, sync_each_eq.
  eexists. split; [reflexivity|].
  destruct (loop_all_run account_balances
              (stmt account_balances_def Chain.on_balance_conflict) no_fk
              inc_balances (Chain.balance_row clk)
              (fun _ err => Some ("Balance: " ++ message err))
              (fetchAccountBalances addr reply) s) as [He Hc].
  { intros x d T Hx.
    apply (on_key_runs (stmt account_balances_def Chain.on_balance_conflict)
             (do_update_of Chain.on_balance_conflict) (usdc_key addr)
             (Chain.balance_row clk x) (no_fk d) T eq_refl eq_refl eq_refl
             (Hkey x Hx)). }
  split; [|split; [|exact He]].
  - rewrite Hview. clear Hview He Hc. rewrite Hbs in *.
    rewrite fold_map_rows, map_app. simpl map.
    destruct front as [|b0 front]; simpl map; simpl app; simpl fold_left.
    + apply (try_exec_on_key
               (stmt account_balances_def Chain.on_balance_conflict)
               (do_update_of Chain.on_balance_conflict) (usdc_key addr)
               eq_refl eq_refl).
      apply Hkey. now left.
    + rewrite (try_exec_on_key
                 (stmt account_balances_def Chain.on_balance_conflict)
                 (do_update_of Chain.on_balance_conflict) (usdc_key addr)
                 eq_refl eq_refl _ _ (Hkey b0 (or_introl eq_refl))).
      rewrite (fold_on_key
                 (stmt account_balances_def Chain.on_balance_conflict)
                 (do_update_of Chain.on_balance_conflict) (usdc_key addr)
                 eq_refl eq_refl).
      * now rewrite last_app_one.
      * apply Hkey. now left.
      * apply Forall_forall. intros r Hr.
        change (map (Chain.balance_row clk) front ++ [Chain.balance_row clk b])%list
          with (map (Chain.balance_row clk) front
                ++ map (Chain.balance_row clk) [b])%list in Hr.
        rewrite <- map_app in Hr. apply in_map_iff in Hr.
        destruct Hr as (y & <- & Hy). apply Hkey. now right.
  - rewrite Hc, iter_inc_balances, Hbs, length_app. simpl. lia.
Qed.

Lemma last_subaccount_balance_wins_witness :
  fetchAccountBalances "dydx1alice" two_subaccounts
  = ([equity_only_balance] ++ [second_balance])%list
  /\ exists s',
       Chain.syncBalances clk0 (fetchAccountBalances "dydx1alice" two_subaccounts)
         fresh_chain_state = (inr tt, s')
       /\ t_account_balances (st_db s')
          = replace_or_append (usdc_key "dydx1alice")
              (t_account_balances (st_db fresh_chain_state))
              (Chain.balance_row clk0 second_balance)
       /\ cs_balances (st_synced s')
          = length [equity_only_balance] + 1
            + cs_balances (st_synced fresh_chain_state)
       /\ st_errors s' = st_errors fresh_chain_state.
Proof.
  split; [reflexivity|].
  apply (last_subaccount_balance_wins clk0 "dydx1alice" two_subaccounts
           [equity_only_balance] second_balance fresh_chain_state).
  reflexivity.
Defined.

(** ** The endpoints *)

Lemma post_browser_outcome (clk : clock) (d : db)
    (req : option browser_data) :
  let R := post_sync_browser_data clk d req in
  (status (fst R) = 200
   <-> exists data, req = Some data /\ browser_commits data = true)
  /\ (status (fst R) = 200 \/ (status (fst R) = 400 \/ status (fst R) = 500)
                              /\ snd R = d).
Proof.
  intro R. subst R. unfold post_sync_browser_data.
  destruct req as [data|].
  2:{ simpl. split; [|auto]. split; [discriminate|].
      intros (data & H & _). discriminate. }
  assert (Hnone : Browser.primaryWallet data = None -> browser_commits data = false).
  { intro H. unfold browser_commits. now rewrite H. }
  destruct (bd_wallets data) as [[|w ws]|] eqn:W.
  - simpl. split; [|auto]. split; [discriminate|].
    intros (x & H & C). inversion H; subst x.
    rewrite Hnone in C; [discriminate|]. apply primaryWallet_None. auto.
  - assert (S := browser_success_eq clk d data).
    assert (B := browser_failure_rolls_back clk d data).
    destruct (Browser.syncBrowserData clk d data) as [result d'].
    simpl in S, B. destruct (success result) eqn:Hs; simpl.
    + split; [|auto]. split; [|reflexivity]. intros _. exists data. auto.
    + split; [|auto]. split; [discriminate|].
      intros (x & H & C). inversion H; subst x. congruence.
  - simpl. split; [|auto]. split; [discriminate|].
    intros (x & H & C). inversion H; subst x.
    rewrite Hnone in C; [discriminate|]. apply primaryWallet_None. auto.
Qed.

(** X8.  POST /sync/browser-data answers 200 exactly when the request
    carries an export whose pass commits (a primary wallet with an address,
    no transfers list, no swaps list); every other answer is a 400 or a 500
    and leaves the store as it was. *)
Theorem browser_endpoint_is_all_or_nothing (clk : clock) (d : db)
    (req : option browser_data) :
  let R := post_sync_browser_data clk d req in
  (status (fst R) = 200
   <-> exists data, req = Some data /\ browser_commits data = true)
  /\ (status (fst R) = 200 \/ (status (fst R) = 400 \/ status (fst R) = 500)
                              /\ snd R = d).
Proof. apply post_browser_outcome. Qed.

Lemma post_chain_outcome (clk : clock) (d : db)
    (fetch_all : string -> string -> fetched) (req : chain_request) :
  let R := post_sync_blockchain_data clk d fetch_all req in
  snd R = d
  /\ if truthy (cr_blackbottleAddress req)
     then c_status (fst R) = 500
          /\ exists result E,
               c_payload (fst R) = ChainResultBody result
               /\ success result = false
               /\ errors result
                  = app E ["Sync failed: " ++ message EUpsertTarget]
     else fst R = {| c_status := 400;
                     c_payload := ChainErrorBody "blackbottleAddress required" |}.
Proof.
  intro R. subst R. unfold post_sync_blockchain_data.
  destruct (truthy (cr_blackbottleAddress req)); simpl negb; cbv iota;
    [|split; reflexivity].
  set (addr := render (cr_blackbottleAddress req)).
  set (url := render (js_or (cr_indexerUrl req) (JStr DEFAULT_INDEXER_API))).
  destruct (chain_outcome clk d addr (fetch_all url addr))
    as (Hs & Hd & n & E & _ & _ & He).
  destruct (Chain.syncBlockchainData clk d addr (fetch_all url addr))
    as [result d'].
  simpl in Hs, Hd, He. rewrite Hs. simpl. split; [exact Hd|].
  split; [reflexivity|]. exists result, E. auto.
Qed.

(** X9.  POST /sync/blockchain-data never answers 200 and never changes the
    store: without an address it answers 400 "blackbottleAddress required",
    and with one it answers 500 with a result whose [success] is false and
    whose last error says that the ON CONFLICT clause matches no UNIQUE
    constraint, whatever the indexer returned. *)
Theorem blockchain_endpoint_never_commits (clk : clock) (d : db)
    (fetch_all : string -> string -> fetched) (req : chain_request) :
  let R := post_sync_blockchain_data clk d fetch_all req in
  snd R = d
  /\ if truthy (cr_blackbottleAddress req)
     then c_status (fst R) = 500
          /\ exists result E,
               c_payload (fst R) = ChainResultBody result
               /\ success result = false
               /\ errors result
                  = app E ["Sync failed: " ++ message EUpsertTarget]
     else fst R = {| c_status := 400;
                     c_payload := ChainErrorBody "blackbottleAddress required" |}.
Proof. apply post_chain_outcome. Qed.

(** ** Reading back what a pass wrote *)

Lemma col_is_eqb (v : sqlval) (a : string) :
  col_is v a = sqlval_eqb (Text a) v.
Proof. destruct v; simpl; try reflexivity. apply String.eqb_sym. Qed.

Lemma col_is_Text (v : sqlval) (a : string) : col_is v a = true <-> v = Text a.
Proof.
  destruct v; simpl; split; try discriminate.
  - intro H. apply String.eqb_eq in H. now subst.
  - intro H. inversion H. apply String.eqb_refl.
Qed.

Section FindAfterUpsert.
Context {R : Type}.
Variables (q : R -> bool).

Lemma find_update_first (f : R -> R) (T : list R) :
  (forall x, q (f x) = q x) ->
  find q (update_first q f T) = option_map f (find q T).
Proof.
  intro H. induction T as [|x T IH]; simpl; [reflexivity|].
  destruct (q x) eqn:Q; simpl.
  - now rewrite H, Q.
  - now rewrite Q.
Qed.

Lemma find_app_miss (T : list R) (r : R) :
  existsb q T = false -> q r = true -> find q (T ++ [r])%list = Some r.
Proof.
  induction T as [|x T IH]; simpl; intros Ex Hr.
  - now rewrite Hr.
  - destruct (q x); [discriminate|]. now apply IH.
Qed.

Lemma existsb_find (T : list R) :
  existsb q T = true -> exists x, find q T = Some x /\ In x T.
Proof.
  induction T as [|x T IH]; simpl; [discriminate|].
  destruct (q x) eqn:Q; simpl.
  - intros _. exists x. auto.
  - intro H. destruct (IH H) as (y & Hy & Hin). exists y. auto.
Qed.

(** The first row of key [q] after an upsert on that key: the update of
    the first such row, or the proposed row. *)
Lemma find_after_upsert (p : prepared R) (f : R -> R -> R) (T : list R) (r : R) :
  p_action p = DoUpdate f -> td_unique (p_table p) = [p_key p] ->
  first_null (p_table p) r = None ->
  (forall x, collides (p_key p) r x = q x) ->
  q r = true ->
  (forall x, q (f r x) = q x) ->
  exists y, find q (try_exec p (fun _ => true) T r) = Some y
            /\ (y = r \/ exists x, In x T /\ y = f r x).
Proof.
  intros Hact Hone Hn Hk Hr Hf. unfold try_exec.
  rewrite (exec_single p f Hact Hone T r Hn).
  rewrite (existsb_ext q (collides (p_key p) r)) by exact Hk.
  rewrite (update_first_ext q (collides (p_key p) r)) by exact Hk.
  destruct (existsb q T) eqn:Ex.
  - rewrite find_update_first by exact Hf.
    destruct (existsb_find T Ex) as (x & -> & Hin). simpl.
    exists (f r x). split; [reflexivity|]. right. now exists x.
  - exists r. split; [now apply find_app_miss | now left].
Qed.
End FindAfterUpsert.

Lemma post_browser_store clk d data :
  browser_commits data = true ->
  snd (post_sync_browser_data clk d (Some data))
  = snd (Browser.syncBrowserData clk d data).
Proof.
  intro C. unfold post_sync_browser_data.
  destruct (bd_wallets data) as [[|w ws]|] eqn:W.
  - unfold browser_commits, Browser.primaryWallet in C. rewrite W in C.
    discriminate.
  - destruct (Browser.syncBrowserData clk d data) as [result d'].
    now destruct (success result).
  - unfold browser_commits, Browser.primaryWallet in C. rewrite W in C.
    discriminate.
Qed.

Lemma served_preferences (clk : clock) (d : db)
    (data : browser_data) (w : wallet) (a : string) (p : preferences) :
  Browser.primaryWallet data = Some w ->
  w_address w = JStr a ->
  browser_commits data = true ->
  bd_preferences data = Some p ->
  let d' := snd (post_sync_browser_data clk d (Some data)) in
  exists r,
    wd_preferences (get_wallet d' a) = Some r
    /\ up_wallet_address r = Text a
    /\ up_locale r = bind_param (js_or (pf_locale p) JNull)
    /\ up_selected_network r = bind_param (js_or (pf_network p) JNull)
    /\ up_color_mode r = bind_param (js_or (pf_colorMode p) JNull)
    /\ up_has_acknowledged_terms r = flag (pf_hasAcknowledgedTerms p)
    /\ up_notifications_enabled r = flag (pf_notificationsEnabled p)
    /\ up_updated_at r = Text (sql_now clk).
Proof.
  intros Hp Ha C Hpref d'. subst d'. rewrite post_browser_store by exact C.
  destruct (browser_tables_after clk d data w Hp C) as (V & _).
  rewrite Hpref, Ha in V. unfold get_wallet. simpl wd_preferences. rewrite V.
  destruct (find_after_upsert
              (fun r => col_is (up_wallet_address r) a)
              (stmt user_preferences_def Browser.on_pref_conflict)
              (do_update_of Browser.on_pref_conflict)
              (t_user_preferences d) (Browser.pref_row clk (JStr a) p)
              eq_refl eq_refl eq_refl)
    as (y & Hy & Hcase).
  - intro x. unfold collides. simpl. rewrite andb_true_r. symmetry.
    apply col_is_eqb.
  - simpl. apply String.eqb_refl.
  - reflexivity.
  - exists y. split; [exact Hy|].
    assert (Hq : col_is (up_wallet_address y) a = true).
    { now apply find_some in Hy. }
    apply col_is_Text in Hq.
    destruct Hcase as [->|(x & _ & ->)]; simpl in *; conjs; auto.
Qed.

(** X10.  What a committed pass stores as the preferences of the primary
    wallet is what GET /wallet/<address> serves afterwards: the preferences
    row of the answer carries the locale, network and colour mode of the
    export (NULL where they are missing or empty), its two flags as 1 or 0,
    and the time of the pass as updated_at, whatever row was stored
    before. *)
Theorem synced_preferences_are_served (clk : clock) (d : db)
    (data : browser_data) (w : wallet) (a : string) (p : preferences) :
  Browser.primaryWallet data = Some w ->
  w_address w = JStr a ->
  browser_commits data = true ->
  bd_preferences data = Some p ->
  let d' := snd (post_sync_browser_data clk d (Some data)) in
  exists r,
    wd_preferences (get_wallet d' a) = Some r
    /\ up_wallet_address r = Text a
    /\ up_locale r = bind_param (js_or (pf_locale p) JNull)
    /\ up_selected_network r = bind_param (js_or (pf_network p) JNull)
    /\ up_color_mode r = bind_param (js_or (pf_colorMode p) JNull)
    /\ up_has_acknowledged_terms r = flag (pf_hasAcknowledgedTerms p)
    /\ up_notifications_enabled r = flag (pf_notificationsEnabled p)
    /\ up_updated_at r = Text (sql_now clk).
Proof. apply served_preferences. Qed.

Lemma synced_preferences_are_served_witness :
  exists r,
    wd_preferences
      (get_wallet (snd (post_sync_browser_data clk0 empty_db (Some alice_export)))
         "dydx1alice") = Some r
    /\ up_wallet_address r = Text "dydx1alice"
    /\ up_locale r = bind_param (js_or (pf_locale alice_preferences) JNull)
    /\ up_selected_network r
       = bind_param (js_or (pf_network alice_preferences) JNull)
    /\ up_color_mode r = bind_param (js_or (pf_colorMode alice_preferences) JNull)
    /\ up_has_acknowledged_terms r
       = flag (pf_hasAcknowledgedTerms alice_preferences)
    /\ up_notifications_enabled r
       = flag (pf_notificationsEnabled alice_preferences)
    /\ up_updated_at r = Text (sql_now clk0).
Proof.
  apply (synced_preferences_are_served clk0 empty_db alice_export dydx_wallet
           "dydx1alice" alice_preferences); reflexivity.
Defined.

(** ** Dismissed items *)

Lemma browser_dismissed_after clk d data primary :
  Browser.primaryWallet data = Some primary ->
  browser_commits data = true ->
  t_dismissed_items (snd (Browser.syncBrowserData clk d data))
  = match bd_dismissedItems data with
    | Some items =>
        fold_left (fun T x => try_exec (stmt dismissed_items_def DoNothing)
                                (fun _ => true) T
                                (Browser.dismissed_row clk (w_address primary) x))
                  items (t_dismissed_items d)
    | None => t_dismissed_items d
    end.
Proof.
  intros Hp Hc.
  rewrite <- (browser_success_eq clk d data) in Hc.
  destruct (browser_outcome clk d data) as [[Hf _]|Hok]; [congruence|].
  destruct Hok as (primary' & s5 & T' & Hp' & _ & _ & Hdone & _ & ->).
  rewrite Hp in Hp'. inversion Hp'; subst primary'.
  destruct Hdone as (n1 & n2 & n3 & n4 & n5 & E1 & E2 & E3 & E4 & E5 & _ & _ & _
                     & _ & (_ & _ & V3 & _) & _).
  simpl. exact V3.
Qed.

Section Accumulate.
Context {R X : Type}.
Variables (p : prepared R) (row : X -> R).
Hypothesis Hnothing : p_action p = DoNothing.

Lemma fold_appends (xs : list X) (T : list R) :
  exists added,
    fold_left (fun T x => try_exec p (fun _ => true) T (row x)) xs T
    = (T ++ added)%list.
Proof.
  revert T. induction xs as [|x xs IH]; intro T; simpl.
  - exists []. now rewrite app_nil_r.
  - destruct (IH (try_exec p (fun _ => true) T (row x))) as (added & ->).
    destruct (try_exec_nothing p Hnothing (fun _ => true) T (row x))
      as [-> | ->].
    + now exists added.
    + exists (row x :: added). now rewrite <- app_assoc.
Qed.

Hypothesis Hone : td_unique (p_table p) = [p_key p].

(** After the loop, a row with the key of every well-formed record is
    stored. *)
Lemma fold_stores_key (xs : list X) (T : list R) (x : X) :
  In x xs ->
  first_null (p_table p) (row x) = None ->
  collides (p_key p) (row x) (row x) = true ->
  exists y,
    In y (fold_left (fun T x => try_exec p (fun _ => true) T (row x)) xs T)
    /\ collides (p_key p) (row x) y = true.
Proof.
  revert T. induction xs as [|x' xs IH]; intros T Hin Hn Hself; [destruct Hin|].
  simpl fold_left. destruct Hin as [->|Hin]; [|now apply IH].
  assert (Hnow : exists y, In y (try_exec p (fun _ => true) T (row x))
                           /\ collides (p_key p) (row x) y = true).
  { unfold try_exec, exec. rewrite Hn, Hnothing, Hone.
    destruct (existsb (collides (p_key p) (row x)) T) eqn:Ex.
    - apply existsb_exists in Ex. exact Ex.
    - simpl. unfold is_target. rewrite same_columns_refl. simpl.
      exists (row x). split; [|exact Hself]. apply in_or_app. right. now left. }
  destruct Hnow as (y & Hy & Hc).
  destruct (fold_appends xs (try_exec p (fun _ => true) T (row x)))
    as (added & ->).
  exists y. split; [|exact Hc]. apply in_or_app. now left.
Qed.
End Accumulate.

(** X11.  Dismissals accumulate: after a committed pass the answer of
    GET /wallet/<address> for the primary wallet still lists every
    dismissed item it listed before, unchanged (so with the time it was
    first dismissed at), and lists an item for every key of the
    export. *)
Theorem dismissals_accumulate (clk : clock) (d : db) (data : browser_data)
    (w : wallet) (a : string) (items : list dismissedItem) :
  Browser.primaryWallet data = Some w ->
  w_address w = JStr a ->
  browser_commits data = true ->
  bd_dismissedItems data = Some items ->
  let d' := snd (post_sync_browser_data clk d (Some data)) in
  (forall r, In r (wd_dismissedItems (get_wallet d a)) ->
             In r (wd_dismissedItems (get_wallet d' a)))
  /\ (forall i k, In i items -> di_key i = JStr k ->
        exists r, In r (wd_dismissedItems (get_wallet d' a))
                  /\ dm_item_key r = Text k).
Proof.
  intros Hp Ha C Hitems d'. subst d'. rewrite post_browser_store by exact C.
  assert (V := browser_dismissed_after clk d data w Hp C).
  rewrite Hitems, Ha in V. unfold get_wallet. simpl wd_dismissedItems.
  rewrite V. clear V. split.
  - intros r Hr. apply filter_In in Hr. destruct Hr as [Hr Hq].
    apply filter_In. split; [|exact Hq].
    destruct (fold_appends (stmt dismissed_items_def DoNothing)
                (Browser.dismissed_row clk (JStr a)) eq_refl items
                (t_dismissed_items d)) as (added & ->).
    apply in_or_app. now left.
  - intros i k Hi Hk.
    destruct (fold_stores_key (stmt dismissed_items_def DoNothing)
                (Browser.dismissed_row clk (JStr a)) eq_refl eq_refl
                items (t_dismissed_items d) i Hi) as (y & Hy & Hc).
    + unfold first_null. simpl. now rewrite Hk.
    + unfold collides. simpl. rewrite Hk. simpl. now rewrite !String.eqb_refl.
    + unfold collides in Hc. simpl in Hc. rewrite Hk in Hc. simpl in Hc.
      rewrite andb_true_r in Hc. apply andb_prop in Hc. destruct Hc as [H1 H2].
      exists y. split.
      * apply filter_In. split; [exact Hy|].
        destruct (dm_wallet_address y); try discriminate. simpl.
        now rewrite String.eqb_sym.
      * destruct (dm_item_key y); try discriminate.
        apply String.eqb_eq in H2. now subst.
Qed.

Lemma dismissals_accumulate_witness :
  let d' := snd (post_sync_browser_data clk0 empty_db (Some alice_export)) in
  (forall r, In r (wd_dismissedItems (get_wallet empty_db "dydx1alice")) ->
             In r (wd_dismissedItems (get_wallet d' "dydx1alice")))
  /\ (forall i k, In i [welcome_item; tour_item; welcome_item] ->
        di_key i = JStr k ->
        exists r, In r (wd_dismissedItems (get_wallet d' "dydx1alice"))
                  /\ dm_item_key r = Text k).
Proof.
  apply (dismissals_accumulate clk0 empty_db alice_export dydx_wallet
           "dydx1alice" [welcome_item; tour_item; welcome_item]); reflexivity.
Defined.

(** ** The browser pass, step by step *)

Section BrowserStates.
Variables (clk : clock) (a : jsval) (data : browser_data).
Implicit Type s : state browser_synced.

Lemma syncWallets_state s :
  Browser.syncWallets clk a data s = (inr tt, after_wallets clk a data s).
Proof.
  unfold Browser.syncWallets, after_wallets.
  rewrite walletStmt_eq, bind_lift_inr.
  destruct (bd_wallets data); [apply sync_each_eq | reflexivity].
Qed.

Lemma syncPreferences_state s :
  Browser.syncPreferences clk a data s
  = (inr tt, after_preferences clk a data s).
Proof.
  unfold Browser.syncPreferences, after_preferences. rewrite prefStmt_eq.
  destruct (bd_preferences data); [|reflexivity].
  apply (try_run_push_eq user_preferences _ no_fk inc_preferences).
Qed.

Lemma syncTradingPreferences_state s :
  Browser.syncTradingPreferences clk a data s
  = (inr tt, after_tradingPreferences clk a data s).
Proof.
  unfold Browser.syncTradingPreferences, after_tradingPreferences.
  rewrite tradePrefStmt_eq.
  destruct (bd_tradingPreferences data); [|reflexivity].
  apply (try_run_push_eq trading_preferences _ no_fk inc_tradingPreferences).
Qed.

Lemma syncDismissedItems_state s :
  Browser.syncDismissedItems clk a data s
  = (inr tt, after_dismissedItems clk a data s).
Proof.
  unfold Browser.syncDismissedItems, after_dismissedItems.
  destruct (bd_dismissedItems data); [|reflexivity].
  rewrite dismissedStmt_eq, bind_lift_inr. apply sync_each_eq.
Qed.

Lemma syncAffiliates_state s :
  Browser.syncAffiliates clk a data s
  = (inr tt, after_affiliates clk a data s).
Proof.
  unfold Browser.syncAffiliates, after_affiliates. rewrite affiliateStmt_eq.
  destruct (bd_affiliates data) as [i|]; [|reflexivity].
  destruct (Nat.ltb 0 (ai_keys i)); [|reflexivity].
  apply (try_run_push_eq affiliates _ no_fk inc_affiliates).
Qed.
End BrowserStates.

(** The body of the transaction: the five record steps, then the transfer
    and swap steps that throw when their list is there, then the ledger. *)
Lemma browser_body_eq clk data primary s0 :
  Browser.primaryWallet data = Some primary ->
  Browser.body clk data s0
  = match bd_transfers data, bd_swaps data with
    | None, None =>
        Browser.updateSyncMetadata clk (w_address primary)
          (after_records clk (w_address primary) data s0)
    | _, _ => (inl EUpsertTarget,
               after_records clk (w_address primary) data s0)
    end.
Proof.
  intro Hp. unfold Browser.body, after_records. rewrite Hp.
  unfold bind at 1. rewrite syncWallets_state.
  unfold bind at 1. rewrite syncPreferences_state.
  unfold bind at 1. rewrite syncTradingPreferences_state.
  unfold bind at 1. rewrite syncDismissedItems_state.
  unfold bind at 1. rewrite syncAffiliates_state.
  unfold bind at 1. rewrite syncTransfers_eq.
  destruct (bd_transfers data); [reflexivity|].
  unfold bind at 1. rewrite syncSwaps_eq.
  destruct (bd_swaps data); reflexivity.
Qed.

(** The result and the store of a pass that commits. *)
Lemma browser_commit_eq clk d data primary :
  Browser.primaryWallet data = Some primary ->
  browser_commits data = true ->
  let s5 := after_records clk (w_address primary) data
              {| st_db := d; st_synced := browser_zero; st_errors := [] |} in
  exists T',
    exec (stmt sync_metadata_def (Browser.on_syncMeta_conflict clk))
      (fun _ => true) (t_sync_metadata (st_db s5))
      (Browser.syncMeta_row clk (w_address primary)
         (browser_total (st_synced s5))) = inr T'
    /\ Browser.syncBrowserData clk d data
       = ({| success := true; timestamp := js_now clk;
             synced := st_synced s5; errors := st_errors s5 |},
          put sync_metadata T' (st_db s5)).
Proof.
  intros Hp C s5.
  assert (S := browser_success_eq clk d data). rewrite C in S.
  unfold Browser.syncBrowserData, transaction in *.
  rewrite (browser_body_eq clk data primary _ Hp) in *. fold s5 in S |- *.
  unfold browser_commits in C. rewrite Hp in C.
  destruct (bd_transfers data); [discriminate|].
  destruct (bd_swaps data); [discriminate|].
  rewrite updateSyncMetadata_eq in *.
  destruct (exec _ _ (t_sync_metadata (st_db s5)) _) as [e|T'];
    [discriminate|].
  exists T'. split; reflexivity.
Qed.

(** Each record step touches its own table. *)
Section StepFrames.
Variables (clk : clock) (a : jsval) (data : browser_data).
Implicit Type s : state browser_synced.

Lemma after_wallets_frame s :
  same_but user_wallets (st_db s) (st_db (after_wallets clk a data s)).
Proof.
  unfold after_wallets. destruct (bd_wallets data); [|reflexivity].
  apply (loop_same_but user_wallets _ inc_wallets (fun _ _ _ => eq_refl)).
Qed.

Lemma after_preferences_frame s :
  same_but user_preferences (st_db s) (st_db (after_preferences clk a data s)).
Proof.
  unfold after_preferences. destruct (bd_preferences data); [|reflexivity].
  apply (attempt_same_but user_preferences _ inc_preferences
           (fun _ _ _ => eq_refl)).
Qed.

Lemma after_tradingPreferences_frame s :
  same_but trading_preferences (st_db s)
    (st_db (after_tradingPreferences clk a data s)).
Proof.
  unfold after_tradingPreferences.
  destruct (bd_tradingPreferences data); [|reflexivity].
  apply (attempt_same_but trading_preferences _ inc_tradingPreferences
           (fun _ _ _ => eq_refl)).
Qed.

Lemma after_dismissedItems_frame s :
  same_but dismissed_items (st_db s)
    (st_db (after_dismissedItems clk a data s)).
Proof.
  unfold after_dismissedItems. destruct (bd_dismissedItems data); [|reflexivity].
  apply (loop_same_but dismissed_items _ inc_dismissedItems
           (fun _ _ _ => eq_refl)).
Qed.

Lemma after_affiliates_frame s :
  same_but affiliates (st_db s) (st_db (after_affiliates clk a data s)).
Proof.
  unfold after_affiliates. destruct (bd_affiliates data) as [i|]; [|reflexivity].
  destruct (Nat.ltb 0 (ai_keys i)); [|reflexivity].
  apply (attempt_same_but affiliates _ inc_affiliates (fun _ _ _ => eq_refl)).
Qed.

(** The wallets table after the record steps. *)
Lemma wallets_after_records s :
  t_user_wallets (st_db (after_records clk a data s))
  = match bd_wallets data with
    | Some ws =>
        fold_left
          (fun T w =>
             try_exec (stmt user_wallets_def Browser.on_wallet_conflict)
               (fun _ => true) T (Browser.wallet_row clk a w))
          ws (t_user_wallets (st_db s))
    | None => t_user_wallets (st_db s)
    end.
Proof.
  unfold after_records.
  assert (H5 := after_affiliates_frame
     (after_dismissedItems clk a data
       (after_tradingPreferences clk a data
          (after_preferences clk a data (after_wallets clk a data s))))).
  assert (H4 := after_dismissedItems_frame
     (after_tradingPreferences clk a data
        (after_preferences clk a data (after_wallets clk a data s)))).
  assert (H3 := after_tradingPreferences_frame
     (after_preferences clk a data (after_wallets clk a data s))).
  assert (H2 := after_preferences_frame (after_wallets clk a data s)).
  unfold same_but in *.
  apply (f_equal t_user_wallets) in H2, H3, H4, H5. simpl in H2, H3, H4, H5.
  rewrite H5, H4, H3, H2. unfold after_wallets.
  destruct (bd_wallets data) as [ws|]; [|reflexivity].
  apply (loop_view user_wallets _ inc_wallets (fun _ _ => eq_refl)).
Qed.
End StepFrames.

Lemma browser_wallets_after clk d data primary :
  Browser.primaryWallet data = Some primary ->
  browser_commits data = true ->
  t_user_wallets (snd (Browser.syncBrowserData clk d data))
  = match bd_wallets data with
    | Some ws =>
        fold_left
          (fun T w =>
             try_exec (stmt user_wallets_def Browser.on_wallet_conflict)
               (fun _ => true) T
               (Browser.wallet_row clk (w_address primary) w))
          ws (t_user_wallets d)
    | None => t_user_wallets d
    end.
Proof.
  intros Hp C. destruct (browser_commit_eq clk d data primary Hp C) as (T' & _ & ->).
  simpl. apply wallets_after_records.
Qed.

(** ** Wallets without a chain id *)

Lemma chainless_never_collides clk a w (x : user_wallet) :
  chainless w = true ->
  collides (p_key (stmt user_wallets_def Browser.on_wallet_conflict))
           (Browser.wallet_row clk a w) x = false.
Proof.
  unfold chainless, collides. intro H. simpl.
  apply andb_prop in H. destruct H as [_ H].
  unfold js_or. apply negb_true_iff in H. rewrite H. simpl.
  now rewrite !andb_false_r.
Qed.

Lemma try_exec_length {R} (p : prepared R) fk (T : list R) (r : R) :
  length T <= length (try_exec p fk T r).
Proof.
  unfold try_exec, exec. destruct (first_null _ _); [lia|].
  destruct (existsb _ T).
  - destruct (p_action p); [lia|]. rewrite update_first_length. lia.
  - destruct (find _ _); [lia|]. destruct (fk r); [|lia].
    rewrite length_app. simpl. lia.
Qed.

Lemma chainless_is_appended clk a w (T : list user_wallet) :
  chainless w = true ->
  try_exec (stmt user_wallets_def Browser.on_wallet_conflict) (fun _ => true) T
    (Browser.wallet_row clk a w)
  = (T ++ [Browser.wallet_row clk a w])%list.
Proof.
  intro H. unfold try_exec, exec.
  assert (N : first_null (p_table (stmt user_wallets_def Browser.on_wallet_conflict))
                (Browser.wallet_row clk a w) = None).
  { unfold chainless in H. apply andb_prop in H. destruct H as [H _].
    apply andb_prop in H. destruct H as [H1 H2].
    apply negb_true_iff in H1, H2. unfold first_null. simpl.
    now rewrite H1, H2. }
  rewrite N.
  rewrite existsb_false_forall
    by (intros x _; now apply chainless_never_collides).
  simpl. unfold is_target. simpl. reflexivity.
Qed.

(** X12.  A wallet record with a type and an address but no chain id is
    stored afresh by every committed pass, because a NULL chain_id never
    matches the UNIQUE key (wallet_type, address, chain_id): the wallets
    table grows by at least one row per such record of the export,
    whatever it held before, so syncing the same export again duplicates
    them. *)
Theorem chainless_wallets_are_stored_again (clk : clock) (d : db)
    (data : browser_data) (primary : wallet) (ws : list wallet) :
  Browser.primaryWallet data = Some primary ->
  browser_commits data = true ->
  bd_wallets data = Some ws ->
  length (t_user_wallets d) + length (filter chainless ws)
  <= length (t_user_wallets (snd (Browser.syncBrowserData clk d data))).
Proof.
  intros Hp C Hws. rewrite (browser_wallets_after clk d data primary Hp C), Hws.
  clear Hws. generalize (t_user_wallets d) as T.
  induction ws as [|w ws IH]; intro T; simpl; [lia|].
  destruct (chainless w) eqn:Hw; simpl.
  - rewrite chainless_is_appended by exact Hw.
    specialize (IH (T ++ [Browser.wallet_row clk (w_address primary) w])%list).
    rewrite length_app in IH. simpl in IH. lia.
  - specialize (IH (try_exec (stmt user_wallets_def Browser.on_wallet_conflict)
                      (fun _ => true) T
                      (Browser.wallet_row clk (w_address primary) w))).
    assert (L := try_exec_length
                   (stmt user_wallets_def Browser.on_wallet_conflict)
                   (fun _ => true) T
                   (Browser.wallet_row clk (w_address primary) w)).
    lia.
Qed.

Lemma chainless_wallets_are_stored_again_witness :
  let d1 := snd (Browser.syncBrowserData clk0 empty_db chainless_export) in
  length (t_user_wallets d1)
  + length (filter chainless [dydx_wallet; solana_wallet])
  <= length (t_user_wallets
               (snd (Browser.syncBrowserData clk1 d1 chainless_export))).
Proof.
  apply (chainless_wallets_are_stored_again clk1
           (snd (Browser.syncBrowserData clk0 empty_db chainless_export))
           chainless_export dydx_wallet [dydx_wallet; solana_wallet]);
    reflexivity.
Defined.

(** ** Exports without a malformed record *)

Lemma well_formed_runs {R} (p : prepared R) fk (T : list R) (r : R) :
  first_null (p_table p) r = None ->
  td_unique (p_table p) = [p_key p] ->
  fk r = true ->
  exists T', exec p fk T r = inr T'.
Proof.
  intros Hn Hone Hfk. unfold exec. rewrite Hn, Hone.
  destruct (existsb (collides (p_key p) r) T).
  - destruct (p_action p); eexists; reflexivity.
  - simpl. unfold is_target. rewrite same_columns_refl. simpl. rewrite Hfk.
    eexists. reflexivity.
Qed.

Lemma attempt_runs {C R} (t : table R) (p : prepared R) fk_ok (bump : C -> C)
    (r : R) report (s : state C) :
  (exists T', exec p (fk_ok (st_db s)) (view t (st_db s)) r = inr T') ->
  st_errors (attempt t p fk_ok bump r report s) = st_errors s
  /\ st_synced (attempt t p fk_ok bump r report s) = bump (st_synced s).
Proof. intros (T' & H). unfold attempt. rewrite H. split; reflexivity. Qed.

Section CleanSteps.
Variables (clk : clock) (a : jsval) (data : browser_data).
Hypothesis Ha : is_null (bind_param a) = false.
Hypothesis Hwf : well_formed_export data.
Implicit Type s : state browser_synced.

Lemma after_wallets_clean s :
  st_errors (after_wallets clk a data s) = st_errors s
  /\ st_synced (after_wallets clk a data s)
     = Nat.iter (supplied (bd_wallets data)) inc_wallets (st_synced s).
Proof.
  unfold after_wallets. destruct (bd_wallets data) as [ws|] eqn:W;
    [|split; reflexivity].
  apply (loop_all_run user_wallets
           (stmt user_wallets_def Browser.on_wallet_conflict) no_fk
           inc_wallets (Browser.wallet_row clk a)).
  intros w d T Hw. apply well_formed_runs; try reflexivity.
  destruct (proj1 Hwf ws w W Hw) as [H1 H2].
  unfold first_null. simpl. now rewrite H1, H2.
Qed.

Lemma after_preferences_clean s :
  st_errors (after_preferences clk a data s) = st_errors s
  /\ st_synced (after_preferences clk a data s)
     = Nat.iter (supplied1 (bd_preferences data)) inc_preferences (st_synced s).
Proof.
  unfold after_preferences. destruct (bd_preferences data) as [p|];
    [|split; reflexivity].
  apply attempt_runs. apply well_formed_runs; try reflexivity.
  unfold first_null. simpl. now rewrite Ha.
Qed.

Lemma after_tradingPreferences_clean s :
  st_errors (after_tradingPreferences clk a data s) = st_errors s
  /\ st_synced (after_tradingPreferences clk a data s)
     = Nat.iter (supplied1 (bd_tradingPreferences data))
         inc_tradingPreferences (st_synced s).
Proof.
  unfold after_tradingPreferences.
  destruct (bd_tradingPreferences data) as [p|]; [|split; reflexivity].
  apply attempt_runs. apply well_formed_runs; try reflexivity.
  unfold first_null. simpl. now rewrite Ha.
Qed.

Lemma after_dismissedItems_clean s :
  st_errors (after_dismissedItems clk a data s) = st_errors s
  /\ st_synced (after_dismissedItems clk a data s)
     = Nat.iter (supplied (bd_dismissedItems data)) inc_dismissedItems
         (st_synced s).
Proof.
  unfold after_dismissedItems.
  destruct (bd_dismissedItems data) as [items|] eqn:W; [|split; reflexivity].
  apply (loop_all_run dismissed_items (stmt dismissed_items_def DoNothing)
           no_fk inc_dismissedItems (Browser.dismissed_row clk a)).
  intros i d T Hi. apply well_formed_runs; try reflexivity.
  unfold first_null. simpl.
  now rewrite Ha, (proj2 Hwf items i W Hi).
Qed.

Lemma after_affiliates_clean s :
  st_errors (after_affiliates clk a data s) = st_errors s
  /\ st_synced (after_affiliates clk a data s)
     = Nat.iter (supplied_affiliates (bd_affiliates data)) inc_affiliates
         (st_synced s).
Proof.
  unfold after_affiliates, supplied_affiliates.
  destruct (bd_affiliates data) as [i|]; [|split; reflexivity].
  destruct (Nat.ltb 0 (ai_keys i)); [|split; reflexivity].
  apply attempt_runs. apply well_formed_runs; try reflexivity.
  unfold first_null. simpl. now rewrite Ha.
Qed.
End CleanSteps.

Lemma clean_pass (clk : clock) (d : db)
    (data : browser_data) :
  browser_commits data = true ->
  well_formed_export data ->
  fst (Browser.syncBrowserData clk d data)
  = {| success := true; timestamp := js_now clk;
       synced :=
         {| bs_wallets := supplied (bd_wallets data);
            bs_preferences := supplied1 (bd_preferences data);
            bs_tradingPreferences := supplied1 (bd_tradingPreferences data);
            bs_dismissedItems := supplied (bd_dismissedItems data);
            bs_affiliates := supplied_affiliates (bd_affiliates data);
            bs_transfers := 0; bs_swaps := 0 |};
       errors := [] |}.
Proof.
  intros C Hwf.
  assert (Hp : exists primary,
             Browser.primaryWallet data = Some primary
             /\ is_null (bind_param (w_address primary)) = false).
  { unfold browser_commits in C.
    destruct (Browser.primaryWallet data) as [w|]; [|discriminate].
    destruct (bd_transfers data); [discriminate|].
    destruct (bd_swaps data); [discriminate|].
    exists w. split; [reflexivity|]. now apply negb_true_iff in C. }
  destruct Hp as (primary & Hp & Ha).
  destruct (browser_commit_eq clk d data primary Hp C) as (T' & _ & ->).
  simpl fst. unfold after_records.
  set (a := w_address primary) in *.
  set (s0 := {| st_db := d; st_synced := browser_zero; st_errors := [] |}).
  destruct (after_wallets_clean clk a data Hwf s0) as [E1 C1].
  destruct (after_preferences_clean clk a data Ha (after_wallets clk a data s0))
    as [E2 C2].
  destruct (after_tradingPreferences_clean clk a data Ha
              (after_preferences clk a data (after_wallets clk a data s0)))
    as [E3 C3].
  destruct (after_dismissedItems_clean clk a data Ha Hwf
              (after_tradingPreferences clk a data
                 (after_preferences clk a data (after_wallets clk a data s0))))
    as [E4 C4].
  destruct (after_affiliates_clean clk a data Ha
              (after_dismissedItems clk a data
                 (after_tradingPreferences clk a data
                    (after_preferences clk a data
                       (after_wallets clk a data s0)))))
    as [E5 C5].
  rewrite E5, E4, E3, E2, E1, C5, C4, C3, C2, C1.
  rewrite iter_inc_affiliates, iter_inc_dismissedItems,
    iter_inc_tradingPreferences, iter_inc_preferences, iter_inc_wallets.
  simpl. now rewrite !Nat.add_0_r.
Qed.

(** X13.  A committed pass over an export without a malformed record (every
    wallet has a type and an address, every dismissed item a key) reports
    no error at all, and its counters are the numbers of records
    supplied: one per wallet, one for the preferences and one for the
    trading preferences if present, one per dismissed item, one for the
    affiliate object if it has a key, none for transfers and swaps. *)
Theorem well_formed_export_syncs_cleanly (clk : clock) (d : db)
    (data : browser_data) :
  browser_commits data = true ->
  well_formed_export data ->
  fst (Browser.syncBrowserData clk d data)
  = {| success := true; timestamp := js_now clk;
       synced :=
         {| bs_wallets := supplied (bd_wallets data);
            bs_preferences := supplied1 (bd_preferences data);
            bs_tradingPreferences := supplied1 (bd_tradingPreferences data);
            bs_dismissedItems := supplied (bd_dismissedItems data);
            bs_affiliates := supplied_affiliates (bd_affiliates data);
            bs_transfers := 0; bs_swaps := 0 |};
       errors := [] |}.
Proof. apply clean_pass. Qed.

Lemma well_formed_export_syncs_cleanly_witness :
  fst (Browser.syncBrowserData clk0 empty_db alice_export)
  = {| success := true; timestamp := js_now clk0;
       synced :=
         {| bs_wallets := supplied (bd_wallets alice_export);
            bs_preferences := supplied1 (bd_preferences alice_export);
            bs_tradingPreferences :=
              supplied1 (bd_tradingPreferences alice_export);
            bs_dismissedItems := supplied (bd_dismissedItems alice_export);
            bs_affiliates := supplied_affiliates (bd_affiliates alice_export);
            bs_transfers := 0; bs_swaps := 0 |};
       errors := [] |}.
Proof.
  apply (well_formed_export_syncs_cleanly clk0 empty_db alice_export).
  - reflexivity.
  - split.
    + intros ws w H Hin. inversion H; subst ws.
      destruct Hin as [<-|[<-|[]]]; split; reflexivity.
    + intros items i H Hin. inversion H; subst items.
      destruct Hin as [<-|[<-|[<-|[]]]]; reflexivity.
Defined.

(** ** The users endpoints *)

Lemma largest_id_ge (us : list Users.user) (u : Users.user) :
  In u us -> (Users.u_id u <= Users.largest_id us)%Z.
Proof.
  induction us as [|v us IH]; simpl; [tauto|].
  intros [->|H]; [lia|]. specialize (IH H). lia.
Qed.

Lemma find_id_fresh (us : list Users.user) (new : Users.user) :
  (forall u, In u us -> (Users.u_id u < Users.u_id new)%Z) ->
  find (fun u => Z.eqb (Users.u_id u) (Users.u_id new)) (us ++ [new])%list
  = Some new.
Proof.
  induction us as [|v us IH]; simpl; intro H.
  - now rewrite Z.eqb_refl.
  - assert (Hv := H v (or_introl eq_refl)).
    destruct (Z.eqb_spec (Users.u_id v) (Users.u_id new)); [lia|].
    apply IH. intros u Hu. apply H. now right.
Qed.

Lemma insert_desc_below (u new : Users.user) (rest : list Users.user) :
  (Users.u_id u < Users.u_id new)%Z ->
  exists rest', Users.insert_desc u (new :: rest) = new :: rest'.
Proof.
  intro H. simpl.
  destruct (Z.leb_spec (Users.u_id new) (Users.u_id u)); [lia|].
  eexists. reflexivity.
Qed.

Lemma newest_first (us : list Users.user) (new : Users.user) :
  (forall u, In u us -> (Users.u_id u < Users.u_id new)%Z) ->
  exists rest, fold_right Users.insert_desc [] (us ++ [new])%list = new :: rest.
Proof.
  intro H. rewrite fold_right_app. simpl.
  induction us as [|v us IH]; simpl.
  - now exists [].
  - destruct IH as (rest & ->); [intros u Hu; apply H; now right|].
    apply insert_desc_below. apply H. now left.
Qed.

Lemma to_double_small (z : Z) :
  (Z.abs z <= 2 ^ 53)%Z -> Users.to_double z = z.
Proof.
  intro H. unfold Users.to_double.
  destruct (Z.leb_spec (Z.abs z) (2 ^ 53)); [reflexivity|lia].
Qed.

Lemma largest_id_nonneg (us : list Users.user) :
  (0 <= Users.largest_id us)%Z.
Proof. induction us; simpl; lia. Qed.

(** At the limits of the rowids: when the table has held the largest rowid,
    POST /users answers 400 and stores nothing; and from 2^53 on the id of
    the reply is the stored id rounded to a double. *)
Lemma users_at_the_limits :
  Users.post_users clk0 full_store (JStr "dave@example.org") JUndef
  = ({| Users.code := 400;
        Users.json := Users.Error "database or disk is full" |}, full_store)
  /\ (let R := Users.post_users clk0 big_store (JStr "dave@example.org")
                 JUndef in
      map Users.u_id (Users.us_users (snd R)) = [(2 ^ 53 + 1)%Z]
      /\ fst R = {| Users.code := 200;
                    Users.json := Users.Created (2 ^ 53)
                                    (JStr "dave@example.org") JUndef |}).
Proof. vm_compute. conjs; reflexivity. Qed.

(** X14.  Registering a user and fetching it back, while rowids are below
    2^53 (above, the id of the reply is rounded): POST /users with an email
    that is set and not yet stored answers 200 with an id above every id
    stored and every id issued before; GET /users/<id> then answers with
    the row that carries this email and name (NULL for a missing name), and
    GET /users lists that row first.  The synced tables are not
    touched. *)
Theorem created_user_is_served (clk : clock) (s : Users.store)
    (email name : jsval) :
  truthy email = true ->
  (forall u, In u (Users.us_users s) -> Users.u_email u <> bind_param email) ->
  (Z.max (Users.us_sequence s) (Users.largest_id (Users.us_users s))
   < 2 ^ 53)%Z ->
  exists id s' row,
    Users.post_users clk s email name
    = ({| Users.code := 200; Users.json := Users.Created id email name |}, s')
    /\ (Users.us_sequence s < id)%Z
    /\ (forall u, In u (Users.us_users s) -> (Users.u_id u < id)%Z)
    /\ Users.get_user s' (Users.Whole id)
       = {| Users.code := 200; Users.json := Users.Row row |}
    /\ Users.u_id row = id
    /\ Users.u_email row = bind_param email
    /\ Users.u_name row = bind_param (Users.nullish_to_null name)
    /\ (exists rest,
          Users.get_users s'
          = {| Users.code := 200; Users.json := Users.Rows (row :: rest) |})
    /\ Users.us_data s' = Users.us_data s.
Proof.
  intros He Hfresh Hsmall. unfold Users.post_users. rewrite He.
  simpl negb. cbv iota.
  set (last := Z.max (Users.us_sequence s)
                 (Users.largest_id (Users.us_users s))) in *.
  assert (H0 := largest_id_nonneg (Users.us_users s)).
  assert (P53 : (2 ^ 53 = 9007199254740992)%Z) by reflexivity.
  destruct (Z.leb_spec Users.max_rowid last) as [Hfull|_].
  { unfold Users.max_rowid in Hfull. lia. }
  rewrite existsb_false_forall.
  2:{ intros u Hu.
      destruct (sqlval_eqb (Users.u_email u) (bind_param email)) eqn:Q;
        [|reflexivity].
      apply sqlval_eqb_eq in Q. now elim (Hfresh u Hu). }
  set (id := (last + 1)%Z).
  assert (Hd : Users.to_double id = id).
  { apply to_double_small. subst id last. lia. }
  set (row := {| Users.u_id := id; Users.u_email := bind_param email;
                 Users.u_name := bind_param (Users.nullish_to_null name);
                 Users.u_created_at := Text (sql_now clk);
                 Users.u_updated_at := Text (sql_now clk) |}).
  assert (Hrow : Users.json_row row = row).
  { unfold Users.json_row, row. simpl. now rewrite Hd. }
  assert (Hlt : forall u, In u (Users.us_users s) -> (Users.u_id u < id)%Z).
  { intros u Hu. apply largest_id_ge in Hu. subst id last. lia. }
  rewrite Hd.
  eexists id, _, row. conjs; try reflexivity.
  - subst id last. lia.
  - exact Hlt.
  - unfold Users.get_user. simpl Users.us_users. rewrite Hd.
    change id with (Users.u_id row) at 1. rewrite find_id_fresh by exact Hlt.
    now rewrite Hrow.
  - unfold Users.get_users. simpl Users.us_users.
    destruct (newest_first (Users.us_users s) row Hlt) as (rest & ->).
    simpl map. rewrite Hrow. now eexists.
Qed.

Lemma created_user_is_served_witness :
  truthy (JStr "dave@example.org") = true
  /\ (Z.max (Users.us_sequence carol_store)
        (Users.largest_id (Users.us_users carol_store)) < 2 ^ 53)%Z
  /\ exists id s' row,
       Users.post_users clk0 carol_store (JStr "dave@example.org") JUndef
       = ({| Users.code := 200;
             Users.json := Users.Created id (JStr "dave@example.org") JUndef |},
          s')
       /\ (Users.us_sequence carol_store < id)%Z
       /\ (forall u, In u (Users.us_users carol_store) -> (Users.u_id u < id)%Z)
       /\ Users.get_user s' (Users.Whole id)
          = {| Users.code := 200; Users.json := Users.Row row |}
       /\ Users.u_id row = id
       /\ Users.u_email row = bind_param (JStr "dave@example.org")
       /\ Users.u_name row = bind_param (Users.nullish_to_null JUndef)
       /\ (exists rest,
             Users.get_users s'
             = {| Users.code := 200; Users.json := Users.Rows (row :: rest) |})
       /\ Users.us_data s' = Users.us_data carol_store.
Proof.
  split; [reflexivity|]. split; [reflexivity|].
  apply (created_user_is_served clk0 carol_store (JStr "dave@example.org")
           JUndef); [reflexivity| |reflexivity].
  intros u [<-|[]]. discriminate.
Defined.

Lemma NoDup_map_filter {A B} (g : A -> B) (f : A -> bool) (l : list A) :
  NoDup (map g l) -> NoDup (map g (filter f l)).
Proof.
  induction l as [|x l IH]; simpl; intro H; [constructor|].
  inversion H as [|? ? Hnin Hnd]; subst.
  destruct (f x); simpl; [|now apply IH].
  constructor; [|now apply IH].
  intro Hin. apply Hnin. apply in_map_iff in Hin.
  destruct Hin as (y & Hy & Hin). apply filter_In in Hin.
  apply in_map_iff. exists y. tauto.
Qed.

Lemma NoDup_filter_map_filter {A B} (g : A -> B) (q : B -> bool)
    (f : A -> bool) (l : list A) :
  NoDup (filter q (map g l)) -> NoDup (filter q (map g (filter f l))).
Proof.
  induction l as [|x l IH]; simpl; intro H; [constructor|].
  destruct (f x); simpl.
  - destruct (q (g x)) eqn:Q.
    + inversion H as [|? ? Hnin Hnd]; subst.
      constructor; [|now apply IH].
      intro Hin. apply Hnin. apply filter_In in Hin. destruct Hin as [Hin _].
      apply filter_In. split; [|exact Q].
      apply in_map_iff in Hin. destruct Hin as (y & Hy & Hin).
      apply filter_In in Hin. apply in_map_iff. exists y. tauto.
    + now apply IH.
  - destruct (q (g x)); [inversion H; subst|]; now apply IH.
Qed.

(** X15.  The users endpoints keep the constraints of the table: after a
    POST /users or a DELETE /users/<id>, ids are still positive, distinct
    and not above the recorded sequence, and no email is stored twice; a
    POST that does not answer 200 leaves the store as it was. *)
Theorem users_constraints_are_kept (clk : clock) (s : Users.store)
    (email name : jsval) (id : Users.route_number) :
  users_ok s ->
  users_ok (snd (Users.post_users clk s email name))
  /\ users_ok (snd (Users.delete_user s id))
  /\ (Users.code (fst (Users.post_users clk s email name)) = 200
      \/ snd (Users.post_users clk s email name) = s).
Proof.
  intro Hok. assert (Hok' := Hok). destruct Hok' as (Hid & Hnd & Hem). conjs.
  - unfold Users.post_users.
    destruct (truthy email) eqn:He; simpl negb; cbv iota;
      [|exact Hok].
    destruct (Z.leb Users.max_rowid _); [exact Hok|].
    destruct (existsb _ (Users.us_users s)) eqn:Ex;
      [exact Hok|].
    set (new := (Z.max (Users.us_sequence s)
                   (Users.largest_id (Users.us_users s)) + 1)%Z).
    assert (Hlt : forall u, In u (Users.us_users s) -> (Users.u_id u < new)%Z).
    { intros u Hu. apply largest_id_ge in Hu. subst new. lia. }
    unfold users_ok. simpl. conjs.
    + intros u Hu. apply in_app_or in Hu. destruct Hu as [Hu|[<-|[]]].
      * specialize (Hid u Hu). specialize (Hlt u Hu). lia.
      * simpl. assert (H0 := largest_id_nonneg (Users.us_users s)).
        subst new. lia.
    + rewrite map_app. simpl. apply NoDup_app; [exact Hnd | |].
      * constructor; [intros []|constructor].
      * intros z Hz [<-|[]]. apply in_map_iff in Hz.
        destruct Hz as (u & Hu & Hin). specialize (Hlt u Hin). lia.
    + rewrite map_app, filter_app. simpl.
      rewrite (truthy_not_null email He). simpl.
      apply NoDup_app; [exact Hem | |].
      * constructor; [intros []|constructor].
      * intros e Hin [<-|[]]. apply filter_In in Hin. destruct Hin as [Hin _].
        apply in_map_iff in Hin. destruct Hin as (u & Hu & Hin).
        assert (Q := proj1 (existsb_false_forall_iff _ _) Ex u Hin).
        simpl in Q. rewrite Hu, sqlval_eqb_refl in Q. discriminate.
  - unfold Users.delete_user. destruct id as [|z|]; try exact Hok.
    cbv zeta. destruct (existsb _ (Users.us_users s)); [|exact Hok].
    unfold users_ok. simpl. conjs.
    + intros u Hu. apply filter_In in Hu. now apply Hid.
    + now apply NoDup_map_filter.
    + now apply NoDup_filter_map_filter.
  - unfold Users.post_users.
    destruct (truthy email); simpl negb; cbv iota; [|now right].
    destruct (Z.leb Users.max_rowid _); [now right|].
    destruct (existsb _ (Users.us_users s)); [now right | now left].
Qed.

Lemma carol_store_ok : users_ok carol_store.
Proof.
  unfold users_ok, carol_store. simpl. conjs.
  - intros u [<-|[]]. simpl. lia.
  - constructor; [intros []|constructor].
  - constructor; [intros []|constructor].
Defined.

Lemma users_constraints_are_kept_witness :
  users_ok carol_store
  /\ users_ok (snd (Users.post_users clk0 carol_store
                      (JStr "dave@example.org") (JStr "Dave")))
  /\ users_ok (snd (Users.delete_user carol_store (Users.Whole 4)))
  /\ (Users.code (fst (Users.post_users clk0 carol_store
                         (JStr "dave@example.org") (JStr "Dave"))) = 200
      \/ snd (Users.post_users clk0 carol_store
                (JStr "dave@example.org") (JStr "Dave")) = carol_store).
Proof.
  split; [exact carol_store_ok|].
  apply (users_constraints_are_kept clk0 carol_store (JStr "dave@example.org")
           (JStr "Dave") (Users.Whole 4) carol_store_ok).
Defined.

Lemma find_filtered_out (us : list Users.user) (z : Z) :
  find (fun u => Z.eqb (Users.u_id u) z)
       (filter (fun u => negb (Z.eqb (Users.u_id u) z)) us) = None.
Proof.
  induction us as [|u us IH]; simpl; [reflexivity|].
  destruct (Z.eqb (Users.u_id u) z) eqn:Q; simpl; [exact IH|].
  now rewrite Q.
Qed.

Lemma existsb_filtered_out (us : list Users.user) (z : Z) :
  existsb (fun u => Z.eqb (Users.u_id u) z)
          (filter (fun u => negb (Z.eqb (Users.u_id u) z)) us) = false.
Proof.
  induction us as [|u us IH]; simpl; [reflexivity|].
  destruct (Z.eqb (Users.u_id u) z) eqn:Q; simpl; [exact IH|].
  now rewrite Q.
Qed.

(** X16.  A deleted user stays deleted.  After DELETE /users/<z> of a
    stored user whose id a request can name (the id is a double),
    GET /users/<z> answers 404 and a second DELETE answers
    [deleted: false]; every other user is still stored; and no later
    POST /users stores a user under the id [z] again: a row it adds has an
    id above [z], since rowids are issued above the recorded sequence. *)
Theorem deleted_user_stays_deleted (clk : clock) (s : Users.store) (z : Z)
    (email name : jsval) :
  users_ok s ->
  In z (map Users.u_id (Users.us_users s)) ->
  Users.to_double z = z ->
  let s1 := snd (Users.delete_user s (Users.Whole z)) in
  let s2 := snd (Users.post_users clk s1 email name) in
  fst (Users.delete_user s (Users.Whole z))
  = {| Users.code := 200; Users.json := Users.Deleted true |}
  /\ Users.get_user s1 (Users.Whole z)
     = {| Users.code := 404; Users.json := Users.Error "not found" |}
  /\ Users.delete_user s1 (Users.Whole z)
     = ({| Users.code := 200; Users.json := Users.Deleted false |}, s1)
  /\ (forall u, In u (Users.us_users s) -> Users.u_id u <> z ->
                In u (Users.us_users s1))
  /\ ~ In z (map Users.u_id (Users.us_users s2))
  /\ (forall u, In u (Users.us_users s2) ->
                In u (Users.us_users s1) \/ (z < Users.u_id u)%Z).
Proof.
  intros (Hid & _) Hz Hd s1 s2. subst s2 s1.
  assert (E : Users.delete_user s (Users.Whole z)
              = ({| Users.code := 200; Users.json := Users.Deleted true |},
                 {| Users.us_users :=
                      filter (fun u => negb (Z.eqb (Users.u_id u) z))
                             (Users.us_users s);
                    Users.us_sequence := Users.us_sequence s;
                    Users.us_data := Users.cascade z (Users.us_data s) |})).
  { unfold Users.delete_user. rewrite Hd. cbv zeta.
    assert (Ex : existsb (fun u => Z.eqb (Users.u_id u) z) (Users.us_users s)
                 = true).
    { apply in_map_iff in Hz. destruct Hz as (u & Hu & Hin).
      apply existsb_exists. exists u. split; [exact Hin|]. now apply Z.eqb_eq. }
    now rewrite Ex. }
  rewrite E. simpl fst. simpl snd.
  set (s1 := {| Users.us_users := _ |}).
  assert (Hgone : ~ In z (map Users.u_id (Users.us_users s1))).
  { subst s1. simpl. intro H. apply in_map_iff in H.
    destruct H as (u & Hu & Hin). apply filter_In in Hin.
    destruct Hin as [_ Hin]. apply negb_true_iff in Hin.
    apply Z.eqb_neq in Hin. contradiction. }
  assert (Hseq : (z <= Users.us_sequence s1)%Z).
  { subst s1. simpl. apply in_map_iff in Hz. destruct Hz as (u & <- & Hin).
    specialize (Hid u Hin). lia. }
  assert (Hnew : forall u,
            In u (Users.us_users (snd (Users.post_users clk s1 email name))) ->
            In u (Users.us_users s1) \/ (z < Users.u_id u)%Z).
  { unfold Users.post_users.
    destruct (negb (truthy email)); [now left|].
    destruct (Z.leb Users.max_rowid _); [now left|].
    destruct (existsb _ _); [now left|].
    cbn [snd Users.us_users]. intros u Hu. apply in_app_or in Hu.
    destruct Hu as [Hu|[<-|[]]]; [now left|right]. cbn [Users.u_id]. lia. }
  conjs.
  - reflexivity.
  - unfold Users.get_user. rewrite Hd. subst s1. simpl Users.us_users.
    now rewrite find_filtered_out.
  - unfold Users.delete_user. rewrite Hd. cbv zeta. subst s1.
    simpl Users.us_users. now rewrite existsb_filtered_out.
  - intros u Hu Hne. subst s1. simpl. apply filter_In. split; [exact Hu|].
    apply negb_true_iff. now apply Z.eqb_neq.
  - intro H. apply in_map_iff in H. destruct H as (u & Hu & Hin).
    destruct (Hnew u Hin) as [Hold|Hgt]; [|lia].
    apply Hgone. apply in_map_iff. now exists u.
  - exact Hnew.
Qed.

Lemma deleted_user_stays_deleted_witness :
  users_ok carol_store
  /\ In 4%Z (map Users.u_id (Users.us_users carol_store))
  /\ Users.to_double 4 = 4%Z
  /\ let s1 := snd (Users.delete_user carol_store (Users.Whole 4)) in
     let s2 := snd (Users.post_users clk0 s1 (JStr "dave@example.org")
                      JNull) in
     fst (Users.delete_user carol_store (Users.Whole 4))
     = {| Users.code := 200; Users.json := Users.Deleted true |}
     /\ Users.get_user s1 (Users.Whole 4)
        = {| Users.code := 404; Users.json := Users.Error "not found" |}
     /\ Users.delete_user s1 (Users.Whole 4)
        = ({| Users.code := 200; Users.json := Users.Deleted false |}, s1)
     /\ (forall u, In u (Users.us_users carol_store) -> Users.u_id u <> 4%Z ->
                   In u (Users.us_users s1))
     /\ ~ In 4%Z (map Users.u_id (Users.us_users s2))
     /\ (forall u, In u (Users.us_users s2) ->
                   In u (Users.us_users s1) \/ (4 < Users.u_id u)%Z).
Proof.
  split; [exact carol_store_ok|]. split; [now left|]. split; [reflexivity|].
  apply (deleted_user_stays_deleted clk0 carol_store 4
           (JStr "dave@example.org") JNull carol_store_ok);
    [now left | reflexivity].
Defined.

(** ** Users and the synced tables *)

Section Invariant.
Context {R : Type}.
Variables (P : R -> Prop) (p : prepared R).
Hypothesis Hupd :
  forall f e x, p_action p = DoUpdate f -> P x -> P (f e x).

Lemma try_exec_Forall fk (T : list R) (r : R) :
  P r -> Forall P T -> Forall P (try_exec p fk T r).
Proof.
  intros Hr HT. apply Forall_forall. intros y Hy.
  rewrite Forall_forall in HT.
  destruct (try_exec_In p fk T r y Hy) as [H|[->|(f & x & A & Hx & _ & ->)]].
  - now apply HT.
  - exact Hr.
  - apply (Hupd f r x A). now apply HT.
Qed.

Lemma fold_try_exec_Forall {X} (row : X -> R) fk (xs : list X) (T : list R) :
  (forall x, P (row x)) -> Forall P T ->
  Forall P (fold_left (fun T x => try_exec p fk T (row x)) xs T).
Proof.
  intro Hrow. revert T. induction xs as [|x xs IH]; intros T HT; [exact HT|].
  simpl. apply IH. now apply try_exec_Forall.
Qed.
End Invariant.

Lemma filter_all {A} (f : A -> bool) (l : list A) :
  Forall (fun x => f x = true) l -> filter f l = l.
Proof.
  induction 1 as [|x l Hx _ IH]; simpl; [reflexivity|]. now rewrite Hx, IH.
Qed.

Lemma cascade_unlinked (z : Z) (d : db) : unlinked d -> Users.cascade z d = d.
Proof.
  intros (H1 & H2 & H3). unfold Users.cascade.
  rewrite !filter_all.
  - now destruct d.
  - eapply Forall_impl; [|exact H3]. intros r ->. reflexivity.
  - eapply Forall_impl; [|exact H2]. intros r ->. reflexivity.
  - eapply Forall_impl; [|exact H1]. intros r ->. reflexivity.
Qed.

Lemma browser_pass_unlinked clk d data :
  unlinked d -> unlinked (snd (Browser.syncBrowserData clk d data)).
Proof.
  intros (H1 & H2 & H3).
  destruct (browser_commits data) eqn:C.
  2:{ rewrite browser_failure_rolls_back; [now repeat split|].
      now rewrite browser_success_eq. }
  assert (Hp : exists primary, Browser.primaryWallet data = Some primary).
  { unfold browser_commits in C.
    destruct (Browser.primaryWallet data) as [w|]; [now exists w|discriminate]. }
  destruct Hp as (primary & Hp).
  destruct (browser_tables_after clk d data primary Hp C) as (V2 & V3 & _).
  assert (V1 := browser_wallets_after clk d data primary Hp C).
  unfold unlinked. rewrite V1, V2, V3. conjs.
  - destruct (bd_wallets data) as [ws|]; [|exact H1].
    apply fold_try_exec_Forall; auto.
    intros f e x A. inversion A. auto.
  - destruct (bd_preferences data) as [p|]; [|exact H2].
    apply try_exec_Forall; auto.
    intros f e x A. inversion A. auto.
  - destruct (bd_tradingPreferences data) as [p|]; [|exact H3].
    apply try_exec_Forall; auto.
    intros f e x A. inversion A. auto.
Qed.

(** X17.  The browser pass never links a row to a user: if no wallet,
    preference or trading-preference row carries a user_id before the
    pass, none does after it, and then the ON DELETE CASCADE of
    DELETE /users/<id> removes nothing from the synced tables, whichever
    user is deleted. *)
Theorem deleting_a_user_keeps_synced_rows (clk : clock) (d : db)
    (data : browser_data) (s : Users.store) (id : Users.route_number) :
  unlinked d ->
  Users.us_data s = snd (Browser.syncBrowserData clk d data) ->
  unlinked (Users.us_data s)
  /\ Users.us_data (snd (Users.delete_user s id)) = Users.us_data s.
Proof.
  intros Hd Hs.
  assert (U : unlinked (Users.us_data s)).
  { rewrite Hs. now apply browser_pass_unlinked. }
  split; [exact U|].
  unfold Users.delete_user. destruct id as [|z|]; try reflexivity.
  cbv zeta. destruct (existsb _ _); [|reflexivity].
  simpl. now apply cascade_unlinked.
Qed.

Lemma deleting_a_user_keeps_synced_rows_witness :
  let s := {| Users.us_users := [carol]; Users.us_sequence := 6;
              Users.us_data :=
                snd (Browser.syncBrowserData clk0 empty_db alice_export) |} in
  unlinked (Users.us_data s)
  /\ Users.us_data (snd (Users.delete_user s (Users.Whole 4)))
     = Users.us_data s.
Proof.
  apply (deleting_a_user_keeps_synced_rows clk0 empty_db alice_export
           {| Users.us_users := [carol]; Users.us_sequence := 6;
              Users.us_data :=
                snd (Browser.syncBrowserData clk0 empty_db alice_export) |}
           (Users.Whole 4)).
  - repeat split; constructor.
  - reflexivity.
Defined.

(** ** The fetchers *)

Lemma js_or_default (a : jsval) (s : string) :
  is_null (bind_param (js_or a (JStr s))) = false.
Proof. unfold js_or. destruct a as [| |t]; simpl; try reflexivity.
  now destruct (negb (String.eqb t "")). Qed.


(** The orders [fetchOrders] returns are the orders of the sub-accounts
    whose request answered with a list, each normalised and filed under the
    main address. *)
Lemma fetched_orders_In (clk : clock) (addr : string)
    (subaccounts : list jsval)
    (orders_at : jsval -> fetch_result (option (list indexer_order)))
    (o : orderRec) :
  In o (fetchOrders clk addr (Resolved (Some (Some subaccounts))) orders_at)
  <-> exists x, listed_orders subaccounts orders_at x
                /\ o = order_of clk addr x.
Proof.
  unfold fetchOrders, listed_orders. rewrite in_flat_map. split.
  - intros (sub & Hsub & Hin).
    destruct (orders_at sub) as [msg|[l|]] eqn:Q; try destruct Hin.
    apply in_map_iff in Hin. destruct Hin as (x & <- & Hx).
    exists x. split; [|reflexivity]. exists sub, l. auto.
  - intros (x & (sub & l & Hsub & Q & Hx) & ->).
    exists sub. split; [exact Hsub|]. rewrite Q. now apply in_map.
Qed.

(** X19.  One sub-account that fails does not spoil the batch: when the
    request for the orders of a sub-account is rejected, or answers with
    something that is no list, [fetchOrders] returns what it returns
    without that sub-account, in the same order; the orders of the other
    sub-accounts are all there. *)
Theorem failed_subaccount_is_skipped (clk : clock) (addr : string)
    (before after : list jsval) (a : jsval)
    (orders_at : jsval -> fetch_result (option (list indexer_order))) :
  (forall l, orders_at a <> Resolved (Some l)) ->
  fetchOrders clk addr (Resolved (Some (Some (before ++ a :: after)%list)))
    orders_at
  = fetchOrders clk addr (Resolved (Some (Some (before ++ after)%list)))
      orders_at.
Proof.
  intro H. unfold fetchOrders. rewrite !flat_map_app. simpl.
  destruct (orders_at a) as [msg|[l|]]; try reflexivity.
  now elim (H l).
Qed.

Lemma fetchFills_In clk addr fills (f : fillRec) :
  In f (fetchFills clk addr (Resolved (Some (Some fills)))) ->
  exists x, In x fills
            /\ f_fillId f = if_id x /\ f_orderId f = if_orderId x
            /\ (complete_fill x = true -> well_formed_fill f).
Proof.
  unfold fetchFills. intro H. apply in_map_iff in H.
  destruct H as (x & <- & Hx). exists x. conjs; auto.
  unfold complete_fill, has, well_formed_fill, first_null. simpl. intro C.
  repeat (apply andb_prop in C; destruct C as [C ?]).
  repeat match goal with
         | H : negb _ = true |- _ => apply negb_true_iff in H; rewrite H
         end.
  now rewrite js_or_default.
Qed.

Lemma complete_order_well_formed clk addr (x : indexer_order) :
  complete_order x = true -> well_formed_order (order_of clk addr x).
Proof.
  unfold complete_order, has, well_formed_order, first_null. simpl. intro C.
  repeat (apply andb_prop in C; destruct C as [C ?]).
  repeat match goal with
         | H : negb _ = true |- _ => apply negb_true_iff in H; rewrite H
         end.
  reflexivity.
Qed.

(** X20.  From the indexer to the store: when every fill the indexer lists
    has its id, order id, market (or ticker), side, size and price, and
    names an order that one of the answering sub-accounts lists with its
    required fields, then the order loop followed by the fill loop, run on
    what [fetchOrders] and [fetchFills] make of the replies, counts every
    fill and records no fill error: each fill finds its order. *)
Theorem fetched_fills_join_fetched_orders (clk : clock) (addr : string)
    (subaccounts : list jsval)
    (orders_at : jsval -> fetch_result (option (list indexer_order)))
    (fills : list indexer_fill) (s : state chain_synced) :
  (forall x, In x fills ->
     complete_fill x = true
     /\ exists y, listed_orders subaccounts orders_at y
                  /\ complete_order y = true /\ io_id y = if_orderId x) ->
  exists s1 s2,
    Chain.syncOrders
      (fetchOrders clk addr (Resolved (Some (Some subaccounts))) orders_at) s
    = (inr tt, s1)
    /\ Chain.syncFills (fetchFills clk addr (Resolved (Some (Some fills)))) s1
       = (inr tt, s2)
    /\ st_errors s2 = st_errors s1
    /\ cs_fills (st_synced s2) = length fills + cs_fills (st_synced s1).
Proof.
  intro H.
  destruct (batch_fills_run
              (fetchOrders clk addr (Resolved (Some (Some subaccounts))) orders_at)
              (fetchFills clk addr (Resolved (Some (Some fills)))) s)
    as (s1 & s2 & H1 & H2 & He & Hc).
  - apply Forall_forall. intros f Hf.
    destruct (fetchFills_In clk addr fills f Hf) as (x & Hx & _ & Ho & Hwf).
    destruct (H x Hx) as (C & y & Hy & Cy & Hid).
    split; [now apply Hwf|].
    exists (order_of clk addr y). conjs.
    + apply fetched_orders_In. now exists y.
    + now apply complete_order_well_formed.
    + simpl. congruence.
  - exists s1, s2. conjs; auto.
    rewrite Hc. clear. unfold fetchFills. rewrite length_map.
    generalize (st_synced s1) as c. generalize (length fills) as n.
    induction n as [|n IH]; intro c; [reflexivity|].
    simpl. rewrite IH. reflexivity.
Qed.

Lemma failed_subaccount_is_skipped_witness :
  fetchOrders clk0 "dydx1alice"
    (Resolved (Some (Some ([JStr "sub-0"] ++ JStr "sub-1" :: [])%list)))
    sample_orders_at
  = fetchOrders clk0 "dydx1alice"
      (Resolved (Some (Some ([JStr "sub-0"] ++ [])%list))) sample_orders_at.
Proof.
  apply (failed_subaccount_is_skipped clk0 "dydx1alice" [JStr "sub-0"] []
           (JStr "sub-1") sample_orders_at).
  intros l H. discriminate H.
Defined.

Lemma fetched_fills_join_fetched_orders_witness :
  exists s1 s2,
    Chain.syncOrders
      (fetchOrders clk0 "dydx1alice"
         (Resolved (Some (Some [JStr "sub-0"; JStr "sub-1"]))) sample_orders_at)
      fresh_chain_state
    = (inr tt, s1)
    /\ Chain.syncFills
         (fetchFills clk0 "dydx1alice" (Resolved (Some (Some [listed_fill])))) s1
       = (inr tt, s2)
    /\ st_errors s2 = st_errors s1
    /\ cs_fills (st_synced s2) = length [listed_fill] + cs_fills (st_synced s1).
Proof.
  apply (fetched_fills_join_fetched_orders clk0 "dydx1alice"
           [JStr "sub-0"; JStr "sub-1"] sample_orders_at [listed_fill]
           fresh_chain_state).
  intros x [<-|[]]. split; [reflexivity|].
  exists listed_order. split; [|split; reflexivity].
  exists (JStr "sub-0"), [listed_order].
  split; [now left|]. split; [reflexivity | now left].
Defined.

(** ** Market ids *)

Lemma split_on_nonempty (sep : ascii) (s : string) : split_on sep s <> [].
Proof.
  destruct s as [|c s]; simpl; [discriminate|].
  destruct (Ascii.eqb c sep); [discriminate|].
  destruct (split_on sep s); discriminate.
Qed.

(** Splitting at a separator that is written out. *)
Lemma split_on_app (sep : ascii) (a b : string) :
  split_on sep (a ++ String sep b)
  = (split_on sep a ++ split_on sep b)%list.
Proof.
  induction a as [|c a IH]; simpl.
  - now rewrite Ascii.eqb_refl.
  - destruct (Ascii.eqb c sep); [now rewrite IH|].
    rewrite IH. destruct (split_on sep a) as [|piece pieces] eqn:E.
    + now elim (split_on_nonempty sep a).
    + reflexivity.
Qed.

Lemma split_on_free (sep : ascii) (s : string) :
  free_of sep s = true -> split_on sep s = [s].
Proof.
  induction s as [|c s IH]; simpl; [reflexivity|].
  destruct (Ascii.eqb c sep); simpl; [discriminate|].
  intro H. now rewrite IH.
Qed.

Lemma item_0 (sep : ascii) (s : string) :
  exists piece, item (split_on sep s) 0 = JStr piece.
Proof.
  unfold item. destruct (split_on sep s) as [|piece pieces] eqn:E.
  - now elim (split_on_nonempty sep s).
  - now exists piece.
Qed.

(** X21.  The assets of a fetched market.  Its id, base asset and quote
    asset never bind NULL, so a market can only be turned down for its tick
    size, step size or minimal order size.  When the indexer names no
    assets, they are read off the id: an id of the form <base>-<quote>
    gives base asset <base> and quote asset <quote> ('USD' when <quote> is
    empty), and an id without a dash gives the whole id as base asset and
    'USD' as quote asset. *)
Theorem fetched_market_assets (m : indexer_market) :
  (forall id,
     has (m_marketId (market_of (id, m))) = true
     /\ has (m_baseAsset (market_of (id, m))) = true
     /\ has (m_quoteAsset (market_of (id, m))) = true)
  /\ (forall base quote,
        free_of "-" base = true -> free_of "-" quote = true ->
        m_baseAsset (market_of ((base ++ "-" ++ quote)%string, m))
        = js_or (im_baseAsset m) (JStr base)
        /\ m_quoteAsset (market_of ((base ++ "-" ++ quote)%string, m))
           = js_or (js_or (im_quoteAsset m) (JStr quote)) (JStr "USD"))
  /\ (forall id,
        free_of "-" id = true ->
        m_baseAsset (market_of (id, m)) = js_or (im_baseAsset m) (JStr id)
        /\ m_quoteAsset (market_of (id, m))
           = js_or (im_quoteAsset m) (JStr "USD")).
Proof.
  conjs.
  - intro id. unfold has. simpl. conjs.
    + reflexivity.
    + destruct (item_0 "-" id) as (piece & ->). now rewrite js_or_default.
    + now rewrite js_or_default.
  - intros base quote Hb Hq. simpl.
    change (base ++ "-" ++ quote)%string with (base ++ String "-" quote)%string.
    rewrite split_on_app, (split_on_free _ base Hb), (split_on_free _ quote Hq).
    split; reflexivity.
  - intros id Hid. simpl. rewrite (split_on_free _ id Hid).
    split; [reflexivity|]. unfold item. simpl. unfold js_or.
    destruct (truthy (im_quoteAsset m)) eqn:Q; [now rewrite Q | reflexivity].
Qed.

(** ** The exporter *)

(** X22.  The primary wallet of an export.  The exporter never labels a
    wallet 'dydx', so the pass takes the EVM wallet as primary whenever the
    browser knows an EVM address; the trading-chain address, exported as
    'blackbottle', is primary only when there is no EVM address, then the
    Solana address, then the Noble address; an export without any address
    has no primary wallet. *)
Theorem exported_primary_wallet (now : string) (ls : local_storage)
    (redux : option redux_state) :
  let w := walletData ls redux in
  Browser.primaryWallet (exportData now ls redux)
  = if truthy (wa_evmAddress w) then
      Some {| w_type := JStr "evm"; w_address := wa_evmAddress w;
              w_chainId := js_or (ls_EvmChainId ls) (JStr "1") |}
    else if truthy (wa_blackbottleAddress w) then
      Some {| w_type := JStr "blackbottle";
              w_address := wa_blackbottleAddress w;
              w_chainId := JStr "blackbottle-mainnet-1" |}
    else if truthy (wa_solanaAddress w) then
      Some {| w_type := JStr "solana"; w_address := wa_solanaAddress w;
              w_chainId := JStr "mainnet-beta" |}
    else if truthy (wa_nobleAddress w) then
      Some {| w_type := JStr "cosmos"; w_address := wa_nobleAddress w;
              w_chainId := JStr "noble-1" |}
    else None.
Proof.
  intro w. unfold Browser.primaryWallet, exportData. simpl bd_wallets.
  fold w. unfold exported_wallets.
  destruct (truthy (wa_evmAddress w)), (truthy (wa_blackbottleAddress w)),
    (truthy (wa_solanaAddress w)), (truthy (wa_nobleAddress w)); reflexivity.
Qed.

Lemma exported_primary_address (now : string) (ls : local_storage)
    (redux : option redux_state) :
  match Browser.primaryWallet (exportData now ls redux) with
  | Some p => knows_an_address (walletData ls redux) = true
              /\ truthy (w_address p) = true
  | None => knows_an_address (walletData ls redux) = false
  end.
Proof.
  unfold Browser.primaryWallet, exportData, knows_an_address. simpl bd_wallets.
  unfold exported_wallets.
  destruct (truthy (wa_evmAddress (walletData ls redux))) eqn:H1,
    (truthy (wa_blackbottleAddress (walletData ls redux))) eqn:H2,
    (truthy (wa_solanaAddress (walletData ls redux))) eqn:H3,
    (truthy (wa_nobleAddress (walletData ls redux))) eqn:H4;
    simpl; auto.
Qed.

Lemma exported_commits (now : string) (ls : local_storage)
    (redux : option redux_state) :
  browser_commits (exportData now ls redux)
  = knows_an_address (walletData ls redux) && slices_are_objects redux.
Proof.
  assert (P := exported_primary_address now ls redux).
  unfold browser_commits.
  destruct (Browser.primaryWallet (exportData now ls redux)) as [p|].
  - destruct P as [-> T]. apply truthy_not_null in T.
    unfold exportData, or_empty_array, slices_are_objects. simpl.
    destruct redux as [st|]; [|reflexivity].
    destruct (rx_transfers st); try reflexivity.
    destruct (rx_swaps st); try reflexivity.
    now rewrite T.
  - now rewrite P.
Qed.

(** X23.  An export commits exactly when the browser knows an address and
    its persisted state holds a transfers slice and a swaps slice that are
    no arrays.  Without a persisted state, or when one of the two slices is
    missing (the exporter then sends an empty array) or is an array, the
    endpoint never answers 200 and the store stays as it was, whatever
    else the export holds. *)
Theorem export_commits_only_with_both_slices (clk : clock) (now : string)
    (d : db) (ls : local_storage) (redux : option redux_state) :
  let R := post_sync_browser_data clk d (Some (exportData now ls redux)) in
  (status (fst R) = 200
   <-> knows_an_address (walletData ls redux) = true
       /\ slices_are_objects redux = true)
  /\ (status (fst R) = 200 \/ snd R = d).
Proof.
  intro R. subst R.
  destruct (post_browser_outcome clk d (Some (exportData now ls redux)))
    as [Hiff Hor].
  split.
  - rewrite Hiff. split.
    + intros (data & H & C). inversion H; subst data.
      rewrite exported_commits in C. now apply andb_prop in C.
    + intros [H1 H2]. exists (exportData now ls redux).
      split; [reflexivity|]. rewrite exported_commits. now rewrite H1, H2.
  - destruct Hor as [H|[_ H]]; auto.
Qed.

Lemma export_is_well_formed (now : string) (ls : local_storage)
    (redux : option redux_state) :
  well_formed_export (exportData now ls redux).
Proof.
  split.
  - intros ws w H Hin. simpl in H. inversion H; subst ws. clear H.
    unfold exported_wallets in Hin.
    repeat (apply in_app_or in Hin; destruct Hin as [Hin|Hin]);
      match type of Hin with
      | In _ (if ?c then _ else _) => destruct c eqn:T; [|destruct Hin]
      end;
      destruct Hin as [<-|[]]; simpl; split; try reflexivity;
      now apply truthy_not_null.
  - intros items i H Hin. simpl in H. inversion H; subst items. clear H.
    unfold exported_dismissals in Hin.
    destruct redux as [st|]; [|destruct Hin].
    destruct (rx_dismissable st) as [dismissed|]; [|destruct Hin].
    apply in_flat_map in Hin. destruct Hin as (kv & _ & Hin).
    destruct (snd kv); [|destruct Hin]. destruct Hin as [<-|[]]. reflexivity.
Qed.

(** X24.  The exporter never produces a malformed record: when its export
    commits, the pass reports no error at all and counts one wallet per
    address the browser knows, the preferences, the trading preferences,
    one dismissed item per flag that is [true], and the affiliate object
    if it has a key. *)
Theorem export_syncs_cleanly (clk : clock) (now : string) (d : db)
    (ls : local_storage) (redux : option redux_state) :
  knows_an_address (walletData ls redux) = true ->
  slices_are_objects redux = true ->
  fst (Browser.syncBrowserData clk d (exportData now ls redux))
  = {| success := true; timestamp := js_now clk;
       synced :=
         {| bs_wallets := length (exported_wallets ls (walletData ls redux));
            bs_preferences := 1;
            bs_tradingPreferences := 1;
            bs_dismissedItems := length (exported_dismissals now redux);
            bs_affiliates :=
              supplied_affiliates (bd_affiliates (exportData now ls redux));
            bs_transfers := 0; bs_swaps := 0 |};
       errors := [] |}.
Proof.
  intros H1 H2.
  apply (clean_pass clk d (exportData now ls redux)).
  - rewrite exported_commits. now rewrite H1, H2.
  - apply export_is_well_formed.
Qed.

Lemma export_syncs_cleanly_witness :
  fst (Browser.syncBrowserData clk0 empty_db
         (exportData "2024-05-01T09:59:58.000Z" alice_storage
            (Some alice_redux)))
  = {| success := true; timestamp := js_now clk0;
       synced :=
         {| bs_wallets :=
              length (exported_wallets alice_storage
                        (walletData alice_storage (Some alice_redux)));
            bs_preferences := 1;
            bs_tradingPreferences := 1;
            bs_dismissedItems :=
              length (exported_dismissals "2024-05-01T09:59:58.000Z"
                        (Some alice_redux));
            bs_affiliates :=
              supplied_affiliates
                (bd_affiliates
                   (exportData "2024-05-01T09:59:58.000Z" alice_storage
                      (Some alice_redux)));
            bs_transfers := 0; bs_swaps := 0 |};
       errors := [] |}.
Proof.
  apply (export_syncs_cleanly clk0 "2024-05-01T09:59:58.000Z" empty_db
           alice_storage (Some alice_redux)); reflexivity.
Defined.

(** ** The ledger as the client reads it *)

Lemma ledger_after_records clk a data (s : state browser_synced) :
  t_sync_metadata (st_db (after_records clk a data s))
  = t_sync_metadata (st_db s).
Proof.
  unfold after_records.
  assert (H5 := after_affiliates_frame clk a data
     (after_dismissedItems clk a data
       (after_tradingPreferences clk a data
          (after_preferences clk a data (after_wallets clk a data s))))).
  assert (H4 := after_dismissedItems_frame clk a data
     (after_tradingPreferences clk a data
        (after_preferences clk a data (after_wallets clk a data s)))).
  assert (H3 := after_tradingPreferences_frame clk a data
     (after_preferences clk a data (after_wallets clk a data s))).
  assert (H2 := after_preferences_frame clk a data (after_wallets clk a data s)).
  assert (H1 := after_wallets_frame clk a data s).
  unfold same_but in *.
  apply (f_equal t_sync_metadata) in H1, H2, H3, H4, H5.
  simpl in H1, H2, H3, H4, H5. congruence.
Qed.

(** The ledger after a pass that commits: the upsert of its row. *)
Lemma browser_ledger_after clk d data primary :
  Browser.primaryWallet data = Some primary ->
  browser_commits data = true ->
  exists n,
    t_sync_metadata (snd (Browser.syncBrowserData clk d data))
    = try_exec (stmt sync_metadata_def (Browser.on_syncMeta_conflict clk))
        (fun _ => true) (t_sync_metadata d)
        (Browser.syncMeta_row clk (w_address primary) n)
    /\ is_null (bind_param (w_address primary)) = false.
Proof.
  intros Hp C.
  destruct (browser_commit_eq clk d data primary Hp C) as (T' & Hx & ->).
  rewrite ledger_after_records in Hx. simpl st_db in Hx.
  eexists. split.
  - simpl. unfold try_exec. now rewrite Hx.
  - unfold browser_commits in C. rewrite Hp in C.
    destruct (bd_transfers data); [discriminate|].
    destruct (bd_swaps data); [discriminate|].
    now apply negb_true_iff in C.
Qed.

Section UniqueKey.
Context {R K : Type}.
Variables (key : R -> K) (k : K) (q : R -> bool) (f : R -> R).
Hypothesis Hq : forall x, q x = true <-> key x = k.

(** With distinct keys, the one row of key [k] after an update of the
    first row of that key is the updated row. *)
Lemma update_first_unique (T : list R) (y : R) :
  NoDup (map key T) ->
  In y (update_first q f T) -> key y = k ->
  exists x, In x T /\ y = f x.
Proof.
  induction T as [|x T IH]; simpl; intros Hnd Hy Hk; [destruct Hy|].
  apply NoDup_cons_iff in Hnd. destruct Hnd as [Hnin Hnd'].
  destruct (q x) eqn:Q.
  - destruct Hy as [<-|Hy]; [exists x; auto|].
    exfalso. apply Hnin. apply Hq in Q. rewrite Q, <- Hk. now apply in_map.
  - destruct Hy as [<-|Hy].
    + apply Hq in Hk. congruence.
    + destruct (IH Hnd' Hy Hk) as (z & Hz & ->). exists z. auto.
Qed.
End UniqueKey.

Lemma arranged_In {A} (before : A -> A -> Prop) (l rows : list A) :
  arranged before l rows -> forall y, In y rows <-> In y l.
Proof.
  induction 1 as [|l1 x l2 rest _ _ IH]; intro y; [tauto|].
  simpl. rewrite IH, !in_app_iff. simpl. tauto.
Qed.

Lemma find_exists {A} (q : A -> bool) (l : list A) (x : A) :
  In x l -> q x = true -> exists y, find q l = Some y.
Proof.
  intros Hx Hq. destruct (find q l) as [y|] eqn:F; [now exists y|].
  rewrite (find_none _ _ F x Hx) in Hq. discriminate.
Qed.

Lemma ledger_collides clk a n (x : sync_meta) :
  collides (p_key (stmt sync_metadata_def (Browser.on_syncMeta_conflict clk)))
           (Browser.syncMeta_row clk (JStr a) n) x
  = sqlval_eqb (Text a) (sm_wallet_address x)
    && sqlval_eqb (Text "browser_storage") (sm_data_type x).
Proof.
  unfold collides, stmt. cbn - [sqlval_eqb]. now rewrite andb_true_r.
Qed.

(** The rows of one key in the ledger after the upsert of a browser pass
    carry the time of the pass. *)
Lemma ledger_row_is_dated clk a n (T : list sync_meta) (y : sync_meta) :
  NoDup (map ledger_key T) ->
  In y (try_exec (stmt sync_metadata_def (Browser.on_syncMeta_conflict clk))
          (fun _ => true) T (Browser.syncMeta_row clk (JStr a) n)) ->
  ledger_key y = (Text a, Text "browser_storage") ->
  sm_last_sync_at y = Text (sql_now clk).
Proof.
  intros Hnd Hy Hk. unfold try_exec in Hy.
  rewrite (exec_single (stmt sync_metadata_def (Browser.on_syncMeta_conflict clk))
             (do_update_of (Browser.on_syncMeta_conflict clk)) eq_refl eq_refl)
    in Hy by reflexivity.
  assert (Hq : forall x,
             collides (p_key (stmt sync_metadata_def
                                (Browser.on_syncMeta_conflict clk)))
               (Browser.syncMeta_row clk (JStr a) n) x = true
             <-> ledger_key x = (Text a, Text "browser_storage")).
  { intro x. rewrite ledger_collides, andb_true_iff. unfold ledger_key. split.
    - intros [H1 H2]. apply sqlval_eqb_eq in H1, H2. congruence.
    - intro H. inversion H as [[E1 E2]]. now rewrite !sqlval_eqb_refl. }
  destruct (existsb _ T) eqn:Ex.
  - destruct (update_first_unique ledger_key (Text a, Text "browser_storage")
                _ _ Hq T y Hnd Hy Hk) as (x & _ & ->).
    reflexivity.
  - apply in_app_or in Hy. destruct Hy as [Hy|[<-|[]]]; [|reflexivity].
    apply Hq in Hk.
    rewrite (proj1 (existsb_false_forall_iff _ _) Ex y Hy) in Hk.
    discriminate.
Qed.

Lemma ledger_row_is_written clk a n (T : list sync_meta) :
  exists y,
    In y (try_exec (stmt sync_metadata_def (Browser.on_syncMeta_conflict clk))
            (fun _ => true) T (Browser.syncMeta_row clk (JStr a) n))
    /\ ledger_key y = (Text a, Text "browser_storage").
Proof.
  destruct (find_after_upsert
              (fun r => col_is (sm_wallet_address r) a
                        && col_is (sm_data_type r) "browser_storage")
              (stmt sync_metadata_def (Browser.on_syncMeta_conflict clk))
              (do_update_of (Browser.on_syncMeta_conflict clk))
              T (Browser.syncMeta_row clk (JStr a) n) eq_refl eq_refl eq_refl)
    as (y & Hy & _).
  - intro x. now rewrite ledger_collides, !col_is_eqb.
  - cbn [Browser.syncMeta_row sm_wallet_address sm_data_type bind_param].
    unfold col_is. now rewrite !String.eqb_refl.
  - reflexivity.
  - apply find_some in Hy. destruct Hy as [Hin Hq].
    apply andb_prop in Hq. destruct Hq as [H1 H2].
    apply col_is_Text in H1, H2. exists y. split; [exact Hin|].
    unfold ledger_key. now rewrite H1, H2.
Qed.

Section SyncTime.
Variables (statusText : nat -> string) (date_time : string -> option Z).

(** X25.  A committed browser pass sets the time the client goes by.  On a
    ledger with one row per wallet and data type, after a pass that
    commits for primary address [a], whatever order GET /sync/status/<a>
    lists its rows in, [getLastSyncTimestamp(a, 'browser_storage')] is the
    [datetime('now')] of the pass, and [needsSync] answers true exactly
    when more than the interval has passed since that time as the client
    parses it; if the client cannot parse it, [needsSync] answers false
    however old the sync is. *)
Theorem committed_pass_sets_the_sync_time (clk : clock) (d : db)
    (data : browser_data) (w : wallet) (a : string) (rows : list sync_meta)
    (intervalMs now : Z) :
  Browser.primaryWallet data = Some w ->
  w_address w = JStr a ->
  browser_commits data = true ->
  NoDup (map ledger_key (t_sync_metadata d)) ->
  sql_now clk <> "" ->
  status_answer (snd (post_sync_browser_data clk d (Some data))) a rows ->
  Client.getLastSyncTimestamp statusText (Answered 200 rows) "browser_storage"
  = Some (Str (sql_now clk))
  /\ Client.needsSync statusText date_time (Answered 200 rows)
       "browser_storage" intervalMs now
     = match date_time (sql_now clk) with
       | Some lastSyncTime => Z.ltb intervalMs (now - lastSyncTime)
       | None => false
       end.
Proof.
  intros Hp Ha C Hnd Hne Hrows.
  rewrite post_browser_store in Hrows by exact C.
  destruct (browser_ledger_after clk d data w Hp C) as (n & HT & _).
  rewrite Ha in HT. unfold status_answer, sync_status in Hrows. rewrite HT in Hrows.
  assert (Hin := arranged_In _ _ _ Hrows).
  assert (G : Client.getLastSyncTimestamp statusText (Answered 200 rows)
                "browser_storage" = Some (Str (sql_now clk))).
  { unfold Client.getLastSyncTimestamp, Client.getSyncStatus. simpl.
    destruct (ledger_row_is_written clk a n (t_sync_metadata d))
      as (y0 & Hy0 & Hk0).
    assert (Hk0' := Hk0). unfold ledger_key in Hk0'. inversion Hk0' as [[K1 K2]].
    destruct (find_exists (fun s => col_is (sm_data_type s) "browser_storage")
                rows y0) as (y & Hy).
    - apply Hin. apply filter_In. split; [exact Hy0|]. now apply col_is_Text.
    - now apply col_is_Text.
    - rewrite Hy. apply find_some in Hy. destruct Hy as [Hy Hq].
      apply Hin in Hy. apply filter_In in Hy. destruct Hy as [Hy Hw].
      apply col_is_Text in Hq, Hw.
      rewrite (ledger_row_is_dated clk a n (t_sync_metadata d) y Hnd Hy).
      + simpl. destruct (String.eqb_spec (sql_now clk) ""); [contradiction|].
        reflexivity.
      + unfold ledger_key. now rewrite Hq, Hw. }
  split; [exact G|]. unfold Client.needsSync. rewrite G. reflexivity.
Qed.
End SyncTime.

Lemma committed_pass_sets_the_sync_time_witness :
  let rows :=
    sync_status
      (snd (post_sync_browser_data clk0 empty_db (Some alice_export)))
      "dydx1alice" in
  Client.getLastSyncTimestamp plain_status_text (Answered 200 rows)
    "browser_storage" = Some (Str (sql_now clk0))
  /\ Client.needsSync plain_status_text (parsed_at 1714557600000)
       (Answered 200 rows) "browser_storage" Client.five_minutes 1714558200000
     = match parsed_at 1714557600000 (sql_now clk0) with
       | Some lastSyncTime =>
           Z.ltb Client.five_minutes (1714558200000 - lastSyncTime)
       | None => false
       end.
Proof.
  apply (committed_pass_sets_the_sync_time plain_status_text
           (parsed_at 1714557600000) clk0 empty_db alice_export dydx_wallet
           "dydx1alice" _ Client.five_minutes 1714558200000);
    try reflexivity.
  - constructor.
  - discriminate.
  - unfold status_answer.
    set (l := sync_status _ _). vm_compute in l. subst l.
    apply (arranged_pick _ [] _ [] []); [intros y []|constructor].
Defined.

(** ** The cache of the manager *)

Section CacheFacts.
Context {T : Type}.
Implicit Types (c : list (string * cached T)) (e : cached T).

Lemma cache_get_set_same key e c :
  Client.cache_get key (Client.cache_set key e c) = Some e.
Proof.
  unfold Client.cache_get. induction c as [|kv c IH]; simpl.
  - now rewrite String.eqb_refl.
  - destruct (String.eqb (fst kv) key) eqn:Q; simpl.
    + now rewrite String.eqb_refl.
    + now rewrite Q.
Qed.

Lemma cache_get_set_other key key2 e c :
  key2 <> key ->
  Client.cache_get key (Client.cache_set key2 e c) = Client.cache_get key c.
Proof.
  intro Hne. unfold Client.cache_get.
  assert (N : String.eqb key2 key = false) by now apply String.eqb_neq.
  induction c as [|kv c IH]; simpl.
  - now rewrite N.
  - destruct (String.eqb (fst kv) key2) eqn:Q; simpl.
    + apply String.eqb_eq in Q. rewrite Q, N. reflexivity.
    + destruct (String.eqb (fst kv) key); [reflexivity | exact IH].
Qed.

Lemma getCached_miss (m : OfflineDataManager T) key now fetcher later :
  missing_or_stale m key now = true ->
  Client.getCached m key now fetcher later = refilled m key fetcher later.
Proof.
  unfold missing_or_stale, Client.getCached, refilled.
  destruct (Client.cache_get key (cache m)) as [e|]; [|reflexivity].
  intro H. apply negb_true_iff in H. now rewrite H.
Qed.

(** Looking up another key leaves the entry of [key] and the timeout as
    they are. *)
Lemma getCached_other (m : OfflineDataManager T) key key2 now fetcher later :
  key2 <> key ->
  Client.cache_get key (cache (snd (Client.getCached m key2 now fetcher later)))
  = Client.cache_get key (cache m)
  /\ cacheTimeout (snd (Client.getCached m key2 now fetcher later))
     = cacheTimeout m.
Proof.
  intro Hne. unfold Client.getCached.
  destruct (Client.cache_get key2 (cache m)) as [e|].
  - destruct (Z.ltb _ _); [split; reflexivity|].
    destruct fetcher; simpl; [split; reflexivity|].
    split; [now apply cache_get_set_other | reflexivity].
  - destruct fetcher; simpl; [split; reflexivity|].
    split; [now apply cache_get_set_other | reflexivity].
Qed.
End CacheFacts.

(** X26.  A value the manager has fetched is served from its cache until
    it expires.  After a lookup of [key] that had to ask the fetcher and
    got [v] at time [later0], and whatever lookup of another key comes in
    between, a lookup of [key] at time [now] returns [v] without asking
    the fetcher and leaves the manager as it is when
    [now - later0 < cacheTimeout]; from [now - later0 = cacheTimeout] on it
    asks the fetcher again, passing on its rejection or storing its
    value. *)
Theorem cached_value_is_served_until_it_expires {T : Type}
    (m : OfflineDataManager T) (key key2 : string) (v : T)
    (now0 later0 now2 later2 now later : Z) (f2 f : fetch_result T) :
  missing_or_stale m key now0 = true ->
  key2 <> key ->
  let m1 := snd (Client.getCached m key now0 (Resolved v) later0) in
  let m2 := snd (Client.getCached m1 key2 now2 f2 later2) in
  fst (Client.getCached m key now0 (Resolved v) later0) = Resolved v
  /\ Client.getCached m2 key now f later
     = if Z.ltb (now - later0) (cacheTimeout m)
       then (Resolved v, m2)
       else refilled m2 key f later.
Proof.
  intros Hmiss Hne m1 m2. subst m2 m1.
  rewrite (getCached_miss m key now0 (Resolved v) later0 Hmiss).
  simpl fst. simpl snd. split; [reflexivity|].
  set (m1 := {| walletAddress := walletAddress m;
                cacheTimeout := cacheTimeout m;
                cache := Client.cache_set key
                           {| c_data := v; c_timestamp := later0 |} (cache m) |}).
  destruct (getCached_other m1 key key2 now2 f2 later2 Hne) as [Hget Hto].
  set (m2 := snd (Client.getCached m1 key2 now2 f2 later2)) in *.
  unfold Client.getCached at 1. fold (refilled m2 key f later).
  rewrite Hget, Hto. subst m1. simpl cache. rewrite cache_get_set_same.
  reflexivity.
Qed.

Lemma cached_value_is_served_until_it_expires_witness :
  missing_or_stale warm_manager "orders" 2000 = true
  /\ let m1 := snd (Client.getCached warm_manager "orders" 2000
                      (Resolved (AOrders [alice_order])) 2100) in
     let m2 := snd (Client.getCached m1 "balances" 3000
                      (Rejected "Failed to get wallet data: ") 3100) in
     fst (Client.getCached warm_manager "orders" 2000
            (Resolved (AOrders [alice_order])) 2100)
     = Resolved (AOrders [alice_order])
     /\ Client.getCached m2 "orders" 62099 (Resolved (AOrders [])) 62200
        = if Z.ltb (62099 - 2100) (cacheTimeout warm_manager)
          then (Resolved (AOrders [alice_order]), m2)
          else refilled m2 "orders" (Resolved (AOrders [])) 62200.
Proof.
  split; [reflexivity|].
  apply (cached_value_is_served_until_it_expires warm_manager "orders"
           "balances" (AOrders [alice_order]) 2000 2100 3000 3100 62099 62200
           (Rejected "Failed to get wallet data: ") (Resolved (AOrders [])));
    [reflexivity | discriminate].
Defined.

(** ** Syncing through the client *)

Lemma ok_200 : ok 200 = true.
Proof. reflexivity. Qed.

Lemma ok_400 : ok 400 = false.
Proof. reflexivity. Qed.

Lemma ok_500 : ok 500 = false.
Proof. reflexivity. Qed.

Lemma browser_answer_cases clk d browserData :
  let R := post_sync_browser_data clk d browserData in
  (exists data, browserData = Some data /\ browser_commits data = true
                /\ fst R = {| status := 200;
                              payload := ResultBody
                                (fst (Browser.syncBrowserData clk d data)) |})
  \/ ((status (fst R) = 400 \/ status (fst R) = 500) /\ snd R = d).
Proof.
  intro R. subst R. unfold post_sync_browser_data.
  destruct browserData as [data|]; [|right; simpl; auto].
  destruct (bd_wallets data) as [[|w ws]|] eqn:W;
    try solve [right; simpl; auto].
  assert (S := browser_success_eq clk d data).
  assert (B := browser_failure_rolls_back clk d data).
  destruct (Browser.syncBrowserData clk d data) as [result d'] eqn:E.
  simpl in S, B. destruct (success result) eqn:Hs.
  - left. exists data. rewrite E.
    conjs; [reflexivity | now symmetry | reflexivity].
  - right. simpl. auto.
Qed.

Section AutoSync.
Variable statusText : nat -> string.

(** X27.  What the caller of [autoSyncAllData] gets to see.  A pass the
    server fails or refuses reaches the caller as a made-up result with no
    counters and one message, "Failed to sync ... data: " followed by the
    status text of the 400 or 500 answer: the per-record messages and the
    counters of the server's result are dropped.  This is always so for
    the blockchain part; for the browser part it is so unless the pass
    commits, in which case the caller gets the server's result; and a
    browser pass that did not commit has left the store as it was. *)
Theorem failed_pass_reaches_the_caller_without_counts (clk : clock)
    (now : string) (fetch_all : string -> string -> fetched) (d : db)
    (address : string) (browserData : option browser_data)
    (indexerUrl : jsval) :
  let R := auto_sync statusText clk now fetch_all d address browserData
             indexerUrl in
  ((exists data,
      browserData = Some data /\ browser_commits data = true
      /\ fst (fst R)
         = Received (ResultBody (fst (Browser.syncBrowserData clk d data))))
   \/ (exists code,
         (code = 400 \/ code = 500)
         /\ fst (fst R)
            = Failed now ["Failed to sync browser data: " ++ statusText code]
         /\ snd R = d))
  /\ exists code,
       (code = 400 \/ code = 500)
       /\ snd (fst R)
          = Failed now ["Failed to sync blockchain data: " ++ statusText code].
Proof.
  intro R. subst R. unfold auto_sync.
  assert (B := browser_answer_cases clk d browserData).
  destruct (post_sync_browser_data clk d browserData) as [r1 d1].
  assert (K := post_chain_outcome clk d1 fetch_all
                 {| cr_blackbottleAddress := JStr address;
                    cr_indexerUrl := indexerUrl |}).
  destruct (post_sync_blockchain_data clk d1 fetch_all _) as [r2 d2].
  simpl in B, K. destruct K as [Kd K]. subst d2.
  unfold Client.autoSyncAllData, Client.syncBrowserData,
    Client.syncBlockchainData. simpl fst. simpl snd. split.
  - destruct B as [(data & -> & C & ->)|[Hc ->]].
    + left. exists data. simpl. auto.
    + right. exists (status r1). split; [exact Hc|].
      destruct Hc as [-> | ->]; simpl; auto.
  - destruct (negb (String.eqb address "")).
    + destruct K as [-> _]. exists 500. simpl. auto.
    + rewrite K. exists 400. simpl. auto.
Qed.
End AutoSync.

Section Refresh.
Variable statusText : nat -> string.

(** X28.  The manager reads back what it synced.  [syncAll] empties the
    cache whether the passes succeeded or not, so the first
    [getWalletData] after it asks the server, whatever was cached before;
    when the browser pass committed for the manager's address, the answer
    carries the preferences of the export (NULL for missing or empty
    fields, the flags as 1 or 0) with the time of the pass as
    updated_at. *)
Theorem manager_reads_what_it_synced (clk : clock) (nowstr : string)
    (fetch_all : string -> string -> fetched) (d : db)
    (m : OfflineDataManager any) (data : browser_data) (w : wallet)
    (p : preferences) (indexerUrl : jsval) (now later : Z) :
  Browser.primaryWallet data = Some w ->
  w_address w = JStr (walletAddress m) ->
  browser_commits data = true ->
  bd_preferences data = Some p ->
  let R := sync_all statusText clk nowstr fetch_all d m (Some data)
             indexerUrl in
  cache (snd (fst R)) = []
  /\ exists wd r,
       fst (Client.getWalletData_cached statusText (snd (fst R)) now
              (wallet_answer (snd R) (walletAddress m)) later)
       = Resolved (AWallet wd)
       /\ wd_preferences wd = Some r
       /\ up_locale r = bind_param (js_or (pf_locale p) JNull)
       /\ up_selected_network r = bind_param (js_or (pf_network p) JNull)
       /\ up_color_mode r = bind_param (js_or (pf_colorMode p) JNull)
       /\ up_has_acknowledged_terms r = flag (pf_hasAcknowledgedTerms p)
       /\ up_notifications_enabled r = flag (pf_notificationsEnabled p)
       /\ up_updated_at r = Text (sql_now clk).
Proof.
  intros Hp Ha C Hpref R. subst R. unfold sync_all.
  destruct (served_preferences clk d data w (walletAddress m) p Hp Ha C Hpref)
    as (r & Hr & _ & H1 & H2 & H3 & H4 & H5 & H6).
  destruct (post_sync_browser_data clk d (Some data)) as [r1 d1].
  assert (K := post_chain_outcome clk d1 fetch_all
                 {| cr_blackbottleAddress := JStr (walletAddress m);
                    cr_indexerUrl := indexerUrl |}).
  destruct (post_sync_blockchain_data clk d1 fetch_all _) as [r2 d2].
  simpl in K, Hr. destruct K as [-> _]. simpl. split; [reflexivity|].
  exists (get_wallet d1 (walletAddress m)), r. conjs; auto.
Qed.
End Refresh.

Lemma manager_reads_what_it_synced_witness :
  let R := sync_all plain_status_text clk0 "2024-05-01T10:00:00.000Z"
             (fun _ _ => nothing_fetched) empty_db warm_manager
             (Some alice_export) JUndef in
  cache (snd (fst R)) = []
  /\ exists wd r,
       fst (Client.getWalletData_cached plain_status_text (snd (fst R)) 5000
              (wallet_answer (snd R) (walletAddress warm_manager)) 5100)
       = Resolved (AWallet wd)
       /\ wd_preferences wd = Some r
       /\ up_locale r = bind_param (js_or (pf_locale alice_preferences) JNull)
       /\ up_selected_network r
          = bind_param (js_or (pf_network alice_preferences) JNull)
       /\ up_color_mode r
          = bind_param (js_or (pf_colorMode alice_preferences) JNull)
       /\ up_has_acknowledged_terms r
          = flag (pf_hasAcknowledgedTerms alice_preferences)
       /\ up_notifications_enabled r
          = flag (pf_notificationsEnabled alice_preferences)
       /\ up_updated_at r = Text (sql_now clk0).
Proof.
  apply (manager_reads_what_it_synced plain_status_text clk0
           "2024-05-01T10:00:00.000Z" (fun _ _ => nothing_fetched) empty_db
           warm_manager alice_export dydx_wallet alice_preferences JUndef
           5000 5100); reflexivity.
Defined.

(** ** The statements of the schema *)

Lemma statements_app (a b : string) :
  statements (a ++ String ";" b) = (statements a ++ statements b)%list.
Proof. unfold statements. now rewrite split_on_app, map_app, filter_app. Qed.

Lemma dash_is_no_space (s : string) : all_space (String "-" s) = false.
Proof. destruct s as [|b [|c r]]; reflexivity. Qed.

Lemma trim_end_keeps_comment (s : string) :
  String.prefix "--" s = true -> String.prefix "--" (trim_end s) = true.
Proof.
  destruct s as [|a [|b rest]]; cbn [String.prefix].
  - intros H; discriminate H.
  - destruct (Ascii.ascii_dec "-" a); intros H; discriminate H.
  - destruct (Ascii.ascii_dec "-" a) as [<-|]; [|intros H; discriminate H].
    destruct (Ascii.ascii_dec "-" b) as [<-|]; [|intros H; discriminate H].
    intros _. cbn [trim_end]. rewrite !dash_is_no_space.
    cbn [String.prefix].
    destruct (Ascii.ascii_dec "-" "-") as [_|N]; [|now elim N].
    now destruct (trim_end rest).
Qed.

(** The white space of more than one byte is trimmed like a space. *)
Lemma trim_wide_space :
  trim (String (Ascii.ascii_of_nat 194) (String (Ascii.ascii_of_nat 160)
          ("-- x" ++ String (Ascii.ascii_of_nat 239)
                       (String (Ascii.ascii_of_nat 187)
                          (String (Ascii.ascii_of_nat 191) " ")))))
  = "-- x".
Proof. reflexivity. Qed.

(** X29.  A statement under a comment line is not executed.
    [initializeDatabase] cuts the schema at every semicolon and drops each
    chunk that, once trimmed, starts with "--": a chunk that begins with a
    comment line contributes no statement at all, whatever SQL follows the
    comment inside it; the chunks before and after it are not affected. *)
Theorem commented_chunk_is_not_executed (before chunk after : string) :
  free_of ";" chunk = true ->
  String.prefix "--" (trim_start chunk) = true ->
  statements (before ++ ";" ++ chunk ++ ";" ++ after)
  = (statements before ++ statements after)%list.
Proof.
  intros Hfree Hcomment.
  change (before ++ ";" ++ chunk ++ ";" ++ after)%string
    with (before ++ String ";" (chunk ++ String ";" after))%string.
  rewrite !statements_app.
  assert (E : statements chunk = []).
  { unfold statements. rewrite (split_on_free _ chunk Hfree). simpl.
    unfold trim. rewrite (trim_end_keeps_comment _ Hcomment).
    now rewrite andb_false_r. }
  now rewrite E.
Qed.

Lemma commented_chunk_is_not_executed_witness :
  free_of ";" user_wallets_chunk = true
  /\ String.prefix "--" (trim_start user_wallets_chunk) = true
  /\ statements ("" ++ ";" ++ user_wallets_chunk ++ ";" ++ user_wallets_indexes)
     = (statements "" ++ statements user_wallets_indexes)%list.
Proof.
  split; [reflexivity|]. split; [reflexivity|].
  apply (commented_chunk_is_not_executed "" user_wallets_chunk
           user_wallets_indexes); reflexivity.
Defined.
